(** * Selection, filtering and styling engine of the map front end

    A shallow embedding of [src/westend_map/frontend/templates/wiring.js]:
    the reference-counted selection of building markers and block layers,
    the filter pass over the three tables, the choropleth shading of the
    blocks and the logarithmic slider mapping of the metric controls.

    Conventions of the embedding.
    - A JavaScript number is an exact rational ([Q]) where the code only
      adds, multiplies, divides and compares, an integer ([Z]) where it
      counts, and a real ([R]) where it calls [Math.log] and [Math.exp].
      [NaN] and [null] are written out where a branch of the code tests
      for them.
    - The objects the code mutates in place (markers, layers, table rows)
      live in the state record; a function of the source that mutates one
      object is a function on that object, and its callers update the
      store at the object's address.
    - The built-in string and number parsers of the language are an
      interface ([JSBuiltins]); the results hold for every implementation.
    - Left out, because nothing below depends on them: the draw order
      ([bringToFront]), the status cells and the summary bar, the CSS class
      [selected] of a row, and adding or removing whole layers on the map. *)

From Stdlib Require Import ZArith QArith Qminmax Reals Lra Lia List String Ascii Bool.
From Stdlib Require Import Qround.
From stdpp Require Import gmap strings list fin_maps.

Open Scope string_scope.

(** ** Built-ins of the host language *)

(** [parseFloat] and [parseInt(_, 10)] answer [None] for [NaN]; the
    attributes and slider values they read hold finite numerals or text, so
    an infinite result is not modelled. *)
Class JSBuiltins := {
  toLowerCase : string -> string;
  trim : string -> string;
  parseFloat : string -> option Q;
  parseInt10 : string -> option Z
}.

(** [x || d] on numbers: zero is falsy. *)
Definition orNum (x d : Q) : Q := if Qeq_bool x 0 then d else x.

(** [s || d] on strings: the empty string is falsy. *)
Definition orStr (s d : string) : string :=
  match s with
  | EmptyString => d
  | _ => s
  end.

(** [String(v)] of an attribute that may be [null]. *)
Definition jsKey (o : option string) : string := default "null" o.

(** A plain object used as a dictionary, its entries in [Object.keys] order. *)
Fixpoint objGet {A : Type} (o : list (string * A)) (k : string) : option A :=
  match o with
  | [] => None
  | (k', v) :: rest => if String.eqb k' k then Some v else objGet rest k
  end.

(** ** Path styles *)

(** The four keys every [setStyle] call of the engine passes; the drawing
    library merges them into the path's [options]. *)
Record PathStyle := {
  weight : Z;
  color : option string;
  fillOpacity : Q;
  fillColor : string
}.

Definition accent : string := "#ff1744".

Definition color_is (c : string) (o : option string) : bool :=
  match o with
  | Some c' => String.eqb c' c
  | None => false
  end.

(** ** Block layers *)

Record Layer := {
  l_blockUnits : Q;                  (* _blockUnits *)
  l_selectionRefs : Z;               (* _selectionRefs *)
  l_isFiltered : bool;               (* _isFiltered *)
  l_baseStyle : option PathStyle;    (* _baseStyle, undefined before the first reset *)
  l_style : PathStyle                (* options: what the polygon shows *)
}.

Definition flatBlockStyle : PathStyle :=
  {| weight := 1; color := Some "#b8b8b8"; fillOpacity := 0.20; fillColor := "#f0f0f0" |}.

Definition filteredBlockStyle : PathStyle :=
  {| weight := 1; color := Some "#d0d0d0"; fillOpacity := 0.08; fillColor := "#f5f5f5" |}.

(** [Math.max(0, Math.min(1, units / blockColorMax))] *)
Definition blockRatio (units blockColorMax : Q) : Q :=
  Qmax 0 (Qmin 1 (units / blockColorMax)).

Definition blockFill (ratio : Q) : string :=
  if Qle_bool ratio 0.10 then "#f7fcf5"
  else if Qle_bool ratio 0.25 then "#e5f5e0"
  else if Qle_bool ratio 0.50 then "#c7e9c0"
  else if Qle_bool ratio 0.75 then "#74c476"
  else if negb (Qle_bool 1 ratio) then "#31a354"
  else "#006d2c".

(** The base style [resetBlockStyle] computes (lines 67-80). *)
Definition blockBaseStyle (blockColorScalingEnabled : bool) (blockColorMax : Q)
    (units : Q) : PathStyle :=
  if negb blockColorScalingEnabled || Qle_bool blockColorMax 0 then flatBlockStyle
  else
    let ratio := blockRatio units blockColorMax in
    {| weight := 1; color := Some "#b8b8b8"; fillOpacity := 0.35;
       fillColor := blockFill ratio |}.

Definition resetBlockStyle (blockColorScalingEnabled : bool) (blockColorMax : Q)
    (layer : Layer) : Layer :=
  let base := blockBaseStyle blockColorScalingEnabled blockColorMax (l_blockUnits layer) in
  {| l_blockUnits := l_blockUnits layer;
     l_selectionRefs := l_selectionRefs layer;
     l_isFiltered := l_isFiltered layer;
     l_baseStyle := Some base;
     l_style := base |}.

(** The body of [setBlockFiltered] once the layer is found. *)
Definition filterLayer (enabled : bool) (blockColorMax : Q) (filtered : bool)
    (layer : Layer) : Layer :=
  if filtered then
    {| l_blockUnits := l_blockUnits layer;
       l_selectionRefs := 0;
       l_isFiltered := true;
       l_baseStyle := l_baseStyle layer;
       l_style := filteredBlockStyle |}
  else
    resetBlockStyle enabled blockColorMax
      {| l_blockUnits := l_blockUnits layer;
         l_selectionRefs := l_selectionRefs layer;
         l_isFiltered := false;
         l_baseStyle := l_baseStyle layer;
         l_style := l_style layer |}.

Definition highlightBlock (enabled : bool) (blockColorMax : Q) (on : bool)
    (layer : Layer) : Layer :=
  if l_isFiltered layer then layer
  else if on then
    let baseOpacity :=
      match l_baseStyle layer with
      | Some b => orNum (fillOpacity b) 0.35
      | None => 0.35%Q
      end in
    let baseFill :=
      match l_baseStyle layer with
      | Some b => fillColor b
      | None => ""
      end in
    {| l_blockUnits := l_blockUnits layer;
       l_selectionRefs := l_selectionRefs layer;
       l_isFiltered := l_isFiltered layer;
       l_baseStyle := l_baseStyle layer;
       l_style :=
         {| weight := 4; color := Some accent;
            fillOpacity := Qmin 0.9 (baseOpacity + 0.1);
            fillColor := orStr baseFill (orStr (fillColor (l_style layer)) "#c7e9c0") |} |}
  else resetBlockStyle enabled blockColorMax layer.

Definition adjustBlockSelection (enabled : bool) (blockColorMax : Q) (delta : Z)
    (layer : Layer) : Layer :=
  let refs := (l_selectionRefs layer + delta)%Z in
  let refs := if (refs <? 0)%Z then 0%Z else refs in
  let layer :=
    {| l_blockUnits := l_blockUnits layer;
       l_selectionRefs := refs;
       l_isFiltered := l_isFiltered layer;
       l_baseStyle := l_baseStyle layer;
       l_style := l_style layer |} in
  if negb (l_isFiltered layer)
  then highlightBlock enabled blockColorMax (0 <? l_selectionRefs layer)%Z layer
  else layer.

(** The overlay of a block: stroke weight 4 in the accent colour. *)
Definition blockHighlighted (layer : Layer) : bool :=
  (weight (l_style layer) =? 4)%Z && color_is accent (color (l_style layer)).

(** ** Building markers *)

Record Marker := {
  m_baseColor : string;          (* _baseColor *)
  m_baseOpacity : Q;             (* _baseOpacity *)
  m_baseRadius : Q;              (* _baseRadius *)
  m_colorizedColor : string;     (* _colorizedColor *)
  m_neutralColor : string;       (* _neutralColor *)
  m_selectionRefs : Z;           (* _selectionRefs *)
  m_isFiltered : bool;           (* _isFiltered *)
  m_isVtu : bool;                (* _isVtu *)
  m_passesMembership : bool;     (* _passesMembership *)
  m_style : PathStyle;           (* options: what the marker shows *)
  m_radius : Q;                  (* options.radius *)
  m_hasSetRadius : bool          (* typeof marker.setRadius === 'function' *)
}.

Definition setStyle (st : PathStyle) (m : Marker) : Marker :=
  {| m_baseColor := m_baseColor m; m_baseOpacity := m_baseOpacity m;
     m_baseRadius := m_baseRadius m; m_colorizedColor := m_colorizedColor m;
     m_neutralColor := m_neutralColor m; m_selectionRefs := m_selectionRefs m;
     m_isFiltered := m_isFiltered m; m_isVtu := m_isVtu m;
     m_passesMembership := m_passesMembership m;
     m_style := st; m_radius := m_radius m;
     m_hasSetRadius := m_hasSetRadius m |}.

(** [marker.setRadius(r)], and [marker.setStyle({ radius: r })] on a marker
    without [setRadius]: both write the key [radius] of the options. *)
Definition setRadius (r : Q) (m : Marker) : Marker :=
  {| m_baseColor := m_baseColor m; m_baseOpacity := m_baseOpacity m;
     m_baseRadius := m_baseRadius m; m_colorizedColor := m_colorizedColor m;
     m_neutralColor := m_neutralColor m; m_selectionRefs := m_selectionRefs m;
     m_isFiltered := m_isFiltered m; m_isVtu := m_isVtu m;
     m_passesMembership := m_passesMembership m;
     m_style := m_style m; m_radius := r;
     m_hasSetRadius := m_hasSetRadius m |}.

Definition setRefs (n : Z) (m : Marker) : Marker :=
  {| m_baseColor := m_baseColor m; m_baseOpacity := m_baseOpacity m;
     m_baseRadius := m_baseRadius m; m_colorizedColor := m_colorizedColor m;
     m_neutralColor := m_neutralColor m; m_selectionRefs := n;
     m_isFiltered := m_isFiltered m; m_isVtu := m_isVtu m;
     m_passesMembership := m_passesMembership m;
     m_style := m_style m; m_radius := m_radius m;
     m_hasSetRadius := m_hasSetRadius m |}.

Definition setIsFiltered (b : bool) (m : Marker) : Marker :=
  {| m_baseColor := m_baseColor m; m_baseOpacity := m_baseOpacity m;
     m_baseRadius := m_baseRadius m; m_colorizedColor := m_colorizedColor m;
     m_neutralColor := m_neutralColor m; m_selectionRefs := m_selectionRefs m;
     m_isFiltered := b; m_isVtu := m_isVtu m;
     m_passesMembership := m_passesMembership m;
     m_style := m_style m; m_radius := m_radius m;
     m_hasSetRadius := m_hasSetRadius m |}.

Definition setPassesMembership (b : bool) (m : Marker) : Marker :=
  {| m_baseColor := m_baseColor m; m_baseOpacity := m_baseOpacity m;
     m_baseRadius := m_baseRadius m; m_colorizedColor := m_colorizedColor m;
     m_neutralColor := m_neutralColor m; m_selectionRefs := m_selectionRefs m;
     m_isFiltered := m_isFiltered m; m_isVtu := m_isVtu m;
     m_passesMembership := b;
     m_style := m_style m; m_radius := m_radius m;
     m_hasSetRadius := m_hasSetRadius m |}.

Definition setBaseColor (c : string) (m : Marker) : Marker :=
  {| m_baseColor := c; m_baseOpacity := m_baseOpacity m;
     m_baseRadius := m_baseRadius m; m_colorizedColor := m_colorizedColor m;
     m_neutralColor := m_neutralColor m; m_selectionRefs := m_selectionRefs m;
     m_isFiltered := m_isFiltered m; m_isVtu := m_isVtu m;
     m_passesMembership := m_passesMembership m;
     m_style := m_style m; m_radius := m_radius m;
     m_hasSetRadius := m_hasSetRadius m |}.

(** A registered marker has every underscore field set (lines 279-287), so
    the [=== undefined] branches of [ensureMarkerBase] are never taken. *)
Definition ensureMarkerBase (m : Marker) : Marker := m.

Definition getScaledRadius (currentZoomScale : Q) (m : Marker) : Q :=
  orNum (m_baseRadius m) 6 * currentZoomScale.

(** A marker is a path of the map library, so [setStyle] exists and its
    [typeof] guard passes; [setRadius] exists on circle markers only, and
    the guard of lines 162-167 is the field [m_hasSetRadius].  Draw order is
    not modelled. *)
Definition highlightMarker (currentZoomScale : Q) (on : bool) (m : Marker) : Marker :=
  let m := ensureMarkerBase m in
  if m_isFiltered m then m
  else
    let baseOpacity := orNum (m_baseOpacity m) 0.35 in
    let baseRadius := getScaledRadius currentZoomScale m in
    let baseColor := orStr (m_baseColor m) (orStr (fillColor (m_style m)) "#9e9e9e") in
    let m :=
      setStyle
        (if on
         then {| weight := 2; color := Some accent;
                 fillOpacity := Qmin 0.95 (baseOpacity + 0.20);
                 fillColor := baseColor |}
         else {| weight := 0; color := None;
                 fillOpacity := baseOpacity;
                 fillColor := baseColor |}) m in
    if m_hasSetRadius m then
      let extra := Qmax 1.5 (1.5 * currentZoomScale) in
      setRadius (if on then baseRadius + extra else baseRadius) m
    else if negb on then setRadius baseRadius m
    else m.

Definition adjustMarkerSelection (currentZoomScale : Q) (delta : Z) (m : Marker) : Marker :=
  let refs := (m_selectionRefs m + delta)%Z in
  let m := setRefs (if (refs <? 0)%Z then 0%Z else refs) m in
  if negb (m_isFiltered m)
  then highlightMarker currentZoomScale (0 <? m_selectionRefs m)%Z m
  else m.

Definition setMarkerVisibility (currentZoomScale : Q) (visible : bool) (m : Marker) : Marker :=
  let m := ensureMarkerBase m in
  let m := setIsFiltered (negb visible) m in
  if negb visible then
    let m := setRefs 0 m in
    let m := setStyle {| weight := 0; color := None; fillOpacity := 0;
                         fillColor := m_baseColor m |} m in
    if m_hasSetRadius m then setRadius 0 m else m
  else
    let baseOpacity := orNum (m_baseOpacity m) 0.35 in
    let baseRadius := getScaledRadius currentZoomScale m in
    let m := setStyle {| weight := 0; color := None; fillOpacity := baseOpacity;
                         fillColor := m_baseColor m |} m in
    let m := if m_hasSetRadius m then setRadius baseRadius m else m in
    if (0 <? m_selectionRefs m)%Z then highlightMarker currentZoomScale true m else m.

Definition updateMarkerColorAppearance (currentZoomScale : Q) (colorScalingEnabled : bool)
    (m : Marker) : Marker :=
  let m := ensureMarkerBase m in
  let shouldColorize := colorScalingEnabled && m_isVtu m && m_passesMembership m in
  let coloredColor := orStr (m_colorizedColor m) (orStr (m_baseColor m) "#9e9e9e") in
  let neutralColor := orStr (m_neutralColor m) "#9e9e9e" in
  let targetColor := if shouldColorize then coloredColor else neutralColor in
  let m := setBaseColor targetColor m in
  if m_isFiltered m then m
  else if (0 <? m_selectionRefs m)%Z then highlightMarker currentZoomScale true m
  else highlightMarker currentZoomScale false m.

(** The body of [applyZoomScaling] for one marker (lines 808-825). *)
Definition zoomMarker (currentZoomScale : Q) (m : Marker) : Marker :=
  if m_isFiltered m then m
  else
    let baseOpacity := orNum (m_baseOpacity m) 0.35 in
    let scaledRadius := getScaledRadius currentZoomScale m in
    let m := if m_hasSetRadius m then setRadius scaledRadius m else m in
    let m := setStyle {| weight := 0; color := None; fillOpacity := baseOpacity;
                         fillColor := orStr (m_baseColor m)
                                        (orStr (fillColor (m_style m)) "#9e9e9e") |} m in
    if (0 <? m_selectionRefs m)%Z then highlightMarker currentZoomScale true m else m.

(** The body of [buildingHover] and of the [ownerHover] loop once the marker
    is found (lines 354-359 and 375-380). *)
Definition hoverMarker (currentZoomScale : Q) (on : bool) (m : Marker) : Marker :=
  if m_isFiltered m then m
  else if on then highlightMarker currentZoomScale true m
  else if (m_selectionRefs m =? 0)%Z then highlightMarker currentZoomScale false m
  else m.

(** The body of [blockHover] once the layer is found (lines 364-369). *)
Definition hoverLayer (enabled : bool) (blockColorMax : Q) (on : bool) (layer : Layer) : Layer :=
  if l_isFiltered layer then layer
  else if on then highlightBlock enabled blockColorMax true layer
  else if (l_selectionRefs layer =? 0)%Z then highlightBlock enabled blockColorMax false layer
  else layer.

(** The overlay of a marker: stroke weight 2 in the accent colour. *)
Definition markerHighlighted (m : Marker) : bool :=
  (weight (m_style m) =? 2)%Z && color_is accent (color (m_style m)).

(** How the filter leaves a marker it hides (lines 196-200): no stroke,
    fill opacity 0, and radius 0 where the marker has [setRadius]. *)
Definition markerHidden (m : Marker) : bool :=
  (weight (m_style m) =? 0)%Z
  && match color (m_style m) with None => true | Some _ => false end
  && Qeq_bool (fillOpacity (m_style m)) 0
  && (negb (m_hasSetRadius m) || Qeq_bool (m_radius m) 0).

(** ** Membership sub-rule *)

Record MemberRecord := {
  has_member_tag : bool;
  latest_membership_year : option Z      (* null or a year *)
}.

(** [opts.minYear]: [null], [NaN] (a slider value that did not parse) or a year. *)
Inductive YearOpt :=
| YNull
| YNaN
| YNum (y : Z).

Record Opts := {
  requireMember : bool;
  minYear : YearOpt
}.

Definition isNull (y : YearOpt) : bool :=
  match y with
  | YNull => true
  | _ => false
  end.

(** The year narrowing of one record (lines 332-337): a comparison with
    [NaN] is false. *)
Definition yearAtLeast (threshold : YearOpt) (r : MemberRecord) : bool :=
  match latest_membership_year r with
  | None => false
  | Some yr =>
      match threshold with
      | YNum t => (t <=? yr)%Z
      | _ => false
      end
  end.

Definition matchesFilters (records : list MemberRecord) (opts : Opts) : bool :=
  let hasRecords := (0 <? length records)%nat in
  if negb (requireMember opts) && isNull (minYear opts) then true
  else if negb hasRecords then false
  else
    let filtered := records in
    let filtered :=
      if requireMember opts then List.filter has_member_tag filtered else filtered in
    let filtered :=
      if negb (isNull (minYear opts))
      then List.filter (yearAtLeast (minYear opts)) filtered
      else filtered in
    (0 <? length filtered)%nat.

(** ** Tables and filter controls *)

Record Checkbox := {
  checked : bool;
  data_type : string;        (* dataset.type *)
  data_target : string       (* dataset.target *)
}.

Record Row := {
  attributes : list (string * string);
  hidden : bool;                  (* the class 'hidden' *)
  checkbox : option Checkbox      (* the row's .row-select input, if it has one *)
}.

Definition getAttribute (row : Row) (name : string) : option string :=
  objGet (attributes row) name.

Definition setHidden (h : bool) (row : Row) : Row :=
  {| attributes := attributes row; hidden := h; checkbox := checkbox row |}.

Definition setChecked (c : bool) (row : Row) : Row :=
  {| attributes := attributes row; hidden := hidden row;
     checkbox :=
       match checkbox row with
       | Some cb => Some {| checked := c; data_type := data_type cb;
                            data_target := data_target cb |}
       | None => None
       end |}.

(** [checkbox && checkbox.checked] *)
Definition isChecked (row : Row) : bool :=
  match checkbox row with
  | Some cb => checked cb
  | None => false
  end.

Record Summary := {
  s_min : Q;
  s_max : Q;
  s_step : option Q;
  s_attr : string
}.

(** A metric control after [updateMetricLabels] has refreshed
    [currentMin] and [currentMax] from the sliders (line 1157). *)
Record MetricControl := {
  summary : Summary;
  currentMin : Q;
  currentMax : Q
}.

Record HoodInput := {
  h_checked : bool;
  h_value : string
}.

(** The filter controls a pass reads; [None] is an element the page lacks. *)
Record FilterUI := {
  requireMemberChk : option bool;
  yearToggle : option bool;
  yearSlider : option string;
  hoodInputs : list HoodInput;
  metricControls : list (string * MetricControl)
}.

Record Threshold := {
  t_min : option Q;
  t_max : option Q;
  t_summary : Summary
}.

(** Lines 1167-1176. *)
Definition thresholdOf (ctrl : MetricControl) : Threshold :=
  let summary := summary ctrl in
  let minVal := currentMin ctrl in
  let maxVal := currentMax ctrl in
  let tolerance :=
    match s_step summary with
    | Some st => if Qeq_bool st 0 then 0%Q else (st * 0.5)%Q
    | None => 0%Q
    end in
  {| t_min := if Qle_bool minVal (s_min summary + tolerance) then None else Some minVal;
     t_max := if Qle_bool (s_max summary - tolerance) maxVal then None else Some maxVal;
     t_summary := summary |}.

Section FilterEvaluation.
Context `{JSBuiltins}.

(** Lines 1178-1184. *)
Definition filterOpts (ui : FilterUI) : Opts :=
  let requireMember :=
    match requireMemberChk ui with
    | Some c => c
    | None => false
    end in
  let minYear :=
    match yearToggle ui, yearSlider ui with
    | Some true, Some value =>
        match parseInt10 value with
        | Some y => YNum y
        | None => YNaN
        end
    | _, _ => YNull
    end in
  let minYear :=
    match minYear with
    | YNaN => YNull
    | y => y
    end in
  {| requireMember := requireMember; minYear := minYear |}.

(** Lines 1159-1164. *)
Definition selectedHoods (ui : FilterUI) : list string :=
  map (fun inp => trim (toLowerCase (h_value inp)))
      (List.filter h_checked (hoodInputs ui)).

(** The neighbourhood verdict of a row (lines 1195-1201). *)
Definition hoodMatches (ui : FilterUI) (row : Row) : bool :=
  let hasHoodFilter := (0 <? length (hoodInputs ui))%nat in
  let restrictHoods := hasHoodFilter && (0 <? length (selectedHoods ui))%nat in
  let hideWhenNone := hasHoodFilter && (length (selectedHoods ui) =? 0)%nat in
  let rowArea := trim (toLowerCase (default "" (getAttribute row "data-area"))) in
  if restrictHoods then existsb (String.eqb rowArea) (selectedHoods ui)
  else if hideWhenNone then false
  else true.

(** The value a row carries for a metric (lines 1207-1209). *)
Definition metricValue (row : Row) (th : Threshold) : option Q :=
  match getAttribute row ("data-" ++ s_attr (t_summary th)) with
  | None => None
  | Some EmptyString => None
  | Some rawValue => parseFloat rawValue
  end.

Definition belowMin (th : Threshold) (value : Q) : bool :=
  match t_min th with
  | Some mn => negb (Qle_bool mn value)
  | None => false
  end.

Definition aboveMax (th : Threshold) (value : Q) : bool :=
  match t_max th with
  | Some mx => negb (Qle_bool value mx)
  | None => false
  end.

(** The metric loop of a row with its [continue] and [break] (lines 1204-1215). *)
Fixpoint metricsMatch (row : Row) (thresholds : list Threshold) : bool :=
  match thresholds with
  | [] => true
  | th :: rest =>
      match metricValue row th with
      | None => metricsMatch row rest
      | Some value =>
          if belowMin th value then false
          else if aboveMax th value then false
          else metricsMatch row rest
      end
  end.

(** The verdict [matches] of a row.  [searchTerm] is the constant empty
    string, so the search branch (lines 1218-1221) never runs. *)
Definition rowMatches (ui : FilterUI) (row : Row) : bool :=
  let thresholds := map (fun kc => thresholdOf (snd kc)) (metricControls ui) in
  let matches := hoodMatches ui row in
  if matches && (0 <? length (metricControls ui))%nat
  then metricsMatch row thresholds
  else matches.

End FilterEvaluation.

(** ** The engine's state *)

(** What [wireUp] builds once and never rewrites: the indices from ids to
    objects.  A marker object is named by the global variable that holds it
    ([marker_var]); [buildingIndex] and [ownerIndex] both refer to markers by
    that name, so an update through one index is seen through the other. *)
Record Registry := {
  buildingIndex : list (string * string);          (* b_id -> marker *)
  ownerIndex : list (string * list string);        (* owner_key -> markers *)
  blockBuildingIndex : list (string * list string);(* block_id -> b_ids *)
  membershipData : gmap string (list MemberRecord);
  blockColorMax : Q
}.

Record State := {
  registry : Registry;
  markers : gmap string Marker;          (* the marker objects *)
  blocksIndex : gmap string Layer;       (* block_id -> layer object *)
  currentZoomScale : Q;
  colorScalingEnabled : bool;
  blockColorScalingEnabled : bool;
  buildingRows : list Row;               (* #buildings-table tbody tr *)
  blockRows : list Row;                  (* #blocks-table tbody tr *)
  landlordRows : list Row                (* #landlords-table tbody tr *)
}.

Definition withMarkers (f : gmap string Marker -> gmap string Marker) (s : State) : State :=
  {| registry := registry s; markers := f (markers s); blocksIndex := blocksIndex s;
     currentZoomScale := currentZoomScale s; colorScalingEnabled := colorScalingEnabled s;
     blockColorScalingEnabled := blockColorScalingEnabled s;
     buildingRows := buildingRows s; blockRows := blockRows s;
     landlordRows := landlordRows s |}.

Definition withBlocks (f : gmap string Layer -> gmap string Layer) (s : State) : State :=
  {| registry := registry s; markers := markers s; blocksIndex := f (blocksIndex s);
     currentZoomScale := currentZoomScale s; colorScalingEnabled := colorScalingEnabled s;
     blockColorScalingEnabled := blockColorScalingEnabled s;
     buildingRows := buildingRows s; blockRows := blockRows s;
     landlordRows := landlordRows s |}.

Definition withBuildingRows (f : list Row -> list Row) (s : State) : State :=
  {| registry := registry s; markers := markers s; blocksIndex := blocksIndex s;
     currentZoomScale := currentZoomScale s; colorScalingEnabled := colorScalingEnabled s;
     blockColorScalingEnabled := blockColorScalingEnabled s;
     buildingRows := f (buildingRows s); blockRows := blockRows s;
     landlordRows := landlordRows s |}.

Definition withBlockRows (f : list Row -> list Row) (s : State) : State :=
  {| registry := registry s; markers := markers s; blocksIndex := blocksIndex s;
     currentZoomScale := currentZoomScale s; colorScalingEnabled := colorScalingEnabled s;
     blockColorScalingEnabled := blockColorScalingEnabled s;
     buildingRows := buildingRows s; blockRows := f (blockRows s);
     landlordRows := landlordRows s |}.

Definition withLandlordRows (f : list Row -> list Row) (s : State) : State :=
  {| registry := registry s; markers := markers s; blocksIndex := blocksIndex s;
     currentZoomScale := currentZoomScale s; colorScalingEnabled := colorScalingEnabled s;
     blockColorScalingEnabled := blockColorScalingEnabled s;
     buildingRows := buildingRows s; blockRows := blockRows s;
     landlordRows := f (landlordRows s) |}.

Definition withZoomScale (z : Q) (s : State) : State :=
  {| registry := registry s; markers := markers s; blocksIndex := blocksIndex s;
     currentZoomScale := z; colorScalingEnabled := colorScalingEnabled s;
     blockColorScalingEnabled := blockColorScalingEnabled s;
     buildingRows := buildingRows s; blockRows := blockRows s;
     landlordRows := landlordRows s |}.

Definition withColorScaling (b : bool) (s : State) : State :=
  {| registry := registry s; markers := markers s; blocksIndex := blocksIndex s;
     currentZoomScale := currentZoomScale s; colorScalingEnabled := b;
     blockColorScalingEnabled := blockColorScalingEnabled s;
     buildingRows := buildingRows s; blockRows := blockRows s;
     landlordRows := landlordRows s |}.

Definition withBlockColorScaling (b : bool) (s : State) : State :=
  {| registry := registry s; markers := markers s; blocksIndex := blocksIndex s;
     currentZoomScale := currentZoomScale s; colorScalingEnabled := colorScalingEnabled s;
     blockColorScalingEnabled := b;
     buildingRows := buildingRows s; blockRows := blockRows s;
     landlordRows := landlordRows s |}.

(** [arr.forEach(function(marker) { f(marker) })] over marker objects. *)
Definition forEachMarker (f : Marker -> Marker) (arr : list string)
    (ms : gmap string Marker) : gmap string Marker :=
  fold_left (fun ms marker => alter f marker ms) arr ms.

(** ** Selection and hover *)

Definition selectionDelta (selected : bool) : Z := if selected then 1%Z else (-1)%Z.

Definition setOwnerSelection (ownerKey : string) (selected : bool) (s : State) : State :=
  let arr := default [] (objGet (ownerIndex (registry s)) ownerKey) in
  withMarkers
    (forEachMarker (adjustMarkerSelection (currentZoomScale s) (selectionDelta selected)) arr) s.

(** The markers the ids of a block resolve to; an id without a marker is
    skipped (line 232). *)
Definition markersOfIds (r : Registry) (ids : list string) : list string :=
  omap (objGet (buildingIndex r)) ids.

Definition setBlockSelectionMarkers (blockId : string) (selected : bool) (s : State) : State :=
  let ids := default [] (objGet (blockBuildingIndex (registry s)) blockId) in
  withMarkers
    (forEachMarker (adjustMarkerSelection (currentZoomScale s) (selectionDelta selected))
       (markersOfIds (registry s) ids)) s.

Definition setBlockFiltered (blockId : string) (filtered : bool) (s : State) : State :=
  withBlocks
    (alter (filterLayer (blockColorScalingEnabled s) (blockColorMax (registry s)) filtered)
       blockId) s.

Definition buildingHover (bid : string) (on : bool) (s : State) : State :=
  match objGet (buildingIndex (registry s)) bid with
  | None => s
  | Some marker => withMarkers (alter (hoverMarker (currentZoomScale s) on) marker) s
  end.

Definition blockHover (blockId : string) (on : bool) (s : State) : State :=
  withBlocks
    (alter (hoverLayer (blockColorScalingEnabled s) (blockColorMax (registry s)) on) blockId) s.

Definition ownerHover (ownerKey : string) (on : bool) (s : State) : State :=
  let arr := default [] (objGet (ownerIndex (registry s)) ownerKey) in
  withMarkers (forEachMarker (hoverMarker (currentZoomScale s) on) arr) s.

(** [handleSelectionChange] for a checkbox whose [checked] the browser has
    just set.  The summary bar it refreshes is display only. *)
Definition handleSelectionChange (cb : Checkbox) (s : State) : State :=
  let typ := data_type cb in
  let key := data_target cb in
  if String.eqb typ "building" then
    match objGet (buildingIndex (registry s)) key with
    | None => s
    | Some marker =>
        withMarkers
          (alter (adjustMarkerSelection (currentZoomScale s) (selectionDelta (checked cb)))
             marker) s
    end
  else if String.eqb typ "block" then
    let s :=
      withBlocks
        (alter (adjustBlockSelection (blockColorScalingEnabled s)
                  (blockColorMax (registry s)) (selectionDelta (checked cb))) key) s in
    setBlockSelectionMarkers key (checked cb) s
  else if String.eqb typ "owner" then setOwnerSelection key (checked cb) s
  else s.

(** ** Display toggles *)

Definition applyVtuColorScaling (enabled : bool) (s : State) : State :=
  let s := withColorScaling enabled s in
  withMarkers
    (forEachMarker (updateMarkerColorAppearance (currentZoomScale s) (colorScalingEnabled s))
       (map snd (buildingIndex (registry s)))) s.

Definition applyBlockColorScaling (enabled : bool) (s : State) : State :=
  let s := withBlockColorScaling enabled s in
  withBlocks
    (fmap (fun layer =>
             if negb (l_isFiltered layer)
             then resetBlockStyle (blockColorScalingEnabled s) (blockColorMax (registry s)) layer
             else layer)) s.

(** [applyZoomScaling] once the map has answered the zoom scale. *)
Definition applyZoomScaling (scale : Q) (s : State) : State :=
  let s := withZoomScale scale s in
  withMarkers
    (forEachMarker (zoomMarker (currentZoomScale s)) (map snd (buildingIndex (registry s)))) s.

(** ** The filter pass *)

Section FilterPass.
Context `{JSBuiltins}.

(** What the row loop does to the marker of a row (lines 1191-1193 and
    1225-1236). *)
Definition filterRowMarker (zoom : Q) (colorize : bool)
    (membershipMatch matches wasChecked : bool) (m : Marker) : Marker :=
  let m := setPassesMembership membershipMatch m in
  let m :=
    if negb matches && wasChecked then
      let current := m_selectionRefs m in
      if (0 <? current)%Z then adjustMarkerSelection zoom (- current)%Z m else m
    else m in
  let m := setMarkerVisibility zoom matches m in
  updateMarkerColorAppearance zoom colorize m.

(** The row itself: the class [hidden] and the checkbox (lines 1223-1231). *)
Definition filterRowDom (matches : bool) (row : Row) : Row :=
  let row := setHidden (negb matches) row in
  if negb matches && isChecked row then setChecked false row else row.

Definition rowBid (row : Row) : string := jsKey (getAttribute row "data-bid").

(** The loop over the rows of the buildings table (lines 1185-1241):
    the rows, the markers and [visibleBids] after it. *)
Fixpoint filterBuildingRows (r : Registry) (zoom : Q) (colorize : bool) (ui : FilterUI)
    (rows : list Row) (ms : gmap string Marker) (visibleBids : list string)
    : list Row * gmap string Marker * list string :=
  match rows with
  | [] => ([], ms, visibleBids)
  | row :: rest =>
      let bid := rowBid row in
      let records := default [] (membershipData r !! bid) in
      let membershipMatch := matchesFilters records (filterOpts ui) in
      let matches := rowMatches ui row in
      let ms :=
        match objGet (buildingIndex r) bid with
        | Some marker =>
            alter (filterRowMarker zoom colorize membershipMatch matches (isChecked row))
              marker ms
        | None => ms
        end in
      let visibleBids := if matches then bid :: visibleBids else visibleBids in
      let '(rest', ms', visibleBids') :=
        filterBuildingRows r zoom colorize ui rest ms visibleBids in
      (filterRowDom matches row :: rest', ms', visibleBids')
  end.

(** [visibleBids.has(String(id))] *)
Definition setHas (visibleBids : list string) (id : string) : bool :=
  existsb (String.eqb id) visibleBids.

(** [document.querySelector] for a row by attribute: the first that matches
    is the one updated. *)
Fixpoint updateFirst (p : Row -> bool) (f : Row -> Row) (rows : list Row) : list Row :=
  match rows with
  | [] => []
  | row :: rest => if p row then f row :: rest else row :: updateFirst p f rest
  end.

Definition hasAttribute (name value : string) (row : Row) : bool :=
  match getAttribute row name with
  | Some v => String.eqb v value
  | None => false
  end.

Definition setLayerRefs (n : Z) (layer : Layer) : Layer :=
  {| l_blockUnits := l_blockUnits layer; l_selectionRefs := n;
     l_isFiltered := l_isFiltered layer; l_baseStyle := l_baseStyle layer;
     l_style := l_style layer |}.

(** [hasVisible] of a block (lines 1244-1245). *)
Definition hasVisibleBuilding (visibleBids : list string) (blockId : string)
    (s : State) : bool :=
  let ids := default [] (objGet (blockBuildingIndex (registry s)) blockId) in
  existsb (setHas visibleBids) ids.

(** What a turn of the block loop does when the block has a row in the
    blocks table (lines 1246-1256). *)
Definition filterBlockRow (visibleBids : list string) (blockId : string)
    (s : State) : State :=
  let hasVisible := hasVisibleBuilding visibleBids blockId s in
  let isRow := hasAttribute "data-block" blockId in
  match List.find isRow (blockRows s) with
  | Some row =>
      let s := withBlockRows (updateFirst isRow (setHidden (negb hasVisible))) s in
      if negb hasVisible && isChecked row then
        let s := withBlockRows (updateFirst isRow (setChecked false)) s in
        let s := withBlocks (alter (setLayerRefs 0) blockId) s in
        setBlockSelectionMarkers blockId false s
      else s
  | None => s
  end.

(** One turn of the loop over the keys of [blockBuildingIndex]
    (lines 1244-1257). *)
Definition filterBlock (visibleBids : list string) (blockId : string) (s : State) : State :=
  let hasVisible := hasVisibleBuilding visibleBids blockId s in
  let s := filterBlockRow visibleBids blockId s in
  setBlockFiltered blockId (negb hasVisible) s.

(** The loop over the rows of the landlords table (lines 1260-1269); the
    buildings table it queries is the one the row loop has left. *)
Fixpoint filterLandlordRows (rows : list Row) (s : State) : list Row * State :=
  match rows with
  | [] => ([], s)
  | row :: rest =>
      let owner := jsKey (getAttribute row "data-owner") in
      let hasVisible :=
        existsb (fun b => hasAttribute "data-owner" owner b && negb (hidden b))
                (buildingRows s) in
      let row' := setHidden (negb hasVisible) row in
      let uncheck := negb hasVisible && isChecked row in
      let row' := if uncheck then setChecked false row' else row' in
      let s := if uncheck then setOwnerSelection owner false s else s in
      let '(rest', s') := filterLandlordRows rest s in
      (row' :: rest', s')
  end.

(** [applyFilters] (lines 1156-1274) for the filter controls [ui].  The
    status cells and the summary bar it refreshes at the end are display
    only. *)
Definition applyFilters (ui : FilterUI) (s : State) : State :=
  let '(rows, ms, visibleBids) :=
    filterBuildingRows (registry s) (currentZoomScale s) (colorScalingEnabled s) ui
      (buildingRows s) (markers s) [] in
  let s := withMarkers (fun _ => ms) (withBuildingRows (fun _ => rows) s) in
  let s :=
    fold_left (fun s blockId => filterBlock visibleBids blockId s)
      (map fst (blockBuildingIndex (registry s))) s in
  let '(lrows, s) := filterLandlordRows (landlordRows s) s in
  withLandlordRows (fun _ => lrows) s.

(** The set [visibleBids] of a pass. *)
Definition visibleBidsOf (ui : FilterUI) (s : State) : list string :=
  snd (filterBuildingRows (registry s) (currentZoomScale s) (colorScalingEnabled s) ui
         (buildingRows s) (markers s) []).

(** ** Events *)

Inductive Table :=
| TBuildings
| TBlocks
| TLandlords.

Definition rowsOf (t : Table) (s : State) : list Row :=
  match t with
  | TBuildings => buildingRows s
  | TBlocks => blockRows s
  | TLandlords => landlordRows s
  end.

Definition withRowsOf (t : Table) (f : list Row -> list Row) (s : State) : State :=
  match t with
  | TBuildings => withBuildingRows f s
  | TBlocks => withBlockRows f s
  | TLandlords => withLandlordRows f s
  end.

(** What the page can do to the engine once it is wired up. *)
Inductive Event :=
| EvToggle (t : Table) (i : nat)            (* the checkbox of row i is clicked *)
| EvBuildingHover (i : nat) (on : bool)     (* mouseenter / mouseleave on a row *)
| EvBlockHover (i : nat) (on : bool)
| EvOwnerHover (i : nat) (on : bool)
| EvFilters (ui : FilterUI)                 (* a filter control changes *)
| EvColorVtu (enabled : bool)
| EvColorBlocks (enabled : bool)
| EvZoom (scale : Q).                       (* moveend, zoomend, layeradd, layerremove *)

Definition toggleCheckbox (t : Table) (i : nat) (s : State) : State :=
  match rowsOf t s !! i with
  | Some row =>
      match checkbox row with
      | Some cb =>
          let c := negb (checked cb) in
          let s := withRowsOf t (fun rows => <[i := setChecked c row]> rows) s in
          handleSelectionChange
            {| checked := c; data_type := data_type cb; data_target := data_target cb |} s
      | None => s
      end
  | None => s
  end.

Definition step (e : Event) (s : State) : State :=
  match e with
  | EvToggle t i => toggleCheckbox t i s
  | EvBuildingHover i on =>
      match buildingRows s !! i with
      | Some row => buildingHover (jsKey (getAttribute row "data-bid")) on s
      | None => s
      end
  | EvBlockHover i on =>
      match blockRows s !! i with
      | Some row => blockHover (jsKey (getAttribute row "data-block")) on s
      | None => s
      end
  | EvOwnerHover i on =>
      match landlordRows s !! i with
      | Some row => ownerHover (jsKey (getAttribute row "data-owner")) on s
      | None => s
      end
  | EvFilters ui => applyFilters ui s
  | EvColorVtu enabled => applyVtuColorScaling enabled s
  | EvColorBlocks enabled => applyBlockColorScaling enabled s
  | EvZoom scale => applyZoomScaling scale s
  end.

Definition run (events : list Event) (s : State) : State :=
  fold_left (fun s e => step e s) events s.

End FilterPass.

(** ** Start-up *)

(** [feature.properties] of a polygon of the blocks layer. *)
Record BlockProps := {
  block_id : option string;       (* undefined or null: no id *)
  total_units : option Q          (* [None]: not a finite number *)
}.

Record GeoLayer := {
  g_properties : option BlockProps;
  g_options : PathStyle
}.

(** One turn of the [eachLayer] visitor (lines 456-469): the index and the
    array [blockLayers] after it. *)
Definition registerBlock (acc : gmap string Layer * list Layer) (g : GeoLayer)
    : gmap string Layer * list Layer :=
  match g_properties g with
  | Some props =>
      match block_id props with
      | Some id =>
          let layer :=
            {| l_blockUnits := default 0%Q (total_units props);
               l_selectionRefs := 0;
               l_isFiltered := false;
               l_baseStyle := None;
               l_style := g_options g |} in
          (<[id := layer]> (fst acc), (snd acc ++ [layer])%list)
      | None => acc
      end
  | None => acc
  end.

(** Lines 471-475. *)
Definition computeBlockColorMax (blockLayers : list Layer) : Q :=
  let mx := fold_left (fun mx layer => Qmax mx (l_blockUnits layer)) blockLayers 0%Q in
  if negb (Qle_bool 0 mx) then 0%Q else mx.

(** Lines 454-477: the index of the block layers, each with its base style,
    and the registry-wide maximum.  Choropleth shading starts enabled
    (line 51). *)
Definition wireUpBlocks (layers : list GeoLayer) : gmap string Layer * Q :=
  let '(index, blockLayers) := fold_left registerBlock layers (∅, []) in
  let mx := computeBlockColorMax blockLayers in
  (resetBlockStyle true mx <$> index, mx).

(** A marker as [applyMarkerMetadata] leaves it (lines 284-295): not
    selected, not filtered, drawn without the overlay. *)
Definition initialMarker (m : Marker) : bool :=
  (m_selectionRefs m =? 0)%Z && negb (m_isFiltered m) && negb (markerHighlighted m).

(** A layer as lines 463-477 leave it. *)
Definition initialLayer (layer : Layer) : bool :=
  (l_selectionRefs layer =? 0)%Z && negb (l_isFiltered layer)
  && negb (blockHighlighted layer).

(** The state when the handlers are installed. *)
Definition initial (s : State) : Prop :=
  map_Forall (fun _ m => initialMarker m = true) (markers s)
  /\ map_Forall (fun _ layer => initialLayer layer = true) (blocksIndex s).

Section Reachability.
Context `{JSBuiltins}.

Inductive reachable : State -> Prop :=
| reachable_initial s : initial s -> reachable s
| reachable_step e s : reachable s -> reachable (step e s).

End Reachability.

(** ** Logarithmic slider mapping *)

(** The fields of a metric summary that [buildMetricControls] reads to
    choose and build the mapping (lines 1031-1041 and 1075-1093). *)
Record MetricSummary := {
  ms_min : R;
  ms_max : R;
  ms_min_positive : option R;     (* [None]: not a number *)
  ms_use_log : option bool;       (* [None]: undefined *)
  ms_is_int : bool;               (* type === 'int' *)
  ms_is_currency : bool           (* format === 'currency' *)
}.

Definition Rltb (x y : R) : bool := if Rlt_dec x y then true else false.
Definition Rleb (x y : R) : bool := if Rle_dec x y then true else false.
Definition Reqb (x y : R) : bool := if Req_dec_T x y then true else false.

Definition positiveMin (summary : MetricSummary) : option R :=
  match ms_min_positive summary with
  | Some p => if Rltb 0 p then Some p else None
  | None => None
  end.

Definition hasSpread (summary : MetricSummary) : bool :=
  Rltb (ms_min summary) (ms_max summary).

Definition useLog (summary : MetricSummary) : bool :=
  let useLog :=
    match ms_use_log summary with
    | Some b => b
    | None =>
        negb (ms_is_int summary)
        && match positiveMin summary with
           | Some p =>
               hasSpread summary
               && (ms_is_currency summary || Rleb 25 (ms_max summary / p))
           | None => false
           end
    end in
  useLog && match positiveMin summary with Some _ => true | None => false end
  && hasSpread summary.

Definition logMin (summary : MetricSummary) : R :=
  match positiveMin summary with
  | Some p => if useLog summary then ln p else 0%R
  | None => 0%R
  end.

Definition logMax (summary : MetricSummary) : R :=
  match positiveMin summary with
  | Some p => if useLog summary then ln (Rmax (ms_max summary) p) else 1%R
  | None => 1%R
  end.

(** [useLog && logMax !== logMin]: the metric gets the logarithmic mapping. *)
Definition logMapped (summary : MetricSummary) : bool :=
  useLog summary && negb (Reqb (logMax summary) (logMin summary)).

(** [toSlider] and [fromSlider] as stored in the metric control (lines
    1077-1093 and 1137-1138): the logarithmic pair when [logMapped], the
    identity otherwise.  A real is finite, so the [Number.isFinite] guard
    of [toSlider] passes. *)
Definition toSlider (summary : MetricSummary) (value : R) : R :=
  match positiveMin summary with
  | Some p =>
      if logMapped summary then
        if Rleb value 0 then 0%R
        else
          let clamped := Rmax p (Rmin value (ms_max summary)) in
          ((ln clamped - logMin summary) / (logMax summary - logMin summary) * 100)%R
      else value
  | None => value
  end.

Definition fromSlider (summary : MetricSummary) (pos : R) : R :=
  if logMapped summary then
    let ratio := Rmin 1 (Rmax 0 (pos / 100)) in
    if Reqb ratio 0 && Rleb (ms_min summary) 0 then ms_min summary
    else exp (logMin summary + ratio * (logMax summary - logMin summary))
  else pos.

(** ** An implementation of the built-ins over ASCII

    Enough of the host language to run the model on concrete pages: case
    folding and trimming of ASCII text, and decimal numerals without an
    exponent part. *)

Definition lowerAscii (c : ascii) : ascii :=
  let n := nat_of_ascii c in
  if (65 <=? n)%nat && (n <=? 90)%nat then ascii_of_nat (n + 32) else c.

Fixpoint asciiToLowerCase (s : string) : string :=
  match s with
  | EmptyString => EmptyString
  | String c rest => String (lowerAscii c) (asciiToLowerCase rest)
  end.

Definition isSpace (c : ascii) : bool :=
  let n := nat_of_ascii c in
  (n =? 32)%nat || ((9 <=? n)%nat && (n <=? 13)%nat).

Fixpoint trimStart (s : string) : string :=
  match s with
  | EmptyString => EmptyString
  | String c rest => if isSpace c then trimStart rest else s
  end.

Definition reverseString (s : string) : string :=
  string_of_list_ascii (List.rev (list_ascii_of_string s)).

Definition asciiTrim (s : string) : string :=
  reverseString (trimStart (reverseString (trimStart s))).

Definition digitOf (c : ascii) : option Z :=
  let n := nat_of_ascii c in
  if (48 <=? n)%nat && (n <=? 57)%nat then Some (Z.of_nat (n - 48)) else None.

(** The longest prefix of digits: its value, how many digits it has, and
    what follows it. *)
Fixpoint digitsPrefix (s : string) (acc : Z) (count : nat) : Z * nat * string :=
  match s with
  | EmptyString => (acc, count, s)
  | String c rest =>
      match digitOf c with
      | Some d => digitsPrefix rest (10 * acc + d)%Z (S count)
      | None => (acc, count, s)
      end
  end.

Definition splitSign (s : string) : bool * string :=
  match s with
  | String "-"%char rest => (true, rest)
  | String "+"%char rest => (false, rest)
  | _ => (false, s)
  end.

Definition decParseInt (s : string) : option Z :=
  let '(negative, body) := splitSign (trimStart s) in
  let '(value, count, _) := digitsPrefix body 0%Z 0%nat in
  if (count =? 0)%nat then None
  else Some (if negative then (- value)%Z else value).

Definition decParseFloat (s : string) : option Q :=
  let '(negative, body) := splitSign (trimStart s) in
  let '(whole, wholeCount, rest) := digitsPrefix body 0%Z 0%nat in
  let '(frac, fracCount) :=
    match rest with
    | String "."%char digits =>
        let '(f, n, _) := digitsPrefix digits 0%Z 0%nat in (f, n)
    | _ => (0%Z, 0%nat)
    end in
  if (wholeCount + fracCount =? 0)%nat then None
  else
    let magnitude := (inject_Z whole + (frac # Pos.pow 10 (Pos.of_nat fracCount)))%Q in
    let magnitude := if (fracCount =? 0)%nat then inject_Z whole else magnitude in
    Some (if negative then (- magnitude)%Q else magnitude).

#[export] Instance asciiBuiltins : JSBuiltins := {
  toLowerCase := asciiToLowerCase;
  trim := asciiTrim;
  parseFloat := decParseFloat;
  parseInt10 := decParseInt
}.

(** ** Notions the statements use *)

(** The objects after each call of a sequence of [adjust] calls. *)
Fixpoint adjustTrace {A : Type} (adjust : Z -> A -> A) (deltas : list Z) (x : A) : list A :=
  match deltas with
  | [] => []
  | d :: rest => let x' := adjust d x in x' :: adjustTrace adjust rest x'
  end.

(** The membership sub-rule in the words of the specification: the records
    narrowed by the member tag when membership is required, then by the
    year when a minimum year is set; the rule passes when nothing is asked
    or when a record is left. *)
Definition narrowedRecords (requireMembership : bool) (minYear : option Z)
    (records : list MemberRecord) : list MemberRecord :=
  let byTag :=
    if requireMembership then List.filter has_member_tag records else records in
  match minYear with
  | Some y =>
      List.filter
        (fun r =>
           match latest_membership_year r with
           | Some yr => (y <=? yr)%Z
           | None => false
           end) byTag
  | None => byTag
  end.

Definition membershipRule (requireMembership : bool) (minYear : option Z)
    (records : list MemberRecord) : bool :=
  match requireMembership, minYear with
  | false, None => true
  | _, _ =>
      match narrowedRecords requireMembership minYear records with
      | [] => false
      | _ :: _ => true
      end
  end.

Definition yearOpt (minYear : option Z) : YearOpt :=
  match minYear with
  | Some y => YNum y
  | None => YNull
  end.

(** The check of one metric on a row: a row without a number for the metric
    passes, another passes when its number is within the active bounds. *)
Definition metricPasses `{JSBuiltins} (row : Row) (th : Threshold) : bool :=
  match metricValue row th with
  | None => true
  | Some value => negb (belowMin th value) && negb (aboveMax th value)
  end.

(** The controls with the year toggle switched off. *)
Definition yearOff (ui : FilterUI) : FilterUI :=
  {| requireMemberChk := requireMemberChk ui;
     yearToggle := Some false;
     yearSlider := yearSlider ui;
     hoodInputs := hoodInputs ui;
     metricControls := metricControls ui |}.

(** What every marker of a reachable state satisfies: hidden while
    filtered, and shown with the overlay while selected and not filtered. *)
Definition MarkerInv (m : Marker) : Prop :=
  (m_isFiltered m = true -> markerHidden m = true)
  /\ (m_isFiltered m = false -> (0 < m_selectionRefs m)%Z -> markerHighlighted m = true).

(** What every block layer of a reachable state satisfies: the filtered
    style while filtered. *)
Definition LayerInv (layer : Layer) : Prop :=
  l_isFiltered layer = true -> l_style layer = filteredBlockStyle.

Definition StateInv (s : State) : Prop :=
  map_Forall (fun _ m => MarkerInv m) (markers s)
  /\ map_Forall (fun _ layer => LayerInv layer) (blocksIndex s).

(** Two stores hold the same objects, each related by [R] to what it was. *)
Definition related {A : Type} (R : A -> A -> Prop) (ms ms' : gmap string A) : Prop :=
  forall k,
    match ms !! k, ms' !! k with
    | Some x, Some x' => R x x'
    | None, None => True
    | _, _ => False
    end.

(** A row of the blocks table that the block loop does not uncheck, for the
    set [visibleBids] of a pass. *)
Definition safeBlockRow (r : Registry) (visibleBids : list string) (row : Row) : Prop :=
  isChecked row = true ->
  forall k, In k (map fst (blockBuildingIndex r)) ->
            hasAttribute "data-block" k row = true ->
            existsb (setHas visibleBids) (default [] (objGet (blockBuildingIndex r) k))
            = true.

(** Markers related by [RM] and layers related by [RL], store by store. *)
Definition stateRelated (RM : Marker -> Marker -> Prop) (RL : Layer -> Layer -> Prop)
    (s s' : State) : Prop :=
  related RM (markers s) (markers s') /\ related RL (blocksIndex s) (blocksIndex s').

Section PassNotions.
Context `{JSBuiltins}.

(** A building id is visible after a pass when a row of the buildings table
    with that id matches, that is, passes the neighbourhood and the metric
    criteria (lines 1195-1216). *)
Definition bidPasses (ui : FilterUI) (s : State) (id : string) : bool :=
  existsb (fun row => String.eqb (rowBid row) id && rowMatches ui row) (buildingRows s).

(** The final verdict of a building in the words of the specification: the
    conjunction of the membership sub-rule with the neighbourhood and metric
    sub-rules. *)
Definition finalVerdict (ui : FilterUI) (s : State) (id : string) : bool :=
  matchesFilters (default [] (membershipData (registry s) !! id)) (filterOpts ui)
  && bidPasses ui s id.

(** A row of the blocks table that a pass does not uncheck: it is not
    checked, or its block keeps a visible building. *)
Definition blockRowKeeps (ui : FilterUI) (s : State) (row : Row) : bool :=
  negb (isChecked row)
  || forallb (fun k => negb (hasAttribute "data-block" k row)
                       || hasVisibleBuilding (visibleBidsOf ui s) k s)
             (map fst (blockBuildingIndex (registry s))).

(** A row of the landlords table that a pass does not uncheck: it is not
    checked, or a row of its owner in the buildings table matches. *)
Definition landlordRowKeeps (ui : FilterUI) (s : State) (row : Row) : bool :=
  negb (isChecked row)
  || existsb (fun b => hasAttribute "data-owner" (jsKey (getAttribute row "data-owner")) b
                       && rowMatches ui b)
             (buildingRows s).

(** The pass unchecks no row of the blocks and landlords tables, so it
    deselects no block or owner. *)
Definition noCascade (ui : FilterUI) (s : State) : bool :=
  forallb (blockRowKeeps ui s) (blockRows s)
  && forallb (landlordRowKeeps ui s) (landlordRows s).

End PassNotions.

(** ** Sample pages *)

Definition sampleLayer (units : Q) : Layer :=
  {| l_blockUnits := units; l_selectionRefs := 0; l_isFiltered := false;
     l_baseStyle := None; l_style := flatBlockStyle |}.

Definition sampleMarker : Marker :=
  {| m_baseColor := "#2196f3"; m_baseOpacity := 0.35; m_baseRadius := 6;
     m_colorizedColor := "#2196f3"; m_neutralColor := "#9e9e9e";
     m_selectionRefs := 0; m_isFiltered := false; m_isVtu := true;
     m_passesMembership := true;
     m_style := {| weight := 0; color := None; fillOpacity := 0.35;
                   fillColor := "#2196f3" |};
     m_radius := 6;
     m_hasSetRadius := true |}.

(** The same marker as a path without [setRadius]. *)
Definition samplePlainMarker : Marker :=
  {| m_baseColor := "#2196f3"; m_baseOpacity := 0.35; m_baseRadius := 6;
     m_colorizedColor := "#2196f3"; m_neutralColor := "#9e9e9e";
     m_selectionRefs := 0; m_isFiltered := false; m_isVtu := true;
     m_passesMembership := true;
     m_style := {| weight := 0; color := None; fillOpacity := 0.35;
                   fillColor := "#2196f3" |};
     m_radius := 6;
     m_hasSetRadius := false |}.

(** A page with three buildings of one owner in two blocks, and a third
    block that no building refers to.  Building b3 has a marker but no row
    in the buildings table. *)
Definition sampleGeoLayers : list GeoLayer :=
  [ {| g_properties := Some {| block_id := Some "K1"; total_units := Some 50%Q |};
       g_options := flatBlockStyle |};
    {| g_properties := Some {| block_id := Some "K2"; total_units := Some 120%Q |};
       g_options := flatBlockStyle |};
    {| g_properties := Some {| block_id := Some "K3"; total_units := Some 200%Q |};
       g_options := flatBlockStyle |} ].

Definition sampleRegistry : Registry :=
  {| buildingIndex := [("b1", "marker_1"); ("b2", "marker_2"); ("b3", "marker_3")];
     ownerIndex := [("acme", ["marker_1"; "marker_2"; "marker_3"])];
     blockBuildingIndex := [("K1", ["b1"; "b3"]); ("K2", ["b2"])];
     membershipData := ∅;
     blockColorMax := snd (wireUpBlocks sampleGeoLayers) |}.

Definition sampleRow (idAttr id : string) (more : list (string * string))
    (typ : string) : Row :=
  {| attributes := (idAttr, id) :: more;
     hidden := false;
     checkbox := Some {| checked := false; data_type := typ; data_target := id |} |}.

Definition samplePage : State :=
  {| registry := sampleRegistry;
     markers := <["marker_1" := sampleMarker]>
                  (<["marker_2" := sampleMarker]>
                     (<["marker_3" := sampleMarker]> ∅));
     blocksIndex := fst (wireUpBlocks sampleGeoLayers);
     currentZoomScale := 1;
     colorScalingEnabled := true;
     blockColorScalingEnabled := true;
     buildingRows :=
       [ sampleRow "data-bid" "b1"
           [("data-area", "West End"); ("data-owner", "acme")] "building";
         sampleRow "data-bid" "b2"
           [("data-area", "Downtown"); ("data-owner", "acme")] "building" ];
     blockRows :=
       [ sampleRow "data-block" "K1" [] "block";
         sampleRow "data-block" "K2" [] "block";
         sampleRow "data-block" "K3" [] "block" ];
     landlordRows := [ sampleRow "data-owner" "acme" [] "owner" ] |}.

(** Filter controls with the two neighbourhood options of the sample page. *)
Definition sampleUI (westEnd downtown : bool) : FilterUI :=
  {| requireMemberChk := Some false;
     yearToggle := Some false;
     yearSlider := Some "2015";
     hoodInputs := [ {| h_checked := westEnd; h_value := "West End" |};
                     {| h_checked := downtown; h_value := "Downtown" |} ];
     metricControls := [] |}.

(** Filter controls with both neighbourhood options checked and membership
    required. *)
Definition sampleUIMembers : FilterUI :=
  {| requireMemberChk := Some true;
     yearToggle := Some false;
     yearSlider := Some "2015";
     hoodInputs := [ {| h_checked := true; h_value := "West End" |};
                     {| h_checked := true; h_value := "Downtown" |} ];
     metricControls := [] |}.

(** The calls [wireUp] itself makes once the handlers are installed (lines
    1307-1322 and 1390), with every neighbourhood option checked. *)
Definition startUp : list Event :=
  [EvColorVtu true; EvColorBlocks true; EvFilters (sampleUI true true)].

(** A units metric from 0 to 100 whose lower slider stands at 10, and a row
    whose units attribute is not a number. *)
Definition sampleThreshold : Threshold :=
  thresholdOf
    {| summary := {| s_min := 0; s_max := 100; s_step := None; s_attr := "units" |};
       currentMin := 10;
       currentMax := 100 |}.

Definition sampleRowNoUnits : Row :=
  {| attributes := [("data-bid", "b9"); ("data-units", "n/a")];
     hidden := false;
     checkbox := None |}.

(** Filter controls whose year slider holds text. *)
Definition sampleUIBadYear : FilterUI :=
  {| requireMemberChk := Some false;
     yearToggle := Some true;
     yearSlider := Some "any";
     hoodInputs := [];
     metricControls := [] |}.

Definition sampleRecord : MemberRecord :=
  {| has_member_tag := true; latest_membership_year := Some 2019%Z |}.

(** A metric from 1 to 1000 with the logarithmic mapping switched on. *)
Definition sampleSummary : MetricSummary :=
  {| ms_min := 1; ms_max := 1000; ms_min_positive := Some 1%R;
     ms_use_log := Some true; ms_is_int := false; ms_is_currency := false |}.

(** A metric from 0 to 1000 whose smallest positive value is 1, with the
    logarithmic mapping switched on. *)
Definition sampleSummaryFromZero : MetricSummary :=
  {| ms_min := 0; ms_max := 1000; ms_min_positive := Some 1%R;
     ms_use_log := Some true; ms_is_int := false; ms_is_currency := false |}.

(** ** Notions of the further properties *)

(** The markers a change of a checkbox adjusts, in the order it adjusts them
    (lines 391-398). *)
Definition selectionTargets (cb : Checkbox) (s : State) : list string :=
  if String.eqb (data_type cb) "building" then
    match objGet (buildingIndex (registry s)) (data_target cb) with
    | Some marker => [marker]
    | None => []
    end
  else if String.eqb (data_type cb) "block" then
    markersOfIds (registry s)
      (default [] (objGet (blockBuildingIndex (registry s)) (data_target cb)))
  else if String.eqb (data_type cb) "owner" then
    default [] (objGet (ownerIndex (registry s)) (data_target cb))
  else [].

(** The colour a marker is to be drawn in (lines 767-770). *)
Definition colorTarget (colorScalingEnabled : bool) (m : Marker) : string :=
  if colorScalingEnabled && m_isVtu m && m_passesMembership m
  then orStr (m_colorizedColor m) (orStr (m_baseColor m) "#9e9e9e")
  else orStr (m_neutralColor m) "#9e9e9e".

Section PassResultNotions.
Context `{JSBuiltins}.

(** An owner keeps a visible building when a row of the buildings table
    that carries the owner matches. *)
Definition ownerPasses (ui : FilterUI) (s : State) (owner : string) : bool :=
  existsb (fun b => hasAttribute "data-owner" owner b && rowMatches ui b) (buildingRows s).

(** The row of the landlords table keeps its place, its attributes and its
    checkbox; the pass decides the class [hidden] and the check mark. *)
Definition rowAfterPass (visible : bool) (row row' : Row) : Prop :=
  attributes row' = attributes row
  /\ hidden row' = negb visible
  /\ isChecked row' = isChecked row && visible.

End PassResultNotions.

(** What the deselections of a pass (lines 1254 and 1267) may change of a
    marker once the row loop is done with it. *)
Definition afterDeselect (m m' : Marker) : Prop :=
  m_isFiltered m' = m_isFiltered m
  /\ m_passesMembership m' = m_passesMembership m
  /\ m_baseColor m' = m_baseColor m
  /\ (m_isFiltered m = true -> m_selectionRefs m = 0%Z -> m' = m)
  /\ (m_isFiltered m = false -> (0 <= m_selectionRefs m)%Z ->
      markerHighlighted m = (0 <? m_selectionRefs m)%Z ->
      (0 <= m_selectionRefs m' <= m_selectionRefs m)%Z
      /\ markerHighlighted m' = (0 <? m_selectionRefs m')%Z).

(** Two markers in the same selection state: filtered or not, the count,
    and the overlay. *)
Definition sameSelection (m m' : Marker) : Prop :=
  m_isFiltered m' = m_isFiltered m
  /\ m_selectionRefs m' = m_selectionRefs m
  /\ markerHighlighted m' = markerHighlighted m.

(** Two states of the page that differ at most in what their markers
    record besides the selection state. *)
Definition sameButColours (s s' : State) : Prop :=
  registry s' = registry s
  /\ blocksIndex s' = blocksIndex s
  /\ currentZoomScale s' = currentZoomScale s
  /\ colorScalingEnabled s' = colorScalingEnabled s
  /\ blockColorScalingEnabled s' = blockColorScalingEnabled s
  /\ buildingRows s' = buildingRows s
  /\ blockRows s' = blockRows s
  /\ landlordRows s' = landlordRows s
  /\ related sameSelection (markers s) (markers s').

(** ** The summary bar

    The bar is no part of the state: what it shows is a function of the rows
    of the buildings table. *)

Section SummaryBarModel.
(** [Number(text)] for a string: [None] when the result is not finite. *)
Variable toNumber : string -> option Q.

(** [Number(row.getAttribute(name))]: a missing attribute is [null], and
    [Number(null)] is 0. *)
Definition numberOfAttribute (row : Row) (name : string) : option Q :=
  match getAttribute row name with
  | None => Some 0%Q
  | Some text => toNumber text
  end.

(** The rows the bar totals (lines 714-721): the checked rows if there are
    any, the rows that are not hidden otherwise. *)
Definition summaryTargets (allRows : list Row) : list Row :=
  let selectedRows := List.filter isChecked allRows in
  if (0 <? length selectedRows)%nat then selectedRows
  else List.filter (fun row => negb (hidden row)) allRows.

(** What the bar shows, before the numbers are formatted. *)
Record SummaryBar := {
  sb_label : string;
  sb_units : Q;
  sb_members : Q;
  sb_rows : nat
}.

(** [updateSummaryBar] (lines 712-735) on a page that has the four elements
    of the bar. *)
Definition updateSummaryBar (allRows : list Row) : SummaryBar :=
  let selectedRows := List.filter isChecked allRows in
  let targetRows := summaryTargets allRows in
  let label := if (0 <? length selectedRows)%nat
               then "Totals (selected)" else "Totals (visible)" in
  let sums :=
    fold_left
      (fun (acc : Q * Q) row =>
         let units := numberOfAttribute row "data-units" in
         let members := numberOfAttribute row "data-member-total" in
         let acc := match units with
                    | Some u => (fst acc + u, snd acc)%Q
                    | None => acc
                    end in
         match members with
         | Some v => (fst acc, snd acc + v)%Q
         | None => acc
         end)
      targetRows (0%Q, 0%Q) in
  {| sb_label := label; sb_units := fst sums; sb_members := snd sums;
     sb_rows := length targetRows |}.

End SummaryBarModel.

(** ** The metric sliders *)

(** [Math.round]: to the nearest integer, halves upwards. *)
Definition mathRound (x : Q) : Q := inject_Z (Qfloor (x + (1 # 2))).

Section MetricLabels.
Context `{JSBuiltins}.
(** The two mappings of a control, between slider positions and values;
    [None] is a value that is not finite. *)
Variable fromSlider : Q -> option Q.
Variable toSlider : Q -> Q.

(** [parseSlider] (lines 953-958) on the text of a slider. *)
Definition parseSlider (value : string) : option Q :=
  match parseFloat value with
  | None => None
  | Some raw => fromSlider raw
  end.

(** [updateMetricLabels] (lines 947-992) for a control whose sliders hold
    [minSlider] and [maxSlider]: the control with its new [currentMin] and
    [currentMax], and the positions written back to the two sliders.  The
    labels and the histogram bars are display only. *)
Definition updateMetricLabels (isInt useLog : bool) (minSlider maxSlider : string)
    (ctrl : MetricControl) : MetricControl * (Q * Q) :=
  let summary := summary ctrl in
  let minVal := default (s_min summary) (parseSlider minSlider) in
  let maxVal := default (s_max summary) (parseSlider maxSlider) in
  let minVal := Qmax (s_min summary) (Qmin (s_max summary) minVal) in
  let maxVal := Qmax (s_min summary) (Qmin (s_max summary) maxVal) in
  let swapped := negb (Qle_bool minVal maxVal) in
  let maxVal' := if swapped && useLog then minVal else maxVal in
  let minVal' := if swapped && negb useLog then maxVal else minVal in
  let minVal := if isInt then mathRound minVal' else minVal' in
  let maxVal := if isInt then mathRound maxVal' else maxVal' in
  ({| summary := summary; currentMin := minVal; currentMax := maxVal |},
   (toSlider minVal, toSlider maxVal)).

End MetricLabels.

(** A units control from 0 to 100 with its sliders at the ends. *)
Definition sampleControl : MetricControl :=
  {| summary := {| s_min := 0; s_max := 100; s_step := None; s_attr := "units" |};
     currentMin := 0;
     currentMax := 100 |}.

(** ** The zoom scale *)

Definition BASE_ZOOM : R := 15%R.

(** [computeZoomScale] (lines 54-58) in exact real arithmetic; [None] is a
    zoom level that is not finite. *)
Definition computeZoomScale (currentZoomScale : R) (zoom : option R) : R :=
  match zoom with
  | None => currentZoomScale
  | Some zoom =>
      let scale := Rpower 1.2 (zoom - BASE_ZOOM) in
      Rmin 2.4 (Rmax 0.35 scale)
  end.

(** ** CSV fields *)

Definition quoteChar : ascii := "034"%char.
Definition commaChar : ascii := ","%char.
Definition newlineChar : ascii := "010"%char.
Definition returnChar : ascii := "013"%char.

(** The test of line 259: the text holds a quote, a comma, a line feed or a
    carriage return. *)
Fixpoint needsQuoting (text : string) : bool :=
  match text with
  | EmptyString => false
  | String c rest =>
      Ascii.eqb c quoteChar || Ascii.eqb c commaChar || Ascii.eqb c newlineChar
      || Ascii.eqb c returnChar || needsQuoting rest
  end.

(** The replacement of line 260: every quote is doubled. *)
Fixpoint doubleQuotes (text : string) : string :=
  match text with
  | EmptyString => EmptyString
  | String c rest =>
      if Ascii.eqb c quoteChar
      then String quoteChar (String quoteChar (doubleQuotes rest))
      else String c (doubleQuotes rest)
  end.

(** [escapeCSV] (lines 248-263) on [null] or [undefined] ([None]) and on a
    value whose text [String(normalized)] is given. *)
Definition escapeCSV (value : option string) : string :=
  match value with
  | None => ""
  | Some text =>
      if needsQuoting text
      then String quoteChar (doubleQuotes text ++ String quoteChar EmptyString)
      else text
  end.

(** ** Marker metadata *)

(** What lines 277-283 read of a marker [window[marker_var]]: the base
    fields, [undefined] on a marker that no code has touched, and how it is
    drawn.  The map library keeps the drawn style and radius in
    [marker.options], so [options.fillColor], [options.fillOpacity] and
    [options.radius] are those of [r_style] and [r_radius]. *)
Record RawMarker := {
  r_baseColor : option string;
  r_baseOpacity : option Q;
  r_baseRadius : option Q;
  r_style : PathStyle;
  r_radius : Q;
  r_hasSetRadius : bool           (* typeof marker.setRadius === 'function' *)
}.

(** An entry of [markerMetadata].  A field of the wrong type reads as
    [None]: [base_color] and [neutral_color] are strings, [base_opacity] and
    [base_radius] numbers, [members_payload] an array, [block_id] neither
    [undefined] nor [null]. *)
Record Meta := {
  marker_var : option string;
  b_id : string;                          (* String(meta.b_id) *)
  base_color : option string;
  neutral_color : option string;
  base_opacity : option Q;
  base_radius : option Q;
  is_vtu : bool;                          (* !!meta.is_vtu *)
  members_payload : option (list MemberRecord);
  owner_key : option string;
  meta_block_id : option string           (* String(meta.block_id) *)
}.

(** Lines 277-295: the marker object after its registration. *)
Definition registerMarker (currentZoomScale : Q) (colorScalingEnabled : bool)
    (meta : Meta) (marker : RawMarker) : Marker :=
  let coloredColor :=
    orStr (default "" (base_color meta))
      (orStr (default "" (r_baseColor marker))
         (orStr (fillColor (r_style marker)) "#9e9e9e")) in
  let neutralColor := orStr (default "" (neutral_color meta)) "#9e9e9e" in
  let baseOpacity :=
    match base_opacity meta with
    | Some o => o
    | None =>
        orNum (default 0%Q (r_baseOpacity marker))
          (orNum (fillOpacity (r_style marker)) 0.35%Q)
    end in
  let baseRadius :=
    match base_radius meta with
    | Some r => r
    | None => orNum (default 0%Q (r_baseRadius marker)) (orNum (r_radius marker) 6%Q)
    end in
  let m :=
    {| m_baseColor := coloredColor; m_baseOpacity := baseOpacity;
       m_baseRadius := baseRadius; m_colorizedColor := coloredColor;
       m_neutralColor := neutralColor; m_selectionRefs := 0; m_isFiltered := false;
       m_isVtu := is_vtu meta; m_passesMembership := true;
       m_style := r_style marker; m_radius := r_radius marker;
       m_hasSetRadius := r_hasSetRadius marker |} in
  updateMarkerColorAppearance currentZoomScale colorScalingEnabled (ensureMarkerBase m).

(** A registered marker as a later entry of the metadata reads it. *)
Definition rawView (m : Marker) : RawMarker :=
  {| r_baseColor := Some (m_baseColor m); r_baseOpacity := Some (m_baseOpacity m);
     r_baseRadius := Some (m_baseRadius m);
     r_style := m_style m; r_radius := m_radius m;
     r_hasSetRadius := m_hasSetRadius m |}.

(** The four indexes; their keys are taken without an order. *)
Record Indexes := {
  ix_building : gmap string string;              (* b_id -> marker *)
  ix_owner : gmap string (list string);          (* owner_key -> markers *)
  ix_blockBuilding : gmap string (list string);  (* block_id -> b_ids *)
  ix_membership : gmap string (list MemberRecord)
}.

(** [if (arr.indexOf(x) === -1) arr.push(x)] *)
Definition pushUnique (x : string) (arr : list string) : list string :=
  if existsb (String.eqb x) arr then arr else (arr ++ [x])%list.

(** [if (!index[key]) index[key] = []; pushUnique] (lines 302-305, 310-313) *)
Definition indexPush (key x : string) (index : gmap string (list string))
    : gmap string (list string) :=
  <[key := pushUnique x (default [] (index !! key))]> index.

(** One entry of the metadata (lines 268-314): [window] holds the marker
    objects of the page, [ms] those registered so far. *)
Definition applyMeta (window : gmap string RawMarker) (currentZoomScale : Q)
    (colorScalingEnabled : bool) (acc : gmap string Marker * Indexes) (meta : Meta)
    : gmap string Marker * Indexes :=
  let '(ms, ix) := acc in
  match marker_var meta with
  | None => acc
  | Some EmptyString => acc
  | Some markerVar =>
      match window !! markerVar with
      | None => acc
      | Some raw =>
          let marker :=
            match ms !! markerVar with
            | Some m => rawView m
            | None => raw
            end in
          let key := b_id meta in
          let m := registerMarker currentZoomScale colorScalingEnabled meta marker in
          let owners :=
            match owner_key meta with
            | None => ix_owner ix
            | Some EmptyString => ix_owner ix
            | Some ownerKey => indexPush ownerKey markerVar (ix_owner ix)
            end in
          let blocks :=
            match meta_block_id meta with
            | None => ix_blockBuilding ix
            | Some blockKey => indexPush blockKey key (ix_blockBuilding ix)
            end in
          (<[markerVar := m]> ms,
           {| ix_building := <[key := markerVar]> (ix_building ix);
              ix_owner := owners;
              ix_blockBuilding := blocks;
              ix_membership :=
                <[key := default [] (members_payload meta)]> (ix_membership ix) |})
      end
  end.

Definition emptyIndexes : Indexes :=
  {| ix_building := ∅; ix_owner := ∅; ix_blockBuilding := ∅; ix_membership := ∅ |}.

(** [applyMarkerMetadata] (lines 265-316) on the array [markerMetadata],
    from the empty indexes of lines 42-46. *)
Definition applyMarkerMetadata (window : gmap string RawMarker) (currentZoomScale : Q)
    (colorScalingEnabled : bool) (markerMetadata : list Meta)
    : gmap string Marker * Indexes :=
  fold_left (applyMeta window currentZoomScale colorScalingEnabled) markerMetadata
    (∅, emptyIndexes).

(** What [applyMarkerMetadata] establishes of the markers it registers and
    of the indexes, after every entry. *)
Definition registeredMarker (m : Marker) : Prop :=
  initialMarker m = true
  /\ m_passesMembership m = true
  /\ m_colorizedColor m <> ""
  /\ m_neutralColor m <> "".

Definition indexesConsistent (window : gmap string RawMarker)
    (ms : gmap string Marker) (ix : Indexes) : Prop :=
  map_Forall (fun _ m => registeredMarker m) ms
  /\ (forall v, is_Some (ms !! v) -> is_Some (window !! v))
  /\ (forall bid v, ix_building ix !! bid = Some v -> is_Some (ms !! v))
  /\ (forall owner l, ix_owner ix !! owner = Some l ->
        List.NoDup l /\ l <> [] /\ forall v, In v l -> is_Some (ms !! v))
  /\ (forall block l, ix_blockBuilding ix !! block = Some l ->
        List.NoDup l /\ l <> [] /\ forall bid, In bid l -> is_Some (ix_building ix !! bid))
  /\ (forall bid, is_Some (ix_membership ix !! bid) <-> is_Some (ix_building ix !! bid)).

(** [collectSelectedBuildingIds] (lines 237-246): the building ids whose
    marker is not filtered and has a positive count, in the order of the
    keys of [buildingIndex]. *)
Definition collectSelectedBuildingIds (s : State) : list string :=
  List.filter
    (fun key =>
       match objGet (buildingIndex (registry s)) key with
       | Some marker =>
           match markers s !! marker with
           | Some m => negb (m_isFiltered m) && (0 <? m_selectionRefs m)%Z
           | None => false
           end
       | None => false
       end)
    (map fst (buildingIndex (registry s))).

(** ** What the page is made of *)

(** What of a row no handler writes: its attributes, and the type and the
    target of its checkbox. *)
Definition rowShape (row : Row) : list (string * string) * option (string * string) :=
  (attributes row,
   match checkbox row with
   | Some cb => Some (data_type cb, data_target cb)
   | None => None
   end).

Record PageShape := {
  ps_registry : Registry;
  ps_buildingRows : list (list (string * string) * option (string * string));
  ps_blockRows : list (list (string * string) * option (string * string));
  ps_landlordRows : list (list (string * string) * option (string * string))
}.

Definition pageShape (s : State) : PageShape :=
  {| ps_registry := registry s;
     ps_buildingRows := map rowShape (buildingRows s);
     ps_blockRows := map rowShape (blockRows s);
     ps_landlordRows := map rowShape (landlordRows s) |}.

(** What of a marker the metadata fixes, and whether the marker has
    [setRadius]. *)
Definition markerData (m : Marker) : Q * Q * string * string * bool * bool :=
  (m_baseOpacity m, m_baseRadius m, m_colorizedColor m, m_neutralColor m, m_isVtu m,
   m_hasSetRadius m).

(** ** Counting the checked boxes *)

(** [selectionTargets] by the registry alone. *)
Definition registryTargets (r : Registry) (cb : Checkbox) : list string :=
  if String.eqb (data_type cb) "building" then
    match objGet (buildingIndex r) (data_target cb) with
    | Some marker => [marker]
    | None => []
    end
  else if String.eqb (data_type cb) "block" then
    markersOfIds r (default [] (objGet (blockBuildingIndex r) (data_target cb)))
  else if String.eqb (data_type cb) "owner" then
    default [] (objGet (ownerIndex r) (data_target cb))
  else [].

(** How often a row selects the marker [loc]: not at all unless its box is
    checked. *)
Definition rowWeight (r : Registry) (loc : string) (row : Row) : nat :=
  match checkbox row with
  | Some cb => if checked cb then count_occ string_dec (registryTargets r cb) loc else 0%nat
  | None => 0%nat
  end.

(** The box adjusts the layer [k] (line 394). *)
Definition selectsLayer (cb : Checkbox) (k : string) : bool :=
  negb (String.eqb (data_type cb) "building") && String.eqb (data_type cb) "block"
  && String.eqb (data_target cb) k.

Definition layerWeight (k : string) (row : Row) : nat :=
  match checkbox row with
  | Some cb => if checked cb && selectsLayer cb k then 1%nat else 0%nat
  | None => 0%nat
  end.

(** A sum over the rows of the three tables. *)
Definition pageSum (f : Row -> nat) (s : State) : nat :=
  (list_sum (map f (buildingRows s)) + list_sum (map f (blockRows s))
   + list_sum (map f (landlordRows s)))%nat.

(** How often the checked boxes of the page select a marker, and how many
    of them select a block layer. *)
Definition markerBound (s : State) (loc : string) : nat :=
  pageSum (rowWeight (registry s) loc) s.

Definition layerBound (s : State) (k : string) : nat := pageSum (layerWeight k) s.

Definition countsBounded (s : State) : Prop :=
  (forall loc m, markers s !! loc = Some m ->
     (m_selectionRefs m <= Z.of_nat (markerBound s loc))%Z)
  /\ (forall k l, blocksIndex s !! k = Some l ->
        (l_selectionRefs l <= Z.of_nat (layerBound s k))%Z).

(** A row as the page generator writes it: its checkbox, if it has one, has
    the type of its table and as target the id the row carries. *)
Definition wellFormedRow (typ idAttr : string) (row : Row) : Prop :=
  forall cb, checkbox row = Some cb ->
    data_type cb = typ /\ getAttribute row idAttr = Some (data_target cb).

Definition wellFormedPage (s : State) : Prop :=
  Forall (wellFormedRow "building" "data-bid") (buildingRows s)
  /\ Forall (wellFormedRow "block" "data-block") (blockRows s)
  /\ Forall (wellFormedRow "owner" "data-owner") (landlordRows s).

Definition noneChecked (s : State) : Prop :=
  forall row, In row (buildingRows s ++ blockRows s ++ landlordRows s)%list ->
              isChecked row = false.

(** The row after a pass: the same attributes and the same box, checked only
    if it was. *)
Definition keptRow (row row' : Row) : Prop :=
  rowShape row' = rowShape row /\ (isChecked row' = true -> isChecked row = true).

(** The three hover events. *)
Definition isHover (e : Event) : bool :=
  match e with
  | EvBuildingHover _ _ | EvBlockHover _ _ | EvOwnerHover _ _ => true
  | _ => false
  end.

(** What a hover leaves of a marker and of a layer: the count and the
    filtered flag, and everything if the object is filtered. *)
Definition hoverKeepsMarker (m m' : Marker) : Prop :=
  m_selectionRefs m' = m_selectionRefs m
  /\ m_isFiltered m' = m_isFiltered m
  /\ m_baseColor m' = m_baseColor m
  /\ (m_isFiltered m = true -> m' = m).

Definition hoverKeepsLayer (l l' : Layer) : Prop :=
  l_selectionRefs l' = l_selectionRefs l
  /\ l_isFiltered l' = l_isFiltered l
  /\ (l_isFiltered l = true -> l' = l).

(** * Properties *)

(** ** Reference counts *)

Lemma adjustMarkerSelection_refs zoom delta m :
  m_selectionRefs (adjustMarkerSelection zoom delta m)
  = Z.max 0 (m_selectionRefs m + delta).
Proof.
  unfold adjustMarkerSelection, highlightMarker, ensureMarkerBase.
  destruct (m_selectionRefs m + delta <? 0)%Z eqn:E; simpl;
    destruct (m_isFiltered m); simpl;
    destruct (m_hasSetRadius m); simpl;
    try (destruct (0 <? m_selectionRefs m + delta)%Z); simpl; lia.
Qed.

Lemma adjustBlockSelection_refs enabled mx delta layer :
  l_selectionRefs (adjustBlockSelection enabled mx delta layer)
  = Z.max 0 (l_selectionRefs layer + delta).
Proof.
  unfold adjustBlockSelection, highlightBlock, resetBlockStyle.
  destruct (l_selectionRefs layer + delta <? 0)%Z eqn:E; simpl;
    destruct (l_isFiltered layer); simpl;
    try (destruct (0 <? l_selectionRefs layer + delta)%Z); simpl; lia.
Qed.

Lemma adjustTrace_nonneg {A : Type} (adjust : Z -> A -> A) (refs : A -> Z) :
  (forall d x, (0 <= refs (adjust d x))%Z) ->
  forall deltas x, Forall (fun x' => (0 <= refs x')%Z) (adjustTrace adjust deltas x).
Proof.
  intros Hadj deltas. induction deltas as [|d rest IH]; intros x; simpl.
  - constructor.
  - constructor; [apply Hadj | apply IH].
Qed.

(** C4. After each call of any sequence of [adjust] calls with deltas +1 or
    -1, on a marker as on a block layer, the reference count is not
    negative; the count a call leaves is the old count plus the delta,
    raised to zero when that sum is negative. *)
Theorem selection_refs_never_negative :
  forall (zoom : Q) (enabled : bool) (blockColorMax : Q) (deltas : list Z)
         (m : Marker) (layer : Layer),
    Forall (fun d => d = 1%Z \/ d = (-1)%Z) deltas ->
    Forall (fun m' => (0 <= m_selectionRefs m')%Z)
           (adjustTrace (adjustMarkerSelection zoom) deltas m)
    /\ Forall (fun l' => (0 <= l_selectionRefs l')%Z)
              (adjustTrace (adjustBlockSelection enabled blockColorMax) deltas layer)
    /\ (forall d, In d deltas ->
          ((m_selectionRefs m + d < 0)%Z ->
             m_selectionRefs (adjustMarkerSelection zoom d m) = 0%Z)
          /\ ((0 <= m_selectionRefs m + d)%Z ->
                m_selectionRefs (adjustMarkerSelection zoom d m)
                = (m_selectionRefs m + d)%Z)
          /\ ((l_selectionRefs layer + d < 0)%Z ->
                l_selectionRefs (adjustBlockSelection enabled blockColorMax d layer) = 0%Z)
          /\ ((0 <= l_selectionRefs layer + d)%Z ->
                l_selectionRefs (adjustBlockSelection enabled blockColorMax d layer)
                = (l_selectionRefs layer + d)%Z)).
Proof.
  intros zoom enabled mx deltas m layer _.
  split; [|split].
  - apply adjustTrace_nonneg. intros d x. rewrite adjustMarkerSelection_refs. lia.
  - apply adjustTrace_nonneg. intros d x. rewrite adjustBlockSelection_refs. lia.
  - intros d _. rewrite adjustMarkerSelection_refs, adjustBlockSelection_refs.
    repeat split; lia.
Qed.

Lemma selection_refs_never_negative_witness :
  Forall (fun m' => (0 <= m_selectionRefs m')%Z)
         (adjustTrace (adjustMarkerSelection 1) [1; -1; -1]%Z sampleMarker)
  /\ m_selectionRefs (adjustMarkerSelection 1 (-1) sampleMarker) = 0%Z.
Proof.
  assert (Hd : Forall (fun d => d = 1%Z \/ d = (-1)%Z) [1; -1; -1]%Z).
  { constructor; [left; reflexivity|].
    constructor; [right; reflexivity|].
    constructor; [right; reflexivity|]. constructor. }
  destruct (selection_refs_never_negative 1 true 200 [1; -1; -1]%Z sampleMarker
              (sampleLayer 50) Hd) as (Hm & _ & Hclamp).
  split; [exact Hm|].
  destruct (Hclamp (-1)%Z) as (Hzero & _).
  - right. left. reflexivity.
  - apply Hzero. reflexivity.
Defined.

(** ** Membership sub-rule *)

Lemma length_pos_cons {A : Type} (l : list A) :
  (0 <? length l)%nat = match l with [] => false | _ :: _ => true end.
Proof. destruct l; reflexivity. Qed.

(** C5. [matchesFilters] is the membership rule of the specification: it
    passes when neither membership nor a minimum year is asked for, and
    otherwise exactly when a record is left after narrowing by the member
    tag (if membership is required) and then by a non-null year at or above
    the minimum (if a minimum year is set).  The two scenarios of the
    specification are instances. *)
Theorem matchesFilters_membership_rule :
  (forall (records : list MemberRecord) (requireMembership : bool) (minYear : option Z),
     matchesFilters records
       {| requireMember := requireMembership; minYear := yearOpt minYear |}
     = membershipRule requireMembership minYear records)
  /\ (forall records, membershipRule false None records = true)
  /\ (forall requireMembership minYear records,
        (requireMembership = true \/ minYear <> None) ->
        (membershipRule requireMembership minYear records = true
         <-> narrowedRecords requireMembership minYear records <> []))
  /\ matchesFilters
       [{| has_member_tag := true; latest_membership_year := Some 2019%Z |}]
       {| requireMember := true; minYear := YNum 2020 |} = false
  /\ matchesFilters
       [{| has_member_tag := true; latest_membership_year := Some 2019%Z |}]
       {| requireMember := true; minYear := YNum 2018 |} = true.
Proof.
  split; [|split; [|split; [|split]]]; try reflexivity.
  - intros records rm my.
    unfold matchesFilters, membershipRule, narrowedRecords; simpl.
    destruct rm, my as [y|]; simpl; rewrite ?length_pos_cons;
      destruct records as [|r rest]; try reflexivity.
  - intros rm my records Hset. unfold membershipRule.
    destruct rm, my as [y|]; try (destruct Hset; congruence);
      destruct (narrowedRecords _ _ records); split; congruence.
Qed.

Lemma matchesFilters_membership_rule_witness :
  membershipRule true (Some 2018%Z) [sampleRecord] = true.
Proof.
  destruct matchesFilters_membership_rule as (_ & _ & Hiff & _).
  apply (Hiff true (Some 2018%Z) [sampleRecord]).
  - left. reflexivity.
  - discriminate.
Defined.

(** ** Choropleth shading *)

Lemma Qle_bool_false_lt (x y : Q) : Qle_bool x y = false -> (y < x)%Q.
Proof.
  intros E. apply Qnot_le_lt. intros Hle.
  apply Qle_bool_iff in Hle. congruence.
Qed.

Lemma blockRatio_bounds (units mx : Q) :
  (0 <= blockRatio units mx)%Q /\ (blockRatio units mx <= 1)%Q.
Proof.
  unfold blockRatio. split.
  - apply Q.le_max_l.
  - apply Q.max_lub; [discriminate | apply Q.le_min_l].
Qed.

Lemma blockFill_buckets (ratio : Q) :
  ((ratio <= 0.10)%Q -> blockFill ratio = "#f7fcf5")
  /\ ((0.10 < ratio)%Q -> (ratio <= 0.25)%Q -> blockFill ratio = "#e5f5e0")
  /\ ((0.25 < ratio)%Q -> (ratio <= 0.50)%Q -> blockFill ratio = "#c7e9c0")
  /\ ((0.50 < ratio)%Q -> (ratio <= 0.75)%Q -> blockFill ratio = "#74c476")
  /\ ((0.75 < ratio)%Q -> (ratio < 1)%Q -> blockFill ratio = "#31a354")
  /\ ((1 <= ratio)%Q -> blockFill ratio = "#006d2c").
Proof.
  unfold blockFill.
  destruct (Qle_bool ratio 0.10) eqn:E1;
    [apply Qle_bool_iff in E1 | apply Qle_bool_false_lt in E1];
  destruct (Qle_bool ratio 0.25) eqn:E2;
    [apply Qle_bool_iff in E2 | apply Qle_bool_false_lt in E2
    |apply Qle_bool_iff in E2 | apply Qle_bool_false_lt in E2];
  destruct (Qle_bool ratio 0.50) eqn:E3;
    try (apply Qle_bool_iff in E3); try (apply Qle_bool_false_lt in E3);
  destruct (Qle_bool ratio 0.75) eqn:E4;
    try (apply Qle_bool_iff in E4); try (apply Qle_bool_false_lt in E4);
  destruct (Qle_bool 1 ratio) eqn:E5;
    try (apply Qle_bool_iff in E5); try (apply Qle_bool_false_lt in E5);
  simpl; repeat split; intros; try reflexivity; exfalso;
  unfold Qle, Qlt in *; simpl in *; lia.
Qed.

Lemma blockRatio_le (units mx c : Q) :
  (0 <= c)%Q -> (units / mx <= c)%Q -> (blockRatio units mx <= c)%Q.
Proof.
  intros Hc Hq. unfold blockRatio. apply Q.max_lub; [exact Hc|].
  eapply Qle_trans; [apply Q.le_min_r | exact Hq].
Qed.

Lemma blockRatio_ge_one (units mx : Q) :
  (1 <= units / mx)%Q -> (1 <= blockRatio units mx)%Q.
Proof.
  intros Hq. unfold blockRatio.
  eapply Qle_trans; [|apply Q.le_max_r].
  apply Q.min_glb; [apply Qle_refl | exact Hq].
Qed.

(** C6, as the code has it.  When choropleth shading is off or the
    registry-wide maximum is not positive, a reset block gets the flat
    neutral style.  Otherwise it gets stroke weight 1, fill opacity 0.35 and
    the palette step of the ratio [units / max] clamped to [0, 1]: up to
    0.10 the lightest step (also for a ratio of zero or below), then the
    half-open buckets ending at 0.25, 0.50, 0.75 and below 1, and the
    darkest step from 1 on, also when the units exceed the maximum. *)
Theorem choropleth_fill_by_ratio :
  forall (enabled : bool) (blockColorMax : Q) (layer : Layer),
    let st := l_style (resetBlockStyle enabled blockColorMax layer) in
    let ratio := blockRatio (l_blockUnits layer) blockColorMax in
    l_baseStyle (resetBlockStyle enabled blockColorMax layer) = Some st
    /\ ((enabled = false \/ (blockColorMax <= 0)%Q) -> st = flatBlockStyle)
    /\ (enabled = true -> (0 < blockColorMax)%Q ->
        weight st = 1%Z /\ color st = Some "#b8b8b8" /\ fillOpacity st = 0.35%Q
        /\ (0 <= ratio)%Q /\ (ratio <= 1)%Q
        /\ ((ratio <= 0.10)%Q -> fillColor st = "#f7fcf5")
        /\ ((0.10 < ratio)%Q -> (ratio <= 0.25)%Q -> fillColor st = "#e5f5e0")
        /\ ((0.25 < ratio)%Q -> (ratio <= 0.50)%Q -> fillColor st = "#c7e9c0")
        /\ ((0.50 < ratio)%Q -> (ratio <= 0.75)%Q -> fillColor st = "#74c476")
        /\ ((0.75 < ratio)%Q -> (ratio < 1)%Q -> fillColor st = "#31a354")
        /\ ((1 <= ratio)%Q -> fillColor st = "#006d2c")
        /\ ((l_blockUnits layer / blockColorMax <= 0.10)%Q -> fillColor st = "#f7fcf5")
        /\ ((1 <= l_blockUnits layer / blockColorMax)%Q -> fillColor st = "#006d2c")).
Proof.
  intros enabled mx layer st ratio. subst st ratio.
  unfold resetBlockStyle, blockBaseStyle; simpl.
  split; [reflexivity|]. split.
  - intros [-> | Hle]; simpl; [reflexivity|].
    apply Qle_bool_iff in Hle. rewrite Hle, orb_true_r. reflexivity.
  - intros -> Hpos. simpl.
    assert (E : Qle_bool mx 0 = false).
    { destruct (Qle_bool mx 0) eqn:E; [|reflexivity].
      apply Qle_bool_iff in E. exfalso. eapply Qlt_not_le; eauto. }
    rewrite E. simpl.
    pose proof (blockFill_buckets (blockRatio (l_blockUnits layer) mx))
      as (B1 & B2 & B3 & B4 & B5 & B6).
    pose proof (blockRatio_bounds (l_blockUnits layer) mx) as [R0 R1].
    repeat split; try assumption.
    + intros Hq. apply B1. apply blockRatio_le; [discriminate | exact Hq].
    + intros Hq. apply B6. apply blockRatio_ge_one. exact Hq.
Qed.

Lemma choropleth_fill_by_ratio_witness :
  fillColor (l_style (resetBlockStyle true 200 (sampleLayer 50))) = "#e5f5e0"
  /\ l_style (resetBlockStyle true 0 (sampleLayer 50)) = flatBlockStyle.
Proof.
  split.
  - destruct (choropleth_fill_by_ratio true 200 (sampleLayer 50))
      as (_ & _ & Hon).
    destruct (Hon eq_refl eq_refl) as (_ & _ & _ & _ & _ & _ & H2 & _).
    apply H2; reflexivity || discriminate.
  - destruct (choropleth_fill_by_ratio true 0 (sampleLayer 50))
      as (_ & Hflat & _).
    apply Hflat. right. discriminate.
Defined.

(** C6, the claim as written fails: a block with no units in a registry
    whose maximum is 200 has ratio 0 and gets the lightest palette step at
    fill opacity 0.35, not the flat neutral style. *)
Lemma choropleth_zero_ratio_not_flat :
  (blockRatio (l_blockUnits (sampleLayer 0)) 200 <= 0)%Q
  /\ l_style (resetBlockStyle true 200 (sampleLayer 0))
     = {| weight := 1; color := Some "#b8b8b8"; fillOpacity := 0.35;
          fillColor := "#f7fcf5" |}
  /\ l_style (resetBlockStyle true 200 (sampleLayer 0)) <> flatBlockStyle.
Proof.
  split; [discriminate|]. split; [reflexivity|]. discriminate.
Qed.

(** ** Neighbourhood and metric sub-rules *)

Section FilterRules.
Context `{JSBuiltins}.

Lemma includes_In (x : string) (l : list string) :
  existsb (String.eqb x) l = true <-> In x l.
Proof.
  rewrite existsb_exists. split.
  - intros (y & Hin & Heq). apply String.eqb_eq in Heq. subst. exact Hin.
  - intros Hin. exists x. split; [exact Hin | apply String.eqb_refl].
Qed.

Lemma selectedHoods_nil (ui : FilterUI) :
  selectedHoods ui = [] <-> List.filter h_checked (hoodInputs ui) = [].
Proof.
  unfold selectedHoods. destruct (List.filter h_checked (hoodInputs ui)); simpl.
  - tauto.
  - split; discriminate.
Qed.

(** C7. The neighbourhood verdict of a row: with neighbourhood options on
    the page and none checked, no row passes; with some checked, a row
    passes exactly when its area, lower-cased and trimmed, is among the
    lower-cased and trimmed values of the checked options; with no
    options on the page, every row passes. *)
Theorem neighbourhood_rule :
  forall (ui : FilterUI) (row : Row),
    let area := trim (toLowerCase (default "" (getAttribute row "data-area"))) in
    let chosen := List.filter h_checked (hoodInputs ui) in
    (hoodInputs ui <> [] -> chosen = [] -> hoodMatches ui row = false)
    /\ (chosen <> [] ->
        (hoodMatches ui row = true
         <-> In area (map (fun inp => trim (toLowerCase (h_value inp))) chosen)))
    /\ (hoodInputs ui = [] -> hoodMatches ui row = true).
Proof.
  intros ui row area chosen. subst area chosen.
  unfold hoodMatches. split; [|split].
  - intros Hsome Hnone.
    apply selectedHoods_nil in Hnone. rewrite Hnone. simpl.
    destruct (hoodInputs ui); [congruence | reflexivity].
  - intros Hchosen.
    assert (Hsel : selectedHoods ui <> []).
    { intros E. apply selectedHoods_nil in E. congruence. }
    fold (selectedHoods ui).
    destruct (hoodInputs ui) as [|inp inputs] eqn:Ei.
    { simpl in Hchosen. congruence. }
    destruct (selectedHoods ui) as [|h hs] eqn:Es; [congruence|].
    cbn [length Nat.ltb Nat.leb andb]. apply includes_In.
  - intros Hnone. rewrite Hnone. reflexivity.
Qed.

Lemma metricsMatch_forallb (row : Row) (thresholds : list Threshold) :
  metricsMatch row thresholds = forallb (metricPasses row) thresholds.
Proof.
  induction thresholds as [|th rest IH]; simpl; [reflexivity|].
  unfold metricPasses at 1.
  destruct (metricValue row th) as [value|]; simpl; [|exact IH].
  destruct (belowMin th value); simpl; [reflexivity|].
  destruct (aboveMax th value); simpl; [reflexivity | exact IH].
Qed.

Lemma filterOpts_year_unparsed (ui : FilterUI) (value : string) :
  yearToggle ui = Some true -> yearSlider ui = Some value ->
  parseInt10 value = None ->
  filterOpts ui = filterOpts (yearOff ui).
Proof.
  intros Ht Hs Hp. unfold filterOpts, yearOff; simpl.
  rewrite Ht, Hs, Hp. reflexivity.
Qed.

Lemma filterBuildingRows_opts (r : Registry) (zoom : Q) (colorize : bool)
    (ui ui' : FilterUI) :
  filterOpts ui = filterOpts ui' ->
  (forall row, rowMatches ui row = rowMatches ui' row) ->
  forall rows ms visible,
    filterBuildingRows r zoom colorize ui rows ms visible
    = filterBuildingRows r zoom colorize ui' rows ms visible.
Proof.
  intros Ho Hm rows. induction rows as [|row rest IH]; intros ms visible; simpl.
  - reflexivity.
  - rewrite Ho, Hm, IH. reflexivity.
Qed.

(** C8. A row whose attribute for a metric is absent, empty or not a
    number passes the check of that metric, and the metric loop goes on to
    the remaining metrics; the loop is the conjunction of the checks.  A
    year slider value that does not parse as an integer leaves
    [opts.minYear] null: the pass runs as with the year toggle off. *)
Theorem unparsed_values_do_not_constrain :
  (forall (row : Row) (th : Threshold) (rest : list Threshold),
     (getAttribute row ("data-" ++ s_attr (t_summary th)) = None
      \/ getAttribute row ("data-" ++ s_attr (t_summary th)) = Some ""
      \/ exists raw, getAttribute row ("data-" ++ s_attr (t_summary th)) = Some raw
                     /\ parseFloat raw = None) ->
     metricPasses row th = true
     /\ metricsMatch row (th :: rest) = metricsMatch row rest)
  /\ (forall row thresholds,
        metricsMatch row thresholds = forallb (metricPasses row) thresholds)
  /\ (forall (ui : FilterUI) (value : string),
        yearToggle ui = Some true -> yearSlider ui = Some value ->
        parseInt10 value = None ->
        minYear (filterOpts ui) = YNull
        /\ (forall records,
              matchesFilters records (filterOpts ui)
              = matchesFilters records (filterOpts (yearOff ui)))
        /\ (forall s, applyFilters ui s = applyFilters (yearOff ui) s)).
Proof.
  split; [|split].
  - intros row th rest Hmissing.
    assert (Hv : metricValue row th = None).
    { unfold metricValue.
      destruct Hmissing as [-> | [-> | (raw & -> & Hraw)]]; try reflexivity.
      destruct raw; [reflexivity | exact Hraw]. }
    unfold metricPasses. simpl. rewrite Hv. split; reflexivity.
  - apply metricsMatch_forallb.
  - intros ui value Ht Hs Hp.
    pose proof (filterOpts_year_unparsed ui value Ht Hs Hp) as Ho.
    split; [|split].
    + unfold filterOpts. rewrite Ht, Hs, Hp. reflexivity.
    + intros records. rewrite Ho. reflexivity.
    + intros s. unfold applyFilters.
      rewrite (filterBuildingRows_opts _ _ _ ui (yearOff ui) Ho); [reflexivity|].
      intros row. reflexivity.
Qed.

End FilterRules.

Lemma neighbourhood_rule_witness :
  hoodMatches (sampleUI true false)
    (sampleRow "data-bid" "b1"
       [("data-area", "West End"); ("data-owner", "acme")] "building") = true
  /\ hoodMatches (sampleUI false false)
       (sampleRow "data-bid" "b1"
          [("data-area", "West End"); ("data-owner", "acme")] "building") = false.
Proof.
  split.
  - destruct (neighbourhood_rule (sampleUI true false)
                (sampleRow "data-bid" "b1"
                   [("data-area", "West End"); ("data-owner", "acme")] "building"))
      as (_ & Hsome & _).
    apply Hsome; [discriminate | left; reflexivity].
  - destruct (neighbourhood_rule (sampleUI false false)
                (sampleRow "data-bid" "b1"
                   [("data-area", "West End"); ("data-owner", "acme")] "building"))
      as (Hnone & _ & _).
    apply Hnone; [discriminate | reflexivity].
Defined.

Lemma unparsed_values_do_not_constrain_witness :
  metricsMatch sampleRowNoUnits [sampleThreshold] = true
  /\ minYear (filterOpts sampleUIBadYear) = YNull.
Proof.
  destruct unparsed_values_do_not_constrain as (Hmetric & _ & Hyear).
  split.
  - destruct (Hmetric sampleRowNoUnits sampleThreshold []) as [_ Hloop].
    + right. right. exists "n/a". split; reflexivity.
    + rewrite Hloop. reflexivity.
  - destruct (Hyear sampleUIBadYear "any" eq_refl eq_refl eq_refl) as [Hnull _].
    exact Hnull.
Defined.

(** ** Logarithmic slider mapping *)

Section LogSlider.
Local Open Scope R_scope.

Lemma Rltb_true (x y : R) : Rltb x y = true <-> x < y.
Proof. unfold Rltb. destruct (Rlt_dec x y); split; intros; lra || congruence. Qed.

Lemma Rleb_true (x y : R) : Rleb x y = true <-> x <= y.
Proof. unfold Rleb. destruct (Rle_dec x y); split; intros; lra || congruence. Qed.

Lemma Rleb_false (x y : R) : Rleb x y = false <-> y < x.
Proof. unfold Rleb. destruct (Rle_dec x y); split; intros; lra || congruence. Qed.

Lemma Reqb_true (x y : R) : Reqb x y = true <-> x = y.
Proof. unfold Reqb. destruct (Req_dec_T x y); split; intros; congruence. Qed.

Lemma Reqb_false (x y : R) : Reqb x y = false <-> x <> y.
Proof. unfold Reqb. destruct (Req_dec_T x y); split; intros; congruence. Qed.

Variable summary : MetricSummary.
Variable p : R.
Hypothesis Hmapped : logMapped summary = true.
Hypothesis Hp : positiveMin summary = Some p.

Lemma logMapped_useLog : useLog summary = true.
Proof.
  pose proof Hmapped as Hm. unfold logMapped in Hm.
  apply andb_true_iff in Hm. tauto.
Qed.

Lemma positiveMin_pos : 0 < p.
Proof.
  pose proof Hp as Hq. unfold positiveMin in Hq.
  destruct (ms_min_positive summary) as [q|]; [|discriminate].
  destruct (Rltb 0 q) eqn:E; [|discriminate].
  apply Rltb_true in E. congruence.
Qed.

Lemma logMin_eq : logMin summary = ln p.
Proof. unfold logMin. rewrite Hp, logMapped_useLog. reflexivity. Qed.

Lemma logMax_raw : logMax summary = ln (Rmax (ms_max summary) p).
Proof. unfold logMax. rewrite Hp, logMapped_useLog. reflexivity. Qed.

Lemma positiveMin_lt_max : p < ms_max summary.
Proof.
  pose proof positiveMin_pos as Hpos.
  pose proof Hmapped as Hm. unfold logMapped in Hm. apply andb_true_iff in Hm.
  destruct Hm as [_ Hne]. apply negb_true_iff, Reqb_false in Hne.
  rewrite logMax_raw, logMin_eq in Hne.
  destruct (Rle_lt_dec (ms_max summary) p) as [Hle|Hlt]; [|exact Hlt].
  exfalso. apply Hne. rewrite Rmax_right by exact Hle. reflexivity.
Qed.

Lemma logMax_eq : logMax summary = ln (ms_max summary).
Proof.
  rewrite logMax_raw. rewrite Rmax_left; [reflexivity|].
  pose proof positiveMin_lt_max. lra.
Qed.

Lemma log_span_pos : 0 < logMax summary - logMin summary.
Proof.
  rewrite logMax_eq, logMin_eq.
  pose proof positiveMin_pos. pose proof positiveMin_lt_max.
  pose proof (ln_increasing p (ms_max summary)). lra.
Qed.

Lemma fromSlider_in_range (pos : R) :
  0 <= pos <= 100 ->
  fromSlider summary pos
  = if Reqb pos 0 && Rleb (ms_min summary) 0 then ms_min summary
    else exp (logMin summary + pos / 100 * (logMax summary - logMin summary)).
Proof.
  intros [H0 H100]. unfold fromSlider. rewrite Hmapped.
  assert (Hr : Rmin 1 (Rmax 0 (pos / 100)) = pos / 100).
  { rewrite Rmax_right by lra. rewrite Rmin_right by lra. reflexivity. }
  rewrite Hr.
  assert (Hz : Reqb (pos / 100) 0 = Reqb pos 0).
  { destruct (Reqb pos 0) eqn:E.
    - apply Reqb_true in E. apply Reqb_true. lra.
    - apply Reqb_false in E. apply Reqb_false. lra. }
  rewrite Hz. reflexivity.
Qed.

Lemma toSlider_nonpositive (value : R) : value <= 0 -> toSlider summary value = 0.
Proof.
  intros Hv. unfold toSlider. rewrite Hp, Hmapped.
  apply Rleb_true in Hv. rewrite Hv. reflexivity.
Qed.

Lemma toSlider_in_range (value : R) :
  p <= value <= ms_max summary ->
  toSlider summary value
  = (ln value - logMin summary) / (logMax summary - logMin summary) * 100.
Proof.
  intros [Hlo Hhi]. pose proof positiveMin_pos as Hpos.
  unfold toSlider. rewrite Hp, Hmapped.
  assert (Hv : Rleb value 0 = false) by (apply Rleb_false; lra).
  rewrite Hv. rewrite Rmin_left by lra. rewrite Rmax_right by lra. reflexivity.
Qed.

Lemma exp_between (ratio : R) :
  0 <= ratio <= 1 ->
  p <= exp (logMin summary + ratio * (logMax summary - logMin summary))
    <= ms_max summary.
Proof.
  intros [H0 H1]. pose proof positiveMin_pos as Hpos.
  pose proof positiveMin_lt_max as Hlt. pose proof log_span_pos as Hspan.
  assert (HM : 0 < ms_max summary) by lra.
  pose proof logMin_eq as Ea. pose proof logMax_eq as Eb.
  set (a := logMin summary) in *. set (b := logMax summary) in *.
  assert (Hlo : a <= a + ratio * (b - a)) by nra.
  assert (Hhi : a + ratio * (b - a) <= b) by nra.
  assert (Hpa : p = exp a) by (rewrite Ea, exp_ln; auto).
  assert (HMb : ms_max summary = exp b) by (rewrite Eb, exp_ln; auto).
  rewrite Hpa, HMb. split.
  - destruct (Req_dec a (a + ratio * (b - a))) as [E|Hne].
    + rewrite <- E. lra.
    + left. apply exp_increasing. lra.
  - destruct (Req_dec (a + ratio * (b - a)) b) as [E|Hne].
    + rewrite E. lra.
    + left. apply exp_increasing. lra.
Qed.

Lemma toSlider_fromSlider (pos : R) :
  0 <= pos <= 100 -> toSlider summary (fromSlider summary pos) = pos.
Proof.
  intros Hpos. pose proof log_span_pos as Hspan.
  rewrite fromSlider_in_range by exact Hpos.
  destruct (Reqb pos 0 && Rleb (ms_min summary) 0) eqn:E.
  - apply andb_true_iff in E. destruct E as [Ez Em].
    apply Reqb_true in Ez. apply Rleb_true in Em.
    rewrite toSlider_nonpositive by exact Em. lra.
  - assert (Hr : 0 <= pos / 100 <= 1) by lra.
    rewrite toSlider_in_range by (apply exp_between; exact Hr).
    rewrite ln_exp. field. lra.
Qed.

Lemma fromSlider_toSlider (x : R) :
  p <= x <= ms_max summary ->
  ~ (x = p /\ ms_min summary <= 0) ->
  fromSlider summary (toSlider summary x) = x.
Proof.
  intros [Hlo Hhi] Hnot. pose proof log_span_pos as Hspan.
  pose proof positiveMin_pos as Hpos.
  rewrite toSlider_in_range by lra.
  set (r := (ln x - logMin summary) / (logMax summary - logMin summary)).
  assert (Hln : ln p <= ln x <= ln (ms_max summary)).
  { split.
    - destruct (Req_dec p x) as [->|Hne]; [lra|].
      left. apply ln_increasing; lra.
    - destruct (Req_dec x (ms_max summary)) as [->|Hne]; [lra|].
      left. apply ln_increasing; lra. }
  rewrite <- logMin_eq, <- logMax_eq in Hln.
  assert (Hr : 0 <= r <= 1).
  { unfold r. split.
    - apply Rmult_le_pos; [lra|]. left. apply Rinv_0_lt_compat. exact Hspan.
    - apply Rmult_le_reg_r with (r := logMax summary - logMin summary); [exact Hspan|].
      unfold Rdiv. rewrite Rmult_assoc, Rinv_l by lra. lra. }
  rewrite fromSlider_in_range by lra.
  assert (Hcase : Reqb (r * 100) 0 && Rleb (ms_min summary) 0 = false).
  { destruct (Reqb (r * 100) 0) eqn:Ez; [|reflexivity].
    destruct (Rleb (ms_min summary) 0) eqn:Em; [|reflexivity].
    exfalso. apply Hnot. apply Reqb_true in Ez. apply Rleb_true in Em.
    split; [|exact Em].
    assert (Hr0 : r = 0) by lra.
    assert (Hx : ln x = logMin summary).
    { unfold r in Hr0. unfold Rdiv in Hr0.
      apply Rmult_integral in Hr0. destruct Hr0 as [Hr0|Hr0]; [lra|].
      exfalso. pose proof (Rinv_0_lt_compat _ Hspan). lra. }
    rewrite logMin_eq in Hx. apply ln_inv in Hx; lra. }
  rewrite Hcase.
  replace (logMin summary + r * 100 / 100 * (logMax summary - logMin summary))
    with (ln x).
  - apply exp_ln. lra.
  - unfold r. field. lra.
Qed.

End LogSlider.

(** C9, as the code has it, in exact real arithmetic.  For a metric with
    the logarithmic mapping, smallest positive value [p] and maximum [M]
    (then [p < M]): a position in [0, 100] maps to
    [exp (logMin + (pos / 100) * (logMax - logMin))], except that position 0
    maps to the metric's minimum when that minimum is not positive; a value
    at or below zero maps to position 0 and a value in [p, M] to
    [100 * (ln v - logMin) / (logMax - logMin)]; going from a position in
    [0, 100] to its value and back gives the position, and going from a
    value in [p, M] to its position and back gives the value, except for
    [p] itself when the metric's minimum is not positive. *)
Theorem log_slider_mapping :
  forall (summary : MetricSummary) (p : R),
    logMapped summary = true ->
    positiveMin summary = Some p ->
    (0 < p < ms_max summary)%R
    /\ logMin summary = ln p
    /\ logMax summary = ln (ms_max summary)
    /\ (forall pos, (0 <= pos <= 100)%R ->
          fromSlider summary pos
          = if Reqb pos 0 && Rleb (ms_min summary) 0 then ms_min summary
            else exp (logMin summary
                      + pos / 100 * (logMax summary - logMin summary))%R)
    /\ (forall value, (value <= 0)%R -> toSlider summary value = 0%R)
    /\ (forall value, (p <= value <= ms_max summary)%R ->
          toSlider summary value
          = ((ln value - logMin summary) / (logMax summary - logMin summary) * 100)%R)
    /\ (forall pos, (0 <= pos <= 100)%R ->
          toSlider summary (fromSlider summary pos) = pos)
    /\ (forall x, (p <= x <= ms_max summary)%R ->
          ~ (x = p /\ (ms_min summary <= 0)%R) ->
          fromSlider summary (toSlider summary x) = x).
Proof.
  intros summary p Hmapped Hp.
  pose proof (positiveMin_pos summary p Hp).
  pose proof (positiveMin_lt_max summary p Hmapped Hp).
  repeat split; try assumption.
  - exact (logMin_eq summary p Hmapped Hp).
  - exact (logMax_eq summary p Hmapped Hp).
  - intros pos Hpos. exact (fromSlider_in_range summary Hmapped pos Hpos).
  - intros value Hv. exact (toSlider_nonpositive summary p Hmapped Hp value Hv).
  - intros value Hv. exact (toSlider_in_range summary p Hmapped Hp value Hv).
  - intros pos Hpos. exact (toSlider_fromSlider summary p Hmapped Hp pos Hpos).
  - intros x Hx Hnot. exact (fromSlider_toSlider summary p Hmapped Hp x Hx Hnot).
Qed.

Lemma sampleSummary_positiveMin : positiveMin sampleSummary = Some 1%R.
Proof.
  unfold positiveMin, sampleSummary; simpl.
  assert (E : Rltb 0 1 = true) by (apply Rltb_true; lra).
  rewrite E. reflexivity.
Qed.

Lemma sampleSummary_logMapped : logMapped sampleSummary = true.
Proof.
  assert (Eu : useLog sampleSummary = true).
  { unfold useLog, hasSpread. rewrite sampleSummary_positiveMin. simpl.
    assert (E : Rltb 1 1000 = true) by (apply Rltb_true; lra).
    rewrite E. reflexivity. }
  unfold logMapped. rewrite Eu. simpl. apply negb_true_iff, Reqb_false.
  unfold logMax, logMin. rewrite sampleSummary_positiveMin, Eu. simpl.
  rewrite Rmax_left by lra. rewrite ln_1.
  pose proof (ln_increasing 1 1000). rewrite ln_1 in *. lra.
Qed.

Lemma log_slider_mapping_witness :
  toSlider sampleSummary (fromSlider sampleSummary 50) = 50%R
  /\ fromSlider sampleSummary (toSlider sampleSummary 500) = 500%R.
Proof.
  destruct (log_slider_mapping sampleSummary 1
              sampleSummary_logMapped sampleSummary_positiveMin)
    as (_ & _ & _ & _ & _ & _ & Hpos & Hval).
  split.
  - apply Hpos. lra.
  - apply Hval; simpl; lra.
Defined.

(** C9, the claim as written fails: for the metric from 0 to 1000 whose
    smallest positive value is 1, the value 1 lies in [p, M] and maps to
    position 0, and position 0 maps back to the metric's minimum 0 (the
    guard of line 1088), not to [exp logMin = 1]: the value comes back 1
    lower, and the position-to-value map is not the exponential formula at
    position 0. *)
Lemma log_slider_value_round_trip_fails :
  logMapped sampleSummaryFromZero = true
  /\ positiveMin sampleSummaryFromZero = Some 1%R
  /\ (1 <= 1 <= ms_max sampleSummaryFromZero)%R
  /\ toSlider sampleSummaryFromZero 1 = 0%R
  /\ fromSlider sampleSummaryFromZero 0 = 0%R
  /\ exp (logMin sampleSummaryFromZero
          + 0 / 100 * (logMax sampleSummaryFromZero - logMin sampleSummaryFromZero))
     = 1%R
  /\ fromSlider sampleSummaryFromZero (toSlider sampleSummaryFromZero 1) <> 1%R.
Proof.
  assert (Hp : positiveMin sampleSummaryFromZero = Some 1%R).
  { unfold positiveMin, sampleSummaryFromZero; simpl.
    assert (E : Rltb 0 1 = true) by (apply Rltb_true; lra).
    rewrite E. reflexivity. }
  assert (Hm : logMapped sampleSummaryFromZero = true).
  { assert (Eu : useLog sampleSummaryFromZero = true).
    { unfold useLog, hasSpread. rewrite Hp. simpl.
      assert (E : Rltb 0 1000 = true) by (apply Rltb_true; lra).
      rewrite E. reflexivity. }
    unfold logMapped. rewrite Eu. simpl. apply negb_true_iff, Reqb_false.
    unfold logMax, logMin. rewrite Hp, Eu. simpl.
    rewrite Rmax_left by lra. rewrite ln_1.
    pose proof (ln_increasing 1 1000). rewrite ln_1 in *. lra. }
  assert (Hmin : logMin sampleSummaryFromZero = 0%R).
  { rewrite (logMin_eq _ _ Hm Hp). apply ln_1. }
  assert (Hto : toSlider sampleSummaryFromZero 1 = 0%R).
  { rewrite (toSlider_in_range _ _ Hm Hp) by (simpl; lra).
    rewrite Hmin, ln_1. unfold Rdiv. lra. }
  assert (Hfrom : fromSlider sampleSummaryFromZero 0 = 0%R).
  { unfold fromSlider. rewrite Hm.
    replace (0 / 100)%R with 0%R by lra.
    rewrite Rmax_left by lra. rewrite Rmin_right by lra.
    assert (E : Reqb 0 0 = true) by (apply Reqb_true; reflexivity).
    assert (E' : Rleb (ms_min sampleSummaryFromZero) 0 = true)
      by (apply Rleb_true; simpl; lra).
    rewrite E, E'. reflexivity. }
  split; [exact Hm|]. split; [exact Hp|]. split; [simpl; lra|].
  split; [exact Hto|]. split; [exact Hfrom|]. split.
  - rewrite Hmin. replace (0 + 0 / 100 * (logMax sampleSummaryFromZero - 0))%R
      with 0%R by lra. apply exp_0.
  - rewrite Hto, Hfrom. lra.
Qed.

(** ** Markers and layers, one object at a time *)

Lemma markerHidden_not_highlighted (m : Marker) :
  markerHidden m = true -> markerHighlighted m = false.
Proof.
  unfold markerHidden, markerHighlighted. intros Hh.
  repeat (apply andb_true_iff in Hh; destruct Hh as [Hh ?]).
  apply Z.eqb_eq in Hh. rewrite Hh. reflexivity.
Qed.

Lemma markerHidden_radius (m : Marker) :
  markerHidden m = true -> m_hasSetRadius m = true -> (m_radius m == 0)%Q.
Proof.
  unfold markerHidden. intros Hh Hcap. rewrite Hcap in Hh.
  apply andb_true_iff in Hh. destruct Hh as [_ Hr].
  apply Qeq_bool_iff. exact Hr.
Qed.

Lemma highlightMarker_on zoom (m : Marker) :
  m_isFiltered m = false -> markerHighlighted (highlightMarker zoom true m) = true.
Proof.
  intros E. unfold highlightMarker, ensureMarkerBase. rewrite E. simpl.
  destruct (m_hasSetRadius m); reflexivity.
Qed.

Lemma highlightMarker_off zoom (m : Marker) :
  m_isFiltered m = false -> markerHighlighted (highlightMarker zoom false m) = false.
Proof.
  intros E. unfold highlightMarker, ensureMarkerBase. rewrite E. simpl.
  destruct (m_hasSetRadius m); reflexivity.
Qed.

Lemma highlightMarker_fields zoom on (m : Marker) :
  m_isFiltered (highlightMarker zoom on m) = m_isFiltered m
  /\ m_selectionRefs (highlightMarker zoom on m) = m_selectionRefs m.
Proof.
  unfold highlightMarker, ensureMarkerBase.
  destruct (m_isFiltered m) eqn:E; simpl; auto.
  destruct (m_hasSetRadius m), on; simpl; auto.
Qed.

Lemma highlightMarker_filtered zoom on (m : Marker) :
  m_isFiltered m = true -> highlightMarker zoom on m = m.
Proof. intros E. unfold highlightMarker, ensureMarkerBase. rewrite E. reflexivity. Qed.

Lemma zoomMarker_refs zoom (m : Marker) :
  m_selectionRefs (zoomMarker zoom m) = m_selectionRefs m
  /\ m_isFiltered (zoomMarker zoom m) = m_isFiltered m.
Proof.
  destruct m as [bc bo br cc nc refs filt vtu pm st rad hsr].
  unfold zoomMarker. destruct filt; [split; reflexivity|].
  destruct hsr; simpl;
    (destruct (0 <? refs)%Z; [|split; reflexivity];
     rewrite (proj1 (highlightMarker_fields _ _ _)),
             (proj2 (highlightMarker_fields _ _ _)); split; reflexivity).
Qed.

Lemma adjustMarkerSelection_isFiltered zoom delta (m : Marker) :
  m_isFiltered (adjustMarkerSelection zoom delta m) = m_isFiltered m.
Proof.
  unfold adjustMarkerSelection. simpl.
  destruct (m_isFiltered m) eqn:E; simpl; [exact E|].
  rewrite (proj1 (highlightMarker_fields _ _ _)). exact E.
Qed.

Lemma adjustMarkerSelection_filtered zoom delta (m : Marker) :
  m_isFiltered m = true ->
  adjustMarkerSelection zoom delta m
  = setRefs (Z.max 0 (m_selectionRefs m + delta)) m.
Proof.
  intros E. unfold adjustMarkerSelection. simpl. rewrite E. simpl.
  destruct (m_selectionRefs m + delta <? 0)%Z eqn:Er; f_equal; lia.
Qed.

Lemma adjustMarkerSelection_highlight zoom delta (m : Marker) :
  m_isFiltered m = false ->
  markerHighlighted (adjustMarkerSelection zoom delta m)
  = (0 <? m_selectionRefs (adjustMarkerSelection zoom delta m))%Z.
Proof.
  intros E. rewrite adjustMarkerSelection_refs.
  unfold adjustMarkerSelection. simpl. rewrite E. simpl.
  unfold highlightMarker, ensureMarkerBase. simpl. rewrite E.
  destruct (m_selectionRefs m + delta <? 0)%Z eqn:Er; simpl.
  - replace (Z.max 0 (m_selectionRefs m + delta)) with 0%Z by lia.
    destruct (m_hasSetRadius m); reflexivity.
  - replace (Z.max 0 (m_selectionRefs m + delta)) with (m_selectionRefs m + delta)%Z by lia.
    destruct (0 <? m_selectionRefs m + delta)%Z, (m_hasSetRadius m); reflexivity.
Qed.

Lemma adjustMarkerSelection_inv zoom delta (m : Marker) :
  MarkerInv m -> MarkerInv (adjustMarkerSelection zoom delta m).
Proof.
  intros Hinv. destruct (m_isFiltered m) eqn:E.
  - rewrite adjustMarkerSelection_filtered by exact E. split; simpl.
    + intros _. apply Hinv. exact E.
    + congruence.
  - split.
    + rewrite adjustMarkerSelection_isFiltered. congruence.
    + intros _ Hpos. rewrite adjustMarkerSelection_highlight by exact E.
      apply Z.ltb_lt. exact Hpos.
Qed.

Lemma hoverMarker_inv zoom on (m : Marker) :
  MarkerInv m -> MarkerInv (hoverMarker zoom on m).
Proof.
  intros Hinv. unfold hoverMarker. destruct (m_isFiltered m) eqn:E; [exact Hinv|].
  destruct on.
  - split.
    + rewrite (proj1 (highlightMarker_fields _ _ _)). congruence.
    + intros _ _. apply highlightMarker_on. exact E.
  - destruct (m_selectionRefs m =? 0)%Z eqn:Ez; [|exact Hinv].
    apply Z.eqb_eq in Ez. split.
    + rewrite (proj1 (highlightMarker_fields _ _ _)). congruence.
    + rewrite (proj2 (highlightMarker_fields _ _ _)). lia.
Qed.

Lemma zoomMarker_inv zoom (m : Marker) : MarkerInv m -> MarkerInv (zoomMarker zoom m).
Proof.
  intros Hinv. unfold zoomMarker. destruct (m_isFiltered m) eqn:E; [exact Hinv|].
  destruct (m_hasSetRadius m); simpl;
    (destruct (0 <? m_selectionRefs m)%Z eqn:Er;
     [ split;
       [ rewrite (proj1 (highlightMarker_fields _ _ _)); simpl; congruence
       | intros _ _; apply highlightMarker_on; simpl; exact E ]
     | apply Z.ltb_ge in Er; split; simpl; first [congruence | intros; lia] ]).
Qed.

Lemma updateMarkerColorAppearance_inv zoom colorize (m : Marker) :
  MarkerInv m -> MarkerInv (updateMarkerColorAppearance zoom colorize m).
Proof.
  intros Hinv. unfold updateMarkerColorAppearance, ensureMarkerBase. simpl.
  destruct (m_isFiltered m) eqn:E.
  - split; simpl; [intros _; apply Hinv; exact E | congruence].
  - destruct (0 <? m_selectionRefs m)%Z eqn:Er.
    + split.
      * rewrite (proj1 (highlightMarker_fields _ _ _)). simpl. congruence.
      * intros _ _. apply highlightMarker_on. simpl. exact E.
    + apply Z.ltb_ge in Er. split.
      * rewrite (proj1 (highlightMarker_fields _ _ _)). simpl. congruence.
      * rewrite (proj2 (highlightMarker_fields _ _ _)). simpl. intros; lia.
Qed.

Lemma setMarkerVisibility_hidden zoom (m : Marker) :
  let m' := setMarkerVisibility zoom false m in
  m_selectionRefs m' = 0%Z /\ m_isFiltered m' = true /\ markerHidden m' = true
  /\ markerHighlighted m' = false.
Proof.
  unfold setMarkerVisibility, ensureMarkerBase, markerHidden. simpl.
  destruct (m_hasSetRadius m) eqn:Eh; simpl; rewrite ?Eh; repeat split.
Qed.

Lemma setMarkerVisibility_inv zoom visible (m : Marker) :
  MarkerInv (setMarkerVisibility zoom visible m).
Proof.
  destruct visible.
  - unfold setMarkerVisibility, ensureMarkerBase.
    destruct m as [bc bo br cc nc refs filt vtu pm st rad hsr].
    destruct hsr; simpl;
      (destruct (0 <? refs)%Z eqn:Er;
       [ split;
         [ rewrite (proj1 (highlightMarker_fields _ _ _)); simpl; congruence
         | intros _ _; apply highlightMarker_on; reflexivity ]
       | apply Z.ltb_ge in Er; split; simpl; first [congruence | intros; lia] ]).
  - destruct (setMarkerVisibility_hidden zoom m) as (_ & Hf & Hh & _).
    split; [intros _; exact Hh | congruence].
Qed.

Lemma filterRowMarker_inv zoom colorize membershipMatch matches wasChecked (m : Marker) :
  MarkerInv (filterRowMarker zoom colorize membershipMatch matches wasChecked m).
Proof.
  unfold filterRowMarker.
  apply updateMarkerColorAppearance_inv, setMarkerVisibility_inv.
Qed.

Lemma highlightBlock_on enabled mx (layer : Layer) :
  l_isFiltered layer = false ->
  blockHighlighted (highlightBlock enabled mx true layer) = true.
Proof. intros E. unfold highlightBlock. rewrite E. reflexivity. Qed.

Lemma resetBlockStyle_not_highlighted enabled mx (layer : Layer) :
  blockHighlighted (resetBlockStyle enabled mx layer) = false.
Proof.
  unfold blockHighlighted, resetBlockStyle, blockBaseStyle. simpl.
  destruct (negb enabled || Qle_bool mx 0); reflexivity.
Qed.

Lemma adjustBlockSelection_isFiltered enabled mx delta (layer : Layer) :
  l_isFiltered (adjustBlockSelection enabled mx delta layer) = l_isFiltered layer.
Proof.
  unfold adjustBlockSelection, highlightBlock. simpl.
  destruct (l_isFiltered layer) eqn:E; simpl; [reflexivity|].
  match goal with |- context [if ?c then _ else _] => destruct c end; reflexivity.
Qed.

Lemma adjustBlockSelection_filtered enabled mx delta (layer : Layer) :
  l_isFiltered layer = true ->
  adjustBlockSelection enabled mx delta layer
  = setLayerRefs (Z.max 0 (l_selectionRefs layer + delta)) layer.
Proof.
  intros E. unfold adjustBlockSelection, setLayerRefs. simpl. rewrite E. simpl.
  destruct (l_selectionRefs layer + delta <? 0)%Z eqn:Er; f_equal; lia.
Qed.

Lemma adjustBlockSelection_highlight enabled mx delta (layer : Layer) :
  l_isFiltered layer = false ->
  blockHighlighted (adjustBlockSelection enabled mx delta layer)
  = (0 <? l_selectionRefs (adjustBlockSelection enabled mx delta layer))%Z.
Proof.
  intros E. rewrite adjustBlockSelection_refs.
  unfold adjustBlockSelection. simpl. rewrite E. simpl.
  unfold highlightBlock. simpl.
  destruct (l_selectionRefs layer + delta <? 0)%Z eqn:Er; simpl.
  - replace (Z.max 0 (l_selectionRefs layer + delta)) with 0%Z by lia.
    apply resetBlockStyle_not_highlighted.
  - replace (Z.max 0 (l_selectionRefs layer + delta))
      with (l_selectionRefs layer + delta)%Z by lia.
    destruct (0 <? l_selectionRefs layer + delta)%Z; [reflexivity|].
    apply resetBlockStyle_not_highlighted.
Qed.

Lemma adjustBlockSelection_inv enabled mx delta (layer : Layer) :
  LayerInv layer -> LayerInv (adjustBlockSelection enabled mx delta layer).
Proof.
  intros Hf. unfold LayerInv. rewrite adjustBlockSelection_isFiltered. intros E.
  rewrite adjustBlockSelection_filtered by exact E. simpl. apply Hf, E.
Qed.

Lemma hoverLayer_inv enabled mx on (layer : Layer) :
  LayerInv layer -> LayerInv (hoverLayer enabled mx on layer).
Proof.
  intros Hf. unfold hoverLayer, highlightBlock.
  destruct (l_isFiltered layer) eqn:E; [exact Hf|].
  destruct on; [|destruct (l_selectionRefs layer =? 0)%Z];
    unfold LayerInv; simpl; congruence.
Qed.

Lemma filterLayer_inv enabled mx filtered (layer : Layer) :
  LayerInv (filterLayer enabled mx filtered layer).
Proof. destruct filtered; unfold LayerInv; simpl; congruence. Qed.

Lemma setLayerRefs_inv n (layer : Layer) : LayerInv layer -> LayerInv (setLayerRefs n layer).
Proof. intros Hf. exact Hf. Qed.

Lemma LayerInv_not_highlighted (layer : Layer) :
  LayerInv layer -> l_isFiltered layer = true -> blockHighlighted layer = false.
Proof. intros Hf E. unfold blockHighlighted. rewrite (Hf E). reflexivity. Qed.

(** ** Stores of objects *)

Section Related.
Context {A : Type} (R : A -> A -> Prop).
Hypothesis R_refl : forall x, R x x.
Hypothesis R_trans : forall x y z, R x y -> R y z -> R x z.

Lemma related_refl (ms : gmap string A) : related R ms ms.
Proof. intros k. destruct (ms !! k); auto. Qed.

Lemma related_trans (ms1 ms2 ms3 : gmap string A) :
  related R ms1 ms2 -> related R ms2 ms3 -> related R ms1 ms3.
Proof.
  intros H12 H23 k. specialize (H12 k). specialize (H23 k).
  destruct (ms1 !! k), (ms2 !! k), (ms3 !! k); try contradiction; eauto.
Qed.

Lemma related_alter (f : A -> A) (k : string) (ms : gmap string A) :
  (forall x, R x (f x)) -> related R ms (alter f k ms).
Proof.
  intros Hf j. destruct (decide (k = j)) as [->|Hne].
  - rewrite lookup_alter_eq. destruct (ms !! j); simpl; auto.
  - rewrite lookup_alter_ne by exact Hne. destruct (ms !! j); auto.
Qed.

Lemma related_forEachMarker (f : A -> A) (arr : list string) (ms : gmap string A) :
  (forall x, R x (f x)) ->
  related R ms (fold_left (fun ms k => alter f k ms) arr ms).
Proof.
  intros Hf. revert ms. induction arr as [|k rest IH]; intros ms; simpl.
  - apply related_refl.
  - eapply related_trans; [apply related_alter, Hf | apply IH].
Qed.

Lemma related_fmap (f : A -> A) (ms : gmap string A) :
  (forall x, R x (f x)) -> related R ms (f <$> ms).
Proof.
  intros Hf k. rewrite lookup_fmap. destruct (ms !! k); simpl; auto.
Qed.

End Related.

Lemma related_Forall {A : Type} (P : A -> Prop) (ms ms' : gmap string A) :
  related (fun x x' => P x -> P x') ms ms' ->
  map_Forall (fun _ x => P x) ms -> map_Forall (fun _ x => P x) ms'.
Proof.
  intros Hrel Hall k x' Hk. specialize (Hrel k). rewrite Hk in Hrel.
  destruct (ms !! k) as [x|] eqn:E; [|contradiction].
  apply Hrel. exact (Hall k x E).
Qed.

Lemma alter_other {A : Type} (f : A -> A) (k j : string) (ms : gmap string A) :
  k <> j -> alter f k ms !! j = ms !! j.
Proof. intros Hne. apply lookup_alter_ne. exact Hne. Qed.

Lemma forEachMarker_other (f : Marker -> Marker) (arr : list string)
    (ms : gmap string Marker) (j : string) :
  ~ In j arr -> forEachMarker f arr ms !! j = ms !! j.
Proof.
  unfold forEachMarker. revert ms. induction arr as [|k rest IH]; intros ms Hnot; simpl.
  - reflexivity.
  - rewrite IH by (intros Hin; apply Hnot; right; exact Hin).
    apply alter_other. intros ->. apply Hnot. left. reflexivity.
Qed.

(** ** Every step keeps the objects related

    A relation on markers and one on layers that the single-object
    functions respect is respected by every event of the page. *)

Section StepRelated.
Context `{JSBuiltins}.
Variable RM : Marker -> Marker -> Prop.
Variable RL : Layer -> Layer -> Prop.
Hypothesis RM_refl : forall m, RM m m.
Hypothesis RM_trans : forall x y z, RM x y -> RM y z -> RM x z.
Hypothesis RL_refl : forall l, RL l l.
Hypothesis RL_trans : forall x y z, RL x y -> RL y z -> RL x z.
Hypothesis RM_adjust : forall zoom delta m, RM m (adjustMarkerSelection zoom delta m).

Lemma stateRelated_refl s : stateRelated RM RL s s.
Proof. split; apply related_refl; assumption. Qed.

Lemma stateRelated_trans s1 s2 s3 :
  stateRelated RM RL s1 s2 -> stateRelated RM RL s2 s3 -> stateRelated RM RL s1 s3.
Proof.
  intros [M12 L12] [M23 L23]. split; eapply related_trans; eassumption.
Qed.

Lemma setOwnerSelection_related ownerKey selected s :
  stateRelated RM RL s (setOwnerSelection ownerKey selected s).
Proof.
  split; simpl; [|apply related_refl; assumption].
  apply related_forEachMarker; auto.
Qed.

Lemma setBlockSelectionMarkers_related blockId selected s :
  stateRelated RM RL s (setBlockSelectionMarkers blockId selected s).
Proof.
  split; simpl; [|apply related_refl; assumption].
  apply related_forEachMarker; auto.
Qed.

Hypothesis RL_filter : forall enabled mx filtered l, RL l (filterLayer enabled mx filtered l).
Hypothesis RL_refs : forall n l, RL l (setLayerRefs n l).

Lemma filterBlockRow_related visibleBids blockId s :
  stateRelated RM RL s (filterBlockRow visibleBids blockId s).
Proof.
  unfold filterBlockRow.
  destruct (List.find _ (blockRows s)) as [row|]; [|apply stateRelated_refl].
  destruct (negb (hasVisibleBuilding visibleBids blockId s) && isChecked row).
  - eapply stateRelated_trans; [|apply setBlockSelectionMarkers_related].
    split; [apply related_refl; assumption|].
    apply (related_alter RL RL_refl). auto.
  - split; apply related_refl; assumption.
Qed.

Lemma setBlockFiltered_related blockId filtered s :
  stateRelated RM RL s (setBlockFiltered blockId filtered s).
Proof.
  split; [apply related_refl; assumption|].
  apply (related_alter RL RL_refl). auto.
Qed.

Lemma filterBlock_related visibleBids blockId s :
  stateRelated RM RL s (filterBlock visibleBids blockId s).
Proof.
  unfold filterBlock.
  eapply stateRelated_trans;
    [apply filterBlockRow_related | apply setBlockFiltered_related].
Qed.

Lemma filterBlocks_related visibleBids keys s :
  stateRelated RM RL s (fold_left (fun s blockId => filterBlock visibleBids blockId s) keys s).
Proof.
  revert s. induction keys as [|k rest IH]; intros s; simpl.
  - apply stateRelated_refl.
  - eapply stateRelated_trans; [apply filterBlock_related | apply IH].
Qed.

Lemma filterLandlordRows_related rows s :
  stateRelated RM RL s (snd (filterLandlordRows rows s)).
Proof.
  revert s. induction rows as [|row rest IH]; intros s; simpl.
  - apply stateRelated_refl.
  - match goal with
    | |- context [filterLandlordRows rest ?s1] =>
        specialize (IH s1); destruct (filterLandlordRows rest s1) as [rest' s'] eqn:E
    end.
    simpl in *. eapply stateRelated_trans; [|exact IH].
    match goal with |- context [if ?c then _ else _] => destruct c end.
    + apply setOwnerSelection_related.
    + apply stateRelated_refl.
Qed.

Hypothesis RM_filterRow :
  forall zoom colorize membershipMatch matches wasChecked m,
    RM m (filterRowMarker zoom colorize membershipMatch matches wasChecked m).

Lemma filterBuildingRows_related r zoom colorize ui rows ms visible :
  related RM ms (snd (fst (filterBuildingRows r zoom colorize ui rows ms visible))).
Proof.
  revert ms visible. induction rows as [|row rest IH]; intros ms visible; simpl.
  - apply related_refl; assumption.
  - match goal with
    | |- context [filterBuildingRows r zoom colorize ui rest ?ms1 ?v1] =>
        specialize (IH ms1 v1);
        destruct (filterBuildingRows r zoom colorize ui rest ms1 v1)
          as [[rest' ms'] visible'] eqn:E
    end.
    simpl in *. eapply related_trans; [assumption | | exact IH].
    destruct (objGet (buildingIndex r) (rowBid row)).
    + apply related_alter; auto.
    + apply related_refl; assumption.
Qed.

Lemma applyFilters_related ui s : stateRelated RM RL s (applyFilters ui s).
Proof.
  unfold applyFilters.
  pose proof (filterBuildingRows_related (registry s) (currentZoomScale s)
                (colorScalingEnabled s) ui (buildingRows s) (markers s) []) as Hrows.
  destruct (filterBuildingRows _ _ _ ui (buildingRows s) (markers s) [])
    as [[rows ms] visibleBids] eqn:E.
  simpl in Hrows.
  match goal with
  | |- context [fold_left ?f ?keys ?s1] =>
      pose proof (filterBlocks_related visibleBids keys s1) as Hblocks;
      set (s2 := fold_left f keys s1) in *
  end.
  pose proof (filterLandlordRows_related (landlordRows s2) s2) as Hland.
  destruct (filterLandlordRows (landlordRows s2) s2) as [lrows s3] eqn:E3.
  simpl in Hland.
  eapply stateRelated_trans; [|eapply stateRelated_trans; [exact Hblocks|]].
  - split; simpl; [exact Hrows | apply related_refl; assumption].
  - eapply stateRelated_trans; [exact Hland|].
    split; simpl; apply related_refl; assumption.
Qed.

Hypothesis RM_hover : forall zoom on m, RM m (hoverMarker zoom on m).
Hypothesis RM_zoom : forall zoom m, RM m (zoomMarker zoom m).
Hypothesis RM_color :
  forall zoom colorize m, RM m (updateMarkerColorAppearance zoom colorize m).
Hypothesis RL_adjust :
  forall enabled mx delta l, RL l (adjustBlockSelection enabled mx delta l).
Hypothesis RL_hover : forall enabled mx on l, RL l (hoverLayer enabled mx on l).
Hypothesis RL_reset :
  forall enabled mx l, l_isFiltered l = false -> RL l (resetBlockStyle enabled mx l).

Lemma handleSelectionChange_related cb s :
  stateRelated RM RL s (handleSelectionChange cb s).
Proof.
  unfold handleSelectionChange.
  destruct (String.eqb (data_type cb) "building").
  { destruct (objGet _ _); [|apply stateRelated_refl].
    split; simpl; [apply related_alter; auto | apply related_refl; assumption]. }
  destruct (String.eqb (data_type cb) "block").
  { eapply stateRelated_trans; [|apply setBlockSelectionMarkers_related].
    split; simpl; [apply related_refl; assumption | apply related_alter; auto]. }
  destruct (String.eqb (data_type cb) "owner").
  { apply setOwnerSelection_related. }
  apply stateRelated_refl.
Qed.

Lemma withRowsOf_related t f s : stateRelated RM RL s (withRowsOf t f s).
Proof. destruct t; split; simpl; apply related_refl; assumption. Qed.

Lemma step_related e s : stateRelated RM RL s (step e s).
Proof.
  destruct e as [t i|i on|i on|i on|ui|enabled|enabled|scale]; simpl.
  - unfold toggleCheckbox.
    destruct (rowsOf t s !! i) as [row|]; [|apply stateRelated_refl].
    destruct (checkbox row) as [cb|]; [|apply stateRelated_refl].
    eapply stateRelated_trans; [apply withRowsOf_related|].
    apply handleSelectionChange_related.
  - destruct (buildingRows s !! i) as [row|]; [|apply stateRelated_refl].
    unfold buildingHover. destruct (objGet _ _); [|apply stateRelated_refl].
    split; simpl; [apply related_alter; auto | apply related_refl; assumption].
  - destruct (blockRows s !! i) as [row|]; [|apply stateRelated_refl].
    split; simpl; [apply related_refl; assumption | apply related_alter; auto].
  - destruct (landlordRows s !! i) as [row|]; [|apply stateRelated_refl].
    split; simpl; [|apply related_refl; assumption].
    apply related_forEachMarker; auto.
  - apply applyFilters_related.
  - split; simpl; [|apply related_refl; assumption].
    apply related_forEachMarker; auto.
  - split; simpl; [apply related_refl; assumption|].
    apply related_fmap.
    intros l. destruct (l_isFiltered l) eqn:E; simpl; auto.
  - split; simpl; [|apply related_refl; assumption].
    apply related_forEachMarker; auto.
Qed.

End StepRelated.

(** ** Reachable states *)

Lemma initialMarker_inv (m : Marker) : initialMarker m = true -> MarkerInv m.
Proof.
  unfold initialMarker. intros Hi.
  apply andb_true_iff in Hi. destruct Hi as [Hi _].
  apply andb_true_iff in Hi. destruct Hi as [Hr Hf].
  apply Z.eqb_eq in Hr. apply negb_true_iff in Hf.
  split; [congruence | intros; lia].
Qed.

Lemma initialLayer_inv (layer : Layer) : initialLayer layer = true -> LayerInv layer.
Proof.
  unfold initialLayer, LayerInv. intros Hi.
  apply andb_true_iff in Hi. destruct Hi as [Hi _].
  apply andb_true_iff in Hi. destruct Hi as [_ Hf].
  apply negb_true_iff in Hf. congruence.
Qed.

Lemma initial_inv (s : State) : initial s -> StateInv s.
Proof.
  intros [Hm Hl]. split.
  - intros k m Hk. apply initialMarker_inv. exact (Hm k m Hk).
  - intros k l Hk. apply initialLayer_inv. exact (Hl k l Hk).
Qed.

Section ReachableStates.
Context `{JSBuiltins}.

Lemma step_inv (e : Event) (s : State) : StateInv s -> StateInv (step e s).
Proof.
  intros [Hm Hl].
  destruct (step_related
              (fun m m' => MarkerInv m -> MarkerInv m')
              (fun l l' => LayerInv l -> LayerInv l')) with (e := e) (s := s)
    as [Rm Rl]; auto.
  - intros. apply adjustMarkerSelection_inv. assumption.
  - intros. apply filterLayer_inv.
  - intros. apply filterRowMarker_inv.
  - intros. apply hoverMarker_inv. assumption.
  - intros. apply zoomMarker_inv. assumption.
  - intros. apply updateMarkerColorAppearance_inv. assumption.
  - intros. apply adjustBlockSelection_inv. assumption.
  - intros. apply hoverLayer_inv. assumption.
  - intros enabled mx l E _. unfold LayerInv. simpl. congruence.
  - split; eapply related_Forall; eassumption.
Qed.

Lemma reachable_inv (s : State) : reachable s -> StateInv s.
Proof.
  induction 1 as [s Hi | e s Hr IH].
  - apply initial_inv. exact Hi.
  - apply step_inv. exact IH.
Qed.

Lemma reachable_run (events : list Event) (s : State) :
  reachable s -> reachable (run events s).
Proof.
  unfold run. revert s. induction events as [|e rest IH]; intros s Hs; simpl.
  - exact Hs.
  - apply IH. apply reachable_step. exact Hs.
Qed.

End ReachableStates.

Lemma registerBlock_fresh (layers : list GeoLayer) (acc : gmap string Layer * list Layer) :
  map_Forall (fun _ l => l_selectionRefs l = 0%Z /\ l_isFiltered l = false) (fst acc) ->
  map_Forall (fun _ l => l_selectionRefs l = 0%Z /\ l_isFiltered l = false)
             (fst (fold_left registerBlock layers acc)).
Proof.
  revert acc. induction layers as [|g rest IH]; intros acc Hacc; simpl; [exact Hacc|].
  apply IH. unfold registerBlock.
  destruct (g_properties g) as [props|]; [|exact Hacc].
  destruct (block_id props) as [id|]; [|exact Hacc].
  simpl. apply map_Forall_insert_2; [split; reflexivity | exact Hacc].
Qed.

Lemma wireUpBlocks_initial (layers : list GeoLayer) :
  map_Forall (fun _ l => initialLayer l = true) (fst (wireUpBlocks layers)).
Proof.
  unfold wireUpBlocks.
  pose proof (registerBlock_fresh layers (∅, [])) as Hfresh.
  destruct (fold_left registerBlock layers (∅, [])) as [index blockLayers].
  simpl in *. apply map_Forall_fmap. intros k l Hk.
  destruct (Hfresh (map_Forall_empty _) k l Hk) as [Hr Hf].
  unfold initialLayer. simpl. rewrite Hr, Hf.
  rewrite resetBlockStyle_not_highlighted. reflexivity.
Qed.

Lemma samplePage_initial : initial samplePage.
Proof.
  split.
  - simpl. repeat (apply map_Forall_insert_2; [reflexivity|]).
    apply map_Forall_empty.
  - apply wireUpBlocks_initial.
Qed.

(** ** Highlight and filter on reachable states *)

Section HighlightRule.
Context `{JSBuiltins}.

(** C1, as the code has it.  At every reachable state a filtered marker
    or block layer shows no overlay, and a marker that is not filtered and
    has a positive reference count shows it.  Right after [adjust], for
    markers and block layers alike, the overlay is on exactly when the
    entity is not filtered and its count is positive.  Hover does not use
    the counter: hovering a non-filtered entity puts the overlay on and
    leaves the count as it was. *)
Theorem highlight_rule :
  forall s : State,
    reachable s ->
    (forall k m, markers s !! k = Some m ->
       (m_isFiltered m = true -> markerHighlighted m = false)
       /\ (m_isFiltered m = false -> (0 < m_selectionRefs m)%Z ->
           markerHighlighted m = true)
       /\ (forall zoom delta,
             let m' := adjustMarkerSelection zoom delta m in
             markerHighlighted m'
             = negb (m_isFiltered m') && (0 <? m_selectionRefs m')%Z)
       /\ (forall zoom,
             m_isFiltered m = false ->
             markerHighlighted (hoverMarker zoom true m) = true
             /\ m_selectionRefs (hoverMarker zoom true m) = m_selectionRefs m))
    /\ (forall k layer, blocksIndex s !! k = Some layer ->
          (l_isFiltered layer = true -> blockHighlighted layer = false)
          /\ (forall enabled mx delta,
                let l' := adjustBlockSelection enabled mx delta layer in
                blockHighlighted l'
                = negb (l_isFiltered l') && (0 <? l_selectionRefs l')%Z)
          /\ (forall enabled mx,
                l_isFiltered layer = false ->
                blockHighlighted (hoverLayer enabled mx true layer) = true
                /\ l_selectionRefs (hoverLayer enabled mx true layer)
                   = l_selectionRefs layer)).
Proof.
  intros s Hreach. destruct (reachable_inv s Hreach) as [HM HL]. split.
  - intros k m Hk. pose proof (HM k m Hk) as Hinv.
    assert (Hfilt : m_isFiltered m = true -> markerHighlighted m = false).
    { intros E. apply markerHidden_not_highlighted. apply Hinv. exact E. }
    split; [exact Hfilt|]. split; [apply Hinv|]. split.
    + intros zoom delta m'. subst m'.
      rewrite adjustMarkerSelection_isFiltered.
      destruct (m_isFiltered m) eqn:E; simpl.
      * rewrite adjustMarkerSelection_filtered by exact E.
        apply Hfilt. reflexivity.
      * apply adjustMarkerSelection_highlight. exact E.
    + intros zoom E. unfold hoverMarker. rewrite E. split.
      * apply highlightMarker_on. exact E.
      * apply highlightMarker_fields.
  - intros k layer Hk. pose proof (HL k layer Hk) as Hinv.
    assert (Hfilt : l_isFiltered layer = true -> blockHighlighted layer = false).
    { apply LayerInv_not_highlighted. exact Hinv. }
    split; [exact Hfilt|]. split.
    + intros enabled mx delta l'. subst l'.
      rewrite adjustBlockSelection_isFiltered.
      destruct (l_isFiltered layer) eqn:E; simpl.
      * rewrite adjustBlockSelection_filtered by exact E.
        apply Hfilt. reflexivity.
      * apply adjustBlockSelection_highlight. exact E.
    + intros enabled mx E. unfold hoverLayer, highlightBlock. rewrite E.
      split; reflexivity.
Qed.

(** C2, as the code has it.  At every reachable state a filtered marker
    is drawn hidden (no stroke, fill opacity 0, and radius 0 if the marker
    has [setRadius]) and a filtered block layer has the filtered style.
    Filtering an entity sets its count to zero whatever it was; it sets the
    radius of a marker to 0 only if the marker has [setRadius], and leaves
    the radius alone otherwise.  [adjust] on a filtered entity records the
    clamped count and changes nothing else, so a filtered entity can hold a
    positive count; hover leaves a filtered entity as it is. *)
Theorem filtered_entities_rule :
  forall s : State,
    reachable s ->
    (forall k m, markers s !! k = Some m -> m_isFiltered m = true ->
       markerHidden m = true /\ markerHighlighted m = false
       /\ (m_hasSetRadius m = true -> (m_radius m == 0)%Q)
       /\ (forall zoom delta,
             adjustMarkerSelection zoom delta m
             = setRefs (Z.max 0 (m_selectionRefs m + delta)) m)
       /\ (forall zoom on, hoverMarker zoom on m = m))
    /\ (forall k layer, blocksIndex s !! k = Some layer -> l_isFiltered layer = true ->
          l_style layer = filteredBlockStyle /\ blockHighlighted layer = false
          /\ (forall enabled mx delta,
                adjustBlockSelection enabled mx delta layer
                = setLayerRefs (Z.max 0 (l_selectionRefs layer + delta)) layer)
          /\ (forall enabled mx on, hoverLayer enabled mx on layer = layer))
    /\ (forall zoom (m : Marker),
          let m' := setMarkerVisibility zoom false m in
          m_isFiltered m' = true /\ m_selectionRefs m' = 0%Z
          /\ markerHidden m' = true /\ markerHighlighted m' = false
          /\ m_radius m' = (if m_hasSetRadius m then 0%Q else m_radius m))
    /\ (forall enabled mx (layer : Layer),
          let l' := filterLayer enabled mx true layer in
          l_isFiltered l' = true /\ l_selectionRefs l' = 0%Z
          /\ l_style l' = filteredBlockStyle /\ blockHighlighted l' = false).
Proof.
  intros s Hreach. destruct (reachable_inv s Hreach) as [HM HL].
  split; [|split; [|split]].
  - intros k m Hk E. pose proof (HM k m Hk) as Hinv.
    split; [apply Hinv, E|]. split.
    { apply markerHidden_not_highlighted. apply Hinv, E. }
    split.
    { intros Hcap. apply markerHidden_radius; [apply Hinv, E | exact Hcap]. }
    split.
    + intros zoom delta. apply adjustMarkerSelection_filtered. exact E.
    + intros zoom on. unfold hoverMarker. rewrite E. reflexivity.
  - intros k layer Hk E. pose proof (HL k layer Hk) as Hinv.
    split; [apply Hinv, E|]. split.
    { apply LayerInv_not_highlighted; assumption. }
    split.
    + intros enabled mx delta. apply adjustBlockSelection_filtered. exact E.
    + intros enabled mx on. unfold hoverLayer. rewrite E. reflexivity.
  - intros zoom m.
    destruct (setMarkerVisibility_hidden zoom m) as (Hr & Hf & Hh & Hl).
    cbv zeta. split; [exact Hf|]. split; [exact Hr|]. split; [exact Hh|].
    split; [exact Hl|].
    unfold setMarkerVisibility, ensureMarkerBase. simpl.
    destruct (m_hasSetRadius m); reflexivity.
  - intros enabled mx layer. simpl. repeat split.
Qed.

End HighlightRule.

Lemma highlight_rule_witness :
  exists m,
    markers (run (startUp ++ [EvToggle TBuildings 0]) samplePage) !! "marker_1" = Some m
    /\ m_selectionRefs m = 1%Z
    /\ markerHighlighted m = true.
Proof.
  set (s := run (startUp ++ [EvToggle TBuildings 0]) samplePage).
  assert (Hreach : reachable s).
  { apply reachable_run, reachable_initial, samplePage_initial. }
  let v := eval vm_compute in (markers s !! "marker_1") in
  assert (E : markers s !! "marker_1" = v) by (vm_compute; reflexivity).
  eexists. split; [exact E|]. split; [reflexivity|].
  destruct (highlight_rule s Hreach) as [HM _].
  destruct (HM _ _ E) as (_ & Hsel & _).
  apply Hsel; reflexivity.
Defined.

(** C1, the claim as written fails: hovering the row of building b1 puts
    the overlay on its marker, which is not filtered, while its reference
    count stays zero. *)
Lemma hover_highlights_without_count :
  reachable (run (startUp ++ [EvBuildingHover 0 true]) samplePage)
  /\ exists m,
       markers (run (startUp ++ [EvBuildingHover 0 true]) samplePage) !! "marker_1" = Some m
       /\ markerHighlighted m = true
       /\ m_isFiltered m = false
       /\ m_selectionRefs m = 0%Z
       /\ markerHighlighted m <> negb (m_isFiltered m) && (0 <? m_selectionRefs m)%Z.
Proof.
  split.
  - apply reachable_run, reachable_initial, samplePage_initial.
  - eexists. split; [vm_compute; reflexivity|].
    repeat split. discriminate.
Qed.

Lemma filtered_entities_rule_witness :
  (exists m,
     markers (run (startUp ++ [EvFilters (sampleUI true false)]) samplePage) !! "marker_2"
     = Some m
     /\ m_isFiltered m = true
     /\ markerHidden m = true
     /\ (m_radius m == 0)%Q)
  /\ m_radius (setMarkerVisibility 1 false samplePlainMarker) = 6%Q.
Proof.
  set (s := run (startUp ++ [EvFilters (sampleUI true false)]) samplePage).
  assert (Hreach : reachable s).
  { apply reachable_run, reachable_initial, samplePage_initial. }
  let v := eval vm_compute in (markers s !! "marker_2") in
  assert (E : markers s !! "marker_2" = v) by (vm_compute; reflexivity).
  destruct (filtered_entities_rule s Hreach) as (HM & _ & Hset & _).
  split.
  - eexists. split; [exact E|]. split; [reflexivity|].
    destruct (HM _ _ E eq_refl) as (Hhid & _ & Hrad & _).
    split; [exact Hhid|]. apply Hrad. reflexivity.
  - destruct (Hset 1%Q samplePlainMarker) as (_ & _ & _ & _ & Hrad). exact Hrad.
Defined.

(** C2, the claim as written fails: with only the West End option checked
    building b2 is filtered; checking the row of its owner, still visible
    through building b1, then raises the count of the filtered marker to 1. *)
Lemma filtered_marker_with_positive_count :
  reachable (run (startUp ++ [EvFilters (sampleUI true false); EvToggle TLandlords 0]) samplePage)
  /\ exists m,
       markers (run (startUp ++ [EvFilters (sampleUI true false); EvToggle TLandlords 0]) samplePage)
         !! "marker_2" = Some m
       /\ m_isFiltered m = true
       /\ m_selectionRefs m = 1%Z.
Proof.
  split.
  - apply reachable_run, reachable_initial, samplePage_initial.
  - eexists. split; [vm_compute; reflexivity|]. split; reflexivity.
Qed.

(** ** The filter pass, loop by loop *)

Section PassFacts.
Context `{JSBuiltins}.

Lemma filterBuildingRows_rows r zoom colorize ui rows ms visible :
  fst (fst (filterBuildingRows r zoom colorize ui rows ms visible))
  = map (fun row => filterRowDom (rowMatches ui row) row) rows.
Proof.
  revert ms visible. induction rows as [|row rest IH]; intros ms visible; simpl.
  - reflexivity.
  - match goal with
    | |- context [filterBuildingRows r zoom colorize ui rest ?ms1 ?v1] =>
        specialize (IH ms1 v1);
        destruct (filterBuildingRows r zoom colorize ui rest ms1 v1)
          as [[rest' ms'] visible'] eqn:E
    end.
    simpl in *. rewrite IH. reflexivity.
Qed.

Lemma filterBuildingRows_visible r zoom colorize ui rows ms visible id :
  setHas (snd (filterBuildingRows r zoom colorize ui rows ms visible)) id
  = setHas visible id
    || existsb (fun row => String.eqb (rowBid row) id && rowMatches ui row) rows.
Proof.
  revert ms visible. induction rows as [|row rest IH]; intros ms visible; simpl.
  - rewrite orb_false_r. reflexivity.
  - match goal with
    | |- context [filterBuildingRows r zoom colorize ui rest ?ms1 ?v1] =>
        specialize (IH ms1 v1);
        destruct (filterBuildingRows r zoom colorize ui rest ms1 v1)
          as [[rest' ms'] visible'] eqn:E
    end.
    simpl in *. rewrite IH.
    destruct (rowMatches ui row); simpl.
    + rewrite (String.eqb_sym id (rowBid row)).
      rewrite andb_true_r.
      destruct (String.eqb (rowBid row) id), (setHas visible id); reflexivity.
    + rewrite andb_false_r. reflexivity.
Qed.

Lemma visibleBids_passes ui s id :
  setHas (visibleBidsOf ui s) id = bidPasses ui s id.
Proof. unfold visibleBidsOf, bidPasses. apply filterBuildingRows_visible. Qed.

Lemma filterBuildingRows_frame r zoom colorize ui rows ms visible loc :
  (forall row, In row rows -> objGet (buildingIndex r) (rowBid row) <> Some loc) ->
  snd (fst (filterBuildingRows r zoom colorize ui rows ms visible)) !! loc = ms !! loc.
Proof.
  revert ms visible. induction rows as [|row rest IH]; intros ms visible Hrows; simpl.
  - reflexivity.
  - match goal with
    | |- context [filterBuildingRows r zoom colorize ui rest ?ms1 ?v1] =>
        specialize (IH ms1 v1);
        destruct (filterBuildingRows r zoom colorize ui rest ms1 v1)
          as [[rest' ms'] visible'] eqn:E
    end.
    simpl in *. rewrite IH by (intros row' Hin; apply Hrows; right; exact Hin).
    destruct (objGet (buildingIndex r) (rowBid row)) as [marker|] eqn:Em; [|reflexivity].
    apply alter_other. intros ->. apply (Hrows row); [left; reflexivity | exact Em].
Qed.

(** The block loop. *)

Lemma filterBlockRow_registry v k s : registry (filterBlockRow v k s) = registry s.
Proof.
  unfold filterBlockRow. destruct (List.find _ _); [|reflexivity].
  destruct (_ && _); reflexivity.
Qed.

Lemma filterBlock_registry v k s : registry (filterBlock v k s) = registry s.
Proof. unfold filterBlock. simpl. apply filterBlockRow_registry. Qed.

Lemma filterBlockRow_blocks_other v k s j :
  k <> j -> blocksIndex (filterBlockRow v k s) !! j = blocksIndex s !! j.
Proof.
  intros Hne. unfold filterBlockRow. destruct (List.find _ _); [|reflexivity].
  destruct (_ && _); [|reflexivity].
  simpl. apply alter_other. exact Hne.
Qed.

Lemma filterBlock_blocks_other v k s j :
  k <> j -> blocksIndex (filterBlock v k s) !! j = blocksIndex s !! j.
Proof.
  intros Hne. unfold filterBlock. simpl.
  rewrite alter_other by exact Hne. apply filterBlockRow_blocks_other. exact Hne.
Qed.

Lemma filterLayer_isFiltered enabled mx filtered layer :
  l_isFiltered (filterLayer enabled mx filtered layer) = filtered.
Proof. destruct filtered; reflexivity. Qed.

Lemma filterBlock_blocks_same v k s layer :
  blocksIndex s !! k = Some layer ->
  exists layer',
    blocksIndex (filterBlock v k s) !! k = Some layer'
    /\ l_isFiltered layer' = negb (hasVisibleBuilding v k s).
Proof.
  intros Hk. unfold filterBlock. simpl. rewrite lookup_alter_eq.
  assert (Hrow : exists l1, blocksIndex (filterBlockRow v k s) !! k = Some l1).
  { unfold filterBlockRow. destruct (List.find _ _); [|eauto].
    destruct (_ && _); [|eauto].
    simpl. rewrite lookup_alter_eq, Hk. simpl. eauto. }
  destruct Hrow as [l1 Hl1]. rewrite Hl1. simpl.
  eexists. split; [reflexivity|]. apply filterLayer_isFiltered.
Qed.

Lemma hasVisibleBuilding_registry v k s s' :
  registry s' = registry s -> hasVisibleBuilding v k s' = hasVisibleBuilding v k s.
Proof. intros E. unfold hasVisibleBuilding. rewrite E. reflexivity. Qed.

Lemma filterBlocks_registry v keys s :
  registry (fold_left (fun s blockId => filterBlock v blockId s) keys s) = registry s.
Proof.
  revert s. induction keys as [|k rest IH]; intros s; simpl; [reflexivity|].
  rewrite IH. apply filterBlock_registry.
Qed.

Lemma filterBlocks_blocks_other v keys s j :
  ~ In j keys ->
  blocksIndex (fold_left (fun s blockId => filterBlock v blockId s) keys s) !! j
  = blocksIndex s !! j.
Proof.
  revert s. induction keys as [|k rest IH]; intros s Hnot; simpl; [reflexivity|].
  rewrite IH by (intros Hin; apply Hnot; right; exact Hin).
  apply filterBlock_blocks_other. intros ->. apply Hnot. left. reflexivity.
Qed.

Lemma filterBlocks_blocks_same v keys s k layer :
  In k keys ->
  blocksIndex s !! k = Some layer ->
  exists layer',
    blocksIndex (fold_left (fun s blockId => filterBlock v blockId s) keys s) !! k
    = Some layer'
    /\ l_isFiltered layer' = negb (hasVisibleBuilding v k s).
Proof.
  revert s layer. induction keys as [|k0 rest IH]; intros s layer Hin Hk; simpl.
  - destruct Hin.
  - destruct (in_dec string_dec k rest) as [Hrest|Hrest].
    + assert (Hsome : exists l1, blocksIndex (filterBlock v k0 s) !! k = Some l1).
      { destruct (string_dec k0 k) as [->|Hne].
        - destruct (filterBlock_blocks_same v k s layer Hk) as (l1 & Hl1 & _). eauto.
        - rewrite filterBlock_blocks_other by exact Hne. eauto. }
      destruct Hsome as [l1 Hl1].
      destruct (IH _ l1 Hrest Hl1) as (layer' & Hl' & Hf).
      exists layer'. split; [exact Hl'|].
      rewrite Hf. f_equal. apply hasVisibleBuilding_registry.
      apply filterBlock_registry.
    + destruct Hin as [->|Hin]; [|contradiction].
      rewrite filterBlocks_blocks_other by exact Hrest.
      apply filterBlock_blocks_same with (layer := layer). exact Hk.
Qed.

(** The landlord loop. *)

Lemma filterLandlordRows_blocks rows s :
  blocksIndex (snd (filterLandlordRows rows s)) = blocksIndex s
  /\ registry (snd (filterLandlordRows rows s)) = registry s.
Proof.
  revert s. induction rows as [|row rest IH]; intros s; simpl; [auto|].
  match goal with
  | |- context [filterLandlordRows rest ?s1] =>
      specialize (IH s1); destruct (filterLandlordRows rest s1) as [rest' s'] eqn:E
  end.
  simpl in *. destruct IH as [-> ->].
  match goal with |- context [if ?c then _ else _] => destruct c end; auto.
Qed.

Lemma objGet_In {A : Type} (o : list (string * A)) (k : string) (v : A) :
  objGet o k = Some v -> In k (map fst o).
Proof.
  induction o as [|[k' v'] rest IH]; simpl; [discriminate|].
  destruct (String.eqb k' k) eqn:E.
  - apply String.eqb_eq in E. auto.
  - auto.
Qed.

Lemma objGet_not_In {A : Type} (o : list (string * A)) (k : string) :
  objGet o k = None -> ~ In k (map fst o).
Proof.
  induction o as [|[k' v'] rest IH]; simpl; [tauto|].
  destruct (String.eqb k' k) eqn:E; [discriminate|].
  apply String.eqb_neq in E. intros Hnone [Heq|Hin]; [congruence | tauto].
Qed.

(** What a pass leaves in [blocksIndex]: the block loop run from a state
    with the registry and the layers the pass started with. *)
Lemma applyFilters_blocksIndex ui s :
  exists s1,
    registry s1 = registry s
    /\ blocksIndex s1 = blocksIndex s
    /\ blocksIndex (applyFilters ui s)
       = blocksIndex
           (fold_left (fun s0 blockId => filterBlock (visibleBidsOf ui s) blockId s0)
              (map fst (blockBuildingIndex (registry s))) s1).
Proof.
  unfold applyFilters, visibleBidsOf.
  destruct (filterBuildingRows _ _ _ ui (buildingRows s) (markers s) [])
    as [[rows ms] visibleBids] eqn:E.
  simpl.
  exists (withMarkers (fun _ => ms) (withBuildingRows (fun _ => rows) s)).
  split; [reflexivity|]. split; [reflexivity|].
  match goal with
  | |- context [filterLandlordRows ?rows2 ?s2] =>
      pose proof (filterLandlordRows_blocks rows2 s2) as [Hb _];
      destruct (filterLandlordRows rows2 s2) as [lrows s3] eqn:E3
  end.
  simpl in *. exact Hb.
Qed.

End PassFacts.

(** ** Visibility of blocks after a pass *)

Lemma existsb_pointwise {A : Type} (p q : A -> bool) (l : list A) :
  (forall x, p x = q x) -> existsb p l = existsb q l.
Proof.
  intros Hpq. induction l as [|x rest IH]; simpl; [reflexivity|].
  rewrite Hpq, IH. reflexivity.
Qed.

Section BlockVisibility.
Context `{JSBuiltins}.

(** The verdict of a row reads the neighbourhood options and the metric
    controls only (lines 1195-1216), not the membership criteria. *)
Lemma rowMatches_membership_free (ui ui' : FilterUI) (row : Row) :
  hoodInputs ui' = hoodInputs ui -> metricControls ui' = metricControls ui ->
  rowMatches ui' row = rowMatches ui row.
Proof.
  intros Hh Hm. unfold rowMatches, hoodMatches, selectedHoods. rewrite Hh, Hm. reflexivity.
Qed.

(** C3, as the code has it.  After a filter pass, a block that
    [blockBuildingIndex] links to building ids is not filtered exactly when
    a row of the buildings table with one of those ids passes the
    neighbourhood and the metric criteria.  The membership criteria have no
    part in it: controls that differ in them only leave the same blocks
    visible. *)
Theorem block_visibility_after_pass :
  forall (ui : FilterUI) (s : State) (blockId : string),
    (forall ids layer,
       objGet (blockBuildingIndex (registry s)) blockId = Some ids ->
       blocksIndex s !! blockId = Some layer ->
       exists layer',
         blocksIndex (applyFilters ui s) !! blockId = Some layer'
         /\ (l_isFiltered layer' = false
             <-> exists id, In id ids /\ bidPasses ui s id = true))
    /\ (forall ui',
          hoodInputs ui' = hoodInputs ui -> metricControls ui' = metricControls ui ->
          (forall id, bidPasses ui' s id = bidPasses ui s id)
          /\ (objGet (blockBuildingIndex (registry s)) blockId <> None ->
              l_isFiltered <$> blocksIndex (applyFilters ui' s) !! blockId
              = l_isFiltered <$> blocksIndex (applyFilters ui s) !! blockId)).
Proof.
  intros ui s blockId.
  assert (Hlinked : forall ui0 ids layer,
             objGet (blockBuildingIndex (registry s)) blockId = Some ids ->
             blocksIndex s !! blockId = Some layer ->
             exists layer',
               blocksIndex (applyFilters ui0 s) !! blockId = Some layer'
               /\ l_isFiltered layer'
                  = negb (existsb (bidPasses ui0 s) ids)).
  { intros ui0 ids layer Hids Hlayer.
    destruct (applyFilters_blocksIndex ui0 s) as (s1 & Hreg & Hblocks & Hpass).
    rewrite Hpass. rewrite <- Hblocks in Hlayer.
    destruct (filterBlocks_blocks_same (visibleBidsOf ui0 s)
                (map fst (blockBuildingIndex (registry s))) s1 blockId layer
                (objGet_In _ _ _ Hids) Hlayer) as (layer' & Hl' & Hf).
    exists layer'. split; [exact Hl'|].
    rewrite Hf. unfold hasVisibleBuilding. rewrite Hreg, Hids. simpl.
    f_equal. apply existsb_pointwise. intros id. apply visibleBids_passes. }
  assert (Hfree : forall ui', hoodInputs ui' = hoodInputs ui ->
                              metricControls ui' = metricControls ui ->
                              forall id, bidPasses ui' s id = bidPasses ui s id).
  { intros ui' Hh Hm id. unfold bidPasses. apply existsb_pointwise. intros row.
    rewrite (rowMatches_membership_free ui ui' row Hh Hm). reflexivity. }
  split.
  - intros ids layer Hids Hlayer.
    destruct (Hlinked ui ids layer Hids Hlayer) as (layer' & Hl' & Hf).
    exists layer'. split; [exact Hl'|].
    rewrite Hf, negb_false_iff, existsb_exists. reflexivity.
  - intros ui' Hh Hm. split; [exact (Hfree ui' Hh Hm)|].
    intros Hsome.
    destruct (objGet (blockBuildingIndex (registry s)) blockId) as [ids|] eqn:Hids;
      [|congruence].
    destruct (blocksIndex s !! blockId) as [layer|] eqn:Hlayer.
    + destruct (Hlinked ui ids layer eq_refl eq_refl) as (l1 & Hl1 & Hf1).
      destruct (Hlinked ui' ids layer eq_refl eq_refl) as (l2 & Hl2 & Hf2).
      rewrite Hl1, Hl2. simpl. rewrite Hf1, Hf2. do 2 f_equal.
      apply existsb_pointwise. intros id. apply (Hfree ui' Hh Hm).
    + destruct (step_related (fun _ _ : Marker => True) (fun _ _ : Layer => True))
        with (e := EvFilters ui) (s := s) as [_ R1]; auto.
      destruct (step_related (fun _ _ : Marker => True) (fun _ _ : Layer => True))
        with (e := EvFilters ui') (s := s) as [_ R2]; auto.
      specialize (R1 blockId). specialize (R2 blockId).
      simpl in R1, R2. rewrite Hlayer in R1, R2.
      destruct (blocksIndex (applyFilters ui s) !! blockId); [contradiction|].
      destruct (blocksIndex (applyFilters ui' s) !! blockId); [contradiction|].
      reflexivity.
Qed.

End BlockVisibility.

Lemma block_visibility_after_pass_witness :
  exists layer',
    blocksIndex (applyFilters (sampleUI true false) samplePage) !! "K1" = Some layer'
    /\ l_isFiltered layer' = false.
Proof.
  destruct (block_visibility_after_pass (sampleUI true false) samplePage "K1")
    as [Hlinked _].
  let v := eval vm_compute in (blocksIndex samplePage !! "K1") in
  assert (E : blocksIndex samplePage !! "K1" = v) by (vm_compute; reflexivity).
  destruct (Hlinked ["b1"; "b3"] _ eq_refl E) as (layer' & Hl' & Hf).
  exists layer'. split; [exact Hl'|].
  apply Hf. exists "b1". split; [left; reflexivity | vm_compute; reflexivity].
Defined.

(** C3, the claim as written fails: with membership required, building b2,
    the only building of block K2, has no membership record and so fails
    the membership sub-rule, and with it the final verdict of the filter;
    its row still matches, and after the pass the layer of K2 is not
    filtered.  The pass records the failed membership verdict on the
    marker, where it decides the colour. *)
Lemma block_visible_though_membership_fails :
  reachable (run (startUp ++ [EvFilters sampleUIMembers]) samplePage)
  /\ objGet (blockBuildingIndex (registry (run startUp samplePage))) "K2" = Some ["b2"]
  /\ finalVerdict sampleUIMembers (run startUp samplePage) "b2" = false
  /\ bidPasses sampleUIMembers (run startUp samplePage) "b2" = true
  /\ l_isFiltered
       <$> blocksIndex (run (startUp ++ [EvFilters sampleUIMembers]) samplePage) !! "K2"
     = Some false
  /\ m_passesMembership
       <$> markers (run (startUp ++ [EvFilters sampleUIMembers]) samplePage) !! "marker_2"
     = Some false.
Proof.
  split.
  - apply reachable_run, reachable_initial, samplePage_initial.
  - split; [vm_compute; reflexivity|].
    split; [vm_compute; reflexivity|].
    split; [vm_compute; reflexivity|].
    split; vm_compute; reflexivity.
Qed.

(** A block without an entry in [blockBuildingIndex] is not visited by the
    pass (line 1243): its layer is what it was before.  The loop over the
    landlords table, by contrast, hides a row whose owner has no visible
    building row (lines 1260-1263). *)
Lemma unlinked_block_not_visited `{JSBuiltins} (ui : FilterUI) (s : State)
    (blockId : string) :
  objGet (blockBuildingIndex (registry s)) blockId = None ->
  blocksIndex (applyFilters ui s) !! blockId = blocksIndex s !! blockId.
Proof.
  intros Hnone.
  destruct (applyFilters_blocksIndex ui s) as (s1 & Hreg & Hblocks & Hpass).
  rewrite Hpass. rewrite filterBlocks_blocks_other; [rewrite Hblocks; reflexivity|].
  apply objGet_not_In. exact Hnone.
Qed.

(** So on the sample page: no building is linked to block K3, and with no
    neighbourhood option checked no building is visible, yet after the pass
    the layer of K3 is not filtered (while K1, which has buildings, is). *)
Lemma unlinked_block_stays_visible :
  reachable (run (startUp ++ [EvFilters (sampleUI false false)]) samplePage)
  /\ objGet (blockBuildingIndex (registry (run startUp samplePage))) "K3" = None
  /\ visibleBidsOf (sampleUI false false) (run startUp samplePage) = []
  /\ l_isFiltered
       <$> blocksIndex (run (startUp ++ [EvFilters (sampleUI false false)]) samplePage)
             !! "K3"
     = Some false
  /\ l_isFiltered
       <$> blocksIndex (run (startUp ++ [EvFilters (sampleUI false false)]) samplePage)
             !! "K1"
     = Some true.
Proof.
  split.
  - apply reachable_run, reachable_initial, samplePage_initial.
  - split; [vm_compute; reflexivity|].
    split; [vm_compute; reflexivity|].
    split; vm_compute; reflexivity.
Qed.

(** Not so for block layers that stay visible: with block K1 selected, a
    pass that keeps it visible resets its style without putting the overlay
    back, although its count is still 1.  The marker paths put it back
    (lines 215-217, 777-781 and 823-825). *)
Lemma selected_block_loses_overlay :
  let s := run (startUp ++ [EvToggle TBlocks 0; EvFilters (sampleUI true true)]) samplePage in
  reachable s
  /\ l_isFiltered <$> blocksIndex s !! "K1" = Some false
  /\ l_selectionRefs <$> blocksIndex s !! "K1" = Some 1%Z
  /\ blockHighlighted <$> blocksIndex s !! "K1" = Some false.
Proof.
  intros s. split.
  - apply reachable_run, reachable_initial, samplePage_initial.
  - split; [vm_compute; reflexivity|].
    split; vm_compute; reflexivity.
Qed.

(** ** Markers without a row *)

Section RowlessMarkers.
Context `{JSBuiltins}.

Lemma updateFirst_Forall (P : Row -> Prop) (p : Row -> bool) (f : Row -> Row) rows :
  (forall row, P row -> P (f row)) -> Forall P rows -> Forall P (updateFirst p f rows).
Proof.
  intros Hf Hall. induction Hall as [|row rest Hrow Hrest IH]; simpl.
  - constructor.
  - destruct (p row); constructor; auto.
Qed.

Lemma safeBlockRow_setHidden r v h row :
  safeBlockRow r v row -> safeBlockRow r v (setHidden h row).
Proof. intros Hs. exact Hs. Qed.

Lemma isChecked_setChecked_false row : isChecked (setChecked false row) = false.
Proof. unfold isChecked, setChecked. simpl. destruct (checkbox row); reflexivity. Qed.

Lemma filterBlockRow_safe v k s :
  In k (map fst (blockBuildingIndex (registry s))) ->
  Forall (safeBlockRow (registry s) v) (blockRows s) ->
  markers (filterBlockRow v k s) = markers s
  /\ Forall (safeBlockRow (registry s) v) (blockRows (filterBlockRow v k s))
  /\ buildingRows (filterBlockRow v k s) = buildingRows s
  /\ landlordRows (filterBlockRow v k s) = landlordRows s.
Proof.
  intros Hk Hsafe. unfold filterBlockRow.
  destruct (List.find _ (blockRows s)) as [row|] eqn:Efind; [|auto].
  apply find_some in Efind. destruct Efind as [Hin Hattr].
  rewrite Forall_forall in Hsafe. pose proof (Hsafe row) as Hrow.
  rewrite <- Forall_forall in Hsafe.
  assert (Hno : negb (hasVisibleBuilding v k s) && isChecked row = false).
  { destruct (isChecked row) eqn:Ec; [|apply andb_false_r].
    unfold hasVisibleBuilding. rewrite Hrow; auto.
    apply list_elem_of_In. exact Hin. }
  rewrite Hno. simpl. repeat split.
  apply updateFirst_Forall; [|exact Hsafe].
  intros row0. apply safeBlockRow_setHidden.
Qed.

Lemma filterBlocks_safe v keys s :
  (forall k, In k keys -> In k (map fst (blockBuildingIndex (registry s)))) ->
  Forall (safeBlockRow (registry s) v) (blockRows s) ->
  markers (fold_left (fun s0 k => filterBlock v k s0) keys s) = markers s.
Proof.
  revert s. induction keys as [|k rest IH]; intros s Hkeys Hsafe; simpl; [reflexivity|].
  destruct (filterBlockRow_safe v k s (Hkeys k (or_introl eq_refl)) Hsafe)
    as (Hm & Hrows & _ & _).
  rewrite IH.
  - unfold filterBlock. simpl. exact Hm.
  - rewrite filterBlock_registry. intros k' Hin. apply Hkeys. right. exact Hin.
  - rewrite filterBlock_registry. unfold filterBlock. simpl. exact Hrows.
Qed.

Lemma filterBlocks_rows v keys s :
  buildingRows (fold_left (fun s0 k => filterBlock v k s0) keys s) = buildingRows s
  /\ landlordRows (fold_left (fun s0 k => filterBlock v k s0) keys s) = landlordRows s.
Proof.
  revert s. induction keys as [|k rest IH]; intros s; simpl; [auto|].
  destruct (IH (filterBlock v k s)) as [-> ->].
  unfold filterBlock, filterBlockRow. simpl.
  destruct (List.find _ (blockRows s)); [|auto].
  destruct (_ && _); auto.
Qed.

Lemma filterLandlordRows_safe rows s :
  Forall (fun row =>
            isChecked row = true ->
            existsb (fun b => hasAttribute "data-owner"
                                (jsKey (getAttribute row "data-owner")) b
                              && negb (hidden b)) (buildingRows s) = true) rows ->
  markers (snd (filterLandlordRows rows s)) = markers s.
Proof.
  intros Hsafe. induction Hsafe as [|row rest Hrow Hrest IH]; simpl; [reflexivity|].
  assert (Hno : negb (existsb (fun b => hasAttribute "data-owner"
                                           (jsKey (getAttribute row "data-owner")) b
                                         && negb (hidden b)) (buildingRows s))
                && isChecked row = false).
  { destruct (isChecked row) eqn:Ec; [|apply andb_false_r].
    rewrite Hrow; reflexivity. }
  rewrite Hno.
  destruct (filterLandlordRows rest s) as [rest' s'] eqn:E.
  simpl in *. exact IH.
Qed.

Lemma existsb_filtered_rows (ui : FilterUI) (p : Row -> bool) (rows : list Row) :
  (forall row m, p (filterRowDom m row) = p row) ->
  existsb (fun b => p b && negb (hidden b))
          (map (fun row => filterRowDom (rowMatches ui row) row) rows)
  = existsb (fun b => p b && rowMatches ui b) rows.
Proof.
  intros Hp. induction rows as [|row rest IH]; simpl; [reflexivity|].
  rewrite IH, Hp. f_equal. f_equal.
  unfold filterRowDom. destruct (rowMatches ui row); simpl.
  - reflexivity.
  - destruct (isChecked _); reflexivity.
Qed.

Lemma hasAttribute_filterRowDom name value row m :
  hasAttribute name value (filterRowDom m row) = hasAttribute name value row.
Proof.
  unfold filterRowDom. destruct (negb m && isChecked (setHidden (negb m) row));
    reflexivity.
Qed.

(** C10, as the code has it.  Take a marker registered under one id only,
    an id that no row of the buildings table carries.  A filter pass
    leaves the marker's filtered flag as it was.  It leaves the whole
    marker as it was when the pass unchecks no row of the blocks and
    landlords tables; when it does uncheck one, the deselection of that
    block or owner reaches every marker linked to it, with or without a
    row. *)
Theorem filter_pass_leaves_rowless_marker :
  forall (ui : FilterUI) (s : State) (bid marker : string) (m : Marker),
    objGet (buildingIndex (registry s)) bid = Some marker ->
    (forall bid', objGet (buildingIndex (registry s)) bid' = Some marker -> bid' = bid) ->
    markers s !! marker = Some m ->
    (forall row, In row (buildingRows s) -> rowBid row <> bid) ->
    (exists m',
       markers (applyFilters ui s) !! marker = Some m'
       /\ m_isFiltered m' = m_isFiltered m)
    /\ (noCascade ui s = true -> markers (applyFilters ui s) !! marker = Some m).
Proof.
  intros ui s bid marker m Hbid Honly Hm Hrows.
  assert (Hframe : forall row, In row (buildingRows s) ->
              objGet (buildingIndex (registry s)) (rowBid row) <> Some marker).
  { intros row Hin Hget. apply (Hrows row Hin). apply Honly. exact Hget. }
  pose proof (filterBuildingRows_frame (registry s) (currentZoomScale s)
                (colorScalingEnabled s) ui (buildingRows s) (markers s) [] marker Hframe)
    as Hloop.
  pose proof (filterBuildingRows_rows (registry s) (currentZoomScale s)
                (colorScalingEnabled s) ui (buildingRows s) (markers s) []) as Hdom.
  unfold noCascade, applyFilters.
  assert (Hv : visibleBidsOf ui s
               = snd (filterBuildingRows (registry s) (currentZoomScale s)
                        (colorScalingEnabled s) ui (buildingRows s) (markers s) []))
    by reflexivity.
  destruct (filterBuildingRows _ _ _ ui (buildingRows s) (markers s) [])
    as [[rows ms] visibleBids] eqn:E.
  simpl in Hloop, Hdom, Hv.
  set (s1 := withMarkers (fun _ => ms) (withBuildingRows (fun _ => rows) s)).
  set (keys := map fst (blockBuildingIndex (registry s1))).
  set (s2 := fold_left (fun s0 blockId => filterBlock visibleBids blockId s0) keys s1).
  pose proof (filterBlocks_rows visibleBids keys s1) as [Hb2 Hl2]. fold s2 in Hb2, Hl2.
  destruct (filterLandlordRows (landlordRows s2) s2) as [lrows s3] eqn:E3.
  assert (Hs3 : s3 = snd (filterLandlordRows (landlordRows s2) s2)) by (rewrite E3; reflexivity).
  simpl. split.
  - pose (RM := fun m0 m' : Marker => m_isFiltered m' = m_isFiltered m0).
    pose (RL := fun _ _ : Layer => True).
    assert (R12 : stateRelated RM RL s1 s2).
    { apply filterBlocks_related; unfold RM, RL; auto.
      - intros x y z Hxy Hyz. congruence.
      - intros. apply adjustMarkerSelection_isFiltered. }
    assert (R23 : stateRelated RM RL s2 s3).
    { rewrite Hs3. apply filterLandlordRows_related; unfold RM, RL; auto.
      - intros x y z Hxy Hyz. congruence.
      - intros. apply adjustMarkerSelection_isFiltered. }
    destruct R12 as [M12 _]. destruct R23 as [M23 _].
    specialize (M12 marker). specialize (M23 marker).
    assert (H1 : markers s1 !! marker = Some m) by (simpl; rewrite Hloop; exact Hm).
    rewrite H1 in M12.
    destruct (markers s2 !! marker) as [m2|]; [|contradiction].
    destruct (markers s3 !! marker) as [m3|]; [|contradiction].
    exists m3. split; [reflexivity|]. unfold RM in *. congruence.
  - intros Hnc. apply andb_true_iff in Hnc. destruct Hnc as [Hblocks Hlords].
    assert (E2 : markers s2 = markers s1).
    { apply filterBlocks_safe; [auto|].
      apply List.Forall_forall. intros row Hin.
      rewrite forallb_forall in Hblocks. specialize (Hblocks row Hin).
      unfold blockRowKeeps in Hblocks. intros Hc k Hk Hattr.
      rewrite Hc in Hblocks. simpl in Hblocks.
      rewrite forallb_forall in Hblocks. specialize (Hblocks k Hk).
      rewrite Hattr in Hblocks. simpl in Hblocks.
      unfold hasVisibleBuilding in Hblocks. rewrite Hv in Hblocks. exact Hblocks. }
    assert (E3' : markers s3 = markers s2).
    { rewrite Hs3. apply filterLandlordRows_safe.
      rewrite Hl2, Hb2. simpl. apply List.Forall_forall. intros row Hin Hc.
      rewrite forallb_forall in Hlords. specialize (Hlords row Hin).
      unfold landlordRowKeeps in Hlords. rewrite Hc in Hlords. simpl in Hlords.
      rewrite Hdom. rewrite existsb_filtered_rows; [exact Hlords|].
      intros row0 m0. apply hasAttribute_filterRowDom. }
    rewrite E3', E2. simpl. rewrite Hloop. exact Hm.
Qed.

End RowlessMarkers.

Lemma filter_pass_leaves_rowless_marker_witness :
  exists m,
    markers (run (startUp ++ [EvToggle TBlocks 0]) samplePage) !! "marker_3" = Some m
    /\ markers (applyFilters (sampleUI true false) (run (startUp ++ [EvToggle TBlocks 0]) samplePage))
         !! "marker_3" = Some m.
Proof.
  set (s := run (startUp ++ [EvToggle TBlocks 0]) samplePage).
  let v := eval vm_compute in (markers s !! "marker_3") in
  assert (E : markers s !! "marker_3" = v) by (vm_compute; reflexivity).
  eexists. split; [exact E|].
  assert (Honly : forall bid', objGet (buildingIndex (registry s)) bid' = Some "marker_3"
                               -> bid' = "b3").
  { intros bid'. change (registry s) with sampleRegistry.
    unfold sampleRegistry. cbn [buildingIndex objGet].
    destruct (String.eqb "b1" bid'); [discriminate|].
    destruct (String.eqb "b2" bid'); [discriminate|].
    destruct (String.eqb "b3" bid') eqn:E3; [|discriminate].
    intros _. symmetry. apply String.eqb_eq. exact E3. }
  assert (Hrows : forall row, In row (buildingRows s) -> rowBid row <> "b3").
  { intros row Hin. vm_compute in Hin.
    destruct Hin as [<-|[<-|[]]]; discriminate. }
  destruct (filter_pass_leaves_rowless_marker (sampleUI true false) s "b3" "marker_3" _
              eq_refl Honly E Hrows) as [_ Hsame].
  apply Hsame. vm_compute. reflexivity.
Defined.

(** C10, the claim as written fails: building b3 has a marker and no row.
    With block K1 selected its marker has count 1 and shows the overlay; a
    pass that hides every building unchecks the row of K1 and deselects the
    markers of the block, b3's among them: the count drops to 0 and the
    overlay goes. *)
Lemma filter_pass_changes_rowless_marker :
  let before := run (startUp ++ [EvToggle TBlocks 0]) samplePage in
  let after := applyFilters (sampleUI false false) before in
  reachable before
  /\ objGet (buildingIndex (registry before)) "b3" = Some "marker_3"
  /\ (forall row, In row (buildingRows before) -> getAttribute row "data-bid" <> Some "b3")
  /\ (m_selectionRefs <$> markers before !! "marker_3") = Some 1%Z
  /\ (markerHighlighted <$> markers before !! "marker_3") = Some true
  /\ (m_selectionRefs <$> markers after !! "marker_3") = Some 0%Z
  /\ (markerHighlighted <$> markers after !! "marker_3") = Some false
  /\ markers after !! "marker_3" <> markers before !! "marker_3".
Proof.
  intros before after. split.
  - apply reachable_run, reachable_initial, samplePage_initial.
  - split; [vm_compute; reflexivity|]. split.
    { intros row Hin. vm_compute in Hin.
      destruct Hin as [<-|[<-|[]]]; discriminate. }
    split; [vm_compute; reflexivity|].
    split; [vm_compute; reflexivity|].
    split; [vm_compute; reflexivity|].
    split; [vm_compute; reflexivity|].
    vm_compute. intros E. inversion E.
Qed.


(** * Further properties of the engine *)

(** ** Membership: what relaxing the criteria does *)

Lemma length_filter_existsb {A : Type} (p : A -> bool) (l : list A) :
  (0 <? length (List.filter p l))%nat = existsb p l.
Proof.
  induction l as [|x rest IH]; simpl; [reflexivity|].
  destruct (p x); simpl; [reflexivity | exact IH].
Qed.

Lemma filter_filter_andb {A : Type} (p q : A -> bool) (l : list A) :
  List.filter q (List.filter p l) = List.filter (fun x => p x && q x) l.
Proof.
  induction l as [|x rest IH]; simpl; [reflexivity|].
  destruct (p x); simpl; [destruct (q x); simpl; congruence | exact IH].
Qed.

(** [matchesFilters] asks for one record that meets every criterion set. *)
Lemma matchesFilters_existsb (records : list MemberRecord) (opts : Opts) :
  matchesFilters records opts
  = (negb (requireMember opts) && isNull (minYear opts))
    || existsb (fun r => (negb (requireMember opts) || has_member_tag r)
                         && (isNull (minYear opts) || yearAtLeast (minYear opts) r))
               records.
Proof.
  unfold matchesFilters.
  destruct records as [|r rest].
  - destruct (requireMember opts), (isNull (minYear opts)); reflexivity.
  - change (0 <? length (r :: rest))%nat with true.
    destruct (requireMember opts), (isNull (minYear opts));
      cbn [negb andb orb]; try reflexivity.
    + rewrite length_filter_existsb. apply existsb_pointwise. intros x.
      rewrite andb_true_r. reflexivity.
    + rewrite filter_filter_andb, length_filter_existsb. reflexivity.
    + rewrite length_filter_existsb. reflexivity.
Qed.

(** X1. Relaxing the membership criteria never turns a pass into a fail:
    a lower minimum year, no minimum year at all, dropping the membership
    requirement, or one more record keep a building that passed.  A
    threshold that is [NaN] fails every building, with or without records. *)
Theorem matchesFilters_relaxing :
  (forall records requireMembership y1 y2,
     (y1 <= y2)%Z ->
     matchesFilters records {| requireMember := requireMembership; minYear := YNum y2 |} = true ->
     matchesFilters records {| requireMember := requireMembership; minYear := YNum y1 |} = true)
  /\ (forall records requireMembership year,
        matchesFilters records {| requireMember := requireMembership; minYear := year |} = true ->
        matchesFilters records {| requireMember := requireMembership; minYear := YNull |} = true)
  /\ (forall records year,
        matchesFilters records {| requireMember := true; minYear := year |} = true ->
        matchesFilters records {| requireMember := false; minYear := year |} = true)
  /\ (forall records r opts,
        matchesFilters records opts = true -> matchesFilters (r :: records) opts = true)
  /\ (forall records requireMembership,
        matchesFilters records {| requireMember := requireMembership; minYear := YNaN |}
        = false).
Proof.
  split; [|split; [|split; [|split]]].
  - intros records rm y1 y2 Hle. rewrite !matchesFilters_existsb. simpl.
    rewrite !andb_false_r. simpl.
    rewrite !existsb_exists. intros (r & Hin & Hr). exists r. split; [exact Hin|].
    apply andb_true_iff in Hr. destruct Hr as [Ht Hy].
    rewrite Ht. simpl. unfold yearAtLeast in *.
    destruct (latest_membership_year r) as [yr|]; [|discriminate].
    apply Z.leb_le in Hy. apply Z.leb_le. lia.
  - intros records rm year. rewrite !matchesFilters_existsb. simpl.
    destruct rm; simpl; [|reflexivity].
    destruct (isNull year) eqn:En; simpl; [tauto|].
    rewrite !existsb_exists. intros (r & Hin & Hr). exists r. split; [exact Hin|].
    apply andb_true_iff in Hr. destruct Hr as [Ht _].
    rewrite Ht. reflexivity.
  - intros records year. rewrite !matchesFilters_existsb. simpl.
    intros Hex. destruct (isNull year) eqn:En; [reflexivity|]. simpl.
    rewrite existsb_exists in *. destruct Hex as (r & Hin & Hr). exists r.
    split; [exact Hin|]. apply andb_true_iff in Hr. tauto.
  - intros records r opts. rewrite !matchesFilters_existsb. simpl.
    intros Hm. apply orb_true_iff in Hm. destruct Hm as [Hm|Hm].
    + rewrite Hm. reflexivity.
    + rewrite Hm, !orb_true_r. reflexivity.
  - intros records rm. rewrite matchesFilters_existsb. simpl.
    rewrite andb_false_r. simpl.
    induction records as [|r rest IH]; simpl; [reflexivity|].
    rewrite IH, orb_false_r. unfold yearAtLeast.
    destruct (latest_membership_year r); apply andb_false_r.
Qed.

Lemma matchesFilters_relaxing_witness :
  matchesFilters [sampleRecord] {| requireMember := false; minYear := YNum 2000 |} = true.
Proof.
  destruct matchesFilters_relaxing as (Hyear & _ & Htag & _).
  apply Htag. apply (Hyear [sampleRecord] true 2000%Z 2019%Z); [lia | reflexivity].
Defined.

(** ** Hover and selection on one object *)

Ltac marker_unfold :=
  cbv beta iota zeta
      delta [zoomMarker highlightMarker ensureMarkerBase hoverMarker
             adjustMarkerSelection setMarkerVisibility updateMarkerColorAppearance
             setRadius setStyle setRefs setIsFiltered setBaseColor setPassesMembership
             getScaledRadius
             m_isFiltered m_selectionRefs m_baseColor m_baseOpacity m_baseRadius
             m_style m_radius m_hasSetRadius m_colorizedColor m_neutralColor m_isVtu
             m_passesMembership fillColor negb].

Lemma orStr_nonempty (s d : string) : d <> "" -> orStr s d <> "".
Proof. intros Hd. destruct s; simpl; [exact Hd | discriminate]. Qed.

Lemma orStr_absorb (s t : string) : t <> "" -> orStr s (orStr (orStr s t) "#9e9e9e") = orStr s t.
Proof.
  intros Ht. destruct s; simpl; [|reflexivity].
  destruct t; simpl; [congruence | reflexivity].
Qed.

Lemma baseColor_stable (b f : string) :
  orStr b (orStr (orStr b (orStr f "#9e9e9e")) "#9e9e9e") = orStr b (orStr f "#9e9e9e").
Proof. apply orStr_absorb. apply orStr_nonempty. discriminate. Qed.

(** A second call of [highlightMarker] overwrites what the first has
    drawn.  On a marker without [setRadius] a call with [on] leaves the
    radius alone, so there the first call shows through unless it was a call
    with [on] as well. *)
Lemma highlightMarker_twice zoom on1 on2 (m : Marker) :
  m_hasSetRadius m = true \/ on2 = false \/ on1 = true ->
  highlightMarker zoom on2 (highlightMarker zoom on1 m) = highlightMarker zoom on2 m.
Proof.
  intros Hcase.
  destruct m as [bc bo br cc nc refs filt vtu pm st rad hsr].
  destruct filt; [reflexivity|].
  cbv beta iota zeta
      delta [highlightMarker ensureMarkerBase setRadius setStyle getScaledRadius
             m_isFiltered m_baseColor m_baseOpacity m_baseRadius m_style fillColor
             m_hasSetRadius m_radius negb].
  destruct hsr, on1, on2; cbv beta iota; rewrite ?baseColor_stable; try reflexivity.
  simpl in Hcase. destruct Hcase as [Hc|[Hc|Hc]]; discriminate.
Qed.

(** X2. Hover leaves no trace on a marker that is neither filtered nor
    selected: after hover-on and hover-off it shows its base appearance,
    and a marker that showed its base appearance before is exactly as it
    was.  If the marker is selected while hovered, hover-off keeps the
    overlay, and deselecting it then brings back the base appearance. *)
Theorem marker_hover_round_trip :
  forall (zoom : Q) (m : Marker),
    m_isFiltered m = false ->
    m_selectionRefs m = 0%Z ->
    hoverMarker zoom false (hoverMarker zoom true m) = highlightMarker zoom false m
    /\ (highlightMarker zoom false m = m ->
        hoverMarker zoom false (hoverMarker zoom true m) = m)
    /\ (let selected := adjustMarkerSelection zoom 1 (hoverMarker zoom true m) in
        hoverMarker zoom false selected = selected
        /\ markerHighlighted selected = true
        /\ m_selectionRefs selected = 1%Z
        /\ adjustMarkerSelection zoom (-1) selected = highlightMarker zoom false m).
Proof.
  intros zoom m Hf Hr.
  assert (Hround : hoverMarker zoom false (hoverMarker zoom true m)
                   = highlightMarker zoom false m).
  { unfold hoverMarker. rewrite Hf.
    rewrite (proj1 (highlightMarker_fields zoom true m)), Hf.
    rewrite (proj2 (highlightMarker_fields zoom true m)), Hr. simpl.
    apply highlightMarker_twice. right. left. reflexivity. }
  split; [exact Hround|]. split; [intros Hbase; rewrite Hround; exact Hbase|].
  assert (Hon : hoverMarker zoom true m = highlightMarker zoom true m).
  { unfold hoverMarker. rewrite Hf. reflexivity. }
  rewrite Hon.
  assert (Hsel : adjustMarkerSelection zoom 1 (highlightMarker zoom true m)
                 = highlightMarker zoom true (setRefs 1 m)).
  { destruct m as [bc bo br cc nc refs filt vtu pm st rad hsr].
    simpl in Hf, Hr. subst filt refs.
    destruct hsr; marker_unfold; cbn [Z.add Z.ltb Z.compare];
      rewrite ?baseColor_stable; reflexivity. }
  simpl. rewrite Hsel.
  assert (Hf1 : m_isFiltered (highlightMarker zoom true (setRefs 1 m)) = false).
  { rewrite (proj1 (highlightMarker_fields _ _ _)). exact Hf. }
  assert (Hr1 : m_selectionRefs (highlightMarker zoom true (setRefs 1 m)) = 1%Z).
  { rewrite (proj2 (highlightMarker_fields _ _ _)). reflexivity. }
  split; [|split; [|split]].
  - unfold hoverMarker. rewrite Hf1, Hr1. reflexivity.
  - apply highlightMarker_on. exact Hf.
  - exact Hr1.
  - destruct m as [bc bo br cc nc refs filt vtu pm st rad hsr].
    simpl in Hf, Hr. subst filt refs.
    destruct hsr; marker_unfold; cbn [Z.add Z.ltb Z.compare Z.opp Z.pos_sub];
      rewrite ?baseColor_stable; reflexivity.
Qed.

Lemma marker_hover_round_trip_witness :
  hoverMarker 1 false (hoverMarker 1 true sampleMarker) = sampleMarker.
Proof.
  destruct (marker_hover_round_trip 1 sampleMarker eq_refl eq_refl) as (_ & Hsame & _).
  apply Hsame. reflexivity.
Defined.

Lemma blockBaseStyle_fill_nonempty enabled mx units :
  fillColor (blockBaseStyle enabled mx units) <> "".
Proof.
  unfold blockBaseStyle, blockFill.
  destruct (negb enabled || Qle_bool mx 0); simpl; [discriminate|].
  repeat (match goal with |- context [if ?c then _ else _] => destruct c end);
    discriminate.
Qed.

Lemma resetBlockStyle_twice e1 mx1 e2 mx2 (layer : Layer) :
  resetBlockStyle e2 mx2 (resetBlockStyle e1 mx1 layer) = resetBlockStyle e2 mx2 layer.
Proof. reflexivity. Qed.

(** X3. Hover leaves no trace on a block layer that is neither filtered nor
    selected: after hover-on and hover-off the layer has the base style of
    the current shading, and a layer that had it before is exactly as it
    was.  The overlay keeps the fill colour of the base style.  If the
    layer is selected while hovered, hover-off keeps the overlay. *)
Theorem block_hover_round_trip :
  forall (enabled : bool) (mx : Q) (layer : Layer),
    l_isFiltered layer = false ->
    l_selectionRefs layer = 0%Z ->
    hoverLayer enabled mx false (hoverLayer enabled mx true layer)
    = resetBlockStyle enabled mx layer
    /\ (resetBlockStyle enabled mx layer = layer ->
        hoverLayer enabled mx false (hoverLayer enabled mx true layer) = layer
        /\ fillColor (l_style (hoverLayer enabled mx true layer))
           = fillColor (l_style layer))
    /\ (let selected :=
          adjustBlockSelection enabled mx 1 (hoverLayer enabled mx true layer) in
        hoverLayer enabled mx false selected = selected
        /\ blockHighlighted selected = true).
Proof.
  intros enabled mx layer Hf Hr.
  destruct layer as [units refs filtered base st]. simpl in Hf, Hr. subst.
  split; [reflexivity|]. split.
  - intros Hbase. split; [exact Hbase|].
    unfold resetBlockStyle in Hbase. simpl in Hbase.
    injection Hbase as Hb Hs. subst base st.
    unfold hoverLayer, highlightBlock. simpl.
    pose proof (blockBaseStyle_fill_nonempty enabled mx units) as Hne.
    destruct (fillColor (blockBaseStyle enabled mx units)); [congruence | reflexivity].
  - simpl. split; reflexivity.
Qed.

Lemma block_hover_round_trip_witness :
  hoverLayer true 200 false
    (hoverLayer true 200 true (resetBlockStyle true 200 (sampleLayer 50)))
  = resetBlockStyle true 200 (sampleLayer 50).
Proof.
  destruct (block_hover_round_trip true 200 (resetBlockStyle true 200 (sampleLayer 50))
              eq_refl eq_refl) as (_ & Hsame & _).
  apply Hsame. reflexivity.
Defined.

(** ** Counts over the life of the page *)

Section LayersOfStep.
Context `{JSBuiltins}.
Variable RL : Layer -> Layer -> Prop.
Hypothesis RL_refl : forall l, RL l l.
Hypothesis RL_trans : forall x y z, RL x y -> RL y z -> RL x z.
Hypothesis RL_filter : forall enabled mx filtered l, RL l (filterLayer enabled mx filtered l).
Hypothesis RL_unselect : forall l, RL l (setLayerRefs 0 l).
Hypothesis RL_adjust :
  forall enabled mx selected l,
    RL l (adjustBlockSelection enabled mx (selectionDelta selected) l).
Hypothesis RL_hover : forall enabled mx on l, RL l (hoverLayer enabled mx on l).
Hypothesis RL_reset :
  forall enabled mx l, l_isFiltered l = false -> RL l (resetBlockStyle enabled mx l).

Lemma filterBlock_layers_related v k s :
  related RL (blocksIndex s) (blocksIndex (filterBlock v k s)).
Proof.
  unfold filterBlock. simpl.
  eapply (related_trans RL RL_trans); [|apply (related_alter RL RL_refl); auto].
  unfold filterBlockRow. destruct (List.find _ _); [|apply related_refl; auto].
  destruct (_ && _); simpl; [|apply related_refl; auto].
  apply (related_alter RL RL_refl). auto.
Qed.

Lemma filterBlocks_layers_related v keys s :
  related RL (blocksIndex s)
    (blocksIndex (fold_left (fun s0 k => filterBlock v k s0) keys s)).
Proof.
  revert s. induction keys as [|k rest IH]; intros s; simpl.
  - apply related_refl; auto.
  - eapply (related_trans RL RL_trans); [apply filterBlock_layers_related | apply IH].
Qed.

Lemma step_layers_related e s : related RL (blocksIndex s) (blocksIndex (step e s)).
Proof.
  destruct e as [t i|i on|i on|i on|ui|enabled|enabled|scale]; simpl.
  - unfold toggleCheckbox.
    destruct (rowsOf t s !! i) as [row|]; [|apply related_refl; auto].
    destruct (checkbox row) as [cb|]; [|apply related_refl; auto].
    unfold handleSelectionChange. simpl.
    destruct (String.eqb (data_type cb) "building").
    { destruct (objGet _ _); destruct t; simpl; apply related_refl; auto. }
    destruct (String.eqb (data_type cb) "block").
    { destruct t; simpl; apply (related_alter RL RL_refl); auto. }
    destruct (String.eqb (data_type cb) "owner"); destruct t; simpl;
      apply related_refl; auto.
  - destruct (buildingRows s !! i); [|apply related_refl; auto].
    unfold buildingHover. destruct (objGet _ _); apply related_refl; auto.
  - destruct (blockRows s !! i); [|apply related_refl; auto].
    simpl. apply (related_alter RL RL_refl). auto.
  - destruct (landlordRows s !! i); apply related_refl; auto.
  - destruct (applyFilters_blocksIndex ui s) as (s1 & _ & Hb & Hpass).
    rewrite Hpass, <- Hb. apply filterBlocks_layers_related.
  - apply related_refl; auto.
  - apply related_fmap. intros l. destruct (l_isFiltered l) eqn:E; simpl; auto.
  - apply related_refl; auto.
Qed.

End LayersOfStep.

Lemma updateMarkerColorAppearance_refs zoom colorize (m : Marker) :
  m_selectionRefs (updateMarkerColorAppearance zoom colorize m) = m_selectionRefs m
  /\ m_isFiltered (updateMarkerColorAppearance zoom colorize m) = m_isFiltered m.
Proof.
  unfold updateMarkerColorAppearance, ensureMarkerBase.
  match goal with |- context [setBaseColor ?c m] => set (x := setBaseColor c m) end.
  change (m_selectionRefs m) with (m_selectionRefs x).
  change (m_isFiltered m) with (m_isFiltered x).
  destruct (m_isFiltered x) eqn:E; [rewrite E; auto|].
  destruct (0 <? m_selectionRefs x)%Z.
  - destruct (highlightMarker_fields zoom true x) as [Hf Hr]. rewrite Hf, Hr. auto.
  - destruct (highlightMarker_fields zoom false x) as [Hf Hr]. rewrite Hf, Hr. auto.
Qed.

Lemma setMarkerVisibility_fields zoom visible (m : Marker) :
  m_isFiltered (setMarkerVisibility zoom visible m) = negb visible
  /\ m_selectionRefs (setMarkerVisibility zoom visible m)
     = (if visible then m_selectionRefs m else 0%Z).
Proof.
  destruct visible.
  2:{ destruct (setMarkerVisibility_hidden zoom m) as (Hr & Hf & _). split; assumption. }
  destruct m as [bc bo br cc nc refs filt vtu pm st rad hsr].
  unfold setMarkerVisibility, ensureMarkerBase.
  destruct hsr; cbn [negb];
    (match goal with
     | |- context [highlightMarker zoom true ?y] => set (x := y)
     end;
     change refs with (m_selectionRefs x);
     destruct (0 <? m_selectionRefs x)%Z; [|split; reflexivity];
     destruct (highlightMarker_fields zoom true x) as [Hf Hr]; rewrite Hf, Hr;
     split; reflexivity).
Qed.

Lemma filterRowMarker_fields zoom colorize mm matches wasChecked (m : Marker) :
  m_isFiltered (filterRowMarker zoom colorize mm matches wasChecked m) = negb matches
  /\ m_selectionRefs (filterRowMarker zoom colorize mm matches wasChecked m)
     = (if matches then m_selectionRefs m else 0%Z).
Proof.
  unfold filterRowMarker.
  match goal with
  | |- context [setMarkerVisibility zoom matches ?y] => set (x := y)
  end.
  destruct (updateMarkerColorAppearance_refs zoom colorize
              (setMarkerVisibility zoom matches x)) as [Hr Hf].
  destruct (setMarkerVisibility_fields zoom matches x) as [Hf' Hr'].
  rewrite Hr, Hf, Hf', Hr'. split; [reflexivity|].
  destruct matches; [|reflexivity]. reflexivity.
Qed.

Lemma filterRowMarker_refs_nonneg zoom colorize mm matches wasChecked (m : Marker) :
  (0 <= m_selectionRefs m)%Z ->
  (0 <= m_selectionRefs (filterRowMarker zoom colorize mm matches wasChecked m))%Z.
Proof.
  intros Hm. rewrite (proj2 (filterRowMarker_fields _ _ _ _ _ _)).
  destruct matches; lia.
Qed.

Section CountsNeverNegative.
Context `{JSBuiltins}.

Lemma initial_refs_nonnegative (s : State) :
  initial s ->
  map_Forall (fun _ m => (0 <= m_selectionRefs m)%Z) (markers s)
  /\ map_Forall (fun _ l => (0 <= l_selectionRefs l)%Z) (blocksIndex s).
Proof.
  intros [Hm Hl]. split.
  - intros k m Hk. specialize (Hm k m Hk). unfold initialMarker in Hm.
    apply andb_true_iff in Hm. destruct Hm as [Hm _].
    apply andb_true_iff in Hm. destruct Hm as [Hm _].
    apply Z.eqb_eq in Hm. lia.
  - intros k l Hk. specialize (Hl k l Hk). unfold initialLayer in Hl.
    apply andb_true_iff in Hl. destruct Hl as [Hl _].
    apply andb_true_iff in Hl. destruct Hl as [Hl _].
    apply Z.eqb_eq in Hl. lia.
Qed.

Lemma step_refs_nonnegative (e : Event) (s : State) :
  map_Forall (fun _ m => (0 <= m_selectionRefs m)%Z) (markers s)
  /\ map_Forall (fun _ l => (0 <= l_selectionRefs l)%Z) (blocksIndex s) ->
  map_Forall (fun _ m => (0 <= m_selectionRefs m)%Z) (markers (step e s))
  /\ map_Forall (fun _ l => (0 <= l_selectionRefs l)%Z) (blocksIndex (step e s)).
Proof.
  intros [IHm IHl]. split.
  - destruct (step_related
                (fun m m' => (0 <= m_selectionRefs m)%Z -> (0 <= m_selectionRefs m')%Z)
                (fun _ _ : Layer => True)) with (e := e) (s := s) as [Rm _]; auto.
    + intros zoom delta m _. rewrite adjustMarkerSelection_refs. lia.
    + intros zoom colorize mm matches wasChecked m Hm.
      apply filterRowMarker_refs_nonneg. exact Hm.
    + intros zoom on m Hm. unfold hoverMarker.
      destruct (m_isFiltered m); [exact Hm|].
      destruct on; [rewrite (proj2 (highlightMarker_fields _ _ _)); exact Hm|].
      destruct (m_selectionRefs m =? 0)%Z; [|exact Hm].
      rewrite (proj2 (highlightMarker_fields _ _ _)); exact Hm.
    + intros zoom m Hm. rewrite (proj1 (zoomMarker_refs zoom m)). exact Hm.
    + intros zoom colorize m Hm.
      rewrite (proj1 (updateMarkerColorAppearance_refs zoom colorize m)). exact Hm.
    + eapply related_Forall; eassumption.
  - pose proof (step_layers_related
                  (fun l l' => (0 <= l_selectionRefs l)%Z -> (0 <= l_selectionRefs l')%Z))
      as Rl.
    eapply related_Forall; [apply Rl with (e := e) (s := s)|exact IHl]; auto.
    + intros enabled mx filtered l Hl. destruct filtered; simpl; [lia | exact Hl].
    + intros l _. simpl. lia.
    + intros enabled mx selected l _. rewrite adjustBlockSelection_refs. lia.
    + intros enabled mx on l Hl. unfold hoverLayer, highlightBlock.
      destruct (l_isFiltered l); [exact Hl|].
      destruct on; [exact Hl|].
      destruct (l_selectionRefs l =? 0)%Z; exact Hl.
Qed.

Lemma run_refs_nonnegative (events : list Event) (s : State) :
  map_Forall (fun _ m => (0 <= m_selectionRefs m)%Z) (markers s)
  /\ map_Forall (fun _ l => (0 <= l_selectionRefs l)%Z) (blocksIndex s) ->
  map_Forall (fun _ m => (0 <= m_selectionRefs m)%Z) (markers (run events s))
  /\ map_Forall (fun _ l => (0 <= l_selectionRefs l)%Z) (blocksIndex (run events s)).
Proof.
  unfold run. revert s. induction events as [|e rest IH]; intros s Hs; simpl; [exact Hs|].
  apply IH, step_refs_nonnegative, Hs.
Qed.

Lemma reachable_counts_nonneg (s : State) :
  reachable s ->
  map_Forall (fun _ m => (0 <= m_selectionRefs m)%Z) (markers s)
  /\ map_Forall (fun _ l => (0 <= l_selectionRefs l)%Z) (blocksIndex s).
Proof.
  induction 1 as [s Hinit | e s Hr IH].
  - apply initial_refs_nonnegative. exact Hinit.
  - apply step_refs_nonnegative. exact IH.
Qed.

(** X4. In every reachable state the reference count of every marker and
    of every block layer is at least zero. *)
Theorem reachable_refs_nonnegative :
  forall s : State,
    reachable s ->
    (forall k m, markers s !! k = Some m -> (0 <= m_selectionRefs m)%Z)
    /\ (forall k layer, blocksIndex s !! k = Some layer -> (0 <= l_selectionRefs layer)%Z).
Proof.
  intros s Hreach.
  assert (Hall : map_Forall (fun _ m => (0 <= m_selectionRefs m)%Z) (markers s)
                 /\ map_Forall (fun _ l => (0 <= l_selectionRefs l)%Z) (blocksIndex s)).
  { induction Hreach as [s Hinit | e s Hr IH].
    - apply initial_refs_nonnegative. exact Hinit.
    - apply step_refs_nonnegative. exact IH. }
  destruct Hall as [Hm Hl]. split.
  - intros k m Hk. exact (Hm k m Hk).
  - intros k layer Hk. exact (Hl k layer Hk).
Qed.

End CountsNeverNegative.

Lemma reachable_refs_nonnegative_witness :
  exists m,
    markers (run (startUp ++ [EvToggle TBuildings 0]) samplePage) !! "marker_1" = Some m
    /\ (0 <= m_selectionRefs m)%Z.
Proof.
  set (s := run (startUp ++ [EvToggle TBuildings 0]) samplePage).
  assert (Hreach : reachable s).
  { apply reachable_run, reachable_initial, samplePage_initial. }
  let v := eval vm_compute in (markers s !! "marker_1") in
  assert (E : markers s !! "marker_1" = v) by (vm_compute; reflexivity).
  eexists. split; [exact E|].
  destruct (reachable_refs_nonnegative s Hreach) as [Hm _].
  exact (Hm _ _ E).
Defined.

(** ** Selecting and deselecting *)

Lemma forEachMarker_lookup (f : Marker -> Marker) (arr : list string)
    (ms : gmap string Marker) (k : string) :
  forEachMarker f arr ms !! k = Nat.iter (count_occ string_dec arr k) f <$> ms !! k.
Proof.
  unfold forEachMarker. revert ms. induction arr as [|a rest IH]; intros ms; simpl.
  - destruct (ms !! k); reflexivity.
  - rewrite IH. destruct (string_dec a k) as [E|Hne].
    + subst a. rewrite lookup_alter_eq. destruct (ms !! k) as [m|]; simpl; [|reflexivity].
      f_equal. symmetry. apply Nat.iter_succ_r.
    + rewrite lookup_alter_ne by exact Hne. reflexivity.
Qed.

Lemma iter_select_fields zoom (n : nat) (m : Marker) :
  (0 <= m_selectionRefs m)%Z ->
  m_selectionRefs (Nat.iter n (adjustMarkerSelection zoom 1) m)
  = (m_selectionRefs m + Z.of_nat n)%Z
  /\ m_isFiltered (Nat.iter n (adjustMarkerSelection zoom 1) m) = m_isFiltered m.
Proof.
  intros Hm. induction n as [|n [IHr IHf]].
  - simpl. split; [lia | reflexivity].
  - rewrite Nat.iter_succ. rewrite adjustMarkerSelection_refs,
      adjustMarkerSelection_isFiltered, IHr, IHf. split; [lia | reflexivity].
Qed.

Lemma iter_deselect_fields zoom (n : nat) (m : Marker) :
  m_selectionRefs (Nat.iter n (adjustMarkerSelection zoom (-1)) m)
  = Z.max 0 (m_selectionRefs m - Z.of_nat n)
    \/ n = 0%nat /\ Nat.iter n (adjustMarkerSelection zoom (-1)) m = m.
Proof.
  destruct n as [|n]; [right; split; reflexivity|]. left.
  induction n as [|n IH].
  - simpl. rewrite adjustMarkerSelection_refs. lia.
  - rewrite Nat.iter_succ. rewrite adjustMarkerSelection_refs, IH. lia.
Qed.

Lemma iter_deselect_isFiltered zoom (n : nat) (m : Marker) :
  m_isFiltered (Nat.iter n (adjustMarkerSelection zoom (-1)) m) = m_isFiltered m.
Proof.
  induction n as [|n IH]; [reflexivity|].
  rewrite Nat.iter_succ, adjustMarkerSelection_isFiltered. exact IH.
Qed.

Lemma handleSelectionChange_frame (cb : Checkbox) (s : State) :
  registry (handleSelectionChange cb s) = registry s
  /\ currentZoomScale (handleSelectionChange cb s) = currentZoomScale s
  /\ blockColorScalingEnabled (handleSelectionChange cb s) = blockColorScalingEnabled s
  /\ buildingRows (handleSelectionChange cb s) = buildingRows s
  /\ blockRows (handleSelectionChange cb s) = blockRows s
  /\ landlordRows (handleSelectionChange cb s) = landlordRows s.
Proof.
  unfold handleSelectionChange.
  destruct (String.eqb (data_type cb) "building").
  { destruct (objGet _ _); repeat split. }
  destruct (String.eqb (data_type cb) "block"); [repeat split|].
  destruct (String.eqb (data_type cb) "owner"); repeat split.
Qed.

Lemma handleSelectionChange_markers (cb : Checkbox) (s : State) :
  markers (handleSelectionChange cb s)
  = forEachMarker (adjustMarkerSelection (currentZoomScale s) (selectionDelta (checked cb)))
      (selectionTargets cb s) (markers s).
Proof.
  unfold handleSelectionChange, selectionTargets.
  destruct (String.eqb (data_type cb) "building").
  { destruct (objGet _ _); reflexivity. }
  destruct (String.eqb (data_type cb) "block"); [reflexivity|].
  destruct (String.eqb (data_type cb) "owner"); reflexivity.
Qed.

(** The layer a change of a checkbox adjusts, if any (line 394). *)
Lemma handleSelectionChange_blocks (cb : Checkbox) (s : State) :
  blocksIndex (handleSelectionChange cb s)
  = if negb (String.eqb (data_type cb) "building") && String.eqb (data_type cb) "block"
    then alter (adjustBlockSelection (blockColorScalingEnabled s)
                  (blockColorMax (registry s)) (selectionDelta (checked cb)))
               (data_target cb) (blocksIndex s)
    else blocksIndex s.
Proof.
  unfold handleSelectionChange.
  destruct (String.eqb (data_type cb) "building"); simpl.
  { destruct (objGet _ _); reflexivity. }
  destruct (String.eqb (data_type cb) "block"); [reflexivity|].
  destruct (String.eqb (data_type cb) "owner"); reflexivity.
Qed.

Lemma selectionTargets_ext (cb cb' : Checkbox) (s s' : State) :
  data_type cb = data_type cb' -> data_target cb = data_target cb' ->
  registry s = registry s' ->
  selectionTargets cb s = selectionTargets cb' s'.
Proof. intros Et Eg Er. unfold selectionTargets. rewrite Et, Eg, Er. reflexivity. Qed.

Section SelectDeselect.
Context `{JSBuiltins}.

Lemma withRowsOf_frame t f s :
  registry (withRowsOf t f s) = registry s
  /\ markers (withRowsOf t f s) = markers s
  /\ blocksIndex (withRowsOf t f s) = blocksIndex s
  /\ currentZoomScale (withRowsOf t f s) = currentZoomScale s
  /\ blockColorScalingEnabled (withRowsOf t f s) = blockColorScalingEnabled s
  /\ rowsOf t (withRowsOf t f s) = f (rowsOf t s)
  /\ (forall t', t' <> t -> rowsOf t' (withRowsOf t f s) = rowsOf t' s).
Proof.
  destruct t; repeat split; intros t' Hne; destruct t'; try reflexivity; congruence.
Qed.

Lemma handleSelectionChange_rows cb s t :
  rowsOf t (handleSelectionChange cb s) = rowsOf t s.
Proof.
  destruct (handleSelectionChange_frame cb s) as (_ & _ & _ & Hb & Hk & Hl).
  destruct t; simpl; assumption.
Qed.

Lemma toggleCheckbox_checked t i s row cb :
  rowsOf t s !! i = Some row -> checkbox row = Some cb ->
  toggleCheckbox t i s
  = handleSelectionChange
      {| checked := negb (checked cb); data_type := data_type cb;
         data_target := data_target cb |}
      (withRowsOf t (fun rows => <[i := setChecked (negb (checked cb)) row]> rows) s).
Proof. intros Hrow Hcb. unfold toggleCheckbox. rewrite Hrow, Hcb. reflexivity. Qed.

(** X5. Checking a row and unchecking it again, in a reachable state,
    brings every marker and every block layer back to the reference count
    it had, leaves every filtered flag as it was, and leaves the three
    tables as they were.  What the row selects (a building, a block with
    its buildings, an owner's buildings) makes no difference. *)
Theorem check_then_uncheck_restores_counts :
  forall (s : State) (t : Table) (i : nat) (row : Row),
    reachable s ->
    rowsOf t s !! i = Some row ->
    isChecked row = false ->
    let s2 := toggleCheckbox t i (toggleCheckbox t i s) in
    (forall t', rowsOf t' s2 = rowsOf t' s)
    /\ (forall k m, markers s !! k = Some m ->
          exists m2, markers s2 !! k = Some m2
                     /\ m_selectionRefs m2 = m_selectionRefs m
                     /\ m_isFiltered m2 = m_isFiltered m)
    /\ (forall k layer, blocksIndex s !! k = Some layer ->
          exists l2, blocksIndex s2 !! k = Some l2
                     /\ l_selectionRefs l2 = l_selectionRefs layer
                     /\ l_isFiltered l2 = l_isFiltered layer).
Proof.
  intros s t i row Hreach Hrow Hunchecked s2. subst s2.
  destruct (reachable_counts_nonneg s Hreach) as [HMpos0 HLpos0].
  assert (HMpos : forall k m, markers s !! k = Some m -> (0 <= m_selectionRefs m)%Z)
    by exact HMpos0.
  assert (HLpos : forall k l, blocksIndex s !! k = Some l -> (0 <= l_selectionRefs l)%Z)
    by exact HLpos0.
  destruct (checkbox row) as [cb|] eqn:Ecb.
  2: { assert (Eid : toggleCheckbox t i s = s).
       { unfold toggleCheckbox. rewrite Hrow, Ecb. reflexivity. }
       rewrite !Eid. repeat split; eauto. }
  assert (Ec : checked cb = false).
  { unfold isChecked in Hunchecked. rewrite Ecb in Hunchecked. exact Hunchecked. }
  rewrite (toggleCheckbox_checked t i s row cb Hrow Ecb). rewrite Ec. simpl negb.
  set (cb1 := {| checked := true; data_type := data_type cb;
                 data_target := data_target cb |}).
  set (sA := withRowsOf t (fun rows => <[i := setChecked true row]> rows) s).
  set (s1 := handleSelectionChange cb1 sA).
  destruct (withRowsOf_frame t (fun rows => <[i := setChecked true row]> rows) s)
    as (HAreg & HAm & HAb & HAz & HAe & HArows & HAother). fold sA in HAreg, HAm, HAb, HAz, HAe, HArows, HAother.
  destruct (handleSelectionChange_frame cb1 sA) as (H1reg & H1z & H1e & _). fold s1 in H1reg, H1z, H1e.
  assert (Hlen : (i < length (rowsOf t s))%nat) by (eapply lookup_lt_Some; eassumption).
  assert (Hrow1 : rowsOf t s1 !! i = Some (setChecked true row)).
  { unfold s1. rewrite handleSelectionChange_rows, HArows.
    apply list_lookup_insert_eq. exact Hlen. }
  assert (Ecb1 : checkbox (setChecked true row) = Some cb1).
  { unfold setChecked. simpl. rewrite Ecb. reflexivity. }
  rewrite (toggleCheckbox_checked t i s1 _ cb1 Hrow1 Ecb1). simpl negb.
  set (cb2 := {| checked := false; data_type := data_type cb1;
                 data_target := data_target cb1 |}).
  set (sB := withRowsOf t
               (fun rows => <[i := setChecked false (setChecked true row)]> rows) s1).
  destruct (withRowsOf_frame t
              (fun rows => <[i := setChecked false (setChecked true row)]> rows) s1)
    as (HBreg & HBm & HBb & HBz & HBe & HBrows & HBother). fold sB in HBreg, HBm, HBb, HBz, HBe, HBrows, HBother.
  assert (Hback : setChecked false (setChecked true row) = row).
  { destruct row as [attrs hid cbx]. simpl in Ecb. subst cbx.
    destruct cb as [c ty tg]. simpl in Ec. subst c. reflexivity. }
  split; [|split].
  - intros t'. rewrite handleSelectionChange_rows.
    assert (Hdec : t' = t \/ t' <> t).
    { destruct t', t; (left; reflexivity) || (right; discriminate). }
    destruct Hdec as [->|Hne].
    + rewrite HBrows, Hback. unfold s1. rewrite handleSelectionChange_rows, HArows.
      rewrite list_insert_insert_eq. apply list_insert_id. exact Hrow.
    + rewrite (HBother t' Hne). unfold s1. rewrite handleSelectionChange_rows.
      apply HAother. exact Hne.
  - intros k m Hk.
    assert (Hm1 : markers s1
                  = forEachMarker (adjustMarkerSelection (currentZoomScale s) 1)
                      (selectionTargets cb1 sA) (markers s)).
    { unfold s1. rewrite handleSelectionChange_markers, HAm, HAz. reflexivity. }
    rewrite handleSelectionChange_markers, HBm, Hm1.
    rewrite (selectionTargets_ext cb2 cb1 sB sA eq_refl eq_refl)
      by (rewrite HBreg, H1reg; reflexivity).
    rewrite HBz, H1z, HAz.
    rewrite !forEachMarker_lookup, Hk.
    set (n := count_occ string_dec (selectionTargets cb1 sA) k).
    change (selectionDelta (checked cb2)) with (-1)%Z.
    cbn [fmap option_fmap option_map].
    eexists. split; [reflexivity|].
    destruct (iter_select_fields (currentZoomScale s) n m (HMpos k m Hk)) as [Hr Hf].
    split.
    + destruct (iter_deselect_fields (currentZoomScale s) n
                  (Nat.iter n (adjustMarkerSelection (currentZoomScale s) 1) m))
        as [Hd | [Hn Hd]].
      * rewrite Hd, Hr. pose proof (HMpos k m Hk). lia.
      * rewrite Hd. rewrite Hn. reflexivity.
    + rewrite iter_deselect_isFiltered. exact Hf.
  - intros k layer Hk.
    assert (Hb1 : blocksIndex s1
                  = if negb (String.eqb (data_type cb) "building")
                       && String.eqb (data_type cb) "block"
                    then alter (adjustBlockSelection (blockColorScalingEnabled s)
                                  (blockColorMax (registry s)) 1)
                               (data_target cb) (blocksIndex s)
                    else blocksIndex s).
    { unfold s1. rewrite handleSelectionChange_blocks, HAb, HAe, HAreg. reflexivity. }
    rewrite handleSelectionChange_blocks, HBb, HBe, HBreg, H1e, H1reg, HAe, HAreg, Hb1.
    change (data_type cb2) with (data_type cb).
    change (data_target cb2) with (data_target cb).
    change (selectionDelta (checked cb2)) with (-1)%Z.
    destruct (negb (String.eqb (data_type cb) "building")
              && String.eqb (data_type cb) "block"); [|eauto].
    destruct (decide (data_target cb = k)) as [Ek|Hne].
    + rewrite Ek, !lookup_alter_eq, Hk. cbn [fmap option_fmap option_map].
      eexists. split; [reflexivity|].
      rewrite !adjustBlockSelection_refs, !adjustBlockSelection_isFiltered.
      pose proof (HLpos k layer Hk). split; [lia | reflexivity].
    + rewrite !lookup_alter_ne by exact Hne. eauto.
Qed.

End SelectDeselect.

Lemma check_then_uncheck_restores_counts_witness :
  exists m m2,
    markers (run startUp samplePage) !! "marker_1" = Some m
    /\ markers (toggleCheckbox TLandlords 0
                  (toggleCheckbox TLandlords 0 (run startUp samplePage))) !! "marker_1"
       = Some m2
    /\ m_selectionRefs m2 = m_selectionRefs m
    /\ m_isFiltered m2 = m_isFiltered m.
Proof.
  assert (Hreach : reachable (run startUp samplePage)).
  { apply reachable_run, reachable_initial, samplePage_initial. }
  let v := eval vm_compute in (rowsOf TLandlords (run startUp samplePage) !! 0%nat) in
  assert (E : rowsOf TLandlords (run startUp samplePage) !! 0%nat = v)
    by (vm_compute; reflexivity).
  let v := eval vm_compute in (markers (run startUp samplePage) !! "marker_1") in
  assert (Em : markers (run startUp samplePage) !! "marker_1" = v)
    by (vm_compute; reflexivity).
  destruct (check_then_uncheck_restores_counts (run startUp samplePage) TLandlords 0 _
              Hreach E eq_refl) as (_ & Hm & _).
  destruct (Hm _ _ Em) as (m2 & Hm2 & Hr & Hf).
  eexists. exists m2. split; [exact Em|]. split; [exact Hm2|]. split; assumption.
Defined.

(** ** Display toggles *)

Lemma State_eq (s s' : State) :
  registry s = registry s' -> markers s = markers s' -> blocksIndex s = blocksIndex s' ->
  currentZoomScale s = currentZoomScale s' ->
  colorScalingEnabled s = colorScalingEnabled s' ->
  blockColorScalingEnabled s = blockColorScalingEnabled s' ->
  buildingRows s = buildingRows s' -> blockRows s = blockRows s' ->
  landlordRows s = landlordRows s' ->
  s = s'.
Proof. destruct s, s'; simpl; intros; subst; reflexivity. Qed.

(** X6. After the choropleth toggle is applied, every block layer that is
    not filtered shows exactly the base style of the new setting, the flat
    neutral style when shading is switched off, whatever it showed before;
    filtered layers, reference counts and markers are left alone.  Only the
    last setting counts: applying one setting after another gives the state
    that applying the last one alone gives. *)
Theorem applyBlockColorScaling_effect :
  forall (enabled : bool) (s : State),
    (forall k layer, blocksIndex s !! k = Some layer ->
       exists l', blocksIndex (applyBlockColorScaling enabled s) !! k = Some l'
         /\ l_selectionRefs l' = l_selectionRefs layer
         /\ l_isFiltered l' = l_isFiltered layer
         /\ (l_isFiltered layer = true -> l' = layer)
         /\ (l_isFiltered layer = false ->
             l_style l' = blockBaseStyle enabled (blockColorMax (registry s))
                            (l_blockUnits layer)
             /\ (enabled = false -> l_style l' = flatBlockStyle)))
    /\ markers (applyBlockColorScaling enabled s) = markers s
    /\ (forall before,
          applyBlockColorScaling enabled (applyBlockColorScaling before s)
          = applyBlockColorScaling enabled s).
Proof.
  intros enabled s. split; [|split].
  - intros k layer Hk. unfold applyBlockColorScaling. simpl.
    rewrite lookup_fmap, Hk. simpl. eexists. split; [reflexivity|].
    destruct (l_isFiltered layer) eqn:E; simpl.
    + rewrite E. repeat split; try reflexivity; congruence.
    + rewrite E. repeat split; try congruence. intros ->. reflexivity.
  - reflexivity.
  - intros before. apply State_eq; try reflexivity.
    unfold applyBlockColorScaling. simpl.
    apply map_eq. intros k. rewrite !lookup_fmap.
    destruct (blocksIndex s !! k) as [layer|]; simpl; [|reflexivity].
    f_equal. destruct (l_isFiltered layer) eqn:E; simpl; rewrite E; reflexivity.
Qed.

Lemma applyBlockColorScaling_effect_witness :
  exists l',
    blocksIndex (applyBlockColorScaling false (run startUp samplePage)) !! "K1" = Some l'
    /\ l_style l' = flatBlockStyle.
Proof.
  destruct (applyBlockColorScaling_effect false (run startUp samplePage)) as [Heff _].
  let v := eval vm_compute in (blocksIndex (run startUp samplePage) !! "K1") in
  assert (E : blocksIndex (run startUp samplePage) !! "K1" = v)
    by (vm_compute; reflexivity).
  destruct (Heff _ _ E) as (l' & Hl' & _ & _ & _ & Hstyle).
  exists l'. split; [exact Hl'|].
  destruct (Hstyle eq_refl) as [_ Hflat]. apply Hflat. reflexivity.
Defined.

Lemma zoomMarker_twice z1 z2 (m : Marker) :
  zoomMarker z2 (zoomMarker z1 m) = zoomMarker z2 m.
Proof.
  destruct m as [bc bo br cc nc refs filt vtu pm st rad hsr].
  destruct filt; [reflexivity|].
  destruct hsr; marker_unfold;
    (destruct (0 <? refs)%Z eqn:Er; marker_unfold; rewrite ?Er; marker_unfold;
     rewrite !baseColor_stable; reflexivity).
Qed.

Lemma zoomMarker_fields z (m : Marker) :
  m_selectionRefs (zoomMarker z m) = m_selectionRefs m
  /\ m_isFiltered (zoomMarker z m) = m_isFiltered m
  /\ (m_isFiltered m = true -> zoomMarker z m = m)
  /\ (m_isFiltered m = false ->
      m_radius (zoomMarker z m)
      = (if m_hasSetRadius m then
           if (0 <? m_selectionRefs m)%Z
           then orNum (m_baseRadius m) 6 * z + Qmax 1.5 (1.5 * z)
           else orNum (m_baseRadius m) 6 * z
         else m_radius m)%Q
      /\ markerHighlighted (zoomMarker z m) = (0 <? m_selectionRefs m)%Z).
Proof.
  destruct m as [bc bo br cc nc refs filt vtu pm st rad hsr].
  destruct filt.
  - repeat split; discriminate.
  - unfold markerHighlighted.
    destruct hsr; marker_unfold;
      (destruct (0 <? refs)%Z eqn:Er; marker_unfold;
       repeat split; try reflexivity; discriminate).
Qed.

Lemma iter_zoomMarker z (n : nat) (m : Marker) :
  (0 < n)%nat -> Nat.iter n (zoomMarker z) m = zoomMarker z m.
Proof.
  intros Hn. destruct n as [|n]; [lia|]. clear Hn.
  induction n as [|n IH]; [reflexivity|].
  rewrite Nat.iter_succ, IH. apply zoomMarker_twice.
Qed.

(** X7. After the zoom scale is applied, every marker that [buildingIndex]
    lists and that is not filtered shows the overlay exactly when it is
    selected.  If it has [setRadius], its radius is its base radius (6 if
    none) times the scale, plus the overlay's extra of max(1.5, 1.5 * scale)
    when it is selected; a marker without [setRadius] keeps the radius it
    had.  Filtered markers and markers the index does not list are left
    alone.  Only the last scale counts. *)
Theorem applyZoomScaling_effect :
  forall (scale : Q) (s : State),
    (forall k m, markers s !! k = Some m ->
       exists m', markers (applyZoomScaling scale s) !! k = Some m'
         /\ m_selectionRefs m' = m_selectionRefs m
         /\ m_isFiltered m' = m_isFiltered m
         /\ ((m_isFiltered m = true \/ ~ In k (map snd (buildingIndex (registry s)))) ->
             m' = m)
         /\ (m_isFiltered m = false -> In k (map snd (buildingIndex (registry s))) ->
             m_radius m'
             = (if m_hasSetRadius m then
                  if (0 <? m_selectionRefs m)%Z
                  then orNum (m_baseRadius m) 6 * scale + Qmax 1.5 (1.5 * scale)
                  else orNum (m_baseRadius m) 6 * scale
                else m_radius m)%Q
             /\ markerHighlighted m' = (0 <? m_selectionRefs m)%Z))
    /\ (forall before,
          markers (applyZoomScaling scale (applyZoomScaling before s))
          = markers (applyZoomScaling scale s)).
Proof.
  intros scale s. split.
  - intros k m Hk. unfold applyZoomScaling. simpl.
    rewrite forEachMarker_lookup, Hk. simpl.
    set (n := count_occ string_dec (map snd (buildingIndex (registry s))) k).
    eexists. split; [reflexivity|].
    assert (Hcases : (n = 0%nat /\ ~ In k (map snd (buildingIndex (registry s))))
                     \/ ((0 < n)%nat /\ In k (map snd (buildingIndex (registry s))))).
    { destruct (in_dec string_dec k (map snd (buildingIndex (registry s)))) as [Hin|Hnot].
      - right. split; [|exact Hin]. apply (count_occ_In string_dec). exact Hin.
      - left. split; [|exact Hnot]. apply (count_occ_not_In string_dec). exact Hnot. }
    destruct Hcases as [[Hn Hnot] | [Hn Hin]].
    + rewrite Hn. simpl. repeat split; try reflexivity; tauto.
    + rewrite (iter_zoomMarker scale n m Hn).
      destruct (zoomMarker_fields scale m) as (Hr & Hf & Hsame & Hrad).
      split; [exact Hr|]. split; [exact Hf|]. split.
      * intros [Hc|Hc]; [apply Hsame; exact Hc | contradiction].
      * intros Hc _. apply Hrad. exact Hc.
  - intros before. unfold applyZoomScaling. simpl.
    apply map_eq. intros k. rewrite !forEachMarker_lookup.
    destruct (markers s !! k) as [m|]; simpl; [|reflexivity]. f_equal.
    set (n := count_occ string_dec (map snd (buildingIndex (registry s))) k).
    destruct n as [|n]; [reflexivity|].
    rewrite !iter_zoomMarker by lia. apply zoomMarker_twice.
Qed.

Lemma applyZoomScaling_effect_witness :
  exists m',
    markers (applyZoomScaling 2 (run startUp samplePage)) !! "marker_1" = Some m'
    /\ m_radius m' = (6 * 2)%Q.
Proof.
  destruct (applyZoomScaling_effect 2 (run startUp samplePage)) as [Heff _].
  let v := eval vm_compute in (markers (run startUp samplePage) !! "marker_1") in
  assert (E : markers (run startUp samplePage) !! "marker_1" = v)
    by (vm_compute; reflexivity).
  destruct (Heff _ _ E) as (m' & Hm' & _ & _ & _ & Hrad).
  exists m'. split; [exact Hm'|].
  destruct (Hrad eq_refl) as [Hr _].
  - vm_compute. left. reflexivity.
  - rewrite Hr. reflexivity.
Defined.

Lemma updateMarkerColorAppearance_effect zoom colorize (m : Marker) :
  let m' := updateMarkerColorAppearance zoom colorize m in
  m_baseColor m' = colorTarget colorize m
  /\ m_selectionRefs m' = m_selectionRefs m
  /\ m_isFiltered m' = m_isFiltered m
  /\ (m_isFiltered m = false ->
      fillColor (m_style m') = colorTarget colorize m
      /\ markerHighlighted m' = (0 <? m_selectionRefs m)%Z)
  /\ (m_isFiltered m = true ->
      m_style m' = m_style m /\ m_radius m' = m_radius m
      /\ fillColor (m_style (setMarkerVisibility zoom true m')) = colorTarget colorize m).
Proof.
  destruct m as [bc bo br cc nc refs filt vtu pm st rad hsr].
  unfold colorTarget, markerHighlighted.
  cbv beta iota zeta delta [m_isVtu m_passesMembership m_colorizedColor m_neutralColor
                            m_baseColor m_isFiltered m_selectionRefs].
  set (target := if colorize && vtu && pm
                 then orStr cc (orStr bc "#9e9e9e") else orStr nc "#9e9e9e").
  assert (Hne : target <> "").
  { unfold target. destruct (colorize && vtu && pm).
    - destruct cc; simpl; [apply orStr_nonempty; discriminate | discriminate].
    - apply orStr_nonempty. discriminate. }
  assert (Hor : forall t, orStr target t = target).
  { intros t. destruct target; [congruence | reflexivity]. }
  destruct filt.
  - destruct hsr; marker_unfold; fold target;
      (split; [reflexivity|]); (split; [reflexivity|]); (split; [reflexivity|]);
      (split; [discriminate|]); intros _; (split; [reflexivity|]);
      (split; [reflexivity|]);
      destruct (0 <? refs)%Z; marker_unfold; rewrite ?Hor; reflexivity.
  - destruct hsr; marker_unfold; fold target;
      (destruct (0 <? refs)%Z eqn:Er; marker_unfold; rewrite ?Hor;
       (split; [reflexivity|]); (split; [reflexivity|]); (split; [reflexivity|]);
       (split; [|discriminate]); intros _; split; reflexivity).
Qed.

Lemma updateMarkerColorAppearance_colorized zoom c (m : Marker) :
  m_colorizedColor (updateMarkerColorAppearance zoom c m) = m_colorizedColor m.
Proof.
  destruct m as [bc bo br cc nc refs filt vtu pm st rad hsr].
  destruct filt; marker_unfold; [reflexivity|].
  destruct hsr, (0 <? refs)%Z; marker_unfold; reflexivity.
Qed.

Lemma updateMarkerColorAppearance_idem zoom c (m : Marker) :
  updateMarkerColorAppearance zoom c (updateMarkerColorAppearance zoom c m)
  = updateMarkerColorAppearance zoom c m.
Proof.
  destruct m as [bc bo br cc nc refs filt vtu pm st rad hsr].
  assert (Hcc : orStr cc (orStr (orStr cc (orStr bc "#9e9e9e")) "#9e9e9e")
                = orStr cc (orStr bc "#9e9e9e")).
  { destruct cc; [|reflexivity]. destruct bc; reflexivity. }
  assert (Hcc' : forall t, orStr (orStr cc (orStr bc "#9e9e9e")) t
                           = orStr cc (orStr bc "#9e9e9e")).
  { intros t. destruct cc; [|reflexivity]. destruct bc; reflexivity. }
  assert (Hnn : forall t, orStr (orStr nc "#9e9e9e") t = orStr nc "#9e9e9e")
    by (intros t; destruct nc; reflexivity).
  destruct filt.
  - marker_unfold. destruct (c && vtu && pm); rewrite ?Hcc; reflexivity.
  - destruct hsr; marker_unfold;
      (destruct (0 <? refs)%Z eqn:Er; marker_unfold; rewrite ?Er; marker_unfold;
       destruct (c && vtu && pm); rewrite ?Hcc, ?Hcc', ?Hnn; reflexivity).
Qed.

Lemma updateMarkerColorAppearance_twice zoom c1 c2 (m : Marker) :
  m_colorizedColor m <> "" ->
  updateMarkerColorAppearance zoom c2 (updateMarkerColorAppearance zoom c1 m)
  = updateMarkerColorAppearance zoom c2 m.
Proof.
  destruct m as [bc bo br cc nc refs filt vtu pm st rad hsr]. simpl. intros Hcc.
  assert (Hor : forall t, orStr cc t = cc) by (intros t; destruct cc; [congruence | reflexivity]).
  assert (Hnn : forall t, orStr (orStr nc "#9e9e9e") t = orStr nc "#9e9e9e")
    by (intros t; destruct nc; reflexivity).
  destruct filt.
  - marker_unfold. rewrite !Hor. reflexivity.
  - destruct hsr; marker_unfold; rewrite !Hor;
      (destruct (0 <? refs)%Z eqn:Er; marker_unfold; rewrite ?Er; marker_unfold;
       destruct (c1 && vtu && pm), (c2 && vtu && pm);
       rewrite ?Hor, ?Hnn; reflexivity).
Qed.

Lemma iter_updateMarkerColorAppearance zoom colorize (n : nat) (m : Marker) :
  (0 < n)%nat ->
  Nat.iter n (updateMarkerColorAppearance zoom colorize) m
  = updateMarkerColorAppearance zoom colorize m.
Proof.
  intros Hn. destruct n as [|n]; [lia|]. clear Hn.
  induction n as [|n IH]; [reflexivity|].
  rewrite Nat.iter_succ, IH. apply updateMarkerColorAppearance_idem.
Qed.

(** X8. After the colour toggle is applied, every marker that
    [buildingIndex] lists has as base colour its colorized colour when the
    toggle is on, the building is VTU and it passes the membership
    criteria, and its neutral colour otherwise.  A marker that is not
    filtered is drawn with that fill and shows the overlay exactly when it
    is selected; a filtered marker stays hidden and is drawn with that fill
    when it is shown again.  Counts and filtered flags do not change.  When
    every marker has a colorized colour, as [applyMarkerMetadata] leaves it,
    only the last setting counts. *)
Theorem applyVtuColorScaling_effect :
  forall (enabled : bool) (s : State),
    (forall k m, markers s !! k = Some m ->
       In k (map snd (buildingIndex (registry s))) ->
       exists m', markers (applyVtuColorScaling enabled s) !! k = Some m'
         /\ m_baseColor m' = colorTarget enabled m
         /\ m_selectionRefs m' = m_selectionRefs m
         /\ m_isFiltered m' = m_isFiltered m
         /\ (m_isFiltered m = false ->
             fillColor (m_style m') = colorTarget enabled m
             /\ markerHighlighted m' = (0 <? m_selectionRefs m)%Z)
         /\ (m_isFiltered m = true ->
             m_style m' = m_style m /\ m_radius m' = m_radius m
             /\ fillColor (m_style (setMarkerVisibility (currentZoomScale s) true m'))
                = colorTarget enabled m))
    /\ (map_Forall (fun _ m => m_colorizedColor m <> "") (markers s) ->
        forall before,
          markers (applyVtuColorScaling enabled (applyVtuColorScaling before s))
          = markers (applyVtuColorScaling enabled s)).
Proof.
  intros enabled s. split.
  - intros k m Hk Hin. unfold applyVtuColorScaling. simpl.
    rewrite forEachMarker_lookup, Hk. simpl.
    rewrite iter_updateMarkerColorAppearance;
      [| apply (count_occ_In string_dec); exact Hin].
    eexists. split; [reflexivity|].
    apply (updateMarkerColorAppearance_effect (currentZoomScale s) enabled m).
  - intros Hcolors before. unfold applyVtuColorScaling. simpl.
    apply map_eq. intros k. rewrite !forEachMarker_lookup.
    destruct (markers s !! k) as [m|] eqn:Hk; simpl; [|reflexivity]. f_equal.
    set (n := count_occ string_dec (map snd (buildingIndex (registry s))) k).
    destruct n as [|n]; [reflexivity|].
    rewrite !iter_updateMarkerColorAppearance by lia.
    apply updateMarkerColorAppearance_twice. exact (Hcolors k m Hk).
Qed.

Lemma applyVtuColorScaling_effect_witness :
  map_Forall (fun _ m => m_colorizedColor m <> "") (markers samplePage)
  /\ markers (applyVtuColorScaling false (applyVtuColorScaling true samplePage))
     = markers (applyVtuColorScaling false samplePage).
Proof.
  assert (Hc : map_Forall (fun _ m => m_colorizedColor m <> "") (markers samplePage)).
  { refine (bool_decide_unpack _ _). vm_compute. exact I. }
  split; [exact Hc|].
  exact (proj2 (applyVtuColorScaling_effect false samplePage) Hc true).
Defined.

(** ** What a filter pass leaves *)

Section PassResults.
Context `{JSBuiltins}.

Lemma filterRowDom_after matches row : rowAfterPass matches row (filterRowDom matches row).
Proof.
  unfold rowAfterPass, filterRowDom, isChecked, setChecked, setHidden.
  destruct row as [attrs hid [[[] ty tg]|]]; destruct matches; simpl; auto.
Qed.

Lemma filterLandlordRows_frame rows s :
  buildingRows (snd (filterLandlordRows rows s)) = buildingRows s
  /\ blockRows (snd (filterLandlordRows rows s)) = blockRows s.
Proof.
  revert s. induction rows as [|row rest IH]; intros s; simpl; [auto|].
  match goal with
  | |- context [filterLandlordRows rest ?s1] =>
      specialize (IH s1); destruct (filterLandlordRows rest s1) as [rest' s'] eqn:E
  end.
  simpl in *. destruct IH as [-> ->].
  match goal with |- context [if ?c then _ else _] => destruct c end; auto.
Qed.

Lemma filterLandlordRows_rows rows s i row :
  rows !! i = Some row ->
  exists row',
    fst (filterLandlordRows rows s) !! i = Some row'
    /\ rowAfterPass
         (existsb (fun b => hasAttribute "data-owner" (jsKey (getAttribute row "data-owner")) b
                            && negb (hidden b)) (buildingRows s))
         row row'.
Proof.
  revert s i. induction rows as [|r rest IH]; intros s i Hi; [destruct i; discriminate|].
  simpl.
  match goal with
  | |- context [filterLandlordRows rest ?s1] =>
      pose proof (fun j => IH s1 j) as IH';
      assert (Eb : buildingRows s1 = buildingRows s)
        by (match goal with |- context [if ?c then _ else _] => destruct c end; reflexivity);
      destruct (filterLandlordRows rest s1) as [rest' s'] eqn:E
  end.
  destruct i as [|i]; simpl in *.
  - injection Hi as ->. eexists. split; [reflexivity|].
    unfold rowAfterPass, isChecked, setChecked, setHidden.
    destruct (existsb _ (buildingRows s)); destruct row as [attrs hid [[[] ty tg]|]];
      simpl; auto.
  - destruct (IH' i Hi) as (row' & Hrow' & Hafter). rewrite Eb in Hafter.
    exists row'. split; assumption.
Qed.

Lemma filterLandlordRows_length rows s :
  length (fst (filterLandlordRows rows s)) = length rows.
Proof.
  revert s. induction rows as [|r rest IH]; intros s; [reflexivity|]. simpl.
  match goal with
  | |- context [filterLandlordRows rest ?s1] =>
      specialize (IH s1); destruct (filterLandlordRows rest s1) as [rest' s'] eqn:E
  end.
  simpl in *. rewrite IH. reflexivity.
Qed.

(** The two tables that a pass rewrites row by row. *)
Lemma applyFilters_tables ui s :
  buildingRows (applyFilters ui s)
  = map (fun row => filterRowDom (rowMatches ui row) row) (buildingRows s)
  /\ exists s2,
       buildingRows s2 = map (fun row => filterRowDom (rowMatches ui row) row) (buildingRows s)
       /\ landlordRows (applyFilters ui s) = fst (filterLandlordRows (landlordRows s) s2).
Proof.
  unfold applyFilters.
  pose proof (filterBuildingRows_rows (registry s) (currentZoomScale s)
                (colorScalingEnabled s) ui (buildingRows s) (markers s) []) as Hrows.
  destruct (filterBuildingRows _ _ _ ui (buildingRows s) (markers s) [])
    as [[rows ms] visibleBids] eqn:E.
  simpl in Hrows. subst rows. simpl.
  match goal with
  | |- context [fold_left ?f ?keys ?s1] =>
      pose proof (filterBlocks_rows visibleBids keys s1) as [Hb Hl];
      set (s2 := fold_left f keys s1) in *
  end.
  simpl in Hb, Hl.
  pose proof (filterLandlordRows_frame (landlordRows s2) s2) as [Hb3 _].
  destruct (filterLandlordRows (landlordRows s2) s2) as [lrows s3] eqn:E3.
  simpl in *. split; [congruence|].
  exists s2. split; [exact Hb|]. rewrite <- Hl, E3. reflexivity.
Qed.

(** X9. A filter pass keeps every row of the buildings table and of the
    landlords table in place, with its attributes.  A buildings row is
    hidden exactly when it does not match, a landlords row exactly when no
    matching buildings row carries its owner; a row stays checked only if
    it was checked and stays visible, so no hidden row of these tables is
    checked after a pass. *)
Theorem applyFilters_rows :
  forall (ui : FilterUI) (s : State),
    length (buildingRows (applyFilters ui s)) = length (buildingRows s)
    /\ length (landlordRows (applyFilters ui s)) = length (landlordRows s)
    /\ (forall i row, buildingRows s !! i = Some row ->
          exists row', buildingRows (applyFilters ui s) !! i = Some row'
                       /\ rowAfterPass (rowMatches ui row) row row')
    /\ (forall i row, landlordRows s !! i = Some row ->
          exists row', landlordRows (applyFilters ui s) !! i = Some row'
                       /\ rowAfterPass
                            (ownerPasses ui s (jsKey (getAttribute row "data-owner")))
                            row row')
    /\ (forall row', In row' (buildingRows (applyFilters ui s)
                              ++ landlordRows (applyFilters ui s))%list ->
          hidden row' = true -> isChecked row' = false).
Proof.
  intros ui s.
  destruct (applyFilters_tables ui s) as (Hb & s2 & Hb2 & Hl).
  assert (Hbuild : forall i row, buildingRows s !! i = Some row ->
            exists row', buildingRows (applyFilters ui s) !! i = Some row'
                         /\ rowAfterPass (rowMatches ui row) row row').
  { intros i row Hi. rewrite Hb. eexists. split.
    - rewrite list_lookup_fmap, Hi. reflexivity.
    - apply filterRowDom_after. }
  assert (Hland : forall i row, landlordRows s !! i = Some row ->
            exists row', landlordRows (applyFilters ui s) !! i = Some row'
                         /\ rowAfterPass
                              (ownerPasses ui s (jsKey (getAttribute row "data-owner")))
                              row row').
  { intros i row Hi. rewrite Hl.
    destruct (filterLandlordRows_rows (landlordRows s) s2 i row Hi) as (row' & Hrow' & Ha).
    exists row'. split; [exact Hrow'|].
    rewrite Hb2 in Ha.
    rewrite (existsb_filtered_rows ui
               (hasAttribute "data-owner" (jsKey (getAttribute row "data-owner")))) in Ha.
    - exact Ha.
    - intros r m. apply hasAttribute_filterRowDom. }
  assert (Hlenb : length (buildingRows (applyFilters ui s)) = length (buildingRows s))
    by (rewrite Hb; apply length_map).
  assert (Hlenl : length (landlordRows (applyFilters ui s)) = length (landlordRows s))
    by (rewrite Hl; apply filterLandlordRows_length).
  split; [exact Hlenb|]. split; [exact Hlenl|].
  split; [exact Hbuild|]. split; [exact Hland|].
  intros row' Hin Hhid. apply in_app_or in Hin. destruct Hin as [Hin|Hin].
  - apply list_elem_of_In, list_elem_of_lookup in Hin. destruct Hin as [i Hi].
    destruct (buildingRows s !! i) as [row|] eqn:Ei.
    + destruct (Hbuild i row Ei) as (r' & Hr' & _ & Hh & Hc).
      rewrite Hi in Hr'. injection Hr' as <-.
      rewrite Hc. rewrite Hhid in Hh. destruct (rowMatches ui row); [discriminate|].
      apply andb_false_r.
    + apply lookup_ge_None in Ei. apply lookup_lt_Some in Hi. lia.
  - apply list_elem_of_In, list_elem_of_lookup in Hin. destruct Hin as [i Hi].
    destruct (landlordRows s !! i) as [row|] eqn:Ei.
    + destruct (Hland i row Ei) as (r' & Hr' & _ & Hh & Hc).
      rewrite Hi in Hr'. injection Hr' as <-.
      rewrite Hc. rewrite Hhid in Hh. destruct (ownerPasses ui s _); [discriminate|].
      apply andb_false_r.
    + apply lookup_ge_None in Ei. apply lookup_lt_Some in Hi. lia.
Qed.

End PassResults.

(** ** The marker of a row after a pass *)

Section MarkersOfPass.
Context `{JSBuiltins}.
Variable RM : Marker -> Marker -> Prop.
Hypothesis RM_refl : forall m, RM m m.
Hypothesis RM_trans : forall x y z, RM x y -> RM y z -> RM x z.
Hypothesis RM_deselect : forall zoom m, RM m (adjustMarkerSelection zoom (-1) m).

Lemma filterBlock_markers_related v k s :
  related RM (markers s) (markers (filterBlock v k s)).
Proof.
  unfold filterBlock. simpl.
  unfold filterBlockRow. destruct (List.find _ _); [|apply related_refl; auto].
  destruct (_ && _); simpl; [|apply related_refl; auto].
  apply (related_forEachMarker RM RM_refl RM_trans). apply RM_deselect.
Qed.

Lemma filterBlocks_markers_related v keys s :
  related RM (markers s) (markers (fold_left (fun s0 k => filterBlock v k s0) keys s)).
Proof.
  revert s. induction keys as [|k rest IH]; intros s; simpl.
  - apply related_refl; auto.
  - eapply (related_trans RM RM_trans); [apply filterBlock_markers_related | apply IH].
Qed.

Lemma filterLandlordRows_markers_related rows s :
  related RM (markers s) (markers (snd (filterLandlordRows rows s))).
Proof.
  revert s. induction rows as [|row rest IH]; intros s; simpl.
  - apply related_refl; auto.
  - match goal with
    | |- context [filterLandlordRows rest ?s1] =>
        specialize (IH s1); destruct (filterLandlordRows rest s1) as [rest' s'] eqn:E
    end.
    simpl in *. eapply (related_trans RM RM_trans); [|exact IH].
    match goal with |- context [if ?c then _ else _] => destruct c end.
    + simpl. apply (related_forEachMarker RM RM_refl RM_trans). apply RM_deselect.
    + apply related_refl; auto.
Qed.

(** The markers after a pass are those the row loop leaves, up to the
    deselections of the two loops that follow it. *)
Lemma applyFilters_markers_related ui s :
  related RM
    (snd (fst (filterBuildingRows (registry s) (currentZoomScale s) (colorScalingEnabled s)
                 ui (buildingRows s) (markers s) [])))
    (markers (applyFilters ui s)).
Proof.
  unfold applyFilters.
  destruct (filterBuildingRows _ _ _ ui (buildingRows s) (markers s) [])
    as [[rows ms] visibleBids] eqn:E.
  simpl.
  match goal with
  | |- context [fold_left ?f ?keys ?s1] =>
      pose proof (filterBlocks_markers_related visibleBids keys s1) as Hb;
      set (s2 := fold_left f keys s1) in *
  end.
  simpl in Hb.
  pose proof (filterLandlordRows_markers_related (landlordRows s2) s2) as Hl.
  destruct (filterLandlordRows (landlordRows s2) s2) as [lrows s3] eqn:E3.
  simpl in *. eapply (related_trans RM RM_trans); eassumption.
Qed.

End MarkersOfPass.

Lemma afterDeselect_refl (m : Marker) : afterDeselect m m.
Proof. unfold afterDeselect. repeat split; auto; lia. Qed.

Lemma afterDeselect_trans (x y z : Marker) :
  afterDeselect x y -> afterDeselect y z -> afterDeselect x z.
Proof.
  intros (Hf1 & Hp1 & Hc1 & Hs1 & Hr1) (Hf2 & Hp2 & Hc2 & Hs2 & Hr2).
  unfold afterDeselect. split; [congruence|]. split; [congruence|]. split; [congruence|].
  split.
  - intros Ef Er. specialize (Hs1 Ef Er). subst y. apply Hs2; assumption.
  - intros Ef Er Eh. destruct (Hr1 Ef Er Eh) as [Hb1 Hh1].
    rewrite <- Hf1 in Ef. destruct (Hr2 Ef (proj1 Hb1) Hh1) as [Hb2 Hh2].
    split; [lia | exact Hh2].
Qed.

Lemma afterDeselect_adjust zoom (m : Marker) :
  afterDeselect m (adjustMarkerSelection zoom (-1) m).
Proof.
  unfold afterDeselect.
  split; [apply adjustMarkerSelection_isFiltered|].
  destruct (m_isFiltered m) eqn:Ef.
  - rewrite adjustMarkerSelection_filtered by exact Ef.
    split; [reflexivity|]. split; [reflexivity|]. split; [|discriminate].
    intros _ Er. rewrite Er. destruct m; simpl in *. subst. reflexivity.
  - split; [|split; [|split; [discriminate|]]].
    + destruct m as [bc bo br cc nc refs filt vtu pm st rad hsr]. simpl in Ef. subst filt.
      destruct hsr; marker_unfold;
        repeat (match goal with |- context [if ?b then _ else _] => destruct b end);
        reflexivity.
    + destruct m as [bc bo br cc nc refs filt vtu pm st rad hsr]. simpl in Ef. subst filt.
      destruct hsr; marker_unfold;
        repeat (match goal with |- context [if ?b then _ else _] => destruct b end);
        reflexivity.
    + intros _ Er _. rewrite adjustMarkerSelection_highlight by exact Ef.
      rewrite adjustMarkerSelection_refs. split; [lia | reflexivity].
Qed.

Lemma colorTarget_ext c (m m' : Marker) :
  m_isVtu m' = m_isVtu m -> m_passesMembership m' = m_passesMembership m ->
  m_colorizedColor m' = m_colorizedColor m -> m_baseColor m' = m_baseColor m ->
  m_neutralColor m' = m_neutralColor m ->
  colorTarget c m' = colorTarget c m.
Proof. intros E1 E2 E3 E4 E5. unfold colorTarget. rewrite E1, E2, E3, E4, E5. reflexivity. Qed.

Lemma adjustMarkerSelection_colorTarget zoom delta c (m : Marker) :
  colorTarget c (adjustMarkerSelection zoom delta m) = colorTarget c m.
Proof.
  destruct m as [bc bo br cc nc refs filt vtu pm st rad hsr].
  apply colorTarget_ext; destruct filt; marker_unfold;
    repeat match goal with
           | |- context [if ?b then _ else _] => destruct b; marker_unfold
           end; reflexivity.
Qed.

Lemma setMarkerVisibility_colorTarget zoom visible c (m : Marker) :
  colorTarget c (setMarkerVisibility zoom visible m) = colorTarget c m.
Proof.
  destruct m as [bc bo br cc nc refs filt vtu pm st rad hsr].
  apply colorTarget_ext; destruct visible; marker_unfold;
    repeat match goal with
           | |- context [if ?b then _ else _] => destruct b; marker_unfold
           end; reflexivity.
Qed.

Lemma updateMarkerColorAppearance_passes zoom c (m : Marker) :
  m_passesMembership (updateMarkerColorAppearance zoom c m) = m_passesMembership m.
Proof.
  destruct m as [bc bo br cc nc refs filt vtu pm st rad hsr].
  destruct filt; marker_unfold; [reflexivity|].
  repeat match goal with
           | |- context [if ?b then _ else _] => destruct b; marker_unfold
           end; reflexivity.
Qed.

Lemma setMarkerVisibility_passes zoom visible (m : Marker) :
  m_passesMembership (setMarkerVisibility zoom visible m) = m_passesMembership m.
Proof.
  destruct m as [bc bo br cc nc refs filt vtu pm st rad hsr].
  destruct visible; marker_unfold;
    repeat match goal with
           | |- context [if ?b then _ else _] => destruct b; marker_unfold
           end; reflexivity.
Qed.

Lemma adjustMarkerSelection_passes zoom delta (m : Marker) :
  m_passesMembership (adjustMarkerSelection zoom delta m) = m_passesMembership m.
Proof.
  destruct m as [bc bo br cc nc refs filt vtu pm st rad hsr].
  destruct filt; marker_unfold;
    repeat match goal with
           | |- context [if ?b then _ else _] => destruct b; marker_unfold
           end; reflexivity.
Qed.

(** What the row loop leaves of the marker of a row. *)
Lemma filterRowMarker_result zoom c mm matches wc (m : Marker) :
  let m1 := filterRowMarker zoom c mm matches wc m in
  m_passesMembership m1 = mm
  /\ m_baseColor m1 = colorTarget c (setPassesMembership mm m)
  /\ (matches = true -> markerHighlighted m1 = (0 <? m_selectionRefs m1)%Z).
Proof.
  unfold filterRowMarker.
  set (m0 := if negb matches && wc then _ else _).
  assert (H0 : colorTarget c m0 = colorTarget c (setPassesMembership mm m)
               /\ m_passesMembership m0 = mm).
  { unfold m0. destruct (negb matches && wc); [|split; reflexivity].
    destruct (0 <? _)%Z; [|split; reflexivity].
    split; [apply adjustMarkerSelection_colorTarget | apply adjustMarkerSelection_passes]. }
  destruct H0 as [Hc0 Hp0].
  destruct (updateMarkerColorAppearance_effect zoom c (setMarkerVisibility zoom matches m0))
    as (Hbc & Hrefs & _ & Hvis & _).
  cbv zeta. split; [|split].
  - rewrite updateMarkerColorAppearance_passes, setMarkerVisibility_passes. exact Hp0.
  - rewrite Hbc, setMarkerVisibility_colorTarget. exact Hc0.
  - intros ->. rewrite Hrefs. apply Hvis.
    apply (setMarkerVisibility_fields zoom true m0).
Qed.

(** The radius of the marker of a row that does not match.  Only
    [setRadius] brings it to 0; on a marker without it the pass changes the
    radius only by taking the overlay off a selected marker whose row was
    checked. *)
Lemma filterRowMarker_hidden_radius zoom c mm wc (m : Marker) :
  let m1 := filterRowMarker zoom c mm false wc m in
  m_hasSetRadius m1 = m_hasSetRadius m
  /\ m_radius m1
     = (if m_hasSetRadius m then 0
        else if wc && (0 <? m_selectionRefs m)%Z && negb (m_isFiltered m)
             then orNum (m_baseRadius m) 6 * zoom
             else m_radius m)%Q.
Proof.
  destruct m as [bc bo br cc nc refs filt vtu pm st rad hsr].
  unfold filterRowMarker. cbv zeta.
  destruct hsr, wc, filt, (0 <? refs)%Z eqn:Er; cbn [negb andb];
    marker_unfold; rewrite ?Er, ?Z.add_opp_diag_r;
    cbn [Z.ltb Z.compare andb]; split; reflexivity.
Qed.

Section MarkerOfRow.
Context `{JSBuiltins}.

Lemma filterBuildingRows_marker_of_row r zoom colorize ui pre row post ms visible loc :
  objGet (buildingIndex r) (rowBid row) = Some loc ->
  (forall other, In other (pre ++ post)%list ->
     objGet (buildingIndex r) (rowBid other) <> Some loc) ->
  snd (fst (filterBuildingRows r zoom colorize ui (pre ++ row :: post)%list ms visible)) !! loc
  = filterRowMarker zoom colorize
      (matchesFilters (default [] (membershipData r !! rowBid row)) (filterOpts ui))
      (rowMatches ui row) (isChecked row)
    <$> ms !! loc.
Proof.
  intros Hrow. revert ms visible.
  induction pre as [|p pre IH]; intros ms visible Hother.
  - cbn [app filterBuildingRows]. rewrite Hrow.
    match goal with
    | |- context [filterBuildingRows r zoom colorize ui post ?ms1 ?v1] =>
        pose proof (filterBuildingRows_frame r zoom colorize ui post ms1 v1 loc) as Hf;
        destruct (filterBuildingRows r zoom colorize ui post ms1 v1)
          as [[rest' ms'] visible'] eqn:E
    end.
    simpl in *. rewrite Hf by (intros other Hin; apply Hother; exact Hin).
    rewrite lookup_alter_eq. reflexivity.
  - cbn [app filterBuildingRows].
    match goal with
    | |- context [filterBuildingRows r zoom colorize ui (pre ++ row :: post)%list ?ms1 ?v1] =>
        pose proof (IH ms1 v1) as IH';
        destruct (filterBuildingRows r zoom colorize ui (pre ++ row :: post)%list ms1 v1)
          as [[rest' ms'] visible'] eqn:E
    end.
    simpl in *. rewrite IH' by (intros other Hin; apply Hother; right; exact Hin).
    f_equal.
    destruct (objGet (buildingIndex r) (rowBid p)) as [k|] eqn:Ep; [|reflexivity].
    apply lookup_alter_ne. intros ->. apply (Hother p); [left; reflexivity | exact Ep].
Qed.

(** X10. The marker of a building that has exactly one row in the buildings
    table, after a filter pass: it is filtered exactly when the row does
    not match, it records whether the building's membership records pass
    the membership criteria, and its base colour follows the colour toggle
    for that record.  A marker the pass filters has count 0 and is drawn
    hidden: no stroke, fill opacity 0, and radius 0 if it has [setRadius].
    Without [setRadius] its radius is the scaled base radius if the pass
    took the overlay off it (its row was checked and it was selected and not
    filtered) and the radius it had otherwise.  A marker the pass keeps has
    a count no higher than before and shows the overlay exactly when that
    count is positive. *)
Theorem applyFilters_marker_of_row :
  forall (ui : FilterUI) (s : State) (pre post : list Row) (row : Row)
         (loc : string) (m : Marker),
    buildingRows s = (pre ++ row :: post)%list ->
    objGet (buildingIndex (registry s)) (rowBid row) = Some loc ->
    (forall other, In other (pre ++ post)%list ->
       objGet (buildingIndex (registry s)) (rowBid other) <> Some loc) ->
    markers s !! loc = Some m ->
    (0 <= m_selectionRefs m)%Z ->
    let membershipMatch :=
      matchesFilters (default [] (membershipData (registry s) !! rowBid row))
        (filterOpts ui) in
    exists m',
      markers (applyFilters ui s) !! loc = Some m'
      /\ m_isFiltered m' = negb (rowMatches ui row)
      /\ m_passesMembership m' = membershipMatch
      /\ m_baseColor m'
         = colorTarget (colorScalingEnabled s) (setPassesMembership membershipMatch m)
      /\ (rowMatches ui row = false ->
          m_selectionRefs m' = 0%Z /\ markerHidden m' = true
          /\ m_hasSetRadius m' = m_hasSetRadius m
          /\ m_radius m'
             = (if m_hasSetRadius m then 0
                else if isChecked row && (0 <? m_selectionRefs m)%Z
                        && negb (m_isFiltered m)
                     then orNum (m_baseRadius m) 6 * currentZoomScale s
                     else m_radius m)%Q)
      /\ (rowMatches ui row = true ->
          (0 <= m_selectionRefs m' <= m_selectionRefs m)%Z
          /\ markerHighlighted m' = (0 <? m_selectionRefs m')%Z).
Proof.
  intros ui s pre post row loc m Hrows Hrow Hother Hm Hrefs membershipMatch.
  pose proof (applyFilters_markers_related afterDeselect afterDeselect_refl
                afterDeselect_trans afterDeselect_adjust ui s loc) as Hrel.
  rewrite Hrows in Hrel.
  rewrite (filterBuildingRows_marker_of_row _ _ _ ui pre row post _ _ loc Hrow Hother),
    Hm in Hrel.
  fold membershipMatch in Hrel. clearbody membershipMatch. simpl in Hrel.
  set (m1 := filterRowMarker (currentZoomScale s) (colorScalingEnabled s) membershipMatch
               (rowMatches ui row) (isChecked row) m) in *.
  destruct (markers (applyFilters ui s) !! loc) as [m'|]; [|contradiction].
  exists m'. split; [reflexivity|].
  destruct Hrel as (Hf & Hp & Hc & Hs & Hr).
  destruct (filterRowMarker_fields (currentZoomScale s) (colorScalingEnabled s)
              membershipMatch (rowMatches ui row) (isChecked row) m) as [Hf1 Hr1].
  fold m1 in Hf1, Hr1.
  pose proof (filterRowMarker_result (currentZoomScale s) (colorScalingEnabled s)
                membershipMatch (rowMatches ui row) (isChecked row) m) as Hp1.
  cbv zeta in Hp1. fold m1 in Hp1.
  destruct Hp1 as (Hpm & Hbc & Hhl).
  split; [rewrite Hf; exact Hf1|]. split; [rewrite Hp; exact Hpm|].
  split; [rewrite Hc; exact Hbc|]. split.
  - intros Em. rewrite Em in Hf1, Hr1. simpl in Hf1.
    rewrite (Hs Hf1 Hr1). split; [exact Hr1|]. split.
    { apply (filterRowMarker_inv (currentZoomScale s) (colorScalingEnabled s)
               membershipMatch (rowMatches ui row) (isChecked row) m). exact Hf1. }
    unfold m1. rewrite Em.
    apply (filterRowMarker_hidden_radius (currentZoomScale s) (colorScalingEnabled s)
             membershipMatch (isChecked row) m).
  - intros Em. rewrite Em in Hf1, Hr1. simpl in Hf1.
    rewrite Hr1 in Hr. specialize (Hhl Em). rewrite Hr1 in Hhl.
    apply Hr; assumption.
Qed.

End MarkerOfRow.

Lemma applyFilters_marker_of_row_witness :
  exists m',
    markers (applyFilters (sampleUI true false) samplePage) !! "marker_2" = Some m'
    /\ m_isFiltered m' = true
    /\ m_selectionRefs m' = 0%Z /\ markerHidden m' = true
    /\ m_radius m' = 0%Q.
Proof.
  destruct (applyFilters_marker_of_row (sampleUI true false) samplePage
              [sampleRow "data-bid" "b1"
                 [("data-area", "West End"); ("data-owner", "acme")] "building"]
              []
              (sampleRow "data-bid" "b2"
                 [("data-area", "Downtown"); ("data-owner", "acme")] "building")
              "marker_2" sampleMarker)
    as (m' & Hm' & Hf & _ & _ & Hhid & _).
  - reflexivity.
  - reflexivity.
  - intros other [<-|[]]. vm_compute. discriminate.
  - vm_compute. reflexivity.
  - simpl. lia.
  - exists m'. split; [exact Hm'|]. split; [exact Hf|].
    destruct (Hhid eq_refl) as (Hr & Hh & _ & Hrad).
    split; [exact Hr|]. split; [exact Hh|]. exact Hrad.
Defined.

(** ** The membership criteria and what a pass hides *)

Lemma related_alter2 {A : Type} (R : A -> A -> Prop) (f f' : A -> A) (k : string)
    (ms ms' : gmap string A) :
  (forall x x', R x x' -> R (f x) (f' x')) ->
  related R ms ms' -> related R (alter f k ms) (alter f' k ms').
Proof.
  intros Hf Hrel j. specialize (Hrel j). destruct (decide (k = j)) as [->|Hne].
  - rewrite !lookup_alter_eq. destruct (ms !! j), (ms' !! j); simpl; auto.
  - rewrite !lookup_alter_ne by exact Hne. exact Hrel.
Qed.

Lemma related_forEachMarker2 (R : Marker -> Marker -> Prop) (f f' : Marker -> Marker)
    (arr : list string) (ms ms' : gmap string Marker) :
  (forall x x', R x x' -> R (f x) (f' x')) ->
  related R ms ms' -> related R (forEachMarker f arr ms) (forEachMarker f' arr ms').
Proof.
  intros Hf. unfold forEachMarker. revert ms ms'.
  induction arr as [|k rest IH]; intros ms ms' Hrel; simpl; [exact Hrel|].
  apply IH. apply related_alter2; assumption.
Qed.

Lemma sameSelection_adjust zoom delta (m m' : Marker) :
  sameSelection m m' ->
  sameSelection (adjustMarkerSelection zoom delta m) (adjustMarkerSelection zoom delta m').
Proof.
  intros (Hf & Hr & Hh). unfold sameSelection.
  rewrite !adjustMarkerSelection_isFiltered, !adjustMarkerSelection_refs, Hr.
  split; [exact Hf|]. split; [reflexivity|].
  destruct (m_isFiltered m) eqn:E.
  - rewrite !adjustMarkerSelection_filtered by congruence. exact Hh.
  - rewrite !adjustMarkerSelection_highlight by congruence.
    rewrite !adjustMarkerSelection_refs, Hr. reflexivity.
Qed.

Lemma filterRowMarker_highlight zoom c mm matches wc (m : Marker) :
  markerHighlighted (filterRowMarker zoom c mm matches wc m)
  = matches && (0 <? m_selectionRefs m)%Z.
Proof.
  destruct (filterRowMarker_fields zoom c mm matches wc m) as [Hf Hr].
  destruct matches; simpl.
  - destruct (filterRowMarker_result zoom c mm true wc m) as (_ & _ & Hh).
    rewrite Hh by reflexivity. rewrite Hr. reflexivity.
  - apply markerHidden_not_highlighted.
    apply (filterRowMarker_inv zoom c mm false wc m). exact Hf.
Qed.

Lemma sameSelection_filterRowMarker zoom c mm mm' matches wc (m m' : Marker) :
  sameSelection m m' ->
  sameSelection (filterRowMarker zoom c mm matches wc m)
                (filterRowMarker zoom c mm' matches wc m').
Proof.
  intros (Hf & Hr & Hh). unfold sameSelection.
  rewrite !filterRowMarker_highlight.
  destruct (filterRowMarker_fields zoom c mm matches wc m) as [-> ->].
  destruct (filterRowMarker_fields zoom c mm' matches wc m') as [-> ->].
  rewrite Hr. repeat split.
Qed.

Section MembershipAndHiding.
Context `{JSBuiltins}.

Lemma filterBuildingRows_sim r zoom c (ui ui' : FilterUI) rows ms ms' visible :
  (forall row, rowMatches ui' row = rowMatches ui row) ->
  related sameSelection ms ms' ->
  fst (fst (filterBuildingRows r zoom c ui' rows ms' visible))
  = fst (fst (filterBuildingRows r zoom c ui rows ms visible))
  /\ snd (filterBuildingRows r zoom c ui' rows ms' visible)
     = snd (filterBuildingRows r zoom c ui rows ms visible)
  /\ related sameSelection
       (snd (fst (filterBuildingRows r zoom c ui rows ms visible)))
       (snd (fst (filterBuildingRows r zoom c ui' rows ms' visible))).
Proof.
  intros Hmatch. revert ms ms' visible.
  induction rows as [|row rest IH]; intros ms ms' visible Hrel.
  - simpl. auto.
  - cbn [filterBuildingRows]. rewrite Hmatch.
    match goal with
    | |- context [filterBuildingRows r zoom c ui rest ?ms1 ?v1] =>
        match goal with
        | |- context [filterBuildingRows r zoom c ui' rest ?ms2 v1] =>
            assert (Hrel1 : related sameSelection ms1 ms2);
            [| specialize (IH ms1 ms2 v1 Hrel1);
               destruct (filterBuildingRows r zoom c ui rest ms1 v1)
                 as [[rest1 ms1'] v1'] eqn:E1;
               destruct (filterBuildingRows r zoom c ui' rest ms2 v1)
                 as [[rest2 ms2'] v2'] eqn:E2 ]
        end
    end.
    + destruct (objGet (buildingIndex r) (rowBid row)); [|exact Hrel].
      apply related_alter2; [|exact Hrel].
      intros x x'. apply sameSelection_filterRowMarker.
    + simpl in *. destruct IH as (-> & -> & IH). auto.
Qed.

Lemma filterBlock_sim v k (s s' : State) :
  sameButColours s s' -> sameButColours (filterBlock v k s) (filterBlock v k s').
Proof.
  intros (Er & Eb & Ez & Ec & Ebc & Ebr & Ekr & Elr & Hrel).
  unfold filterBlock, filterBlockRow, hasVisibleBuilding, setBlockFiltered,
    setBlockSelectionMarkers.
  rewrite Er, Ekr.
  destruct (List.find _ (blockRows s)) as [row|].
  - destruct (_ && isChecked row); unfold sameButColours; simpl;
      rewrite ?Er, ?Eb, ?Ez, ?Ec, ?Ebc, ?Ebr, ?Ekr, ?Elr;
      (split; [reflexivity|]); (split; [reflexivity|]); (split; [reflexivity|]);
      (split; [reflexivity|]); (split; [reflexivity|]); (split; [reflexivity|]);
      (split; [reflexivity|]); (split; [reflexivity|]).
    + apply related_forEachMarker2; [|exact Hrel].
      intros x x'. apply sameSelection_adjust.
    + exact Hrel.
  - unfold sameButColours; simpl. rewrite ?Er, ?Eb, ?Ez, ?Ec, ?Ebc, ?Ebr, ?Ekr, ?Elr.
    repeat (split; [reflexivity|]). exact Hrel.
Qed.

Lemma filterBlocks_sim v keys (s s' : State) :
  sameButColours s s' ->
  sameButColours (fold_left (fun s0 k => filterBlock v k s0) keys s)
                 (fold_left (fun s0 k => filterBlock v k s0) keys s').
Proof.
  revert s s'. induction keys as [|k rest IH]; intros s s' Hs; simpl; [exact Hs|].
  apply IH, filterBlock_sim, Hs.
Qed.

Lemma filterLandlordRows_sim rows (s s' : State) :
  sameButColours s s' ->
  fst (filterLandlordRows rows s') = fst (filterLandlordRows rows s)
  /\ sameButColours (snd (filterLandlordRows rows s)) (snd (filterLandlordRows rows s')).
Proof.
  revert s s'. induction rows as [|row rest IH]; intros s s' Hs; [simpl; auto|].
  cbn [filterLandlordRows].
  pose proof Hs as (Er & Eb & Ez & Ec & Ebc & Ebr & Ekr & Elr & Hrel).
  rewrite Ebr.
  match goal with
  | |- context [filterLandlordRows rest ?s1] =>
      match goal with
      | |- context [fst (let '(_, _) := filterLandlordRows rest ?s2 in _) = 
                    fst (let '(_, _) := filterLandlordRows rest s1 in _)] =>
          assert (Hs1 : sameButColours s1 s2);
          [| specialize (IH s1 s2 Hs1);
             destruct (filterLandlordRows rest s1) as [rest1 s1'] eqn:E1;
             destruct (filterLandlordRows rest s2) as [rest2 s2'] eqn:E2 ]
      end
  end.
  - match goal with |- context [if ?c then _ else _] => destruct c end; [|exact Hs].
    unfold setOwnerSelection, sameButColours; simpl.
    rewrite ?Er, ?Eb, ?Ez, ?Ec, ?Ebc, ?Ebr, ?Ekr, ?Elr.
    repeat (split; [reflexivity|]).
    apply related_forEachMarker2; [|exact Hrel].
    intros x x'. apply sameSelection_adjust.
  - simpl in *. destruct IH as [-> IH]. auto.
Qed.

Lemma sameSelection_refl (m : Marker) : sameSelection m m.
Proof. repeat split. Qed.

(** X11. The membership criteria of the filter controls (the members-only
    checkbox and the year slider with its toggle) decide nothing about what
    a pass hides: two passes from the same state whose controls differ only
    in them leave the same rows in the three tables, the same block layers,
    and markers with the same filtered flags, counts and overlays. *)
Theorem membership_criteria_hide_nothing :
  forall (ui ui' : FilterUI) (s : State),
    hoodInputs ui' = hoodInputs ui ->
    metricControls ui' = metricControls ui ->
    sameButColours (applyFilters ui s) (applyFilters ui' s).
Proof.
  intros ui ui' s Hh Hm.
  assert (Hmatch : forall row, rowMatches ui' row = rowMatches ui row)
    by (intros row; apply rowMatches_membership_free; assumption).
  unfold applyFilters.
  destruct (filterBuildingRows_sim (registry s) (currentZoomScale s)
              (colorScalingEnabled s) ui ui' (buildingRows s) (markers s) (markers s) []
              Hmatch (related_refl sameSelection sameSelection_refl (markers s)))
    as (Hrows & Hvis & Hms).
  destruct (filterBuildingRows _ _ _ ui (buildingRows s) (markers s) [])
    as [[rows ms] visibleBids] eqn:E.
  destruct (filterBuildingRows _ _ _ ui' (buildingRows s) (markers s) [])
    as [[rows' ms'] visibleBids'] eqn:E'.
  simpl in Hrows, Hvis, Hms. subst rows' visibleBids'.
  cbv zeta.
  match goal with
  | |- context [filterLandlordRows (landlordRows ?s2) ?s2] =>
      match goal with
      | |- sameButColours _
             (let '(_, _) := filterLandlordRows (landlordRows ?s2') ?s2' in _) =>
          assert (Hs2 : sameButColours s2 s2');
          [| pose proof Hs2 as (_ & _ & _ & _ & _ & _ & _ & Elr & _);
             rewrite Elr;
             pose proof (filterLandlordRows_sim (landlordRows s2) s2 s2' Hs2) as [Hl Hs3];
             destruct (filterLandlordRows (landlordRows s2) s2) as [lrows s3] eqn:E3;
             destruct (filterLandlordRows (landlordRows s2) s2') as [lrows' s3'] eqn:E3' ]
      end
  end.
  - apply filterBlocks_sim. unfold sameButColours; simpl.
    repeat (split; [reflexivity|]). exact Hms.
  - simpl in Hl, Hs3. subst lrows'.
    destruct Hs3 as (Er & Eb & Ez & Ec & Ebc & Ebr & Ekr & _ & Hrel).
    unfold sameButColours; simpl.
    rewrite ?Er, ?Eb, ?Ez, ?Ec, ?Ebc, ?Ebr, ?Ekr.
    repeat (split; [reflexivity|]). exact Hrel.
Qed.

End MembershipAndHiding.

Lemma membership_criteria_hide_nothing_witness :
  sameButColours
    (applyFilters (sampleUI true false) samplePage)
    (applyFilters
       {| requireMemberChk := Some true; yearToggle := Some true; yearSlider := Some "2015";
          hoodInputs := hoodInputs (sampleUI true false);
          metricControls := metricControls (sampleUI true false) |}
       samplePage).
Proof.
  apply membership_criteria_hide_nothing; reflexivity.
Defined.

(** ** The summary bar after a pass *)

Section SummaryAfterPass.
Context `{JSBuiltins}.
Variable toNumber : string -> option Q.

(** X12. Right after a filter pass the summary bar totals visible rows
    only: every row it counts is not hidden, whether it shows the totals of
    the checked rows or of the visible rows, so it never counts more rows
    than the buildings table shows.  Its label is [Totals (selected)]
    exactly when a row of the buildings table is still checked. *)
Theorem summary_bar_counts_visible_rows :
  forall (ui : FilterUI) (s : State),
    let rows := buildingRows (applyFilters ui s) in
    let bar := updateSummaryBar toNumber rows in
    Forall (fun row => In row rows /\ hidden row = false) (summaryTargets rows)
    /\ sb_rows bar = length (summaryTargets rows)
    /\ (sb_rows bar <= length (List.filter (fun row => negb (hidden row)) rows))%nat
    /\ (sb_label bar = "Totals (selected)"
        <-> exists row, In row rows /\ isChecked row = true).
Proof.
  intros ui s rows bar.
  assert (Hvis : forall row, In row rows -> isChecked row = true -> hidden row = false).
  { intros row Hin Hc. destruct (hidden row) eqn:Eh; [|reflexivity].
    destruct (applyFilters_tables ui s) as (Hb & _).
    unfold rows in Hin. rewrite Hb in Hin. apply in_map_iff in Hin.
    destruct Hin as (row0 & <- & _).
    destruct (filterRowDom_after (rowMatches ui row0) row0) as (_ & Hh & Hcc).
    rewrite Hcc in Hc. rewrite Eh in Hh.
    destruct (rowMatches ui row0); [discriminate|].
    rewrite andb_false_r in Hc. discriminate. }
  assert (Hsel : (0 <? length (List.filter isChecked rows))%nat = true
                 <-> exists row, In row rows /\ isChecked row = true).
  { rewrite Nat.ltb_lt. split.
    - intros Hlen. destruct (List.filter isChecked rows) as [|row rest] eqn:E;
        [simpl in Hlen; lia|].
      exists row. apply filter_In. rewrite E. left. reflexivity.
    - intros (row & Hin & Hc).
      assert (Hf : In row (List.filter isChecked rows)) by (apply filter_In; auto).
      destruct (List.filter isChecked rows); [destruct Hf | simpl; lia]. }
  split; [|split; [reflexivity|split]].
  - apply List.Forall_forall. intros row Hin. unfold summaryTargets in Hin.
    destruct (0 <? length (List.filter isChecked rows))%nat.
    + apply filter_In in Hin. destruct Hin as [Hin Hc]. split; [exact Hin|]. auto.
    + apply filter_In in Hin. destruct Hin as [Hin Hh]. split; [exact Hin|].
      destruct (hidden row); [discriminate | reflexivity].
  - unfold bar, updateSummaryBar, summaryTargets. cbn [sb_rows].
    destruct (0 <? length (List.filter isChecked rows))%nat eqn:E; [|lia].
    clear E Hsel. revert Hvis. generalize rows. clear. intros rows Hvis.
    induction rows as [|row rest IH]; simpl; [lia|].
    assert (IH' : (length (List.filter isChecked rest)
                   <= length (List.filter (fun row => negb (hidden row)) rest))%nat).
    { apply IH. intros r Hin. apply Hvis. right. exact Hin. }
    destruct (isChecked row) eqn:Ec.
    + rewrite (Hvis row (or_introl eq_refl) Ec). simpl. lia.
    + destruct (hidden row); simpl; lia.
  - unfold bar, updateSummaryBar. cbn [sb_label]. rewrite <- Hsel.
    destruct (0 <? length (List.filter isChecked rows))%nat; split; intros E;
      try reflexivity; discriminate.
Qed.

End SummaryAfterPass.

(** ** The range a metric control holds *)

Lemma mathRound_le (x y : Q) : (x <= y)%Q -> (mathRound x <= mathRound y)%Q.
Proof.
  intros Hxy. unfold mathRound. rewrite <- Zle_Qle. apply Qfloor_resp_le.
  apply Qplus_le_l. exact Hxy.
Qed.

Lemma clamp_between (lo hi v : Q) :
  (lo <= hi)%Q -> (lo <= Qmax lo (Qmin hi v))%Q /\ (Qmax lo (Qmin hi v) <= hi)%Q.
Proof.
  intros Hlh. split; [apply Q.le_max_l|].
  apply Q.max_lub; [exact Hlh | apply Q.le_min_l].
Qed.

Section MetricRange.
Context `{JSBuiltins}.
Variable fromSlider : Q -> option Q.
Variable toSlider : Q -> Q.

(** X13. Whatever the two sliders of a metric hold, [updateMetricLabels]
    leaves the control with [currentMin <= currentMax], both within the
    range of the metric (within the rounded range for an integer metric),
    for a metric whose range is not empty and whose step, if it has one, is
    not negative.
    A slider whose text does not parse stands for the end of the range, so
    for a metric that is not an integer metric it sets no threshold on that
    side. *)
Theorem updateMetricLabels_range :
  forall (isInt useLog : bool) (minSlider maxSlider : string) (ctrl : MetricControl),
    (s_min (summary ctrl) <= s_max (summary ctrl))%Q ->
    match s_step (summary ctrl) with Some st => (0 <= st)%Q | None => True end ->
    let ctrl' :=
      fst (updateMetricLabels fromSlider toSlider isInt useLog minSlider maxSlider ctrl) in
    summary ctrl' = summary ctrl
    /\ (currentMin ctrl' <= currentMax ctrl')%Q
    /\ (if isInt
        then (mathRound (s_min (summary ctrl)) <= currentMin ctrl')%Q
             /\ (currentMax ctrl' <= mathRound (s_max (summary ctrl)))%Q
        else (s_min (summary ctrl) <= currentMin ctrl')%Q
             /\ (currentMax ctrl' <= s_max (summary ctrl))%Q)
    /\ (isInt = false -> parseSlider fromSlider minSlider = None ->
        t_min (thresholdOf ctrl') = None)
    /\ (isInt = false -> parseSlider fromSlider maxSlider = None ->
        t_max (thresholdOf ctrl') = None).
Proof.
  intros isInt useLog minSlider maxSlider ctrl Hrange Hstep.
  unfold updateMetricLabels. cbv zeta. cbn [fst summary currentMin currentMax].
  set (lo := s_min (summary ctrl)) in *. set (hi := s_max (summary ctrl)) in *.
  set (a := Qmax lo (Qmin hi (default lo (parseSlider fromSlider minSlider)))).
  set (b := Qmax lo (Qmin hi (default hi (parseSlider fromSlider maxSlider)))).
  destruct (clamp_between lo hi (default lo (parseSlider fromSlider minSlider)) Hrange)
    as [Ha1 Ha2].
  destruct (clamp_between lo hi (default hi (parseSlider fromSlider maxSlider)) Hrange)
    as [Hb1 Hb2].
  fold a in Ha1, Ha2. fold b in Hb1, Hb2.
  set (a' := if negb (Qle_bool a b) && negb useLog then b else a).
  set (b' := if negb (Qle_bool a b) && useLog then a else b).
  assert (Hab : (a' <= b')%Q /\ (lo <= a')%Q /\ (b' <= hi)%Q).
  { unfold a', b'. destruct (Qle_bool a b) eqn:E; simpl.
    - apply Qle_bool_iff in E. auto.
    - destruct useLog; simpl; repeat split; auto; apply Qle_refl. }
  destruct Hab as (Hab & Hlo & Hhi).
  assert (Htol : (0 <= match s_step (summary ctrl) with
                       | Some st => if Qeq_bool st 0 then 0 else st * 0.5
                       | None => 0
                       end)%Q).
  { destruct (s_step (summary ctrl)) as [st|]; [|apply Qle_refl].
    destruct (Qeq_bool st 0); [apply Qle_refl|].
    apply Qmult_le_0_compat; [exact Hstep | discriminate]. }
  split; [reflexivity|]. split; [|split; [|split]].
  - destruct isInt; [apply mathRound_le|]; exact Hab.
  - destruct isInt; split; try apply mathRound_le; assumption.
  - intros -> Hparse. unfold thresholdOf. cbn [summary currentMin currentMax t_min].
    fold lo.
    assert (Ea : (a == lo)%Q).
    { unfold a. rewrite Hparse. simpl. rewrite (Q.min_r hi lo Hrange).
      apply Q.max_id. }
    assert (Ea' : (a' <= lo)%Q).
    { unfold a'. destruct (Qle_bool a b) eqn:E; simpl.
      - rewrite Ea. apply Qle_refl.
      - exfalso. assert (Qle_bool a b = true); [|congruence].
        apply Qle_bool_iff. rewrite Ea. exact Hb1. }
    match goal with |- (if ?c then _ else _) = _ => assert (Hc : c = true) end.
    { apply Qle_bool_iff. eapply Qle_trans; [exact Ea'|].
      rewrite <- (Qplus_0_r lo) at 1. apply Qplus_le_r. exact Htol. }
    rewrite Hc. reflexivity.
  - intros -> Hparse. unfold thresholdOf. cbn [summary currentMin currentMax t_max].
    fold hi.
    assert (Eb : (b == hi)%Q).
    { unfold b. rewrite Hparse. simpl. rewrite Q.min_id.
      apply Q.max_r. exact Hrange. }
    assert (Eb' : (hi <= b')%Q).
    { unfold b'. destruct (Qle_bool a b) eqn:E; simpl.
      - rewrite Eb. apply Qle_refl.
      - exfalso. assert (Qle_bool a b = true); [|congruence].
        apply Qle_bool_iff. rewrite Eb. exact Ha2. }
    match goal with |- (if ?c then _ else _) = _ => assert (Hc : c = true) end.
    { apply Qle_bool_iff. eapply Qle_trans; [|exact Eb'].
      unfold Qminus. rewrite <- (Qplus_0_r hi) at 2. apply Qplus_le_r.
      apply (Qopp_le_compat 0). exact Htol. }
    rewrite Hc. reflexivity.
Qed.

End MetricRange.

Lemma updateMetricLabels_range_witness :
  t_min (thresholdOf
           (fst (updateMetricLabels Some (fun v => v) false false "n/a" "40" sampleControl)))
  = None.
Proof.
  destruct (updateMetricLabels_range Some (fun v => v) false false "n/a" "40" sampleControl)
    as (_ & _ & _ & Hmin & _).
  - unfold Qle. simpl. lia.
  - exact I.
  - apply Hmin; reflexivity.
Defined.

(** ** Order and bounds of the logarithmic mapping *)

Section LogSliderOrder.
Local Open Scope R_scope.
Variable summary : MetricSummary.
Variable p : R.
Hypothesis Hmapped : logMapped summary = true.
Hypothesis Hp : positiveMin summary = Some p.

Lemma ln_le_between (x y : R) : 0 < x -> x <= y -> ln x <= ln y.
Proof.
  intros Hx Hxy. destruct (Req_dec x y) as [->|Hne]; [lra|].
  left. apply ln_increasing; lra.
Qed.

Lemma exp_le_between (x y : R) : x <= y -> exp x <= exp y.
Proof.
  intros Hxy. destruct (Req_dec x y) as [->|Hne]; [lra|].
  left. apply exp_increasing; lra.
Qed.

Lemma toSlider_positive (value : R) :
  0 < value ->
  toSlider summary value
  = (ln (Rmax p (Rmin value (ms_max summary))) - logMin summary)
    / (logMax summary - logMin summary) * 100.
Proof.
  intros Hv. unfold toSlider. rewrite Hp, Hmapped.
  assert (E : Rleb value 0 = false) by (apply Rleb_false; lra).
  rewrite E. reflexivity.
Qed.

Lemma clamped_between (value : R) :
  p <= Rmax p (Rmin value (ms_max summary)) <= ms_max summary.
Proof.
  pose proof (positiveMin_lt_max summary p Hmapped Hp) as Hlt.
  split; [apply Rmax_l|]. apply Rmax_lub; [lra | apply Rmin_r].
Qed.

Lemma toSlider_bounds (value : R) : 0 <= toSlider summary value <= 100.
Proof.
  pose proof (positiveMin_pos summary p Hp) as Hpos.
  pose proof (positiveMin_lt_max summary p Hmapped Hp) as Hlt.
  pose proof (log_span_pos summary p Hmapped Hp) as Hspan.
  destruct (Rle_dec value 0) as [Hv|Hv].
  - rewrite (toSlider_nonpositive summary p Hmapped Hp) by exact Hv. lra.
  - rewrite toSlider_positive by lra.
    destruct (clamped_between value) as [Hlo Hhi].
    set (c := Rmax p (Rmin value (ms_max summary))) in *.
    assert (H1 : ln p <= ln c) by (apply ln_le_between; lra).
    assert (H2 : ln c <= ln (ms_max summary)) by (apply ln_le_between; lra).
    rewrite <- (logMin_eq summary p Hmapped Hp) in H1.
    rewrite <- (logMax_eq summary p Hmapped Hp) in H2.
    set (a := logMin summary) in *. set (b := logMax summary) in *.
    assert (Hr : 0 <= (ln c - a) / (b - a) <= 1).
    { split.
      - apply Rmult_le_pos; [lra|]. left. apply Rinv_0_lt_compat. exact Hspan.
      - apply (Rmult_le_reg_r (b - a)); [exact Hspan|].
        unfold Rdiv. rewrite Rmult_assoc, Rinv_l by lra. lra. }
    lra.
Qed.

Lemma toSlider_monotone (v1 v2 : R) :
  v1 <= v2 -> toSlider summary v1 <= toSlider summary v2.
Proof.
  intros Hv.
  pose proof (positiveMin_pos summary p Hp) as Hpos.
  pose proof (log_span_pos summary p Hmapped Hp) as Hspan.
  destruct (Rle_dec v1 0) as [H1|H1].
  - rewrite (toSlider_nonpositive summary p Hmapped Hp v1) by exact H1.
    apply toSlider_bounds.
  - rewrite !toSlider_positive by lra.
    destruct (clamped_between v1) as [Hlo1 _].
    assert (Hc : Rmax p (Rmin v1 (ms_max summary)) <= Rmax p (Rmin v2 (ms_max summary))).
    { apply Rle_max_compat_l. apply Rle_min_compat_r. exact Hv. }
    assert (Hln : ln (Rmax p (Rmin v1 (ms_max summary)))
                  <= ln (Rmax p (Rmin v2 (ms_max summary))))
      by (apply ln_le_between; lra).
    apply Rmult_le_compat_r; [lra|].
    apply Rmult_le_compat_r; [left; apply Rinv_0_lt_compat; exact Hspan | lra].
Qed.

Lemma fromSlider_cases (pos : R) :
  let ratio := Rmin 1 (Rmax 0 (pos / 100)) in
  0 <= ratio <= 1
  /\ (ratio = 0 /\ ms_min summary <= 0 /\ fromSlider summary pos = ms_min summary
      \/ ~ (ratio = 0 /\ ms_min summary <= 0)
         /\ fromSlider summary pos
            = exp (logMin summary + ratio * (logMax summary - logMin summary))).
Proof.
  intros ratio.
  assert (Hr : 0 <= ratio <= 1).
  { unfold ratio. split.
    - apply Rmin_glb; [lra | apply Rmax_l].
    - apply Rmin_l. }
  split; [exact Hr|].
  unfold fromSlider. rewrite Hmapped. fold ratio.
  destruct (Reqb ratio 0 && Rleb (ms_min summary) 0) eqn:E.
  - left. apply andb_true_iff in E. destruct E as [E1 E2].
    apply Reqb_true in E1. apply Rleb_true in E2. auto.
  - right. split; [|reflexivity]. intros [E1 E2].
    apply Reqb_true in E1. apply Rleb_true in E2. rewrite E1, E2 in E. discriminate.
Qed.

Lemma fromSlider_monotone (pos1 pos2 : R) :
  pos1 <= pos2 -> fromSlider summary pos1 <= fromSlider summary pos2.
Proof.
  intros Hpos.
  pose proof (log_span_pos summary p Hmapped Hp) as Hspan.
  destruct (fromSlider_cases pos1) as [Hr1 C1].
  destruct (fromSlider_cases pos2) as [Hr2 C2].
  assert (Hr : Rmin 1 (Rmax 0 (pos1 / 100)) <= Rmin 1 (Rmax 0 (pos2 / 100))).
  { apply Rle_min_compat_l. apply Rle_max_compat_l. lra. }
  set (r1 := Rmin 1 (Rmax 0 (pos1 / 100))) in *.
  set (r2 := Rmin 1 (Rmax 0 (pos2 / 100))) in *.
  destruct C1 as [(E1 & Hm & ->)|[Hn1 ->]].
  - destruct C2 as [(E2 & _ & ->)|[_ ->]]; [lra|].
    pose proof (exp_pos (logMin summary + r2 * (logMax summary - logMin summary))). lra.
  - destruct C2 as [(E2 & Hm & _)|[_ ->]].
    + exfalso. apply Hn1. split; [lra | exact Hm].
    + apply exp_le_between. nra.
Qed.

End LogSliderOrder.

(** X14. For a metric with the logarithmic mapping, both directions keep
    the order and stay in range whatever they are given: every value maps to
    a position in [0, 100], a larger value never to a smaller position, and
    a value at or above the maximum to 100; every position, also one outside
    [0, 100], maps to the metric's minimum (when that is not positive) or to
    a value between the smallest positive value and the maximum, a larger
    position never to a smaller value, and a position at or above 100 to the
    maximum. *)
Theorem log_slider_order_and_bounds :
  forall (summary : MetricSummary) (p : R),
    logMapped summary = true ->
    positiveMin summary = Some p ->
    (forall value, (0 <= toSlider summary value <= 100)%R)
    /\ (forall v1 v2, (v1 <= v2)%R -> (toSlider summary v1 <= toSlider summary v2)%R)
    /\ (forall value, (ms_max summary <= value)%R -> toSlider summary value = 100%R)
    /\ (forall pos,
          (fromSlider summary pos = ms_min summary /\ (ms_min summary <= 0)%R)
          \/ (p <= fromSlider summary pos <= ms_max summary)%R)
    /\ (forall pos1 pos2, (pos1 <= pos2)%R ->
          (fromSlider summary pos1 <= fromSlider summary pos2)%R)
    /\ (forall pos, (100 <= pos)%R -> fromSlider summary pos = ms_max summary).
Proof.
  intros summary p Hmapped Hp.
  pose proof (positiveMin_pos summary p Hp) as Hpos.
  pose proof (positiveMin_lt_max summary p Hmapped Hp) as Hlt.
  pose proof (log_span_pos summary p Hmapped Hp) as Hspan.
  split; [exact (toSlider_bounds summary p Hmapped Hp)|].
  split; [exact (toSlider_monotone summary p Hmapped Hp)|].
  split; [|split; [|split; [exact (fromSlider_monotone summary p Hmapped Hp)|]]].
  - intros value Hv.
    rewrite (toSlider_positive summary p Hmapped Hp) by lra.
    rewrite Rmin_right by exact Hv. rewrite Rmax_right by lra.
    rewrite (logMax_eq summary p Hmapped Hp). field. 
    rewrite <- (logMax_eq summary p Hmapped Hp). lra.
  - intros pos. destruct (fromSlider_cases summary Hmapped pos) as [Hr C].
    destruct C as [(_ & Hm & E)|[_ E]]; [left; auto|].
    right. rewrite E. apply (exp_between summary p Hmapped Hp). exact Hr.
  - intros pos Hpos100.
    destruct (fromSlider_cases summary Hmapped pos) as [_ C].
    assert (Er : Rmin 1 (Rmax 0 (pos / 100)) = 1%R).
    { rewrite Rmax_right by lra. apply Rmin_left. lra. }
    rewrite Er in C. destruct C as [(E & _)|[_ ->]]; [lra|].
    replace (logMin summary + 1 * (logMax summary - logMin summary))%R
      with (logMax summary) by lra.
    rewrite (logMax_eq summary p Hmapped Hp). apply exp_ln. lra.
Qed.

Lemma log_slider_order_and_bounds_witness :
  (0 <= toSlider sampleSummary 5000 <= 100)%R.
Proof.
  destruct (log_slider_order_and_bounds sampleSummary 1%R
              sampleSummary_logMapped sampleSummary_positiveMin) as (Hb & _).
  apply Hb.
Defined.

(** ** The zoom scale *)

Section ZoomScale.
Local Open Scope R_scope.

Lemma Rpower_12_monotone (x y : R) : x <= y -> Rpower 1.2 x <= Rpower 1.2 y.
Proof. intros Hxy. apply Rle_Rpower; lra. Qed.

Lemma Rpower_12_5 : Rpower 1.2 5 = 2.48832.
Proof.
  replace 5 with (INR 5) by (simpl; lra).
  rewrite Rpower_pow by lra. simpl. lra.
Qed.

Lemma Rpower_12_minus_6 : Rpower 1.2 (-6) < 0.35.
Proof.
  replace (-6) with (Ropp 6) by lra.
  rewrite Rpower_Ropp. replace 6 with (INR 6) by (simpl; lra).
  rewrite Rpower_pow by lra.
  replace (1.2 ^ 6) with 2.985984 by (simpl; lra).
  apply (Rmult_lt_reg_r 2.985984); [lra|].
  rewrite Rinv_l by lra. lra.
Qed.

(** X15. The zoom scale of a finite zoom level is always between 0.35 and
    2.4, is 1 at zoom level 15 and never decreases when the zoom level
    grows; it is 2.4 from zoom level 20 on and 0.35 up to zoom level 9.  A
    zoom level that is not finite keeps the scale there was. *)
Theorem computeZoomScale_bounds :
  forall (current : R),
    (forall zoom, 0.35 <= computeZoomScale current (Some zoom) <= 2.4)
    /\ computeZoomScale current (Some 15) = 1
    /\ (forall z1 z2, z1 <= z2 ->
          computeZoomScale current (Some z1) <= computeZoomScale current (Some z2))
    /\ (forall zoom, 20 <= zoom -> computeZoomScale current (Some zoom) = 2.4)
    /\ (forall zoom, zoom <= 9 -> computeZoomScale current (Some zoom) = 0.35)
    /\ computeZoomScale current None = current.
Proof.
  intros current. unfold computeZoomScale, BASE_ZOOM.
  split; [|split; [|split; [|split; [|split]]]].
  - intros zoom. split.
    + apply Rmin_glb; [lra | apply Rmax_l].
    + apply Rmin_l.
  - replace (15 - 15) with 0 by lra. rewrite Rpower_O by lra.
    rewrite Rmax_right by lra. apply Rmin_right. lra.
  - intros z1 z2 Hz. apply Rle_min_compat_l. apply Rle_max_compat_l.
    apply Rpower_12_monotone. lra.
  - intros zoom Hz.
    assert (H5 : 2.48832 <= Rpower 1.2 (zoom - 15)).
    { rewrite <- Rpower_12_5. apply Rpower_12_monotone. lra. }
    rewrite Rmax_right by lra. apply Rmin_left. lra.
  - intros zoom Hz.
    assert (H6 : Rpower 1.2 (zoom - 15) < 0.35).
    { eapply Rle_lt_trans; [|exact Rpower_12_minus_6].
      apply Rpower_12_monotone. lra. }
    rewrite Rmax_left by lra. apply Rmin_right. lra.
  - reflexivity.
Qed.

End ZoomScale.

(** ** Registration of the block layers *)

Lemma registerBlock_listed (layers : list GeoLayer) (acc : gmap string Layer * list Layer) :
  (forall id l, fst acc !! id = Some l -> In l (snd acc)) ->
  forall id l, fst (fold_left registerBlock layers acc) !! id = Some l ->
               In l (snd (fold_left registerBlock layers acc)).
Proof.
  revert acc. induction layers as [|g rest IH]; intros acc Hacc; simpl; [exact Hacc|].
  apply IH. unfold registerBlock.
  destruct (g_properties g) as [props|]; [|exact Hacc].
  destruct (block_id props) as [id|]; [|exact Hacc].
  simpl. intros k l Hk. apply in_or_app.
  destruct (decide (id = k)) as [->|Hne].
  - rewrite lookup_insert_eq in Hk. injection Hk as <-. right. left. reflexivity.
  - rewrite lookup_insert_ne in Hk by exact Hne. left. exact (Hacc k l Hk).
Qed.

Lemma registerBlock_keeps (layers : list GeoLayer) (acc : gmap string Layer * list Layer)
    (id : string) :
  is_Some (fst acc !! id) -> is_Some (fst (fold_left registerBlock layers acc) !! id).
Proof.
  revert acc. induction layers as [|g rest IH]; intros acc Hacc; simpl; [exact Hacc|].
  apply IH. unfold registerBlock.
  destruct (g_properties g) as [props|]; [|exact Hacc].
  destruct (block_id props) as [k|]; [|exact Hacc].
  simpl. destruct (decide (k = id)) as [->|Hne].
  - rewrite lookup_insert_eq. eauto.
  - rewrite lookup_insert_ne by exact Hne. exact Hacc.
Qed.

Lemma registerBlock_registers (layers : list GeoLayer) (acc : gmap string Layer * list Layer)
    (g : GeoLayer) (props : BlockProps) (id : string) :
  In g layers -> g_properties g = Some props -> block_id props = Some id ->
  is_Some (fst (fold_left registerBlock layers acc) !! id).
Proof.
  revert acc. induction layers as [|g0 rest IH]; intros acc Hin Hprops Hid; [destruct Hin|].
  simpl. destruct Hin as [->|Hin]; [|apply IH; assumption].
  apply registerBlock_keeps. unfold registerBlock. rewrite Hprops, Hid. simpl.
  rewrite lookup_insert_eq. eauto.
Qed.

Lemma registerBlock_origin (layers : list GeoLayer) (acc : gmap string Layer * list Layer)
    (id : string) :
  is_Some (fst (fold_left registerBlock layers acc) !! id) ->
  is_Some (fst acc !! id)
  \/ exists g props, In g layers /\ g_properties g = Some props /\ block_id props = Some id.
Proof.
  revert acc. induction layers as [|g rest IH]; intros acc Hid; simpl in *; [left; exact Hid|].
  destruct (IH _ Hid) as [Hacc|(g' & props & Hin & Hp & Hb)].
  - unfold registerBlock in Hacc.
    destruct (g_properties g) as [props|] eqn:Ep; [|left; exact Hacc].
    destruct (block_id props) as [k|] eqn:Ek; [|left; exact Hacc].
    simpl in Hacc. destruct (decide (k = id)) as [->|Hne].
    + right. exists g, props. auto.
    + rewrite lookup_insert_ne in Hacc by exact Hne. left. exact Hacc.
  - right. exists g', props. auto.
Qed.

Lemma fold_Qmax_bounds (blockLayers : list Layer) (a : Q) :
  (a <= fold_left (fun mx layer => Qmax mx (l_blockUnits layer)) blockLayers a)%Q
  /\ forall l, In l blockLayers ->
       (l_blockUnits l
        <= fold_left (fun mx layer => Qmax mx (l_blockUnits layer)) blockLayers a)%Q.
Proof.
  revert a. induction blockLayers as [|x rest IH]; intros a; simpl.
  - split; [apply Qle_refl | intros l []].
  - destruct (IH (Qmax a (l_blockUnits x))) as [Ha Hl]. split.
    + eapply Qle_trans; [apply Q.le_max_l | exact Ha].
    + intros l [<-|Hin]; [|apply Hl; exact Hin].
      eapply Qle_trans; [apply Q.le_max_r | exact Ha].
Qed.

Lemma computeBlockColorMax_bounds (blockLayers : list Layer) :
  (0 <= computeBlockColorMax blockLayers)%Q
  /\ forall l, In l blockLayers -> (l_blockUnits l <= computeBlockColorMax blockLayers)%Q.
Proof.
  unfold computeBlockColorMax.
  destruct (fold_Qmax_bounds blockLayers 0) as [H0 Hl].
  assert (E : Qle_bool 0 (fold_left (fun mx layer => Qmax mx (l_blockUnits layer))
                            blockLayers 0%Q) = true) by (apply Qle_bool_iff; exact H0).
  rewrite E. simpl. split; assumption.
Qed.

(** X16. Registration of the blocks layer: every polygon that carries a
    block id is indexed under it, and nothing else is.  The registry-wide
    maximum is at least 0 and at least the units of every indexed layer, so
    the ratio of an indexed layer needs no clamping from above; every indexed
    layer starts with the base style for its units, the darkest palette step
    when its units equal a positive maximum, and the flat style when the
    maximum is 0. *)
Theorem wireUpBlocks_maximum :
  forall (layers : list GeoLayer),
    let index := fst (wireUpBlocks layers) in
    let mx := snd (wireUpBlocks layers) in
    (0 <= mx)%Q
    /\ (forall id layer, index !! id = Some layer ->
          (l_blockUnits layer <= mx)%Q
          /\ l_style layer = blockBaseStyle true mx (l_blockUnits layer)
          /\ ((0 < mx)%Q -> (l_blockUnits layer / mx <= 1)%Q)
          /\ ((0 < mx)%Q -> (l_blockUnits layer == mx)%Q ->
              fillColor (l_style layer) = "#006d2c")
          /\ ((mx == 0)%Q -> l_style layer = flatBlockStyle))
    /\ (forall g props id,
          In g layers -> g_properties g = Some props -> block_id props = Some id ->
          is_Some (index !! id))
    /\ (forall id, is_Some (index !! id) ->
          exists g props,
            In g layers /\ g_properties g = Some props /\ block_id props = Some id).
Proof.
  intros layers. unfold wireUpBlocks.
  pose proof (registerBlock_listed layers (∅, [])) as Hlisted.
  pose proof (fun g props id => registerBlock_registers layers (∅, []) g props id) as Hreg.
  pose proof (registerBlock_origin layers (∅, [])) as Horigin.
  destruct (fold_left registerBlock layers (∅, [])) as [index blockLayers].
  cbn [fst snd] in *.
  destruct (computeBlockColorMax_bounds blockLayers) as [Hmx Hunits].
  set (mx := computeBlockColorMax blockLayers) in *.
  split; [exact Hmx|]. split; [|split].
  - intros id layer Hk. rewrite lookup_fmap in Hk.
    destruct (index !! id) as [l0|] eqn:E0; [|discriminate].
    simpl in Hk. injection Hk as <-.
    assert (Hin : In l0 blockLayers).
    { apply (Hlisted ltac:(intros k l Hk; rewrite lookup_empty in Hk; discriminate) id).
      exact E0. }
    pose proof (Hunits l0 Hin) as Hle.
    cbn [resetBlockStyle l_blockUnits l_style].
    split; [exact Hle|]. split; [reflexivity|]. split; [|split].
    + intros Hpos. apply Qle_shift_div_r; [exact Hpos|]. rewrite Qmult_1_l. exact Hle.
    + intros Hpos Heq. unfold blockBaseStyle.
      assert (E : Qle_bool mx 0 = false).
      { destruct (Qle_bool mx 0) eqn:E; [|reflexivity].
        apply Qle_bool_iff in E. exfalso. eapply Qlt_not_le; eauto. }
      rewrite E. cbn [negb orb fillColor].
      pose proof (blockFill_buckets (blockRatio (l_blockUnits l0) mx))
        as (_ & _ & _ & _ & _ & B6).
      apply B6. unfold blockRatio.
      eapply Qle_trans; [|apply Q.le_max_r].
      apply Q.min_glb; [apply Qle_refl|].
      apply Qle_shift_div_l; [exact Hpos|]. rewrite Qmult_1_l, Heq. apply Qle_refl.
    + intros Hz. unfold blockBaseStyle.
      assert (E : Qle_bool mx 0 = true) by (apply Qle_bool_iff; rewrite Hz; apply Qle_refl).
      rewrite E. reflexivity.
  - intros g props id Hin Hp Hb. rewrite lookup_fmap.
    destruct (Hreg g props id Hin Hp Hb) as [l Hl]. rewrite Hl. simpl. eauto.
  - intros id [l Hl]. rewrite lookup_fmap in Hl.
    destruct (index !! id) as [l0|] eqn:E0; [|discriminate].
    destruct (Horigin id (ex_intro _ l0 E0)) as [[x Hx]|Hex]; [|exact Hex].
    rewrite lookup_empty in Hx. discriminate.
Qed.

(** ** CSV fields *)

Lemma doubleQuotes_injective (a b : string) :
  doubleQuotes a = doubleQuotes b -> a = b.
Proof.
  revert b. induction a as [|c a IH]; intros [|d b] E; simpl in E.
  - reflexivity.
  - destruct (Ascii.eqb d quoteChar); discriminate.
  - destruct (Ascii.eqb c quoteChar); discriminate.
  - destruct (Ascii.eqb c quoteChar) eqn:Ec, (Ascii.eqb d quoteChar) eqn:Ed.
    + apply Ascii.eqb_eq in Ec, Ed. subst c d.
      injection E as E. rewrite (IH b E). reflexivity.
    + injection E as E1 E2. subst d. rewrite Ascii.eqb_refl in Ed. discriminate.
    + injection E as E1 E2. subst c. rewrite Ascii.eqb_refl in Ec. discriminate.
    + injection E as E1 E2. subst d. rewrite (IH b E2). reflexivity.
Qed.

Lemma append_quote_injective (a b : string) :
  (a ++ String quoteChar EmptyString)%string = (b ++ String quoteChar EmptyString)%string ->
  a = b.
Proof.
  revert b. induction a as [|c a IH]; intros [|d b] E; simpl in E.
  - reflexivity.
  - injection E as E1 E2. destruct b; discriminate.
  - injection E as E1 E2. destruct a; discriminate.
  - injection E as E1 E2. subst d. rewrite (IH b E2). reflexivity.
Qed.

Lemma needsQuoting_quote (text : string) :
  needsQuoting (String quoteChar text) = true.
Proof. reflexivity. Qed.

(** X17. [escapeCSV] gives the empty field for [null] and [undefined],
    leaves a text without quote, comma and line break as it is, and wraps
    any other text in quotes with its quotes doubled.  Two different texts
    never give the same field, so a reader of the file can tell them
    apart. *)
Theorem escapeCSV_unambiguous :
  escapeCSV None = ""
  /\ (forall text, needsQuoting text = false -> escapeCSV (Some text) = text)
  /\ (forall text, needsQuoting text = true ->
        escapeCSV (Some text)
        = String quoteChar (doubleQuotes text ++ String quoteChar EmptyString))
  /\ (forall a b, escapeCSV (Some a) = escapeCSV (Some b) -> a = b).
Proof.
  split; [reflexivity|]. split; [|split].
  - intros text E. unfold escapeCSV. rewrite E. reflexivity.
  - intros text E. unfold escapeCSV. rewrite E. reflexivity.
  - intros a b. unfold escapeCSV.
    destruct (needsQuoting a) eqn:Ea, (needsQuoting b) eqn:Eb; intros E.
    + injection E as E. apply doubleQuotes_injective, append_quote_injective. exact E.
    + rewrite <- E in Eb. rewrite needsQuoting_quote in Eb. discriminate.
    + rewrite E in Ea. rewrite needsQuoting_quote in Ea. discriminate.
    + exact E.
Qed.

(** ** Registration of the markers *)

(** X18. A marker that [applyMarkerMetadata] registers starts as the
    reachability theorems assume: count 0, not filtered, passing the
    membership criteria, drawn without the overlay.  Its colorized and
    neutral colours are never empty (the metadata's colour if it gives one,
    grey as the last resort), its base colour is the colorized colour when
    colour scaling is on and the building is VTU and the neutral colour
    otherwise, and it is drawn with that fill at its base radius (6 if it
    has none) times the zoom scale. *)
Theorem registerMarker_initial :
  forall (zoom : Q) (colorize : bool) (meta : Meta) (raw : RawMarker),
    let m := registerMarker zoom colorize meta raw in
    initialMarker m = true
    /\ m_selectionRefs m = 0%Z /\ m_isFiltered m = false
    /\ m_passesMembership m = true /\ m_isVtu m = is_vtu meta
    /\ m_colorizedColor m <> "" /\ m_neutralColor m <> ""
    /\ (forall c, base_color meta = Some c -> c <> "" -> m_colorizedColor m = c)
    /\ (forall c, neutral_color meta = Some c -> c <> "" -> m_neutralColor m = c)
    /\ m_baseColor m
       = (if colorize && is_vtu meta then m_colorizedColor m else m_neutralColor m)
    /\ fillColor (m_style m) = m_baseColor m
    /\ m_radius m = (orNum (m_baseRadius m) 6 * zoom)%Q.
Proof.
  intros zoom colorize meta raw.
  unfold registerMarker.
  set (cc := orStr (default "" (base_color meta)) _).
  set (nc := orStr (default "" (neutral_color meta)) "#9e9e9e").
  set (bo := match base_opacity meta with Some o => o | None => _ end).
  set (br := match base_radius meta with Some r => r | None => _ end).
  assert (Hcc : cc <> "").
  { unfold cc. repeat (apply orStr_nonempty). discriminate. }
  assert (Hnc : nc <> "") by (unfold nc; apply orStr_nonempty; discriminate).
  assert (Hcc' : forall t, orStr cc t = cc) by (intros t; destruct cc; [congruence|reflexivity]).
  assert (Hnc' : forall t, orStr nc t = nc) by (intros t; destruct nc; [congruence|reflexivity]).
  cbv zeta.
  destruct (r_hasSetRadius raw); marker_unfold; cbn [andb Z.ltb Z.compare];
    rewrite !Hcc'; rewrite andb_true_r;
    unfold initialMarker, markerHighlighted; cbn;
    (repeat split; try assumption; try reflexivity;
     [ intros c Hc Hne; unfold cc; rewrite Hc; simpl;
       destruct c; [congruence | reflexivity]
     | intros c Hc Hne; unfold nc; rewrite Hc; simpl;
       destruct c; [congruence | reflexivity]
     | destruct (colorize && is_vtu meta); rewrite ?Hcc', ?Hnc'; reflexivity
     | destruct (colorize && is_vtu meta); rewrite ?Hcc', ?Hnc'; reflexivity ]).
Qed.

Lemma existsb_eqb_In (x : string) (l : list string) :
  existsb (String.eqb x) l = true <-> In x l.
Proof.
  rewrite existsb_exists. split.
  - intros (y & Hin & E). apply String.eqb_eq in E. subst y. exact Hin.
  - intros Hin. exists x. split; [exact Hin | apply String.eqb_refl].
Qed.

Lemma pushUnique_In (x y : string) (l : list string) :
  In y (pushUnique x l) <-> y = x \/ In y l.
Proof.
  unfold pushUnique. destruct (existsb (String.eqb x) l) eqn:E.
  - apply existsb_eqb_In in E. split; [auto|]. intros [->|H]; assumption.
  - rewrite in_app_iff. simpl. split.
    + intros [H|[H|[]]]; auto.
    + intros [->|H]; auto.
Qed.

Lemma pushUnique_NoDup (x : string) (l : list string) :
  List.NoDup l -> List.NoDup (pushUnique x l).
Proof.
  intros Hl. unfold pushUnique. destruct (existsb (String.eqb x) l) eqn:E; [exact Hl|].
  assert (Hnot : ~ In x l).
  { intros Hin. apply existsb_eqb_In in Hin. congruence. }
  clear E. induction Hl as [|y l Hy Hl IH]; simpl.
  - constructor; [intros [] | constructor].
  - constructor.
    + rewrite in_app_iff. simpl. intros [H|[H|[]]]; [exact (Hy H)|].
      apply Hnot. left. symmetry. exact H.
    + apply IH. intros Hin. apply Hnot. right. exact Hin.
Qed.

Lemma pushUnique_nonempty (x : string) (l : list string) : pushUnique x l <> [].
Proof.
  unfold pushUnique. destruct (existsb (String.eqb x) l) eqn:E.
  - destruct l; [discriminate | discriminate].
  - destruct l; discriminate.
Qed.

Lemma registerMarker_registered zoom colorize meta raw :
  registeredMarker (registerMarker zoom colorize meta raw).
Proof.
  unfold registerMarker, registeredMarker.
  set (cc := orStr (default "" (base_color meta)) _).
  set (nc := orStr (default "" (neutral_color meta)) "#9e9e9e").
  assert (Hcc : cc <> "").
  { unfold cc. repeat (apply orStr_nonempty). discriminate. }
  assert (Hnc : nc <> "") by (unfold nc; apply orStr_nonempty; discriminate).
  cbv zeta.
  destruct (r_hasSetRadius raw); marker_unfold; cbn [andb Z.ltb Z.compare];
    unfold initialMarker, markerHighlighted; cbn;
    repeat split; assumption.
Qed.

Lemma is_Some_insert_mono {A : Type} (k j : string) (x : A) (ms : gmap string A) :
  is_Some (ms !! j) -> is_Some (<[k := x]> ms !! j).
Proof.
  intros Hj. destruct (decide (k = j)) as [->|Hne].
  - rewrite lookup_insert_eq. eauto.
  - rewrite lookup_insert_ne by exact Hne. exact Hj.
Qed.

Lemma indexPush_lookup (key x owner : string) (index : gmap string (list string))
    (l : list string) :
  indexPush key x index !! owner = Some l ->
  (owner = key /\ l = pushUnique x (default [] (index !! key)))
  \/ (owner <> key /\ index !! owner = Some l).
Proof.
  unfold indexPush. destruct (decide (key = owner)) as [->|Hne].
  - rewrite lookup_insert_eq. intros E. injection E as <-. left. auto.
  - rewrite lookup_insert_ne by exact Hne. intros E. right. split; [congruence | exact E].
Qed.

Lemma applyMeta_consistent window zoom colorize ms ix meta :
  indexesConsistent window ms ix ->
  indexesConsistent window
    (fst (applyMeta window zoom colorize (ms, ix) meta))
    (snd (applyMeta window zoom colorize (ms, ix) meta)).
Proof.
  intros Hinv. unfold applyMeta.
  destruct (marker_var meta) as [[|c0 v0]|]; [exact Hinv| |exact Hinv].
  set (markerVar := String c0 v0).
  destruct (window !! markerVar) as [raw|] eqn:Ew; [|exact Hinv].
  destruct Hinv as (Hms & Hwin & Hbuild & Hown & Hblk & Hmem).
  cbn [fst snd].
  set (m := registerMarker zoom colorize meta _).
  assert (Hmono : forall v, is_Some (ms !! v) -> is_Some (<[markerVar := m]> ms !! v))
    by (intros v; apply is_Some_insert_mono).
  assert (Hbmono : forall bid, is_Some (ix_building ix !! bid) ->
                     is_Some (<[b_id meta := markerVar]> (ix_building ix) !! bid))
    by (intros bid; apply is_Some_insert_mono).
  unfold indexesConsistent. cbn [ix_building ix_owner ix_blockBuilding ix_membership].
  split; [|split; [|split; [|split; [|split]]]].
  - apply map_Forall_insert_2; [apply registerMarker_registered | exact Hms].
  - intros v Hv. destruct (decide (markerVar = v)) as [<-|Hne].
    + rewrite Ew. eauto.
    + rewrite lookup_insert_ne in Hv by exact Hne. apply Hwin, Hv.
  - intros bid v Hb. destruct (decide (b_id meta = bid)) as [E|Hne]; [subst bid|].
    + rewrite lookup_insert_eq in Hb. injection Hb as <-.
      rewrite lookup_insert_eq. eauto.
    + rewrite lookup_insert_ne in Hb by exact Hne. apply Hmono. exact (Hbuild bid v Hb).
  - assert (Hold : forall owner l, ix_owner ix !! owner = Some l ->
              List.NoDup l /\ l <> []
              /\ forall v, In v l -> is_Some (<[markerVar := m]> ms !! v)).
    { intros owner l Hl. destruct (Hown owner l Hl) as (Hnd & Hne & Hin).
      split; [exact Hnd|]. split; [exact Hne|]. intros v Hv. apply Hmono, Hin, Hv. }
    destruct (owner_key meta) as [[|c1 k1]|]; [exact Hold| |exact Hold].
    intros owner l Hl. apply indexPush_lookup in Hl.
    destruct Hl as [[-> ->]|[_ Hl]]; [|exact (Hold owner l Hl)].
    split; [|split; [apply pushUnique_nonempty|]].
    + apply pushUnique_NoDup.
      destruct (ix_owner ix !! String c1 k1) as [l0|] eqn:E0; simpl; [|constructor].
      apply (Hown _ _ E0).
    + intros v Hv. apply pushUnique_In in Hv. destruct Hv as [->|Hv].
      * rewrite lookup_insert_eq. eauto.
      * destruct (ix_owner ix !! String c1 k1) as [l0|] eqn:E0; simpl in Hv; [|destruct Hv].
        apply Hmono. apply (Hown _ _ E0). exact Hv.
  - assert (Hold : forall block l, ix_blockBuilding ix !! block = Some l ->
              List.NoDup l /\ l <> []
              /\ forall bid, In bid l ->
                   is_Some (<[b_id meta := markerVar]> (ix_building ix) !! bid)).
    { intros block l Hl. destruct (Hblk block l Hl) as (Hnd & Hne & Hin).
      split; [exact Hnd|]. split; [exact Hne|]. intros bid Hb. apply Hbmono, Hin, Hb. }
    destruct (meta_block_id meta) as [blockKey|]; [|exact Hold].
    intros block l Hl. apply indexPush_lookup in Hl.
    destruct Hl as [[-> ->]|[_ Hl]]; [|exact (Hold block l Hl)].
    split; [|split; [apply pushUnique_nonempty|]].
    + apply pushUnique_NoDup.
      destruct (ix_blockBuilding ix !! blockKey) as [l0|] eqn:E0; simpl; [|constructor].
      apply (Hblk _ _ E0).
    + intros bid Hb. apply pushUnique_In in Hb. destruct Hb as [->|Hb].
      * rewrite lookup_insert_eq. eauto.
      * destruct (ix_blockBuilding ix !! blockKey) as [l0|] eqn:E0; simpl in Hb;
          [|destruct Hb].
        apply Hbmono. apply (Hblk _ _ E0). exact Hb.
  - intros bid. destruct (decide (b_id meta = bid)) as [E|Hne]; [subst bid|].
    + rewrite !lookup_insert_eq. split; eauto.
    + rewrite !lookup_insert_ne by exact Hne. apply Hmem.
Qed.

Lemma applyMetas_consistent window zoom colorize metas acc :
  indexesConsistent window (fst acc) (snd acc) ->
  indexesConsistent window
    (fst (fold_left (applyMeta window zoom colorize) metas acc))
    (snd (fold_left (applyMeta window zoom colorize) metas acc)).
Proof.
  revert acc. induction metas as [|meta rest IH]; intros [ms ix] Hacc; simpl; [exact Hacc|].
  apply IH. apply applyMeta_consistent. exact Hacc.
Qed.

(** X19. After [applyMarkerMetadata], whatever the metadata holds: every
    registered marker is an object of the page and starts unselected, not
    filtered, without overlay and with non-empty colours; every building id
    of [buildingIndex] resolves to a registered marker and has an entry in
    [membershipData]; the marker list of an owner and the building list of a
    block hold no entry twice and none that does not resolve, so selecting an
    owner or a block adjusts each of its markers once per building. *)
Theorem applyMarkerMetadata_indexes :
  forall (window : gmap string RawMarker) (zoom : Q) (colorize : bool)
         (markerMetadata : list Meta),
    let ms := fst (applyMarkerMetadata window zoom colorize markerMetadata) in
    let ix := snd (applyMarkerMetadata window zoom colorize markerMetadata) in
    map_Forall (fun _ m => initialMarker m = true /\ m_passesMembership m = true
                           /\ m_colorizedColor m <> "" /\ m_neutralColor m <> "") ms
    /\ (forall v, is_Some (ms !! v) -> is_Some (window !! v))
    /\ (forall bid v, ix_building ix !! bid = Some v ->
          is_Some (ms !! v) /\ is_Some (ix_membership ix !! bid))
    /\ (forall owner l, ix_owner ix !! owner = Some l ->
          List.NoDup l /\ forall v, In v l -> is_Some (ms !! v))
    /\ (forall block l, ix_blockBuilding ix !! block = Some l ->
          List.NoDup l
          /\ forall bid, In bid l ->
               exists v, ix_building ix !! bid = Some v /\ is_Some (ms !! v)).
Proof.
  intros window zoom colorize metas ms ix.
  assert (Hinv : indexesConsistent window ms ix).
  { apply (applyMetas_consistent window zoom colorize metas (∅, emptyIndexes)).
    unfold indexesConsistent, emptyIndexes. cbn.
    split; [apply map_Forall_empty|].
    split; [intros v [x Hx]; rewrite lookup_empty in Hx; discriminate|].
    split; [intros bid v Hb; rewrite lookup_empty in Hb; discriminate|].
    split; [intros o l Hl; rewrite lookup_empty in Hl; discriminate|].
    split; [intros b l Hl; rewrite lookup_empty in Hl; discriminate|].
    intros bid. split; intros [x Hx]; rewrite lookup_empty in Hx; discriminate. }
  destruct Hinv as (Hms & Hwin & Hbuild & Hown & Hblk & Hmem).
  split; [exact Hms|]. split; [exact Hwin|]. split; [|split].
  - intros bid v Hb. split; [exact (Hbuild bid v Hb)|]. apply Hmem. eauto.
  - intros owner l Hl. destruct (Hown owner l Hl) as (Hnd & _ & Hin). auto.
  - intros block l Hl. destruct (Hblk block l Hl) as (Hnd & _ & Hin).
    split; [exact Hnd|]. intros bid Hb. destruct (Hin bid Hb) as [v Hv].
    exists v. split; [exact Hv | exact (Hbuild bid v Hv)].
Qed.

(** ** The selected buildings *)

Section SelectedBuildings.
Context `{JSBuiltins}.

Lemma applyFilters_registry ui s : registry (applyFilters ui s) = registry s.
Proof.
  unfold applyFilters.
  destruct (filterBuildingRows _ _ _ ui (buildingRows s) (markers s) [])
    as [[rows ms] visibleBids].
  match goal with
  | |- context [filterLandlordRows ?rows2 ?s2] =>
      pose proof (filterLandlordRows_blocks rows2 s2) as [_ Hr];
      destruct (filterLandlordRows rows2 s2) as [lrows s3]
  end.
  simpl in *. rewrite Hr. rewrite filterBlocks_registry. reflexivity.
Qed.

Lemma collectSelectedBuildingIds_In (s : State) (id : string) :
  In id (collectSelectedBuildingIds s) ->
  exists loc m,
    objGet (buildingIndex (registry s)) id = Some loc
    /\ markers s !! loc = Some m
    /\ m_isFiltered m = false
    /\ (0 < m_selectionRefs m)%Z.
Proof.
  unfold collectSelectedBuildingIds. intros Hin. apply filter_In in Hin.
  destruct Hin as [_ Hp].
  destruct (objGet (buildingIndex (registry s)) id) as [loc|]; [|discriminate].
  destruct (markers s !! loc) as [m|] eqn:Em; [|discriminate].
  apply andb_true_iff in Hp. destruct Hp as [Hf Hr].
  exists loc, m. split; [reflexivity|]. split; [exact Em|].
  split; [destruct (m_isFiltered m); [discriminate | reflexivity]|].
  apply Z.ltb_lt. exact Hr.
Qed.

Lemma applyFilters_row_marker_filtered ui s pre post row loc m :
  buildingRows s = (pre ++ row :: post)%list ->
  objGet (buildingIndex (registry s)) (rowBid row) = Some loc ->
  (forall other, In other (pre ++ post)%list ->
     objGet (buildingIndex (registry s)) (rowBid other) <> Some loc) ->
  markers s !! loc = Some m ->
  exists m', markers (applyFilters ui s) !! loc = Some m'
             /\ m_isFiltered m' = negb (rowMatches ui row).
Proof.
  intros Hrows Hrow Hother Hm.
  pose proof (applyFilters_markers_related
                (fun x y => m_isFiltered y = m_isFiltered x)
                (fun x => eq_refl)
                (fun x y z Hxy Hyz => eq_trans Hyz Hxy)
                (fun zoom x => adjustMarkerSelection_isFiltered zoom (-1) x)
                ui s loc) as Hrel.
  rewrite Hrows in Hrel.
  rewrite (filterBuildingRows_marker_of_row _ _ _ ui pre row post _ _ loc Hrow Hother),
    Hm in Hrel.
  simpl in Hrel.
  destruct (markers (applyFilters ui s) !! loc) as [m'|]; [|contradiction].
  exists m'. split; [reflexivity|]. rewrite Hrel.
  apply filterRowMarker_fields.
Qed.

(** X20. What [collectSelectedBuildingIds] returns in a reachable state:
    only ids of [buildingIndex] whose marker is not filtered, has a positive
    count and shows the overlay, and every id of [buildingIndex] with such a
    marker.  Right after a filter pass it returns no building whose only row
    in the buildings table the pass has hidden. *)
Theorem collectSelectedBuildingIds_visible :
  forall s : State,
    reachable s ->
    (forall id, In id (collectSelectedBuildingIds s) ->
       exists loc m,
         objGet (buildingIndex (registry s)) id = Some loc
         /\ markers s !! loc = Some m
         /\ m_isFiltered m = false /\ (0 < m_selectionRefs m)%Z
         /\ markerHighlighted m = true)
    /\ (forall id loc m,
          objGet (buildingIndex (registry s)) id = Some loc ->
          markers s !! loc = Some m ->
          m_isFiltered m = false -> (0 < m_selectionRefs m)%Z ->
          In id (collectSelectedBuildingIds s))
    /\ (forall ui pre row post loc,
          buildingRows s = (pre ++ row :: post)%list ->
          objGet (buildingIndex (registry s)) (rowBid row) = Some loc ->
          (forall other, In other (pre ++ post)%list ->
             objGet (buildingIndex (registry s)) (rowBid other) <> Some loc) ->
          In (rowBid row) (collectSelectedBuildingIds (applyFilters ui s)) ->
          rowMatches ui row = true).
Proof.
  intros s Hreach. split; [|split].
  - intros id Hin.
    destruct (collectSelectedBuildingIds_In s id Hin) as (loc & m & Hloc & Hm & Hf & Hr).
    exists loc, m. repeat (split; [assumption|]).
    destruct (reachable_inv s Hreach) as [Hinv _].
    apply (Hinv loc m Hm); assumption.
  - intros id loc m Hloc Hm Hf Hr. unfold collectSelectedBuildingIds.
    apply filter_In. split; [exact (objGet_In _ _ _ Hloc)|].
    rewrite Hloc, Hm, Hf. simpl. apply Z.ltb_lt. exact Hr.
  - intros ui pre row post loc Hrows Hloc Hother Hin.
    destruct (collectSelectedBuildingIds_In _ _ Hin) as (loc' & m' & Hloc' & Hm' & Hf' & _).
    rewrite applyFilters_registry, Hloc in Hloc'. injection Hloc' as <-.
    assert (Hdom : related (fun _ _ : Marker => True) (markers s)
                     (markers (applyFilters ui s))).
    { destruct (step_related (fun _ _ : Marker => True) (fun _ _ : Layer => True))
        with (e := EvFilters ui) (s := s) as [Rm _]; auto. }
    specialize (Hdom loc). rewrite Hm' in Hdom.
    destruct (markers s !! loc) as [m|] eqn:Hm; [|contradiction].
    destruct (applyFilters_row_marker_filtered ui s pre post row loc m Hrows Hloc Hother Hm)
      as (m2 & Hm2 & Hf2).
    rewrite Hm' in Hm2. injection Hm2 as <-.
    rewrite Hf' in Hf2. destruct (rowMatches ui row); [reflexivity | discriminate].
Qed.

End SelectedBuildings.

Lemma collectSelectedBuildingIds_visible_witness :
  exists loc m,
    objGet (buildingIndex (registry (run (startUp ++ [EvToggle TBuildings 0]) samplePage)))
      "b1" = Some loc
    /\ markers (run (startUp ++ [EvToggle TBuildings 0]) samplePage) !! loc = Some m
    /\ m_isFiltered m = false /\ (0 < m_selectionRefs m)%Z
    /\ markerHighlighted m = true.
Proof.
  assert (Hreach : reachable (run (startUp ++ [EvToggle TBuildings 0]) samplePage)).
  { apply reachable_run, reachable_initial, samplePage_initial. }
  destruct (collectSelectedBuildingIds_visible _ Hreach) as (Hsel & _).
  apply Hsel. vm_compute. left. reflexivity.
Defined.

(** ** What no event changes *)

Lemma rowShape_setHidden h row : rowShape (setHidden h row) = rowShape row.
Proof. reflexivity. Qed.

Lemma rowShape_setChecked c row : rowShape (setChecked c row) = rowShape row.
Proof. unfold rowShape, setChecked. simpl. destruct (checkbox row); reflexivity. Qed.

Lemma rowShape_filterRowDom matches row : rowShape (filterRowDom matches row) = rowShape row.
Proof.
  unfold filterRowDom. destruct (negb matches && isChecked (setHidden (negb matches) row)).
  - rewrite rowShape_setChecked. apply rowShape_setHidden.
  - apply rowShape_setHidden.
Qed.

Lemma rowShape_updateFirst p f rows :
  (forall row, rowShape (f row) = rowShape row) ->
  map rowShape (updateFirst p f rows) = map rowShape rows.
Proof.
  intros Hf. induction rows as [|row rest IH]; simpl; [reflexivity|].
  destruct (p row); simpl; [rewrite Hf | rewrite IH]; reflexivity.
Qed.

Lemma rowShape_insert (i : nat) (row row' : Row) (rows : list Row) :
  rows !! i = Some row -> rowShape row' = rowShape row ->
  map rowShape (<[i := row']> rows) = map rowShape rows.
Proof.
  revert i. induction rows as [|r rest IH]; intros [|i] Hi Hs; simpl in *;
    try discriminate.
  - injection Hi as ->. rewrite Hs. reflexivity.
  - f_equal. apply IH; assumption.
Qed.

Section PageShapes.
Context `{JSBuiltins}.

Lemma pageShape_ext (s s' : State) :
  registry s' = registry s ->
  map rowShape (buildingRows s') = map rowShape (buildingRows s) ->
  map rowShape (blockRows s') = map rowShape (blockRows s) ->
  map rowShape (landlordRows s') = map rowShape (landlordRows s) ->
  pageShape s' = pageShape s.
Proof. intros E1 E2 E3 E4. unfold pageShape. rewrite E1, E2, E3, E4. reflexivity. Qed.

Lemma pageShape_handleSelectionChange cb s :
  pageShape (handleSelectionChange cb s) = pageShape s.
Proof.
  destruct (handleSelectionChange_frame cb s) as (Hr & _ & _ & Hb & Hk & Hl).
  apply pageShape_ext; congruence.
Qed.

Lemma pageShape_toggleCheckbox t i s : pageShape (toggleCheckbox t i s) = pageShape s.
Proof.
  unfold toggleCheckbox.
  destruct (rowsOf t s !! i) as [row|] eqn:Hrow; [|reflexivity].
  destruct (checkbox row) as [cb|]; [|reflexivity].
  rewrite pageShape_handleSelectionChange.
  pose proof (rowShape_insert i row (setChecked (negb (checked cb)) row) (rowsOf t s) Hrow
                (rowShape_setChecked _ _)) as Hins.
  destruct t; apply pageShape_ext; try reflexivity; exact Hins.
Qed.

Lemma pageShape_filterBlock v k s : pageShape (filterBlock v k s) = pageShape s.
Proof.
  unfold filterBlock, filterBlockRow, setBlockFiltered, setBlockSelectionMarkers.
  destruct (List.find _ (blockRows s)) as [row|]; [|reflexivity].
  destruct (_ && isChecked row); apply pageShape_ext; simpl; try reflexivity.
  - rewrite !rowShape_updateFirst; [reflexivity | apply rowShape_setHidden
                                    | apply rowShape_setChecked].
  - rewrite rowShape_updateFirst; [reflexivity | apply rowShape_setHidden].
Qed.

Lemma pageShape_filterBlocks v keys s :
  pageShape (fold_left (fun s0 k => filterBlock v k s0) keys s) = pageShape s.
Proof.
  revert s. induction keys as [|k rest IH]; intros s; simpl; [reflexivity|].
  rewrite IH. apply pageShape_filterBlock.
Qed.

Lemma rowShape_filterLandlordRows rows s :
  map rowShape (fst (filterLandlordRows rows s)) = map rowShape rows.
Proof.
  revert s. induction rows as [|row rest IH]; intros s; [reflexivity|].
  cbn [filterLandlordRows].
  match goal with
  | |- context [filterLandlordRows rest ?s1] =>
      specialize (IH s1); destruct (filterLandlordRows rest s1) as [rest' s'] eqn:E
  end.
  simpl in *. rewrite IH. f_equal.
  match goal with |- context [if ?c then _ else _] => destruct c end;
    rewrite ?rowShape_setChecked; apply rowShape_setHidden.
Qed.

Lemma pageShape_filterLandlordRows rows s :
  pageShape (snd (filterLandlordRows rows s)) = pageShape s.
Proof.
  destruct (filterLandlordRows_blocks rows s) as [_ Hr].
  destruct (filterLandlordRows_frame rows s) as [Hb Hk].
  assert (Hl : landlordRows (snd (filterLandlordRows rows s)) = landlordRows s).
  { clear. revert s. induction rows as [|row rest IH]; intros s; [reflexivity|].
    cbn [filterLandlordRows].
    match goal with
    | |- context [filterLandlordRows rest ?s1] =>
        specialize (IH s1); destruct (filterLandlordRows rest s1) as [rest' s'] eqn:E
    end.
    simpl in *. rewrite IH.
    match goal with |- context [if ?c then _ else _] => destruct c end; reflexivity. }
  apply pageShape_ext; congruence.
Qed.

Lemma pageShape_applyFilters ui s : pageShape (applyFilters ui s) = pageShape s.
Proof.
  unfold applyFilters.
  pose proof (filterBuildingRows_rows (registry s) (currentZoomScale s)
                (colorScalingEnabled s) ui (buildingRows s) (markers s) []) as Hrows.
  destruct (filterBuildingRows _ _ _ ui (buildingRows s) (markers s) [])
    as [[rows ms] visibleBids] eqn:E.
  simpl in Hrows. subst rows.
  match goal with
  | |- context [fold_left ?f ?keys ?s1] =>
      pose proof (pageShape_filterBlocks visibleBids keys s1) as Hs2;
      set (s2 := fold_left f keys s1) in *
  end.
  pose proof (pageShape_filterLandlordRows (landlordRows s2) s2) as Hs3.
  pose proof (rowShape_filterLandlordRows (landlordRows s2) s2) as Hl3.
  destruct (filterLandlordRows (landlordRows s2) s2) as [lrows s3] eqn:E3.
  simpl in Hs3, Hl3.
  assert (Hs1 : pageShape
                  (withMarkers (fun _ => ms)
                     (withBuildingRows
                        (fun _ => map (fun row => filterRowDom (rowMatches ui row) row)
                                    (buildingRows s)) s))
                = pageShape s).
  { apply pageShape_ext; try reflexivity. simpl. rewrite map_map.
    apply map_ext. intros row. apply rowShape_filterRowDom. }
  rewrite Hs1 in Hs2. rewrite Hs2 in Hs3.
  unfold pageShape in *. simpl.
  injection Hs3 as Er Eb Ek El. rewrite Er, Eb, Ek, Hl3.
  injection Hs2 as _ _ _ El2. rewrite El2. reflexivity.
Qed.

Lemma pageShape_step e s : pageShape (step e s) = pageShape s.
Proof.
  destruct e as [t i|i on|i on|i on|ui|enabled|enabled|scale]; simpl.
  - apply pageShape_toggleCheckbox.
  - destruct (buildingRows s !! i); [|reflexivity].
    unfold buildingHover. destruct (objGet _ _); reflexivity.
  - destruct (blockRows s !! i); reflexivity.
  - destruct (landlordRows s !! i); reflexivity.
  - apply pageShape_applyFilters.
  - reflexivity.
  - reflexivity.
  - reflexivity.
Qed.

Lemma markerData_highlightMarker zoom on m :
  markerData (highlightMarker zoom on m) = markerData m.
Proof.
  destruct m as [bc bo br cc nc refs filt vtu pm st rad hsr].
  destruct filt, on, hsr; reflexivity.
Qed.

Lemma markerData_hoverMarker zoom on m :
  markerData (hoverMarker zoom on m) = markerData m.
Proof.
  unfold hoverMarker. destruct (m_isFiltered m); [reflexivity|].
  destruct on; [apply markerData_highlightMarker|].
  destruct (m_selectionRefs m =? 0)%Z; [apply markerData_highlightMarker | reflexivity].
Qed.

Lemma markerData_adjustMarkerSelection zoom delta m :
  markerData (adjustMarkerSelection zoom delta m) = markerData m.
Proof.
  unfold adjustMarkerSelection.
  match goal with |- context [setRefs ?n m] => set (x := setRefs n m) end.
  change (markerData m) with (markerData x).
  destruct (negb (m_isFiltered x)); [apply markerData_highlightMarker | reflexivity].
Qed.

Lemma markerData_setMarkerVisibility zoom visible m :
  markerData (setMarkerVisibility zoom visible m) = markerData m.
Proof.
  destruct m as [bc bo br cc nc refs filt vtu pm st rad hsr].
  unfold setMarkerVisibility, ensureMarkerBase.
  destruct visible, hsr; cbn [negb]; try reflexivity;
    (match goal with
     | |- context [highlightMarker zoom true ?y] => set (x := y)
     end;
     destruct (0 <? m_selectionRefs x)%Z;
     [rewrite markerData_highlightMarker|]; reflexivity).
Qed.

Lemma markerData_updateMarkerColorAppearance zoom colorize m :
  markerData (updateMarkerColorAppearance zoom colorize m) = markerData m.
Proof.
  unfold updateMarkerColorAppearance, ensureMarkerBase.
  match goal with |- context [setBaseColor ?c m] => set (x := setBaseColor c m) end.
  change (markerData m) with (markerData x).
  destruct (m_isFiltered x); [reflexivity|].
  destruct (0 <? m_selectionRefs x)%Z; apply markerData_highlightMarker.
Qed.

Lemma markerData_zoomMarker zoom m : markerData (zoomMarker zoom m) = markerData m.
Proof.
  destruct m as [bc bo br cc nc refs filt vtu pm st rad hsr].
  unfold zoomMarker. destruct filt; [reflexivity|].
  destruct hsr; cbn [m_isFiltered m_hasSetRadius];
    (match goal with
     | |- context [highlightMarker zoom true ?y] => set (x := y)
     end;
     destruct (0 <? m_selectionRefs x)%Z;
     [rewrite markerData_highlightMarker|]; reflexivity).
Qed.

Lemma markerData_filterRowMarker zoom colorize mm matches wc m :
  markerData (filterRowMarker zoom colorize mm matches wc m) = markerData m.
Proof.
  unfold filterRowMarker.
  rewrite markerData_updateMarkerColorAppearance, markerData_setMarkerVisibility.
  destruct (negb matches && wc); [|reflexivity].
  destruct (0 <? _)%Z; [rewrite markerData_adjustMarkerSelection|]; reflexivity.
Qed.

(** X21. No event of the page changes what the page is made of: the
    registry, the number and order of the rows of the three tables, their
    attributes and the type and target of their checkboxes stay as they are;
    no marker or block layer is added or removed; a marker keeps its base
    opacity, base radius, colorized and neutral colours and VTU flag, and
    whether it has [setRadius], and a block layer its units. *)
Theorem events_keep_page_shape :
  forall (e : Event) (s : State),
    pageShape (step e s) = pageShape s
    /\ related (fun m m' => markerData m' = markerData m) (markers s) (markers (step e s))
    /\ related (fun l l' => l_blockUnits l' = l_blockUnits l)
         (blocksIndex s) (blocksIndex (step e s)).
Proof.
  intros e s. split; [apply pageShape_step|].
  apply (step_related (fun m m' => markerData m' = markerData m)
           (fun l l' => l_blockUnits l' = l_blockUnits l)).
  - reflexivity.
  - intros x y z Hxy Hyz. congruence.
  - reflexivity.
  - intros x y z Hxy Hyz. congruence.
  - intros zoom delta m. apply markerData_adjustMarkerSelection.
  - intros enabled mx filtered l. destruct filtered; reflexivity.
  - reflexivity.
  - intros zoom colorize mm matches wc m. apply markerData_filterRowMarker.
  - intros zoom on m. unfold hoverMarker.
    destruct (m_isFiltered m); [reflexivity|].
    destruct on; [apply markerData_highlightMarker|].
    destruct (m_selectionRefs m =? 0)%Z; [apply markerData_highlightMarker | reflexivity].
  - intros zoom m. apply markerData_zoomMarker.
  - intros zoom colorize m. apply markerData_updateMarkerColorAppearance.
  - intros enabled mx delta l. unfold adjustBlockSelection.
    destruct l as [u r f b st]. simpl. destruct f; simpl; [reflexivity|].
    destruct (0 <? _)%Z; reflexivity.
  - intros enabled mx on l. unfold hoverLayer, highlightBlock.
    destruct (l_isFiltered l); [reflexivity|].
    destruct on; [reflexivity|].
    destruct (l_selectionRefs l =? 0)%Z; reflexivity.
  - intros enabled mx l _. reflexivity.
Qed.

End PageShapes.

(** ** Counts and checked boxes *)

Lemma sum_cons (a : nat) (l : list nat) : list_sum (a :: l) = (a + list_sum l)%nat.
Proof. reflexivity. Qed.

Lemma list_sum_map_insert {A : Type} (f : A -> nat) (i : nat) (x x' : A) (l : list A) :
  l !! i = Some x ->
  (list_sum (map f (<[i := x']> l)) + f x = list_sum (map f l) + f x')%nat.
Proof.
  revert i. induction l as [|y rest IH]; intros [|i] Hi; simpl in *; try discriminate.
  - injection Hi as ->. lia.
  - specialize (IH i Hi). lia.
Qed.

Lemma list_sum_map_updateFirst (f : Row -> nat) (p : Row -> bool) (g : Row -> Row)
    (rows : list Row) (row : Row) :
  List.find p rows = Some row ->
  (list_sum (map f (updateFirst p g rows)) + f row = list_sum (map f rows) + f (g row))%nat.
Proof.
  induction rows as [|r rest IH]; simpl; [discriminate|].
  destruct (p r) eqn:Ep.
  - intros E. injection E as ->. simpl. lia.
  - intros E. specialize (IH E). simpl. lia.
Qed.

Lemma updateFirst_find_none (p : Row -> bool) (g : Row -> Row) (rows : list Row) :
  List.find p rows = None -> updateFirst p g rows = rows.
Proof.
  induction rows as [|r rest IH]; simpl; [reflexivity|].
  destruct (p r); [discriminate|]. intros E. rewrite (IH E). reflexivity.
Qed.

Lemma find_updateFirst (p : Row -> bool) (g : Row -> Row) (rows : list Row) (row : Row) :
  (forall r, p (g r) = p r) ->
  List.find p rows = Some row -> List.find p (updateFirst p g rows) = Some (g row).
Proof.
  intros Hg. induction rows as [|r rest IH]; simpl; [discriminate|].
  destruct (p r) eqn:Ep.
  - intros E. injection E as ->. simpl. rewrite Hg, Ep. reflexivity.
  - intros E. simpl. rewrite Ep. apply IH. exact E.
Qed.

Lemma list_sum_map_ext_in {A : Type} (f g : A -> nat) (l : list A) :
  (forall x, In x l -> f x = g x) -> list_sum (map f l) = list_sum (map g l).
Proof.
  intros Hfg. induction l as [|x rest IH]; simpl; [reflexivity|].
  rewrite (Hfg x (or_introl eq_refl)), IH; [reflexivity|].
  intros y Hy. apply Hfg. right. exact Hy.
Qed.

Lemma iter_select_le zoom (n : nat) (m : Marker) :
  (m_selectionRefs (Nat.iter n (adjustMarkerSelection zoom 1) m)
   <= Z.max 0 (m_selectionRefs m) + Z.of_nat n)%Z.
Proof.
  induction n as [|n IH]; [simpl; lia|].
  rewrite Nat.iter_succ, adjustMarkerSelection_refs. lia.
Qed.

Lemma iter_deselect_le zoom (n : nat) (m : Marker) :
  (m_selectionRefs (Nat.iter n (adjustMarkerSelection zoom (-1)) m)
   <= Z.max 0 (m_selectionRefs m - Z.of_nat n))%Z.
Proof.
  destruct (iter_deselect_fields zoom n m) as [E|[-> E]].
  - rewrite E. lia.
  - rewrite E. simpl. lia.
Qed.

Lemma selectionTargets_registry (cb : Checkbox) (s : State) :
  selectionTargets cb s = registryTargets (registry s) cb.
Proof. reflexivity. Qed.

Lemma rowWeight_setChecked r loc c row cb :
  checkbox row = Some cb ->
  rowWeight r loc (setChecked c row)
  = if c then count_occ string_dec (registryTargets r cb) loc else 0%nat.
Proof. intros E. unfold rowWeight, setChecked. simpl. rewrite E. reflexivity. Qed.

Lemma rowWeight_checked r loc row cb :
  checkbox row = Some cb ->
  rowWeight r loc row
  = if checked cb then count_occ string_dec (registryTargets r cb) loc else 0%nat.
Proof. intros E. unfold rowWeight. rewrite E. reflexivity. Qed.

Lemma rowWeight_setHidden r loc h row :
  rowWeight r loc (setHidden h row) = rowWeight r loc row.
Proof. reflexivity. Qed.

Lemma layerWeight_setHidden k h row : layerWeight k (setHidden h row) = layerWeight k row.
Proof. reflexivity. Qed.

Lemma rowWeight_unchecked r loc row : isChecked row = false -> rowWeight r loc row = 0%nat.
Proof.
  unfold isChecked, rowWeight. destruct (checkbox row) as [cb|]; [|reflexivity].
  intros ->. reflexivity.
Qed.

Lemma layerWeight_unchecked k row : isChecked row = false -> layerWeight k row = 0%nat.
Proof.
  unfold isChecked, layerWeight. destruct (checkbox row) as [cb|]; [|reflexivity].
  intros ->. reflexivity.
Qed.

Section SelectionBound.
Context `{JSBuiltins}.

Lemma pageSum_toggle (f : Row -> nat) t i row row' s :
  rowsOf t s !! i = Some row ->
  (pageSum f (withRowsOf t (fun rows => <[i := row']> rows) s) + f row
   = pageSum f s + f row')%nat.
Proof.
  intros Hrow. unfold pageSum.
  destruct t; simpl in *;
    pose proof (list_sum_map_insert f i row row' _ Hrow); lia.
Qed.

Lemma pageSum_handleSelectionChange (f : Row -> nat) cb s :
  pageSum f (handleSelectionChange cb s) = pageSum f s.
Proof.
  destruct (handleSelectionChange_frame cb s) as (_ & _ & _ & Hb & Hk & Hl).
  unfold pageSum. rewrite Hb, Hk, Hl. reflexivity.
Qed.

Lemma countsBounded_toggleCheckbox t i s :
  countsBounded s -> countsBounded (toggleCheckbox t i s).
Proof.
  intros [HM HL].
  destruct (rowsOf t s !! i) as [row|] eqn:Hrow;
    [|unfold toggleCheckbox; rewrite Hrow; split; assumption].
  destruct (checkbox row) as [cb|] eqn:Hcb;
    [|unfold toggleCheckbox; rewrite Hrow, Hcb; split; assumption].
  rewrite (toggleCheckbox_checked t i s row cb Hrow Hcb).
  set (c := negb (checked cb)).
  set (cb' := {| checked := c; data_type := data_type cb; data_target := data_target cb |}).
  set (s1 := withRowsOf t (fun rows => <[i := setChecked c row]> rows) s).
  destruct (withRowsOf_frame t (fun rows => <[i := setChecked c row]> rows) s)
    as (H1reg & H1m & H1b & H1z & _).
  fold s1 in H1reg, H1m, H1b, H1z.
  destruct (handleSelectionChange_frame cb' s1) as (HAreg & _).
  split.
  - intros loc m' Hm'.
    rewrite handleSelectionChange_markers, forEachMarker_lookup, H1m in Hm'.
    destruct (markers s !! loc) as [m|] eqn:Hm; [|discriminate].
    simpl in Hm'. injection Hm' as <-.
    unfold markerBound. rewrite pageSum_handleSelectionChange, HAreg, H1reg.
    pose proof (pageSum_toggle (rowWeight (registry s) loc) t i row (setChecked c row) s Hrow)
      as Hsum.
    fold s1 in Hsum.
    rewrite (rowWeight_setChecked _ _ c row cb Hcb),
      (rowWeight_checked _ _ row cb Hcb) in Hsum.
    rewrite selectionTargets_registry, H1reg.
    change (registryTargets (registry s) cb') with (registryTargets (registry s) cb).
    set (n := count_occ string_dec (registryTargets (registry s) cb) loc) in *.
    specialize (HM loc m Hm). unfold markerBound in HM.
    change (checked cb') with c.
    unfold c in *. destruct (checked cb); simpl in *.
    + pose proof (iter_deselect_le (currentZoomScale s1) n m). lia.
    + pose proof (iter_select_le (currentZoomScale s1) n m). lia.
  - intros k l' Hl'.
    rewrite handleSelectionChange_blocks, H1b in Hl'.
    unfold layerBound. rewrite pageSum_handleSelectionChange.
    pose proof (pageSum_toggle (layerWeight k) t i row (setChecked c row) s Hrow) as Hsum.
    fold s1 in Hsum.
    assert (Ew' : layerWeight k (setChecked c row)
                  = if c && selectsLayer cb k then 1%nat else 0%nat).
    { unfold layerWeight, setChecked. simpl. rewrite Hcb. reflexivity. }
    assert (Ew : layerWeight k row
                 = if checked cb && selectsLayer cb k then 1%nat else 0%nat).
    { unfold layerWeight. rewrite Hcb. reflexivity. }
    rewrite Ew', Ew in Hsum.
    change (data_type cb') with (data_type cb) in Hl'.
    change (data_target cb') with (data_target cb) in Hl'.
    change (checked cb') with c in Hl'.
    unfold selectsLayer in Hsum.
    destruct (negb (String.eqb (data_type cb) "building")
              && String.eqb (data_type cb) "block") eqn:Etype.
    + destruct (decide (data_target cb = k)) as [Ek|Hne].
      * subst k. rewrite lookup_alter_eq in Hl'.
        destruct (blocksIndex s !! data_target cb) as [l|] eqn:Hl; [|discriminate].
        simpl in Hl'. injection Hl' as <-.
        rewrite adjustBlockSelection_refs.
        specialize (HL _ l Hl). unfold layerBound in HL.
        rewrite String.eqb_refl in Hsum. simpl in Hsum.
        unfold c in *. destruct (checked cb); simpl in *; lia.
      * rewrite lookup_alter_ne in Hl' by exact Hne.
        specialize (HL k l' Hl'). unfold layerBound in HL.
        assert (En : String.eqb (data_target cb) k = false)
          by (apply String.eqb_neq; exact Hne).
        rewrite En in Hsum. rewrite !andb_false_r in Hsum. lia.
    + specialize (HL k l' Hl'). unfold layerBound in HL.
      simpl in Hsum. rewrite !andb_false_r in Hsum. simpl in Hsum. lia.
Qed.

Lemma wellFormed_building_weight r loc row :
  wellFormedRow "building" "data-bid" row ->
  objGet (buildingIndex r) (rowBid row) <> Some loc ->
  rowWeight r loc row = 0%nat.
Proof.
  intros Hwf Hne. unfold rowWeight.
  destruct (checkbox row) as [cb|] eqn:Hcb; [|reflexivity].
  destruct (checked cb); [|reflexivity].
  destruct (Hwf cb Hcb) as [Ht Ha].
  unfold registryTargets. rewrite Ht. simpl.
  unfold rowBid in Hne. rewrite Ha in Hne. simpl in Hne.
  destruct (objGet (buildingIndex r) (data_target cb)) as [marker|]; [|reflexivity].
  simpl. destruct (string_dec marker loc) as [->|_]; [congruence | reflexivity].
Qed.

Lemma wellFormed_building_layerWeight k row :
  wellFormedRow "building" "data-bid" row -> layerWeight k row = 0%nat.
Proof.
  intros Hwf. unfold layerWeight.
  destruct (checkbox row) as [cb|] eqn:Hcb; [|reflexivity].
  destruct (Hwf cb Hcb) as [Ht _].
  unfold selectsLayer. rewrite Ht. simpl. rewrite andb_false_r. reflexivity.
Qed.

Lemma wellFormed_owner_layerWeight k row :
  wellFormedRow "owner" "data-owner" row -> layerWeight k row = 0%nat.
Proof.
  intros Hwf. unfold layerWeight.
  destruct (checkbox row) as [cb|] eqn:Hcb; [|reflexivity].
  destruct (Hwf cb Hcb) as [Ht _].
  unfold selectsLayer. rewrite Ht. simpl. rewrite andb_false_r. reflexivity.
Qed.

Lemma wellFormedRow_shape typ idAttr row row' :
  rowShape row' = rowShape row -> wellFormedRow typ idAttr row -> wellFormedRow typ idAttr row'.
Proof.
  unfold rowShape, wellFormedRow, getAttribute. intros E Hwf cb' Hcb'.
  injection E as Ea Ec. rewrite Hcb' in Ec.
  destruct (checkbox row) as [cb|] eqn:Hcb; [|discriminate].
  injection Ec as Et Eg. destruct (Hwf cb eq_refl) as [Ht Hg].
  rewrite Et, Eg, Ea. auto.
Qed.

Lemma wellFormedRows_shape typ idAttr rows rows' :
  map rowShape rows' = map rowShape rows ->
  Forall (wellFormedRow typ idAttr) rows -> Forall (wellFormedRow typ idAttr) rows'.
Proof.
  revert rows'. induction rows as [|row rest IH]; intros [|row' rest'] E Hwf;
    simpl in E; try discriminate; [constructor|].
  assert (E1 : rowShape row' = rowShape row) by congruence.
  assert (E2 : map rowShape rest' = map rowShape rest) by congruence.
  apply List.Forall_cons_iff in Hwf. destruct Hwf as [Hrow Hrest].
  constructor; [exact (wellFormedRow_shape _ _ _ _ E1 Hrow) | apply IH; assumption].
Qed.

Lemma wellFormedPage_shape (s s' : State) :
  pageShape s' = pageShape s -> wellFormedPage s -> wellFormedPage s'.
Proof.
  intros E (Hb & Hk & Hl).
  assert (Eb : map rowShape (buildingRows s') = map rowShape (buildingRows s))
    by exact (f_equal ps_buildingRows E).
  assert (Ek : map rowShape (blockRows s') = map rowShape (blockRows s))
    by exact (f_equal ps_blockRows E).
  assert (El : map rowShape (landlordRows s') = map rowShape (landlordRows s))
    by exact (f_equal ps_landlordRows E).
  split; [|split]; eapply wellFormedRows_shape; eassumption.
Qed.

Lemma filterRowDom_weight r loc matches row :
  rowWeight r loc (filterRowDom matches row)
  = if matches then rowWeight r loc row else 0%nat.
Proof.
  unfold filterRowDom. destruct matches; simpl; [reflexivity|].
  change (isChecked (setHidden true row)) with (isChecked row).
  destruct (isChecked row) eqn:Ec.
  - unfold rowWeight, setChecked. simpl. destruct (checkbox row); reflexivity.
  - rewrite rowWeight_setHidden. apply rowWeight_unchecked. exact Ec.
Qed.

(** The row loop keeps every count within what the buildings table, as the
    loop leaves it, and the rest of the page ([base]) account for. *)
Lemma filterBuildingRows_bounded r zoom colorize ui rows :
  Forall (wellFormedRow "building" "data-bid") rows ->
  forall ms visible (base : string -> nat),
    (forall loc m, ms !! loc = Some m ->
       (m_selectionRefs m
        <= Z.of_nat (base loc + list_sum (map (rowWeight r loc) rows)))%Z) ->
    forall loc m',
      snd (fst (filterBuildingRows r zoom colorize ui rows ms visible)) !! loc = Some m' ->
      (m_selectionRefs m'
       <= Z.of_nat (base loc
                    + list_sum (map (rowWeight r loc)
                                  (fst (fst (filterBuildingRows r zoom colorize ui rows
                                               ms visible))))))%Z.
Proof.
  induction 1 as [|row rest Hrow Hrest IH]; intros ms visible base Hms loc m' Hm'.
  - simpl in *. exact (Hms loc m' Hm').
  - cbn [filterBuildingRows] in Hm' |- *.
    match type of Hm' with
    | context [filterBuildingRows r zoom colorize ui rest ?ms1 ?v1] =>
        specialize (IH ms1 v1
                      (fun loc => (base loc
                                   + rowWeight r loc (filterRowDom (rowMatches ui row) row))%nat));
        destruct (filterBuildingRows r zoom colorize ui rest ms1 v1)
          as [[rest' ms'] visible'] eqn:E
    end.
    cbn [fst snd] in *. cbn [map]. rewrite sum_cons.
    assert (Hgoal : (m_selectionRefs m'
                     <= Z.of_nat (base loc
                                  + rowWeight r loc (filterRowDom (rowMatches ui row) row)
                                  + list_sum (map (rowWeight r loc) rest')))%Z);
      [|lia].
    apply IH; [|exact Hm'].
    clear IH Hm' m' loc. intros loc m1 Hm1.
    rewrite filterRowDom_weight.
    destruct (objGet (buildingIndex r) (rowBid row)) as [loc0|] eqn:E0.
    + destruct (decide (loc0 = loc)) as [->|Hne].
      * rewrite lookup_alter_eq in Hm1.
        destruct (ms !! loc) as [m|] eqn:Hm; [|discriminate].
        simpl in Hm1. injection Hm1 as <-.
        destruct (filterRowMarker_fields zoom colorize
                    (matchesFilters (default [] (membershipData r !! rowBid row))
                       (filterOpts ui))
                    (rowMatches ui row) (isChecked row) m) as [_ ->].
        specialize (Hms loc m Hm). cbn [map] in Hms. rewrite sum_cons in Hms.
        destruct (rowMatches ui row); lia.
      * rewrite lookup_alter_ne in Hm1 by exact Hne.
        specialize (Hms loc m1 Hm1). cbn [map] in Hms. rewrite sum_cons in Hms.
        rewrite (wellFormed_building_weight r loc row Hrow) in Hms by congruence.
        lia.
    + specialize (Hms loc m1 Hm1). cbn [map] in Hms. rewrite sum_cons in Hms.
      rewrite (wellFormed_building_weight r loc row Hrow) in Hms by congruence.
      lia.
Qed.

Lemma countsBounded_same_rows (s s' : State) :
  registry s' = registry s ->
  buildingRows s' = buildingRows s -> blockRows s' = blockRows s ->
  landlordRows s' = landlordRows s ->
  related (fun m m' => (m_selectionRefs m' <= Z.max 0 (m_selectionRefs m))%Z)
    (markers s) (markers s') ->
  related (fun l l' => (l_selectionRefs l' <= Z.max 0 (l_selectionRefs l))%Z)
    (blocksIndex s) (blocksIndex s') ->
  countsBounded s -> countsBounded s'.
Proof.
  intros Er Eb Ek El Rm Rl [HM HL]. split.
  - intros loc m' Hm'. specialize (Rm loc). rewrite Hm' in Rm.
    destruct (markers s !! loc) as [m|] eqn:Hm; [|contradiction].
    specialize (HM loc m Hm). unfold markerBound, pageSum in *.
    rewrite Er, Eb, Ek, El. lia.
  - intros k l' Hl'. specialize (Rl k). rewrite Hl' in Rl.
    destruct (blocksIndex s !! k) as [l|] eqn:Hl; [|contradiction].
    specialize (HL k l Hl). unfold layerBound, pageSum in *.
    rewrite Eb, Ek, El. lia.
Qed.

Lemma refs_le_refl (m : Marker) : (m_selectionRefs m <= Z.max 0 (m_selectionRefs m))%Z.
Proof. lia. Qed.

Lemma lrefs_le_refl (l : Layer) : (l_selectionRefs l <= Z.max 0 (l_selectionRefs l))%Z.
Proof. lia. Qed.

Lemma refs_le_trans (x y z : Marker) :
  (m_selectionRefs y <= Z.max 0 (m_selectionRefs x))%Z ->
  (m_selectionRefs z <= Z.max 0 (m_selectionRefs y))%Z ->
  (m_selectionRefs z <= Z.max 0 (m_selectionRefs x))%Z.
Proof. lia. Qed.

Lemma countsBounded_setBlockFiltered k filtered s :
  countsBounded s -> countsBounded (setBlockFiltered k filtered s).
Proof.
  apply countsBounded_same_rows; try reflexivity.
  - apply related_refl. apply refs_le_refl.
  - simpl. apply (related_alter _ lrefs_le_refl).
    intros l. destruct filtered; simpl; lia.
Qed.

Lemma hasAttribute_setHidden name value h row :
  hasAttribute name value (setHidden h row) = hasAttribute name value row.
Proof. reflexivity. Qed.

Lemma list_sum_map_updateFirst_same (f : Row -> nat) (p : Row -> bool) (g : Row -> Row)
    (rows : list Row) :
  (forall row, f (g row) = f row) ->
  list_sum (map f (updateFirst p g rows)) = list_sum (map f rows).
Proof.
  intros Hg. induction rows as [|r rest IH]; simpl; [reflexivity|].
  destruct (p r); simpl; [rewrite Hg | rewrite IH]; reflexivity.
Qed.

Lemma wellFormed_block_targets r k row cb :
  wellFormedRow "block" "data-block" row ->
  hasAttribute "data-block" k row = true ->
  checkbox row = Some cb ->
  registryTargets r cb = markersOfIds r (default [] (objGet (blockBuildingIndex r) k))
  /\ forall j, selectsLayer cb j = String.eqb k j.
Proof.
  intros Hwf Hattr Hcb. destruct (Hwf cb Hcb) as [Ht Ha].
  unfold hasAttribute in Hattr. rewrite Ha in Hattr. apply String.eqb_eq in Hattr.
  unfold registryTargets, selectsLayer. rewrite Ht, Hattr. simpl. split; reflexivity.
Qed.

Lemma countsBounded_filterBlockRow v k s :
  wellFormedPage s -> countsBounded s -> countsBounded (filterBlockRow v k s).
Proof.
  intros (_ & Hwfk & _) [HM HL]. unfold filterBlockRow.
  set (isRow := hasAttribute "data-block" k).
  set (h := negb (hasVisibleBuilding v k s)).
  destruct (List.find isRow (blockRows s)) as [row|] eqn:Hfind; [|split; assumption].
  assert (Hin : In row (blockRows s) /\ isRow row = true) by (apply find_some; exact Hfind).
  destruct Hin as [Hin Hrow].
  assert (Hwf : wellFormedRow "block" "data-block" row).
  { apply (proj1 (List.Forall_forall _ _) Hwfk). exact Hin. }
  assert (Hhid : forall f : Row -> nat,
             (forall r, f (setHidden h r) = f r) ->
             list_sum (map f (updateFirst isRow (setHidden h) (blockRows s)))
             = list_sum (map f (blockRows s))).
  { intros f Hf. apply list_sum_map_updateFirst_same. exact Hf. }
  destruct (h && isChecked row) eqn:Econd.
  - apply andb_true_iff in Econd. destruct Econd as [_ Hchecked].
    unfold isChecked in Hchecked.
    destruct (checkbox row) as [cb|] eqn:Hcb; [|discriminate].
    destruct (wellFormed_block_targets (registry s) k row cb Hwf Hrow Hcb) as [Htargets Hsel].
    assert (Hfind2 : List.find isRow (updateFirst isRow (setHidden h) (blockRows s))
                     = Some (setHidden h row)).
    { apply find_updateFirst; [|exact Hfind]. intros r. reflexivity. }
    assert (Hunc : forall f : Row -> nat,
               (forall r, f (setHidden h r) = f r) ->
               (list_sum (map f (updateFirst isRow (setChecked false)
                                   (updateFirst isRow (setHidden h) (blockRows s))))
                + f row
                = list_sum (map f (blockRows s)) + f (setChecked false (setHidden h row)))%nat).
    { intros f Hf.
      pose proof (list_sum_map_updateFirst f isRow (setChecked false) _ _ Hfind2) as E.
      rewrite Hf, (Hhid f Hf) in E. exact E. }
    split.
    + intros loc m' Hm'. simpl in Hm'.
      rewrite forEachMarker_lookup in Hm'.
      destruct (markers s !! loc) as [m|] eqn:Hm; [|discriminate].
      simpl in Hm'. injection Hm' as <-.
      specialize (HM loc m Hm). unfold markerBound, pageSum in *. simpl.
      pose proof (Hunc (rowWeight (registry s) loc) (fun r => eq_refl)) as E.
      rewrite (rowWeight_checked _ _ row cb Hcb), Hchecked, Htargets in E.
      assert (E0 : rowWeight (registry s) loc (setChecked false (setHidden h row)) = 0%nat).
      { unfold rowWeight, setChecked. simpl. rewrite Hcb. reflexivity. }
      rewrite E0 in E.
      set (n := count_occ string_dec
                  (markersOfIds (registry s)
                     (default [] (objGet (blockBuildingIndex (registry s)) k))) loc) in *.
      pose proof (iter_deselect_le (currentZoomScale s) n m) as Hle.
      change (selectionDelta false) with (-1)%Z. lia.
    + intros j l' Hl'. simpl in Hl'.
      unfold layerBound, pageSum. simpl.
      pose proof (Hunc (layerWeight j) (fun r => eq_refl)) as E.
      assert (E0 : layerWeight j (setChecked false (setHidden h row)) = 0%nat).
      { unfold layerWeight, setChecked. simpl. rewrite Hcb. reflexivity. }
      assert (E1 : layerWeight j row = if String.eqb k j then 1%nat else 0%nat).
      { unfold layerWeight. rewrite Hcb, Hchecked, Hsel. reflexivity. }
      rewrite E0, E1 in E.
      destruct (decide (k = j)) as [->|Hne].
      * rewrite lookup_alter_eq in Hl'.
        destruct (blocksIndex s !! j) as [l|]; [|discriminate].
        simpl in Hl'. injection Hl' as <-. simpl. lia.
      * rewrite lookup_alter_ne in Hl' by exact Hne.
        specialize (HL j l' Hl'). unfold layerBound, pageSum in HL.
        assert (En : String.eqb k j = false) by (apply String.eqb_neq; exact Hne).
        rewrite En in E. lia.
  - split.
    + intros loc m' Hm'. simpl in Hm'. specialize (HM loc m' Hm').
      unfold markerBound, pageSum in *. simpl.
      rewrite (Hhid (rowWeight (registry s) loc) (fun r => eq_refl)). exact HM.
    + intros j l' Hl'. simpl in Hl'. specialize (HL j l' Hl').
      unfold layerBound, pageSum in *. simpl.
      rewrite (Hhid (layerWeight j) (fun r => eq_refl)). exact HL.
Qed.

Lemma countsBounded_filterBlock v k s :
  wellFormedPage s -> countsBounded s -> countsBounded (filterBlock v k s).
Proof.
  intros Hwf Hs. unfold filterBlock.
  apply countsBounded_setBlockFiltered, countsBounded_filterBlockRow; assumption.
Qed.

Lemma countsBounded_filterBlocks v keys s :
  wellFormedPage s -> countsBounded s ->
  countsBounded (fold_left (fun s0 k => filterBlock v k s0) keys s).
Proof.
  revert s. induction keys as [|k rest IH]; intros s Hwf Hs; simpl; [exact Hs|].
  apply IH.
  - eapply wellFormedPage_shape; [apply pageShape_filterBlock | exact Hwf].
  - apply countsBounded_filterBlock; assumption.
Qed.

Lemma wellFormed_owner_targets r row cb :
  wellFormedRow "owner" "data-owner" row ->
  checkbox row = Some cb ->
  registryTargets r cb
  = default [] (objGet (ownerIndex r) (jsKey (getAttribute row "data-owner"))).
Proof.
  intros Hwf Hcb. destruct (Hwf cb Hcb) as [Ht Ha].
  unfold registryTargets. rewrite Ht, Ha. reflexivity.
Qed.

(** The landlords loop keeps every count within what the landlords table,
    as the loop leaves it, and the rest of the page ([base]) account for. *)
Lemma filterLandlordRows_bounded rows :
  Forall (wellFormedRow "owner" "data-owner") rows ->
  forall s (base : string -> nat),
    (forall loc m, markers s !! loc = Some m ->
       (m_selectionRefs m
        <= Z.of_nat (base loc + list_sum (map (rowWeight (registry s) loc) rows)))%Z) ->
    forall loc m',
      markers (snd (filterLandlordRows rows s)) !! loc = Some m' ->
      (m_selectionRefs m'
       <= Z.of_nat (base loc
                    + list_sum (map (rowWeight (registry s) loc)
                                  (fst (filterLandlordRows rows s)))))%Z.
Proof.
  induction 1 as [|row rest Hrow Hrest IH]; intros s base Hms loc m' Hm'.
  - simpl in *. exact (Hms loc m' Hm').
  - cbn [filterLandlordRows] in Hm' |- *.
    set (owner := jsKey (getAttribute row "data-owner")) in *.
    set (hv := existsb _ (buildingRows s)) in *.
    change (isChecked (setHidden (negb hv) row)) with (isChecked row) in *.
    set (row' := if negb hv && isChecked row
                 then setChecked false (setHidden (negb hv) row)
                 else setHidden (negb hv) row) in *.
    set (s1 := if negb hv && isChecked row then setOwnerSelection owner false s else s) in *.
    assert (Er : registry s1 = registry s) by (unfold s1; destruct (_ && _); reflexivity).
    specialize (IH s1 (fun loc => (base loc + rowWeight (registry s) loc row')%nat)).
    destruct (filterLandlordRows rest s1) as [rest' s'] eqn:E.
    cbn [fst snd] in *. cbn [map]. rewrite sum_cons.
    rewrite Er in IH.
    assert (Hgoal : (m_selectionRefs m'
                     <= Z.of_nat (base loc + rowWeight (registry s) loc row'
                                  + list_sum (map (rowWeight (registry s) loc) rest')))%Z);
      [|lia].
    apply IH; [|exact Hm'].
    clear IH Hm' m' loc. intros loc m1 Hm1.
    unfold s1 in Hm1. unfold row'.
    destruct (negb hv && isChecked row) eqn:Econd.
    + apply andb_true_iff in Econd. destruct Econd as [_ Hchecked].
      unfold isChecked in Hchecked.
      destruct (checkbox row) as [cb|] eqn:Hcb; [|discriminate].
      simpl in Hm1. rewrite forEachMarker_lookup in Hm1.
      destruct (markers s !! loc) as [m|] eqn:Hm; [|discriminate].
      simpl in Hm1. injection Hm1 as <-.
      specialize (Hms loc m Hm). cbn [map] in Hms. rewrite sum_cons in Hms.
      rewrite (rowWeight_checked _ _ row cb Hcb), Hchecked,
        (wellFormed_owner_targets (registry s) row cb Hrow Hcb) in Hms.
      fold owner in Hms.
      assert (E0 : rowWeight (registry s) loc (setChecked false (setHidden (negb hv) row))
                   = 0%nat).
      { unfold rowWeight, setChecked. simpl. rewrite Hcb. reflexivity. }
      rewrite E0.
      set (n := count_occ string_dec
                  (default [] (objGet (ownerIndex (registry s)) owner)) loc) in *.
      pose proof (iter_deselect_le (currentZoomScale s) n m) as Hle.
      change (selectionDelta false) with (-1)%Z. lia.
    + specialize (Hms loc m1 Hm1). cbn [map] in Hms. rewrite sum_cons in Hms.
      rewrite rowWeight_setHidden. lia.
Qed.

Lemma layerWeight_building_rows k rows :
  Forall (wellFormedRow "building" "data-bid") rows ->
  list_sum (map (layerWeight k) rows) = 0%nat.
Proof.
  induction 1 as [|row rest Hrow Hrest IH]; [reflexivity|].
  cbn [map]. rewrite sum_cons, IH, (wellFormed_building_layerWeight k row Hrow). reflexivity.
Qed.

Lemma layerWeight_owner_rows k rows :
  Forall (wellFormedRow "owner" "data-owner") rows ->
  list_sum (map (layerWeight k) rows) = 0%nat.
Proof.
  induction 1 as [|row rest Hrow Hrest IH]; [reflexivity|].
  cbn [map]. rewrite sum_cons, IH, (wellFormed_owner_layerWeight k row Hrow). reflexivity.
Qed.

Lemma countsBounded_applyFilters ui s :
  wellFormedPage s -> countsBounded s -> countsBounded (applyFilters ui s).
Proof.
  intros Hwf [HM HL]. pose proof Hwf as (Hwfb & Hwfk & Hwfl).
  unfold applyFilters.
  pose proof (filterBuildingRows_rows (registry s) (currentZoomScale s)
                (colorScalingEnabled s) ui (buildingRows s) (markers s) []) as Hrows.
  pose proof (filterBuildingRows_bounded (registry s) (currentZoomScale s)
                (colorScalingEnabled s) ui (buildingRows s) Hwfb (markers s) []
                (fun loc => (list_sum (map (rowWeight (registry s) loc) (blockRows s))
                             + list_sum (map (rowWeight (registry s) loc) (landlordRows s)))%nat))
    as Hloop.
  destruct (filterBuildingRows _ _ _ ui (buildingRows s) (markers s) [])
    as [[rows ms] visibleBids] eqn:E.
  cbn [fst snd] in Hrows, Hloop.
  set (s1 := withMarkers (fun _ => ms) (withBuildingRows (fun _ => rows) s)).
  assert (Hshape1 : pageShape s1 = pageShape s).
  { apply pageShape_ext; try reflexivity. simpl. rewrite Hrows, map_map.
    apply map_ext. intros row. apply rowShape_filterRowDom. }
  assert (Hwf1 : wellFormedPage s1) by (eapply wellFormedPage_shape; eassumption).
  assert (Hs1 : countsBounded s1).
  { split.
    - intros loc m' Hm'. simpl in Hm'.
      unfold markerBound, pageSum. simpl.
      assert (Hle : (m_selectionRefs m'
                     <= Z.of_nat
                          (list_sum (map (rowWeight (registry s) loc) (blockRows s))
                           + list_sum (map (rowWeight (registry s) loc) (landlordRows s))
                           + list_sum (map (rowWeight (registry s) loc) rows)))%Z);
        [|lia].
      apply Hloop; [|exact Hm'].
      intros loc0 m Hm. specialize (HM loc0 m Hm). unfold markerBound, pageSum in HM. lia.
    - intros k l Hl. simpl in Hl. specialize (HL k l Hl).
      unfold layerBound, pageSum in *. simpl.
      destruct Hwf1 as (Hwfb1 & _). simpl in Hwfb1.
      rewrite (layerWeight_building_rows k rows Hwfb1).
      rewrite (layerWeight_building_rows k (buildingRows s) Hwfb) in HL. exact HL. }
  fold s1.
  pose proof (countsBounded_filterBlocks visibleBids
                (map fst (blockBuildingIndex (registry s1))) s1 Hwf1 Hs1) as Hs2.
  pose proof (pageShape_filterBlocks visibleBids
                (map fst (blockBuildingIndex (registry s1))) s1) as Hshape2.
  set (s2 := fold_left (fun s0 blockId => filterBlock visibleBids blockId s0)
               (map fst (blockBuildingIndex (registry s1))) s1) in *.
  assert (Hwf2 : wellFormedPage s2) by (eapply wellFormedPage_shape; eassumption).
  destruct Hs2 as [HM2 HL2]. destruct Hwf2 as (Hwfb2 & Hwfk2 & Hwfl2).
  pose proof (filterLandlordRows_bounded (landlordRows s2) Hwfl2 s2
                (fun loc => (list_sum (map (rowWeight (registry s2) loc) (buildingRows s2))
                             + list_sum (map (rowWeight (registry s2) loc) (blockRows s2)))%nat))
    as Hloop3.
  pose proof (filterLandlordRows_blocks (landlordRows s2) s2) as [Hb3 Hr3].
  pose proof (filterLandlordRows_frame (landlordRows s2) s2) as [Hbr3 Hkr3].
  pose proof (rowShape_filterLandlordRows (landlordRows s2) s2) as Hshape3.
  destruct (filterLandlordRows (landlordRows s2) s2) as [lrows s3] eqn:E3.
  cbn [fst snd] in *.
  split.
  - intros loc m' Hm'. simpl in Hm'.
    unfold markerBound, pageSum. simpl. rewrite Hr3, Hbr3, Hkr3.
    apply Hloop3; [|exact Hm'].
    intros loc0 m Hm. specialize (HM2 loc0 m Hm). unfold markerBound, pageSum in HM2. lia.
  - intros k l Hl. simpl in Hl. rewrite Hb3 in Hl. specialize (HL2 k l Hl).
    unfold layerBound, pageSum in *. simpl. rewrite Hbr3, Hkr3.
    assert (Hwfl3 : Forall (wellFormedRow "owner" "data-owner") lrows)
      by (eapply wellFormedRows_shape; eassumption).
    rewrite (layerWeight_owner_rows k lrows Hwfl3).
    rewrite (layerWeight_owner_rows k (landlordRows s2) Hwfl2) in HL2. exact HL2.
Qed.

Lemma hoverMarker_refs zoom on m :
  m_selectionRefs (hoverMarker zoom on m) = m_selectionRefs m.
Proof.
  unfold hoverMarker. destruct (m_isFiltered m); [reflexivity|].
  destruct on; [apply highlightMarker_fields|].
  destruct (m_selectionRefs m =? 0)%Z; [apply highlightMarker_fields | reflexivity].
Qed.

Lemma hoverLayer_refs enabled mx on l :
  l_selectionRefs (hoverLayer enabled mx on l) = l_selectionRefs l.
Proof.
  unfold hoverLayer, highlightBlock. destruct (l_isFiltered l); [reflexivity|].
  destruct on; [reflexivity|].
  destruct (l_selectionRefs l =? 0)%Z; reflexivity.
Qed.

Lemma countsBounded_step e s :
  wellFormedPage s -> countsBounded s -> countsBounded (step e s).
Proof.
  intros Hwf Hs.
  destruct e as [t i|i on|i on|i on|ui|enabled|enabled|scale]; simpl.
  - apply countsBounded_toggleCheckbox. exact Hs.
  - destruct (buildingRows s !! i); [|exact Hs].
    unfold buildingHover. destruct (objGet _ _); [|exact Hs].
    revert Hs. apply countsBounded_same_rows; try reflexivity.
    + simpl. apply (related_alter _ refs_le_refl).
      intros m. rewrite hoverMarker_refs. lia.
    + apply related_refl. apply lrefs_le_refl.
  - destruct (blockRows s !! i); [|exact Hs].
    revert Hs. apply countsBounded_same_rows; try reflexivity.
    + apply related_refl. apply refs_le_refl.
    + simpl. apply (related_alter _ lrefs_le_refl).
      intros l. rewrite hoverLayer_refs. lia.
  - destruct (landlordRows s !! i); [|exact Hs].
    revert Hs. apply countsBounded_same_rows; try reflexivity.
    + simpl. apply (related_forEachMarker _ refs_le_refl refs_le_trans).
      intros m. rewrite hoverMarker_refs. lia.
    + apply related_refl. apply lrefs_le_refl.
  - apply countsBounded_applyFilters; assumption.
  - revert Hs. apply countsBounded_same_rows; try reflexivity.
    + simpl. apply (related_forEachMarker _ refs_le_refl refs_le_trans).
      intros m. rewrite (proj1 (updateMarkerColorAppearance_refs _ _ m)). lia.
    + apply related_refl. apply lrefs_le_refl.
  - revert Hs. apply countsBounded_same_rows; try reflexivity.
    + apply related_refl. apply refs_le_refl.
    + simpl. apply related_fmap. intros l.
      destruct (negb (l_isFiltered l)); simpl; lia.
  - revert Hs. apply countsBounded_same_rows; try reflexivity.
    + simpl. apply (related_forEachMarker _ refs_le_refl refs_le_trans).
      intros m. rewrite (proj1 (zoomMarker_fields _ m)). lia.
    + apply related_refl. apply lrefs_le_refl.
Qed.

Lemma wellFormedPage_run events s : wellFormedPage s -> wellFormedPage (run events s).
Proof.
  unfold run. revert s. induction events as [|e rest IH]; intros s Hs; simpl; [exact Hs|].
  apply IH. eapply wellFormedPage_shape; [apply pageShape_step | exact Hs].
Qed.

Lemma pageSum_noneChecked (f : Row -> nat) (s : State) :
  (forall row, isChecked row = false -> f row = 0%nat) ->
  noneChecked s -> pageSum f s = 0%nat.
Proof.
  intros Hf Hnone.
  assert (Hsum : forall rows, (forall row, In row rows -> isChecked row = false) ->
                              list_sum (map f rows) = 0%nat).
  { induction rows as [|row rest IH]; intros Hrows; [reflexivity|].
    cbn [map]. rewrite sum_cons, IH, (Hf row).
    - reflexivity.
    - apply Hrows. left. reflexivity.
    - intros r Hr. apply Hrows. right. exact Hr. }
  unfold pageSum. rewrite !Hsum; [reflexivity| | |];
    intros row Hin; apply Hnone; rewrite !in_app_iff; auto.
Qed.

(** X22. On a page whose rows carry the checkbox of their table with their
    own id as target, in every reachable state: the count of a marker is
    never higher than the number of times the checked boxes of the page
    select it, and the count of a block layer never higher than the number of
    checked boxes of its block.  So when no box is checked, every count is 0
    and [collectSelectedBuildingIds] returns nothing: unchecking everything,
    as the reset button does, leaves no selection behind. *)
Theorem counts_within_checked_boxes :
  forall s : State,
    reachable s ->
    wellFormedPage s ->
    (forall loc m, markers s !! loc = Some m ->
       (0 <= m_selectionRefs m <= Z.of_nat (markerBound s loc))%Z)
    /\ (forall k l, blocksIndex s !! k = Some l ->
          (0 <= l_selectionRefs l <= Z.of_nat (layerBound s k))%Z)
    /\ (noneChecked s ->
        (forall loc m, markers s !! loc = Some m -> m_selectionRefs m = 0%Z)
        /\ (forall k l, blocksIndex s !! k = Some l -> l_selectionRefs l = 0%Z)
        /\ collectSelectedBuildingIds s = []).
Proof.
  intros s Hreach Hwf.
  assert (Hbound : countsBounded s).
  { revert Hwf. induction Hreach as [s [Hm Hl] | e s Hr IH]; intros Hwf.
    - split.
      + intros loc m Hk. specialize (Hm loc m Hk). unfold initialMarker in Hm.
        apply andb_true_iff in Hm. destruct Hm as [Hm _].
        apply andb_true_iff in Hm. destruct Hm as [Hm _].
        apply Z.eqb_eq in Hm. lia.
      + intros k l Hk. specialize (Hl k l Hk). unfold initialLayer in Hl.
        apply andb_true_iff in Hl. destruct Hl as [Hl _].
        apply andb_true_iff in Hl. destruct Hl as [Hl _].
        apply Z.eqb_eq in Hl. lia.
    - assert (Hwf0 : wellFormedPage s).
      { eapply wellFormedPage_shape; [|exact Hwf]. symmetry. apply pageShape_step. }
      apply countsBounded_step; [exact Hwf0 | exact (IH Hwf0)]. }
  destruct Hbound as [HM HL].
  destruct (reachable_counts_nonneg s Hreach) as [HMpos HLpos].
  assert (HM' : forall loc m, markers s !! loc = Some m ->
                  (0 <= m_selectionRefs m <= Z.of_nat (markerBound s loc))%Z).
  { intros loc m Hk. split; [exact (HMpos loc m Hk) | exact (HM loc m Hk)]. }
  assert (HL' : forall k l, blocksIndex s !! k = Some l ->
                  (0 <= l_selectionRefs l <= Z.of_nat (layerBound s k))%Z).
  { intros k l Hk. split; [exact (HLpos k l Hk) | exact (HL k l Hk)]. }
  split; [exact HM'|]. split; [exact HL'|].
  intros Hnone.
  assert (HM0 : forall loc m, markers s !! loc = Some m -> m_selectionRefs m = 0%Z).
  { intros loc m Hk. specialize (HM' loc m Hk). unfold markerBound in HM'.
    rewrite (pageSum_noneChecked _ s (rowWeight_unchecked (registry s) loc) Hnone) in HM'.
    lia. }
  split; [exact HM0|]. split.
  - intros k l Hk. specialize (HL' k l Hk). unfold layerBound in HL'.
    rewrite (pageSum_noneChecked _ s (layerWeight_unchecked k) Hnone) in HL'. lia.
  - unfold collectSelectedBuildingIds.
    induction (map fst (buildingIndex (registry s))) as [|key rest IH]; [reflexivity|].
    simpl. rewrite IH.
    destruct (objGet (buildingIndex (registry s)) key) as [loc|]; [|reflexivity].
    destruct (markers s !! loc) as [m|] eqn:Hm; [|reflexivity].
    rewrite (HM0 loc m Hm). rewrite andb_false_r. reflexivity.
Qed.

End SelectionBound.

Lemma samplePage_wellFormed : wellFormedPage samplePage.
Proof.
  unfold wellFormedPage, samplePage. simpl.
  repeat split;
    repeat (apply List.Forall_cons; [intros cb Hcb; injection Hcb as <-; split; reflexivity|]);
    apply List.Forall_nil.
Qed.

Lemma counts_within_checked_boxes_witness :
  exists m,
    markers (run (startUp ++ [EvToggle TLandlords 0; EvToggle TBuildings 0]) samplePage)
      !! "marker_1" = Some m
    /\ (0 <= m_selectionRefs m
        <= Z.of_nat (markerBound
                       (run (startUp ++ [EvToggle TLandlords 0; EvToggle TBuildings 0])
                          samplePage) "marker_1"))%Z.
Proof.
  set (s := run (startUp ++ [EvToggle TLandlords 0; EvToggle TBuildings 0]) samplePage).
  assert (Hreach : reachable s).
  { apply reachable_run, reachable_initial, samplePage_initial. }
  assert (Hwf : wellFormedPage s) by (apply wellFormedPage_run, samplePage_wellFormed).
  let v := eval vm_compute in (markers s !! "marker_1") in
  assert (E : markers s !! "marker_1" = v) by (vm_compute; reflexivity).
  eexists. split; [exact E|].
  destruct (counts_within_checked_boxes s Hreach Hwf) as (HM & _).
  exact (HM _ _ E).
Defined.

(** ** A pass with no neighbourhood selected *)

Lemma filter_all_false {A : Type} (p : A -> bool) (l : list A) :
  (forall x, In x l -> p x = false) -> List.filter p l = [].
Proof.
  induction l as [|x rest IH]; intros Hp; [reflexivity|].
  simpl. rewrite (Hp x (or_introl eq_refl)). apply IH.
  intros y Hy. apply Hp. right. exact Hy.
Qed.

Lemma existsb_all_false {A : Type} (p : A -> bool) (l : list A) :
  (forall x, In x l -> p x = false) -> existsb p l = false.
Proof.
  induction l as [|x rest IH]; intros Hp; [reflexivity|].
  simpl. rewrite (Hp x (or_introl eq_refl)). apply IH.
  intros y Hy. apply Hp. right. exact Hy.
Qed.

Lemma filterLayer_filtered enabled mx (l : Layer) :
  let l' := filterLayer enabled mx true l in
  l_isFiltered l' = true /\ l_selectionRefs l' = 0%Z /\ l_style l' = filteredBlockStyle
  /\ l_blockUnits l' = l_blockUnits l.
Proof. repeat split. Qed.

Section NothingSelected.
Context `{JSBuiltins}.

Lemma rowMatches_no_hood (ui : FilterUI) (row : Row) :
  hoodInputs ui <> [] ->
  (forall inp, In inp (hoodInputs ui) -> h_checked inp = false) ->
  rowMatches ui row = false.
Proof.
  intros Hne Hnone. unfold rowMatches, hoodMatches, selectedHoods.
  rewrite (filter_all_false h_checked (hoodInputs ui) Hnone). simpl.
  destruct (hoodInputs ui); [congruence|]. reflexivity.
Qed.

(** What the row loop leaves when no row matches: no visible building, and
    every marker that has a row filtered, with count 0 and drawn hidden. *)
Lemma filterBuildingRows_all_fail r zoom colorize ui rows :
  (forall row, In row rows -> rowMatches ui row = false) ->
  forall ms visible,
    snd (filterBuildingRows r zoom colorize ui rows ms visible) = visible
    /\ forall loc m',
         snd (fst (filterBuildingRows r zoom colorize ui rows ms visible)) !! loc = Some m' ->
         (exists row, In row rows /\ objGet (buildingIndex r) (rowBid row) = Some loc)
         \/ (forall m, ms !! loc = Some m ->
               m_isFiltered m = true /\ m_selectionRefs m = 0%Z /\ markerHidden m = true) ->
         m_isFiltered m' = true /\ m_selectionRefs m' = 0%Z /\ markerHidden m' = true.
Proof.
  induction rows as [|row rest IH]; intros Hfail ms visible.
  - simpl. split; [reflexivity|]. intros loc m' Hm' [(row & [] & _)|Hp]. exact (Hp m' Hm').
  - cbn [filterBuildingRows].
    rewrite (Hfail row (or_introl eq_refl)).
    match goal with
    | |- context [filterBuildingRows r zoom colorize ui rest ?ms1 ?v1] =>
        destruct (IH (fun x Hx => Hfail x (or_intror Hx)) ms1 v1) as [IHv IHm];
        destruct (filterBuildingRows r zoom colorize ui rest ms1 v1)
          as [[rest' ms'] visible'] eqn:E
    end.
    cbn [fst snd] in *. split; [exact IHv|].
    intros loc m' Hm' Hcase. apply (IHm loc m' Hm').
    destruct (objGet (buildingIndex r) (rowBid row)) as [loc0|] eqn:E0.
    + destruct (decide (loc0 = loc)) as [->|Hne].
      * right. intros m1 Hm1. rewrite lookup_alter_eq in Hm1.
        destruct (ms !! loc) as [m|]; [|discriminate].
        simpl in Hm1. injection Hm1 as <-.
        set (mm := matchesFilters _ _).
        destruct (filterRowMarker_fields zoom colorize mm false (isChecked row) m) as [Hf Hr].
        split; [exact Hf|]. split; [exact Hr|].
        apply (filterRowMarker_inv zoom colorize mm false (isChecked row) m). exact Hf.
      * destruct Hcase as [(row0 & [<-|Hin] & Hloc)|Hp].
        -- congruence.
        -- left. exists row0. auto.
        -- right. intros m1 Hm1. rewrite lookup_alter_ne in Hm1 by exact Hne.
           exact (Hp m1 Hm1).
    + destruct Hcase as [(row0 & [<-|Hin] & Hloc)|Hp].
      * congruence.
      * left. exists row0. auto.
      * right. exact Hp.
Qed.

Lemma filterBlock_layer_filtered k s layer :
  blocksIndex s !! k = Some layer ->
  exists layer',
    blocksIndex (filterBlock [] k s) !! k = Some layer'
    /\ l_isFiltered layer' = true /\ l_selectionRefs layer' = 0%Z
    /\ l_style layer' = filteredBlockStyle.
Proof.
  intros Hk. unfold filterBlock.
  assert (Hv : hasVisibleBuilding [] k s = false).
  { unfold hasVisibleBuilding. apply existsb_all_false. intros id _. reflexivity. }
  rewrite Hv. simpl. rewrite lookup_alter_eq.
  assert (Hrow : exists l1, blocksIndex (filterBlockRow [] k s) !! k = Some l1).
  { unfold filterBlockRow. destruct (List.find _ _); [|eauto].
    destruct (_ && _); [|eauto].
    simpl. rewrite lookup_alter_eq, Hk. simpl. eauto. }
  destruct Hrow as [l1 Hl1]. rewrite Hl1. simpl.
  eexists. split; [reflexivity|]. repeat split.
Qed.

Lemma filterBlocks_layer_filtered keys s k layer :
  In k keys ->
  blocksIndex s !! k = Some layer ->
  exists layer',
    blocksIndex (fold_left (fun s blockId => filterBlock [] blockId s) keys s) !! k
    = Some layer'
    /\ l_isFiltered layer' = true /\ l_selectionRefs layer' = 0%Z
    /\ l_style layer' = filteredBlockStyle.
Proof.
  revert s layer. induction keys as [|k0 rest IH]; intros s layer Hin Hk; simpl.
  - destruct Hin.
  - destruct (in_dec string_dec k rest) as [Hrest|Hrest].
    + assert (Hsome : exists l1, blocksIndex (filterBlock [] k0 s) !! k = Some l1).
      { destruct (string_dec k0 k) as [->|Hne].
        - destruct (filterBlock_layer_filtered k s layer Hk) as (l1 & Hl1 & _). eauto.
        - rewrite filterBlock_blocks_other by exact Hne. eauto. }
      destruct Hsome as [l1 Hl1]. exact (IH _ l1 Hrest Hl1).
    + destruct Hin as [->|Hin]; [|contradiction].
      rewrite filterBlocks_blocks_other by exact Hrest.
      apply filterBlock_layer_filtered with (layer := layer). exact Hk.
Qed.

(** X23. A pass while the page offers neighbourhoods and none is checked
    hides everything the tables list: every row of the buildings and of the
    landlords table is hidden and unchecked, every block of
    [blockBuildingIndex] is filtered with count 0 and the filtered style,
    and every marker that has a row in the buildings table is filtered, has
    count 0 and is drawn hidden: no stroke, fill opacity 0, and radius 0 if
    the marker has [setRadius], which the pass does not change. *)
Theorem pass_with_no_neighbourhood_hides_all :
  forall (ui : FilterUI) (s : State),
    hoodInputs ui <> [] ->
    (forall inp, In inp (hoodInputs ui) -> h_checked inp = false) ->
    (forall row', In row' (buildingRows (applyFilters ui s)
                           ++ landlordRows (applyFilters ui s))%list ->
       hidden row' = true /\ isChecked row' = false)
    /\ (forall k layer,
          In k (map fst (blockBuildingIndex (registry s))) ->
          blocksIndex s !! k = Some layer ->
          exists layer',
            blocksIndex (applyFilters ui s) !! k = Some layer'
            /\ l_isFiltered layer' = true /\ l_selectionRefs layer' = 0%Z
            /\ l_style layer' = filteredBlockStyle)
    /\ (forall row loc m,
          In row (buildingRows s) ->
          objGet (buildingIndex (registry s)) (rowBid row) = Some loc ->
          markers s !! loc = Some m ->
          exists m',
            markers (applyFilters ui s) !! loc = Some m'
            /\ m_isFiltered m' = true /\ m_selectionRefs m' = 0%Z
            /\ markerHidden m' = true
            /\ m_hasSetRadius m' = m_hasSetRadius m
            /\ (m_hasSetRadius m = true -> (m_radius m' == 0)%Q)).
Proof.
  intros ui s Hne Hnone.
  assert (Hfail : forall row, rowMatches ui row = false)
    by (intros row; apply rowMatches_no_hood; assumption).
  destruct (filterBuildingRows_all_fail (registry s) (currentZoomScale s)
              (colorScalingEnabled s) ui (buildingRows s) (fun row _ => Hfail row)
              (markers s) []) as [Hvis Hloop].
  split; [|split].
  - destruct (applyFilters_tables ui s) as (Hb & s2 & Hb2 & Hl).
    intros row' Hin. apply in_app_or in Hin. destruct Hin as [Hin|Hin].
    + rewrite Hb in Hin. apply in_map_iff in Hin. destruct Hin as (row & <- & _).
      destruct (filterRowDom_after (rowMatches ui row) row) as (_ & Hh & Hc).
      rewrite Hh, Hc, Hfail, andb_false_r. split; reflexivity.
    + rewrite Hl in Hin. apply list_elem_of_In, list_elem_of_lookup in Hin.
      destruct Hin as [i Hi].
      destruct (landlordRows s !! i) as [row|] eqn:Ei.
      * destruct (filterLandlordRows_rows (landlordRows s) s2 i row Ei)
          as (r' & Hr' & _ & Hh & Hc).
        rewrite Hi in Hr'. injection Hr' as <-.
        rewrite Hb2 in Hh, Hc.
        rewrite (existsb_filtered_rows ui
                   (hasAttribute "data-owner" (jsKey (getAttribute row "data-owner"))))
          in Hh, Hc by (intros r m; apply hasAttribute_filterRowDom).
        assert (E : existsb (fun b => hasAttribute "data-owner"
                                        (jsKey (getAttribute row "data-owner")) b
                                      && rowMatches ui b) (buildingRows s) = false).
        { apply existsb_all_false. intros b _. rewrite Hfail. apply andb_false_r. }
        rewrite E in Hh, Hc. rewrite andb_false_r in Hc. split; assumption.
      * apply lookup_ge_None in Ei. apply lookup_lt_Some in Hi.
        rewrite filterLandlordRows_length in Hi. lia.
  - intros k layer Hin Hk.
    destruct (applyFilters_blocksIndex ui s) as (s1 & Hr1 & Hb1 & Hpass).
    rewrite Hpass. unfold visibleBidsOf. rewrite Hvis.
    apply filterBlocks_layer_filtered with (layer := layer); [exact Hin|].
    rewrite Hb1. exact Hk.
  - intros row loc m Hin Hloc Hm.
    set (R := fun x y : Marker =>
                (m_isFiltered x = true /\ m_selectionRefs x = 0%Z
                 /\ markerHidden x = true) -> y = x).
    assert (Hrefl : forall x, R x x) by (intros x _; reflexivity).
    assert (Htrans : forall x y z, R x y -> R y z -> R x z).
    { intros x y z Hxy Hyz Hx. pose proof (Hxy Hx) as E. subst y. exact (Hyz Hx). }
    assert (Hdes : forall zoom x, R x (adjustMarkerSelection zoom (-1) x)).
    { intros zoom x (Hf & Hr & _). rewrite adjustMarkerSelection_filtered by exact Hf.
      rewrite Hr. destruct x; simpl in *. subst. reflexivity. }
    pose proof (applyFilters_markers_related R Hrefl Htrans Hdes ui s loc) as Hrel.
    destruct (step_related (fun x y : Marker => markerData y = markerData x)
                (fun _ _ : Layer => True))
      with (e := EvFilters ui) (s := s) as [Rm _];
      auto using markerData_adjustMarkerSelection, markerData_filterRowMarker,
                 markerData_hoverMarker, markerData_zoomMarker,
                 markerData_updateMarkerColorAppearance;
      try (intros x y z Hxy Hyz; congruence).
    specialize (Rm loc). rewrite Hm in Rm. simpl in Rm.
    destruct (markers (applyFilters ui s) !! loc) as [m'|] eqn:Hm'; [|contradiction].
    assert (Hcap : m_hasSetRadius m' = m_hasSetRadius m) by exact (f_equal snd Rm).
    destruct (snd (fst (filterBuildingRows (registry s) (currentZoomScale s)
                          (colorScalingEnabled s) ui (buildingRows s) (markers s) []))
                !! loc) as [m1|] eqn:Hm1; [|contradiction].
    assert (Hp : m_isFiltered m1 = true /\ m_selectionRefs m1 = 0%Z
                 /\ markerHidden m1 = true).
    { apply (Hloop loc m1 Hm1). left. exists row. auto. }
    assert (E : m' = m1) by exact (Hrel Hp). subst m'.
    destruct Hp as (Hf1 & Hr1 & Hh1).
    exists m1. split; [reflexivity|]. split; [exact Hf1|]. split; [exact Hr1|].
    split; [exact Hh1|]. split; [exact Hcap|].
    intros Hc. apply markerHidden_radius; [exact Hh1 | congruence].
Qed.

End NothingSelected.

Lemma pass_with_no_neighbourhood_hides_all_witness :
  exists m',
    markers (applyFilters (sampleUI false false) samplePage) !! "marker_1" = Some m'
    /\ m_isFiltered m' = true /\ m_selectionRefs m' = 0%Z /\ markerHidden m' = true
    /\ (m_radius m' == 0)%Q.
Proof.
  destruct (pass_with_no_neighbourhood_hides_all (sampleUI false false) samplePage)
    as (_ & _ & Hm).
  - discriminate.
  - intros inp [<-|[<-|[]]]; reflexivity.
  - destruct (Hm (sampleRow "data-bid" "b1"
                    [("data-area", "West End"); ("data-owner", "acme")] "building")
                 "marker_1" sampleMarker) as (m' & Hm' & Hf & Hr & Hh & _ & Hrad).
    + left. reflexivity.
    + reflexivity.
    + vm_compute. reflexivity.
    + exists m'. split; [exact Hm'|]. split; [exact Hf|]. split; [exact Hr|].
      split; [exact Hh|]. apply Hrad. reflexivity.
Defined.

(** ** A pass only deselects *)

Lemma Forall2_updateFirst (R : Row -> Row -> Prop) (p : Row -> bool) (g : Row -> Row)
    (rows : list Row) :
  (forall row, R row row) -> (forall row, R row (g row)) ->
  Forall2 R rows (updateFirst p g rows).
Proof.
  intros Hrefl Hg. induction rows as [|row rest IH]; simpl; [constructor|].
  destruct (p row).
  - constructor; [apply Hg|]. clear IH. induction rest; constructor; auto.
  - constructor; [apply Hrefl | exact IH].
Qed.

Section PassOnlyDeselects.
Context `{JSBuiltins}.

Lemma keptRow_refl row : keptRow row row.
Proof. split; auto. Qed.

Lemma keptRow_trans x y z : keptRow x y -> keptRow y z -> keptRow x z.
Proof. intros [E1 C1] [E2 C2]. split; [congruence | auto]. Qed.

Lemma keptRows_refl rows : Forall2 keptRow rows rows.
Proof. induction rows; constructor; auto using keptRow_refl. Qed.

Lemma keptRows_trans xs ys zs :
  Forall2 keptRow xs ys -> Forall2 keptRow ys zs -> Forall2 keptRow xs zs.
Proof.
  intros Hxy. revert zs. induction Hxy as [|x y xs ys Hx Hxs IH]; intros zs Hyz.
  - inversion Hyz. constructor.
  - inversion Hyz as [|y' z ys' zs' Hy Hys]; subst.
    constructor; [eapply keptRow_trans; eassumption | apply IH; assumption].
Qed.

Lemma keptRow_setHidden h row : keptRow row (setHidden h row).
Proof. split; auto. Qed.

Lemma keptRow_setChecked_false row : keptRow row (setChecked false row).
Proof.
  split; [apply rowShape_setChecked|].
  unfold isChecked, setChecked. simpl. destruct (checkbox row); discriminate.
Qed.

Lemma keptRow_filterRowDom matches row : keptRow row (filterRowDom matches row).
Proof.
  unfold filterRowDom. destruct (_ && _).
  - eapply keptRow_trans; [apply (keptRow_setHidden (negb matches))
                          | apply keptRow_setChecked_false].
  - apply keptRow_setHidden.
Qed.

Lemma keptRows_filterBlock v k s :
  Forall2 keptRow (blockRows s) (blockRows (filterBlock v k s)).
Proof.
  unfold filterBlock, filterBlockRow, setBlockFiltered, setBlockSelectionMarkers.
  destruct (List.find _ (blockRows s)) as [row|]; [|apply keptRows_refl].
  destruct (_ && isChecked row); simpl.
  - eapply keptRows_trans;
      apply Forall2_updateFirst;
      auto using keptRow_refl, keptRow_setHidden, keptRow_setChecked_false.
  - apply Forall2_updateFirst; auto using keptRow_refl, keptRow_setHidden.
Qed.

Lemma keptRows_filterBlocks v keys s :
  Forall2 keptRow (blockRows s)
    (blockRows (fold_left (fun s0 k => filterBlock v k s0) keys s)).
Proof.
  revert s. induction keys as [|k rest IH]; intros s; simpl; [apply keptRows_refl|].
  eapply keptRows_trans; [apply keptRows_filterBlock | apply IH].
Qed.

Lemma keptRows_filterLandlordRows rows s :
  Forall2 keptRow rows (fst (filterLandlordRows rows s)).
Proof.
  revert s. induction rows as [|row rest IH]; intros s; [constructor|].
  cbn [filterLandlordRows].
  match goal with
  | |- context [filterLandlordRows rest ?s1] =>
      specialize (IH s1); destruct (filterLandlordRows rest s1) as [rest' s'] eqn:E
  end.
  simpl in *. constructor; [|exact IH].
  match goal with |- context [if ?c then _ else _] => destruct c end.
  - eapply keptRow_trans; [apply keptRow_setHidden | apply keptRow_setChecked_false].
  - apply keptRow_setHidden.
Qed.

Lemma keptRows_applyFilters ui s t :
  Forall2 keptRow (rowsOf t s) (rowsOf t (applyFilters ui s)).
Proof.
  unfold applyFilters.
  pose proof (filterBuildingRows_rows (registry s) (currentZoomScale s)
                (colorScalingEnabled s) ui (buildingRows s) (markers s) []) as Hrows.
  destruct (filterBuildingRows _ _ _ ui (buildingRows s) (markers s) [])
    as [[rows ms] visibleBids] eqn:E.
  simpl in Hrows. subst rows.
  match goal with
  | |- context [fold_left ?f ?keys ?s1] =>
      pose proof (keptRows_filterBlocks visibleBids keys s1) as Hk2;
      pose proof (filterBlocks_rows visibleBids keys s1) as [Hb2 Hl2];
      set (s2 := fold_left f keys s1) in *
  end.
  pose proof (keptRows_filterLandlordRows (landlordRows s2) s2) as Hl3.
  pose proof (filterLandlordRows_frame (landlordRows s2) s2) as [Hb3 Hk3].
  destruct (filterLandlordRows (landlordRows s2) s2) as [lrows s3] eqn:E3.
  simpl in *. destruct t; simpl.
  - rewrite Hb3, Hb2. clear. induction (buildingRows s) as [|row rest IH]; simpl;
      constructor; [apply keptRow_filterRowDom | exact IH].
  - rewrite Hk3. exact Hk2.
  - rewrite Hl2 in Hl3. exact Hl3.
Qed.

(** X24. A filter pass only ever deselects.  It never raises the count of
    a marker or of a block layer, and it never checks a box: every row of the
    three tables keeps its place, its attributes and its checkbox, and is
    checked afterwards only if it was checked before. *)
Theorem pass_only_deselects :
  forall (ui : FilterUI) (s : State),
    (forall loc m, markers s !! loc = Some m ->
       exists m', markers (applyFilters ui s) !! loc = Some m'
                  /\ (m_selectionRefs m' <= Z.max 0 (m_selectionRefs m))%Z)
    /\ (forall k l, blocksIndex s !! k = Some l ->
          exists l', blocksIndex (applyFilters ui s) !! k = Some l'
                     /\ (l_selectionRefs l' <= Z.max 0 (l_selectionRefs l))%Z)
    /\ (forall t i row', rowsOf t (applyFilters ui s) !! i = Some row' ->
          exists row, rowsOf t s !! i = Some row
                      /\ attributes row' = attributes row
                      /\ (isChecked row' = true -> isChecked row = true))
    /\ (forall t, length (rowsOf t (applyFilters ui s)) = length (rowsOf t s)).
Proof.
  intros ui s.
  assert (HRm : related (fun m m' => (m_selectionRefs m' <= Z.max 0 (m_selectionRefs m))%Z)
                  (markers s) (markers (applyFilters ui s))).
  { eapply (related_trans _ refs_le_trans);
      [|apply (applyFilters_markers_related _ refs_le_refl refs_le_trans)].
    - apply (filterBuildingRows_related _ refs_le_refl refs_le_trans).
      intros zoom colorize mm matches wc m.
      destruct (filterRowMarker_fields zoom colorize mm matches wc m) as [_ ->].
      destruct matches; lia.
    - intros zoom m. rewrite adjustMarkerSelection_refs. lia. }
  assert (HRl : related (fun l l' => (l_selectionRefs l' <= Z.max 0 (l_selectionRefs l))%Z)
                  (blocksIndex s) (blocksIndex (applyFilters ui s))).
  { destruct (applyFilters_blocksIndex ui s) as (s1 & _ & Hb1 & Hpass).
    rewrite Hpass, <- Hb1.
    apply (filterBlocks_layers_related
             (fun l l' => (l_selectionRefs l' <= Z.max 0 (l_selectionRefs l))%Z)).
    - intros l. lia.
    - intros x y z Hxy Hyz. lia.
    - intros enabled mx filtered l. destruct filtered; simpl; lia.
    - intros l. simpl. lia. }
  split; [|split; [|split]].
  - intros loc m Hm. specialize (HRm loc). rewrite Hm in HRm.
    destruct (markers (applyFilters ui s) !! loc) as [m'|]; [|contradiction]. eauto.
  - intros k l Hl. specialize (HRl k). rewrite Hl in HRl.
    destruct (blocksIndex (applyFilters ui s) !! k) as [l'|]; [|contradiction]. eauto.
  - intros t i row' Hi.
    destruct (Forall2_lookup_r _ _ _ _ _ (keptRows_applyFilters ui s t) Hi)
      as (row & Hrow & Hshape & Hc).
    exists row. split; [exact Hrow|]. split; [|exact Hc].
    exact (f_equal fst Hshape).
  - intros t. symmetry. apply (Forall2_length _ _ _ (keptRows_applyFilters ui s t)).
Qed.

End PassOnlyDeselects.

(** ** Hover is visual only *)

Lemma hoverKeepsMarker_refl m : hoverKeepsMarker m m.
Proof. repeat split. Qed.

Lemma hoverKeepsMarker_trans x y z :
  hoverKeepsMarker x y -> hoverKeepsMarker y z -> hoverKeepsMarker x z.
Proof.
  intros (R1 & F1 & C1 & S1) (R2 & F2 & C2 & S2).
  split; [congruence|]. split; [congruence|]. split; [congruence|].
  intros Hf. rewrite S2 by congruence. apply S1, Hf.
Qed.

Lemma hoverKeepsMarker_hover zoom on m : hoverKeepsMarker m (hoverMarker zoom on m).
Proof.
  unfold hoverKeepsMarker. rewrite hoverMarker_refs.
  unfold hoverMarker. destruct (m_isFiltered m) eqn:Ef.
  - repeat split; auto.
  - split; [reflexivity|].
    destruct m as [bc bo br cc nc refs filt vtu pm st rad hsr]. simpl in Ef. subst filt.
    destruct hsr;
      (destruct on; [marker_unfold; repeat split; discriminate|];
       marker_unfold; destruct (refs =? 0)%Z; marker_unfold; repeat split; discriminate).
Qed.

Lemma hoverKeepsLayer_refl l : hoverKeepsLayer l l.
Proof. repeat split. Qed.

Lemma hoverKeepsLayer_hover enabled mx on l :
  hoverKeepsLayer l (hoverLayer enabled mx on l).
Proof.
  unfold hoverKeepsLayer. rewrite hoverLayer_refs.
  unfold hoverLayer, highlightBlock. destruct (l_isFiltered l) eqn:Ef.
  - repeat split; auto.
  - split; [reflexivity|]. split; [|discriminate].
    destruct on; [simpl; first [reflexivity | exact Ef]|].
    destruct (l_selectionRefs l =? 0)%Z; simpl; first [reflexivity | exact Ef].
Qed.

Section HoverIsVisual.
Context `{JSBuiltins}.

(** X25. Hovering a row changes only how things are drawn.  The rows, the
    registry and the colour settings stay as they are; every marker and
    every block layer keeps its count and its filtered flag, a marker its
    base colour, and a filtered marker or layer is not touched at all; so
    [collectSelectedBuildingIds] returns the same ids before and after. *)
Theorem hover_is_visual_only :
  forall (e : Event) (s : State),
    isHover e = true ->
    pageShape (step e s) = pageShape s
    /\ (forall t, rowsOf t (step e s) = rowsOf t s)
    /\ related hoverKeepsMarker (markers s) (markers (step e s))
    /\ related hoverKeepsLayer (blocksIndex s) (blocksIndex (step e s))
    /\ collectSelectedBuildingIds (step e s) = collectSelectedBuildingIds s.
Proof.
  intros e s He.
  assert (Hrows : forall t, rowsOf t (step e s) = rowsOf t s).
  { intros t. destruct e as [t0 i|i on|i on|i on|ui|enabled|enabled|scale];
      try discriminate; simpl.
    - destruct (buildingRows s !! i); [|reflexivity].
      unfold buildingHover. destruct (objGet _ _); destruct t; reflexivity.
    - destruct (blockRows s !! i); destruct t; reflexivity.
    - destruct (landlordRows s !! i); destruct t; reflexivity. }
  assert (Hreg : registry (step e s) = registry s).
  { exact (f_equal ps_registry (pageShape_step e s)). }
  assert (Hm : related hoverKeepsMarker (markers s) (markers (step e s))).
  { destruct e as [t0 i|i on|i on|i on|ui|enabled|enabled|scale];
      try discriminate; simpl.
    - destruct (buildingRows s !! i); [|apply related_refl, hoverKeepsMarker_refl].
      unfold buildingHover.
      destruct (objGet _ _); [|apply related_refl, hoverKeepsMarker_refl].
      simpl. apply (related_alter _ hoverKeepsMarker_refl).
      intros m. apply hoverKeepsMarker_hover.
    - destruct (blockRows s !! i); apply related_refl, hoverKeepsMarker_refl.
    - destruct (landlordRows s !! i); [|apply related_refl, hoverKeepsMarker_refl].
      simpl. apply (related_forEachMarker _ hoverKeepsMarker_refl hoverKeepsMarker_trans).
      intros m. apply hoverKeepsMarker_hover. }
  split; [apply pageShape_step|]. split; [exact Hrows|]. split; [exact Hm|]. split.
  - destruct e as [t0 i|i on|i on|i on|ui|enabled|enabled|scale];
      try discriminate; simpl.
    + destruct (buildingRows s !! i); [|apply related_refl, hoverKeepsLayer_refl].
      unfold buildingHover.
      destruct (objGet _ _); apply related_refl, hoverKeepsLayer_refl.
    + destruct (blockRows s !! i); [|apply related_refl, hoverKeepsLayer_refl].
      simpl. apply (related_alter _ hoverKeepsLayer_refl).
      intros l. apply hoverKeepsLayer_hover.
    + destruct (landlordRows s !! i); apply related_refl, hoverKeepsLayer_refl.
  - unfold collectSelectedBuildingIds. rewrite Hreg.
    apply filter_ext. intros key.
    destruct (objGet (buildingIndex (registry s)) key) as [loc|]; [|reflexivity].
    specialize (Hm loc).
    destruct (markers s !! loc) as [m|], (markers (step e s) !! loc) as [m'|];
      try contradiction; [|reflexivity].
    destruct Hm as (-> & -> & _). reflexivity.
Qed.

End HoverIsVisual.

Lemma hover_is_visual_only_witness :
  collectSelectedBuildingIds
    (step (EvOwnerHover 0 true) (run (startUp ++ [EvToggle TBuildings 0]) samplePage))
  = collectSelectedBuildingIds (run (startUp ++ [EvToggle TBuildings 0]) samplePage).
Proof.
  destruct (hover_is_visual_only (EvOwnerHover 0 true)
              (run (startUp ++ [EvToggle TBuildings 0]) samplePage) eq_refl)
    as (_ & _ & _ & _ & Hc).
  exact Hc.
Defined.

(** ** Checking a box *)

Lemma iter_select_highlight zoom (n : nat) (m : Marker) :
  (0 <= m_selectionRefs m)%Z -> (0 < n)%nat -> m_isFiltered m = false ->
  markerHighlighted (Nat.iter n (adjustMarkerSelection zoom 1) m) = true.
Proof.
  intros Hm Hn Hf. destruct n as [|n]; [lia|]. clear Hn.
  rewrite Nat.iter_succ.
  destruct (iter_select_fields zoom n m Hm) as [Hr Hf'].
  rewrite adjustMarkerSelection_highlight by congruence.
  rewrite adjustMarkerSelection_refs, Hr. apply Z.ltb_lt. lia.
Qed.

Section CheckingABox.
Context `{JSBuiltins}.

(** X26. Checking an unchecked box, in a reachable state, selects what the
    box stands for: every marker among its targets (the building's marker,
    the markers of the block's buildings, the owner's markers) has its count
    raised by the number of times it is among them and is then positive, and
    shows the overlay unless it is filtered; the layer of a checked block has
    its count raised by one and shows the overlay unless it is filtered.
    Markers that are no target keep their count. *)
Theorem checking_selects_targets :
  forall (s : State) (t : Table) (i : nat) (row : Row) (cb : Checkbox),
    reachable s ->
    rowsOf t s !! i = Some row ->
    checkbox row = Some cb ->
    checked cb = false ->
    (forall loc m, markers s !! loc = Some m ->
       exists m',
         markers (toggleCheckbox t i s) !! loc = Some m'
         /\ m_selectionRefs m'
            = (m_selectionRefs m
               + Z.of_nat (count_occ string_dec (selectionTargets cb s) loc))%Z
         /\ m_isFiltered m' = m_isFiltered m
         /\ (In loc (selectionTargets cb s) ->
             (0 < m_selectionRefs m')%Z
             /\ (m_isFiltered m = false -> markerHighlighted m' = true)))
    /\ (data_type cb = "block" ->
        forall l, blocksIndex s !! data_target cb = Some l ->
          exists l',
            blocksIndex (toggleCheckbox t i s) !! data_target cb = Some l'
            /\ l_selectionRefs l' = (l_selectionRefs l + 1)%Z
            /\ (l_isFiltered l = false -> blockHighlighted l' = true)).
Proof.
  intros s t i row cb Hreach Hrow Hcb Hunchecked.
  destruct (reachable_counts_nonneg s Hreach) as [HMpos0 HLpos0].
  rewrite (toggleCheckbox_checked t i s row cb Hrow Hcb). rewrite Hunchecked.
  set (cb' := {| checked := negb false; data_type := data_type cb;
                 data_target := data_target cb |}).
  set (s1 := withRowsOf t (fun rows => <[i := setChecked (negb false) row]> rows) s).
  destruct (withRowsOf_frame t (fun rows => <[i := setChecked (negb false) row]> rows) s)
    as (H1reg & H1m & H1b & H1z & _).
  fold s1 in H1reg, H1m, H1b, H1z.
  assert (Et : selectionTargets cb' s1 = selectionTargets cb s).
  { apply selectionTargets_ext; [reflexivity | reflexivity | exact H1reg]. }
  split.
  - intros loc m Hm.
    rewrite handleSelectionChange_markers, forEachMarker_lookup, H1m, Hm, Et.
    change (selectionDelta (checked cb')) with 1%Z.
    set (n := count_occ string_dec (selectionTargets cb s) loc).
    assert (Hpos : (0 <= m_selectionRefs m)%Z) by exact (HMpos0 loc m Hm).
    destruct (iter_select_fields (currentZoomScale s1) n m Hpos) as [Hr Hf].
    eexists. split; [reflexivity|]. split; [exact Hr|]. split; [exact Hf|].
    intros Hin.
    assert (Hn : (0 < n)%nat) by (apply (count_occ_In string_dec); exact Hin).
    split; [rewrite Hr; lia|].
    intros Hunf. apply iter_select_highlight; assumption.
  - intros Htype l Hl.
    rewrite handleSelectionChange_blocks, H1b.
    change (data_type cb') with (data_type cb).
    change (data_target cb') with (data_target cb).
    rewrite Htype. simpl. rewrite lookup_alter_eq, Hl. simpl.
    assert (Hpos : (0 <= l_selectionRefs l)%Z) by exact (HLpos0 _ l Hl).
    eexists. split; [reflexivity|].
    split; [rewrite adjustBlockSelection_refs; simpl; lia|].
    intros Hunf. rewrite adjustBlockSelection_highlight by exact Hunf.
    rewrite adjustBlockSelection_refs. apply Z.ltb_lt. simpl. lia.
Qed.

End CheckingABox.

Lemma checking_selects_targets_witness :
  exists l',
    blocksIndex (toggleCheckbox TBlocks 0 (run startUp samplePage)) !! "K1" = Some l'
    /\ blockHighlighted l' = true.
Proof.
  assert (Hreach : reachable (run startUp samplePage)).
  { apply reachable_run, reachable_initial, samplePage_initial. }
  let v := eval vm_compute in (rowsOf TBlocks (run startUp samplePage) !! 0%nat) in
  assert (E : rowsOf TBlocks (run startUp samplePage) !! 0%nat = v)
    by (vm_compute; reflexivity).
  let v := eval vm_compute in (blocksIndex (run startUp samplePage) !! "K1") in
  assert (El : blocksIndex (run startUp samplePage) !! "K1" = v)
    by (vm_compute; reflexivity).
  destruct (checking_selects_targets (run startUp samplePage) TBlocks 0 _ _
              Hreach E eq_refl eq_refl) as (_ & Hl).
  destruct (Hl eq_refl _ El) as (l' & Hl' & _ & Hh).
  exists l'. split; [exact Hl'|]. apply Hh. reflexivity.
Defined.
